(** * MaxScale MariaDB backend protocol: reply tracking, handshake and
      connection reuse

    A shallow embedding of the parts of
    [server/modules/protocol/MariaDB/mariadb_backend.cc] (and of the helper
    [mxs_mysql_calculate_hash] of the protocol's common routines) that the
    specification talks about, together with the properties checked against
    it.

    Conventions of the embedding:
    - a byte is a [Byte.byte]; its numeric value is [byte_val];
    - a fixed-width unsigned integer is a [Z] and every operation that can
      leave the width is reduced with [mod];
    - an [Iter] (the forward iterator of [mxs::Buffer]) is the list of the
      bytes from the iterator's position to the end of the buffer, so the
      end iterator is [[]].  Dereferencing or incrementing the end iterator
      has no defined behaviour in the source; here it yields [None];
    - assertions ([mxb_assert]) are compiled out, as in a release build. *)

From Stdlib Require Import ZArith Lia.
From Stdlib.Strings Require Import Byte.
From Stdlib.Strings Require String.
From stdpp Require Import base option list numbers.

Open Scope Z_scope.

(** ** Bytes and little-endian integers *)

Module Wire.

Definition byte_val (b : byte) : Z := Z.of_N (Byte.to_N b).

Definition byte_of_Z (z : Z) : byte :=
  default x00 (Byte.of_N (Z.to_N (z mod 256))).

(** The value of a little-endian byte string. *)
Fixpoint le_value (bs : list byte) : Z :=
  match bs with
  | [] => 0
  | b :: bs' => byte_val b + 256 * le_value bs'
  end.

(** [k] little-endian bytes of [n], as [gw_mysql_set_byte3] and its
    siblings store them. *)
Fixpoint le_bytes (k : nat) (n : Z) : list byte :=
  match k with
  | O => []
  | S k' => byte_of_Z n :: le_bytes k' (n / 256)
  end.

(** ** Buffer iterators *)

Abbreviation Iter := (list byte).

(** [*it] *)
Definition deref (it : Iter) : option Z :=
  match it with
  | [] => None
  | b :: _ => Some (byte_val b)
  end.

(** [++it] *)
Definition incr (it : Iter) : option Iter :=
  match it with
  | [] => None
  | _ :: it' => Some it'
  end.

(** [*it++] *)
Definition next (it : Iter) : option (Z * Iter) :=
  match it with
  | [] => None
  | b :: it' => Some (byte_val b, it')
  end.

(** [it.advance(n)]: moving beyond the end of the buffer is outside the
    iterator's contract. *)
Definition advance (n : Z) (it : Iter) : option Iter :=
  if bool_decide (0 <= n <= Z.of_nat (length it))
  then Some (drop (Z.to_nat n) it)
  else None.

(** [std::distance(it, end)] for two iterators of one buffer, when [end_]
    is not before [it]. *)
Definition distance (it end_ : Iter) : option nat :=
  if bool_decide (length end_ <= length it)%nat
  then Some (length it - length end_)%nat
  else None.

(** The bytes of the range [[it, end_)], as copied by
    [std::string(it, end_)]. *)
Definition range (it end_ : Iter) : option (list byte) :=
  n ← distance it end_; Some (take n it).

(** [it != end_] *)
Definition iter_neq (it end_ : Iter) : bool :=
  negb (Nat.eqb (length it) (length end_)).

(** ** Length-encoded integers and strings *)

Definition skip_encoded_int (it : Iter) : option Iter :=
  b ← deref it;
  if b =? 0xfc then advance 3 it
  else if b =? 0xfd then advance 4 it
  else if b =? 0xfe then advance 9 it
  else incr it.

Definition get_encoded_int (it : Iter) : option (Z * Iter) :=
  '(len, it) ← next it;
  if len =? 0xfc then
    '(b0, it) ← next it;
    '(b1, it) ← next it;
    Some (Z.lor b0 (b1 ≪ 8), it)
  else if len =? 0xfd then
    '(b0, it) ← next it;
    '(b1, it) ← next it;
    '(b2, it) ← next it;
    Some (Z.lor (Z.lor b0 (b1 ≪ 8)) (b2 ≪ 16), it)
  else if len =? 0xfe then
    '(b0, it) ← next it;
    '(b1, it) ← next it;
    '(b2, it) ← next it;
    '(b3, it) ← next it;
    '(b4, it) ← next it;
    '(b5, it) ← next it;
    '(b6, it) ← next it;
    '(b7, it) ← next it;
    Some (Z.lor (Z.lor (Z.lor (Z.lor (Z.lor (Z.lor (Z.lor
            b0 (b1 ≪ 8)) (b2 ≪ 16)) (b3 ≪ 24)) (b4 ≪ 32)) (b5 ≪ 40))
            (b6 ≪ 48)) (b7 ≪ 56), it)
  else Some (len, it).

Definition get_encoded_str (it : Iter) : option (list byte * Iter) :=
  '(len, it) ← get_encoded_int it;
  it' ← advance len it;
  s ← range it it';
  Some (s, it').

Definition skip_encoded_str (it : Iter) : option Iter :=
  '(len, it) ← get_encoded_int it;
  advance len it.

(** The specification's reading of a length-encoded integer: the value and
    the number of bytes it occupies. *)
Definition lenenc_int_spec (bs : list byte) : option (Z * nat) :=
  match bs with
  | [] => None
  | b :: rest =>
      if bool_decide (byte_val b < 0xfb) then Some (byte_val b, 1%nat)
      else if bool_decide (byte_val b = 0xfc) then
        if bool_decide (2 <= length rest)%nat
        then Some (le_value (take 2 rest), 3%nat) else None
      else if bool_decide (byte_val b = 0xfd) then
        if bool_decide (3 <= length rest)%nat
        then Some (le_value (take 3 rest), 4%nat) else None
      else if bool_decide (byte_val b = 0xfe) then
        if bool_decide (8 <= length rest)%nat
        then Some (le_value (take 8 rest), 9%nat) else None
      else None
  end.

End Wire.

(** ** Protocol constants

    Modelled from the spec: the macros and enumerations below are declared
    in the protocol headers ([mysql.hh], the connector's [mysql.h]), which
    are not part of the sources at hand; the values are those of the
    MySQL/MariaDB wire protocol the spec describes. *)

Module Proto.

Definition MYSQL_HEADER_LEN : Z := 4.
Definition MYSQL_EOF_PACKET_LEN : Z := 9.
Definition MYSQL_OK_PACKET_MIN_LEN : Z := 11.
Definition GW_MYSQL_MAX_PACKET_LEN : Z := 0xffffff.

Definition MYSQL_REPLY_OK : Z := 0x00.
Definition MYSQL_REPLY_LOCAL_INFILE : Z := 0xfb.
Definition MYSQL_REPLY_EOF : Z := 0xfe.
Definition MYSQL_REPLY_AUTHSWITCHREQUEST : Z := 0xfe.
Definition MYSQL_REPLY_ERR : Z := 0xff.

Definition MXS_COM_QUIT : Z := 0x01.
Definition MXS_COM_QUERY : Z := 0x03.
Definition MXS_COM_FIELD_LIST : Z := 0x04.
Definition MXS_COM_STATISTICS : Z := 0x09.
Definition MXS_COM_CHANGE_USER : Z := 0x11.
Definition MXS_COM_BINLOG_DUMP : Z := 0x12.
Definition MXS_COM_STMT_PREPARE : Z := 0x16.

Definition SERVER_MORE_RESULTS_EXIST : Z := 0x0008.
Definition SERVER_SESSION_STATE_CHANGED : Z := 0x4000.

(** A status flag is set. *)
Definition has_flag (status flag : Z) : bool :=
  negb (Z.land status flag =? 0).

Definition SESSION_TRACK_SYSTEM_VARIABLES : Z := 0.
Definition SESSION_TRACK_SCHEMA : Z := 1.
Definition SESSION_TRACK_STATE_CHANGE : Z := 2.
Definition SESSION_TRACK_GTIDS : Z := 3.
Definition SESSION_TRACK_TRANSACTION_CHARACTERISTICS : Z := 4.
Definition SESSION_TRACK_TRANSACTION_TYPE : Z := 5.

Definition GW_MYSQL_PROTOCOL_VERSION : Z := 10.
Definition GW_SCRAMBLE_LENGTH_323 : Z := 8.
Definition GW_MYSQL_SCRAMBLE_SIZE : Z := 20.
Definition MYSQL_SCRAMBLE_LEN : Z := 20.

(** The bytes of a string literal. *)
Section Literals.
Import String.

Definition ascii_bytes (s : string) : list byte := list_byte_of_string s.

Definition MXS_LAST_GTID : list byte := ascii_bytes "last_gtid"%string.
Definition DEFAULT_MYSQL_AUTH_PLUGIN : list byte :=
  ascii_bytes "mysql_native_password"%string.
(** The keys of the two literal [set_variable] calls of
    [process_ok_packet]. *)
Definition TRX_CHARACTERISTICS : list byte :=
  ascii_bytes "trx_characteristics"%string.
Definition TRX_STATE : list byte := ascii_bytes "trx_state"%string.

End Literals.

End Proto.

(** ** The reply state machine *)

Module Machine.
Import Wire Proto.

Inductive ReplyState :=
  | START | DONE | RSET_COLDEF | RSET_COLDEF_EOF | RSET_ROWS | PREPARE.

#[global] Instance ReplyState_eq_dec : EqDecision ReplyState.
Proof. solve_decision. Defined.

Record Error := mkError {
  err_code : Z;
  err_sql_state : list byte;
  err_message : list byte
}.

Section WithVariables.

(** Modelled from the spec: class [Reply] ([mxs::Reply]) is declared
    outside the sources at hand.  It is modelled as the record of what its
    setters store; the store behind [Reply::set_variable] is kept abstract
    ([Vars], [set_variable]). *)
Context {Vars : Type}.
Variable set_variable : list byte -> list byte -> Vars -> Vars.

Record Reply := mkReply {
  command : Z;                 (* uint8_t *)
  state : ReplyState;
  rows : Z;
  num_warnings : Z;            (* uint16_t *)
  field_counts : list Z;
  is_ok : bool;
  generated_id : Z;            (* uint32_t *)
  param_count : Z;             (* uint16_t *)
  error : option Error;
  variables : Vars
}.

(** The members of [MariaDBBackendConnection] the reply machine touches,
    with the two facts it asks its session for. *)
Record Conn := mkConn {
  m_reply : Reply;
  m_num_coldefs : Z;           (* uint64_t *)
  m_ps_packets : Z;            (* uint32_t *)
  m_opening_cursor : bool;
  m_skip_next : bool;
  m_changing_user : bool;
  m_track_state : bool;
  load_active : bool;          (* session_set_load_active *)
  session_track_required : bool
    (* rcap_type_required(capabilities, RCAP_TYPE_SESSION_STATE_TRACKING) *)
}.

Definition with_reply (f : Reply -> Reply) (c : Conn) : Conn :=
  mkConn (f (m_reply c)) (m_num_coldefs c) (m_ps_packets c)
    (m_opening_cursor c) (m_skip_next c) (m_changing_user c)
    (m_track_state c) (load_active c) (session_track_required c).

Definition reply_state (c : Conn) : ReplyState := state (m_reply c).

Definition set_reply_state (s : ReplyState) : Conn -> Conn :=
  with_reply (fun r => mkReply (command r) s (rows r) (num_warnings r)
    (field_counts r) (is_ok r) (generated_id r) (param_count r) (error r)
    (variables r)).

Definition add_rows (n : Z) : Conn -> Conn :=
  with_reply (fun r => mkReply (command r) (state r) (rows r + n)
    (num_warnings r) (field_counts r) (is_ok r) (generated_id r)
    (param_count r) (error r) (variables r)).

Definition set_num_warnings (w : Z) : Conn -> Conn :=
  with_reply (fun r => mkReply (command r) (state r) (rows r) w
    (field_counts r) (is_ok r) (generated_id r) (param_count r) (error r)
    (variables r)).

Definition add_field_count (n : Z) : Conn -> Conn :=
  with_reply (fun r => mkReply (command r) (state r) (rows r)
    (num_warnings r) (field_counts r ++ [n]) (is_ok r) (generated_id r)
    (param_count r) (error r) (variables r)).

Definition set_is_ok (b : bool) : Conn -> Conn :=
  with_reply (fun r => mkReply (command r) (state r) (rows r)
    (num_warnings r) (field_counts r) b (generated_id r) (param_count r)
    (error r) (variables r)).

Definition set_generated_id (id : Z) : Conn -> Conn :=
  with_reply (fun r => mkReply (command r) (state r) (rows r)
    (num_warnings r) (field_counts r) (is_ok r) id (param_count r)
    (error r) (variables r)).

Definition set_param_count (n : Z) : Conn -> Conn :=
  with_reply (fun r => mkReply (command r) (state r) (rows r)
    (num_warnings r) (field_counts r) (is_ok r) (generated_id r) n
    (error r) (variables r)).

Definition set_error (e : Error) : Conn -> Conn :=
  with_reply (fun r => mkReply (command r) (state r) (rows r)
    (num_warnings r) (field_counts r) (is_ok r) (generated_id r)
    (param_count r) (Some e) (variables r)).

Definition reply_set_variable (k v : list byte) : Conn -> Conn :=
  with_reply (fun r => mkReply (command r) (state r) (rows r)
    (num_warnings r) (field_counts r) (is_ok r) (generated_id r)
    (param_count r) (error r) (set_variable k v (variables r))).

Definition set_num_coldefs (n : Z) (c : Conn) : Conn :=
  mkConn (m_reply c) n (m_ps_packets c) (m_opening_cursor c)
    (m_skip_next c) (m_changing_user c) (m_track_state c) (load_active c)
    (session_track_required c).

Definition set_ps_packets (n : Z) (c : Conn) : Conn :=
  mkConn (m_reply c) (m_num_coldefs c) n (m_opening_cursor c)
    (m_skip_next c) (m_changing_user c) (m_track_state c) (load_active c)
    (session_track_required c).

Definition set_opening_cursor (b : bool) (c : Conn) : Conn :=
  mkConn (m_reply c) (m_num_coldefs c) (m_ps_packets c) b
    (m_skip_next c) (m_changing_user c) (m_track_state c) (load_active c)
    (session_track_required c).

Definition set_skip_next (b : bool) (c : Conn) : Conn :=
  mkConn (m_reply c) (m_num_coldefs c) (m_ps_packets c)
    (m_opening_cursor c) b (m_changing_user c) (m_track_state c)
    (load_active c) (session_track_required c).

Definition session_set_load_active (b : bool) (c : Conn) : Conn :=
  mkConn (m_reply c) (m_num_coldefs c) (m_ps_packets c)
    (m_opening_cursor c) (m_skip_next c) (m_changing_user c)
    (m_track_state c) b (session_track_required c).

(** [is_last_eof]: [std::advance(it, 3)] steps three times. *)
Definition is_last_eof (it : Iter) : option bool :=
  it ← incr it;
  it ← incr it;
  it ← incr it;
  '(s0, it) ← next it;
  '(s1, it) ← next it;
  let status := Z.lor s0 (s1 ≪ 8) mod 2 ^ 16 in
  Some (Z.land status SERVER_MORE_RESULTS_EXIST =? 0).

Definition update_error (it end_ : Iter) (c : Conn) : option Conn :=
  '(c0, it) ← next it;
  '(c1, it) ← next it;
  let code := Z.lor c0 (c1 ≪ 8) mod 2 ^ 16 in
  it ← incr it;
  let sql_state_begin := it in
  it ← advance 5 it;
  sql_state ← range sql_state_begin it;
  message ← range it end_;
  Some (set_error (mkError code sql_state message) c).

(** The loop over the session-track entries of an OK packet.  Every turn
    reads at least the type byte, so [length it] turns always suffice. *)
Fixpoint session_track_loop (fuel : nat) (it end_ : Iter) (c : Conn)
    : option Conn :=
  if iter_neq it end_ then
    match fuel with
    | O => None
    | S fuel' =>
        '(type, it) ← next it;
        '(total_size, it) ← get_encoded_int it;
        if type =? SESSION_TRACK_STATE_CHANGE then
          it ← advance total_size it;
          session_track_loop fuel' it end_ c
        else if type =? SESSION_TRACK_SCHEMA then
          it ← skip_encoded_str it;
          session_track_loop fuel' it end_ c
        else if type =? SESSION_TRACK_GTIDS then
          it ← skip_encoded_int it;
          '(gtid, it) ← get_encoded_str it;
          session_track_loop fuel' it end_
            (reply_set_variable MXS_LAST_GTID gtid c)
        else if type =? SESSION_TRACK_TRANSACTION_CHARACTERISTICS then
          '(v, it) ← get_encoded_str it;
          session_track_loop fuel' it end_
            (reply_set_variable TRX_CHARACTERISTICS v c)
        else if type =? SESSION_TRACK_SYSTEM_VARIABLES then
          '(name, it) ← get_encoded_str it;
          '(value, it) ← get_encoded_str it;
          session_track_loop fuel' it end_ (reply_set_variable name value c)
        else if type =? SESSION_TRACK_TRANSACTION_TYPE then
          '(v, it) ← get_encoded_str it;
          session_track_loop fuel' it end_
            (reply_set_variable TRX_STATE v c)
        else
          it ← advance total_size it;
          session_track_loop fuel' it end_ c
    end
  else Some c.

Definition process_ok_packet (it end_ : Iter) (c : Conn) : option Conn :=
  it ← incr it;
  it ← skip_encoded_int it;
  it ← skip_encoded_int it;
  '(s0, it) ← next it;
  '(s1, it) ← next it;
  let status := Z.lor s0 (s1 ≪ 8) mod 2 ^ 16 in
  let c := if Z.land status SERVER_MORE_RESULTS_EXIST =? 0
           then set_reply_state DONE c else c in
  '(w0, it) ← next it;
  '(w1, it) ← next it;
  let c := set_num_warnings (Z.lor w0 (w1 ≪ 8) mod 2 ^ 16) c in
  if session_track_required c
     && negb (Z.land status SERVER_SESSION_STATE_CHANGED =? 0)
     && m_track_state c
  then
    it ← skip_encoded_str it;
    '(_, it) ← get_encoded_int it;
    session_track_loop (length it) it end_ c
  else Some c.

Definition process_ps_response (it end_ : Iter) (c : Conn) : option Conn :=
  it ← incr it;
  '(i0, it) ← next it;
  '(i1, it) ← next it;
  '(i2, it) ← next it;
  '(i3, it) ← next it;
  let stmt_id :=
    Z.lor (Z.lor (Z.lor i0 (i1 ≪ 8)) (i2 ≪ 16)) (i3 ≪ 24) mod 2 ^ 32 in
  '(c0, it) ← next it;
  '(c1, it) ← next it;
  let columns := (c0 + (c1 ≪ 8)) mod 2 ^ 16 in
  '(p0, it) ← next it;
  '(p1, it) ← next it;
  let params := (p0 + (p1 ≪ 8)) mod 2 ^ 16 in
  let c := set_generated_id stmt_id c in
  let c := set_param_count params c in
  let ps_packets := 0 in
  let ps_packets :=
    if columns =? 0 then ps_packets
    else (ps_packets + (columns + 1)) mod 2 ^ 32 in
  let ps_packets :=
    if params =? 0 then ps_packets
    else (ps_packets + (params + 1)) mod 2 ^ 32 in
  let c := set_ps_packets ps_packets c in
  Some (set_reply_state (if ps_packets =? 0 then DONE else PREPARE) c).

Definition process_result_start (it end_ : Iter) (c : Conn) : option Conn :=
  cmd ← deref it;
  if cmd =? MYSQL_REPLY_OK then
    let c := set_is_ok true c in
    if command (m_reply c) =? MXS_COM_STMT_PREPARE
    then process_ps_response it end_ c
    else process_ok_packet it end_ c
  else if cmd =? MYSQL_REPLY_LOCAL_INFILE then
    Some (set_reply_state DONE (session_set_load_active true c))
  else if cmd =? MYSQL_REPLY_ERR then
    it ← incr it;
    c ← update_error it end_ c;
    Some (set_reply_state DONE c)
  else if cmd =? MYSQL_REPLY_EOF then
    Some c
  else
    '(n, _) ← get_encoded_int it;
    let c := set_num_coldefs n c in
    let c := add_field_count n c in
    Some (set_reply_state RSET_COLDEF c).

Definition process_reply_start (it end_ : Iter) (c : Conn) : option Conn :=
  if command (m_reply c) =? MXS_COM_BINLOG_DUMP then Some c
  else if command (m_reply c) =? MXS_COM_STATISTICS then
    Some (set_reply_state DONE c)
  else if command (m_reply c) =? MXS_COM_FIELD_LIST then
    Some (set_reply_state RSET_ROWS c)
  else process_result_start it end_ c.

Definition process_one_packet (it end_ : Iter) (len : Z) (c : Conn)
    : option Conn :=
  cmd ← deref it;
  match reply_state c with
  | START => process_reply_start it end_ c
  | DONE =>
      if cmd =? MYSQL_REPLY_ERR then
        it ← incr it; update_error it end_ c
      else Some c
  | RSET_COLDEF =>
      let n := (m_num_coldefs c - 1) mod 2 ^ 64 in
      let c := set_num_coldefs n c in
      Some (if n =? 0 then set_reply_state RSET_COLDEF_EOF c else c)
  | RSET_COLDEF_EOF =>
      let c := set_reply_state RSET_ROWS c in
      Some (if m_opening_cursor c
            then set_reply_state DONE (set_opening_cursor false c)
            else c)
  | RSET_ROWS =>
      if (cmd =? MYSQL_REPLY_EOF)
         && (len =? MYSQL_EOF_PACKET_LEN - MYSQL_HEADER_LEN)
      then
        is_last ← is_last_eof it;
        let c := set_reply_state (if is_last : bool then DONE else START) c in
        it ← incr it;
        '(w0, it) ← next it;
        w1 ← deref it;
        Some (set_num_warnings (Z.lor w0 (w1 ≪ 8) mod 2 ^ 16) c)
      else if cmd =? MYSQL_REPLY_ERR then
        it ← incr it;
        c ← update_error it end_ c;
        Some (set_reply_state DONE c)
      else Some (add_rows 1 c)
  | PREPARE =>
      let n := (m_ps_packets c - 1) mod 2 ^ 32 in
      let c := set_ps_packets n c in
      Some (if n =? 0 then set_reply_state DONE c else c)
  end.

(** The loop of [process_packets].  [it] is the read position,
    [total_bytes] the length of the buffer.  Every turn that goes on
    consumes a four-byte header, so [length buffer] turns always
    suffice. *)
Fixpoint process_packets_loop (fuel : nat) (total_bytes : Z) (it : Iter)
    (bytes_used : Z) (c : Conn) : option (Conn * Z) :=
  match it with
  | [] => Some (c, bytes_used)
  | _ =>
      let bytes_left := total_bytes - bytes_used in
      if bytes_left <? MYSQL_HEADER_LEN then Some (c, bytes_used)
      else
        match fuel with
        | O => None
        | S fuel' =>
            '(l0, it) ← next it;
            '(l1, it) ← next it;
            '(l2, it) ← next it;
            let len := Z.lor (Z.lor l0 (l1 ≪ 8)) (l2 ≪ 16) mod 2 ^ 32 in
            it ← incr it;
            if bytes_left <? len + MYSQL_HEADER_LEN then Some (c, bytes_used)
            else
              let bytes_used := bytes_used + (len + MYSQL_HEADER_LEN) in
              end_ ← advance len it;
              let skip_next := m_skip_next c in
              let c := set_skip_next (len =? GW_MYSQL_MAX_PACKET_LEN) c in
              c ← (if skip_next then Some c
                   else process_one_packet it end_ len c);
              process_packets_loop fuel' total_bytes end_ bytes_used c
        end
  end.

(** [process_packets]: the new connection state, the complete packets
    split off the front of the buffer ([gwbuf_split]) and what is left in
    the buffer. *)
Definition process_packets (buffer : list byte) (c : Conn)
    : option (Conn * list byte * list byte) :=
  '(c, bytes_used) ←
    process_packets_loop (length buffer) (Z.of_nat (length buffer))
      buffer 0 c;
  Some (c, take (Z.to_nat bytes_used) buffer,
        drop (Z.to_nat bytes_used) buffer).

(** Feeding a stream chunk by chunk: each call sees the bytes left over by
    the previous one followed by the new chunk, as the read queue of the
    connection hands them over. *)
Fixpoint feed_chunks (chunks : list (list byte)) (residual : list byte)
    (c : Conn) : option (Conn * list byte * list byte) :=
  match chunks with
  | [] => Some (c, [], residual)
  | chunk :: chunks' =>
      '(c, packets, residual) ← process_packets (residual ++ chunk) c;
      '(c, packets', residual) ← feed_chunks chunks' residual c;
      Some (c, packets ++ packets', residual)
  end.

(** *** Auxiliary notions used to reason about the machine *)

(** The four header bytes of a packet: the payload length and the position
    after the sequence byte, as the loop of [process_packets] reads
    them. *)
Definition read_header (it : Iter) : option (Z * Iter) :=
  '(l0, it) ← next it;
  '(l1, it) ← next it;
  '(l2, it) ← next it;
  let len := Z.lor (Z.lor l0 (l1 ≪ 8)) (l2 ≪ 16) mod 2 ^ 32 in
  it ← incr it;
  Some (len, it).

(** One turn of that loop past its two early exits. *)
Definition packet_turn (it end_ : Iter) (len : Z) (c : Conn) : option Conn :=
  let skip_next := m_skip_next c in
  let c := set_skip_next (len =? GW_MYSQL_MAX_PACKET_LEN) c in
  if skip_next then Some c else process_one_packet it end_ len c.

(** Handing packets (sequence byte, payload) over one at a time, each
    alone in its buffer. *)
Fixpoint process_each (ps : list (byte * list byte)) (c : Conn)
    : option Conn :=
  match ps with
  | [] => Some c
  | p :: ps' =>
      c' ← process_one_packet p.2 [] (Z.of_nat (length p.2)) c;
      process_each ps' c'
  end.

(** The state an OK packet with the given status and warning count leaves
    before any session-state extraction. *)
Definition after_ok (status warnings : Z) (c : Conn) : Conn :=
  set_num_warnings warnings
    (if has_flag status SERVER_MORE_RESULTS_EXIST then c
     else set_reply_state DONE c).

(** The three conditions under which [process_ok_packet] goes on to
    extract the session state. *)
Definition extraction_wanted (status : Z) (c : Conn) : bool :=
  session_track_required c
  && has_flag status SERVER_SESSION_STATE_CHANGED
  && m_track_state c.

(** The commands for which [process_reply_start] looks at the packet as
    the start of a result. *)
Definition plain_command (cmd : Z) : Prop :=
  cmd <> MXS_COM_BINLOG_DUMP /\ cmd <> MXS_COM_STATISTICS
  /\ cmd <> MXS_COM_FIELD_LIST.

(** What packet processing never changes. *)
Definition kept (c c' : Conn) : Prop :=
  m_skip_next c' = m_skip_next c
  /\ m_track_state c' = m_track_state c
  /\ session_track_required c' = session_track_required c
  /\ m_changing_user c' = m_changing_user c
  /\ command (m_reply c') = command (m_reply c).

(** What session-state extraction leaves alone: all but the variables. *)
Definition same_but_variables (c c' : Conn) : Prop :=
  kept c c'
  /\ reply_state c' = reply_state c
  /\ rows (m_reply c') = rows (m_reply c)
  /\ num_warnings (m_reply c') = num_warnings (m_reply c)
  /\ is_ok (m_reply c') = is_ok (m_reply c)
  /\ error (m_reply c') = error (m_reply c)
  /\ m_ps_packets c' = m_ps_packets c
  /\ m_num_coldefs c' = m_num_coldefs c.

End WithVariables.

End Machine.

(** ** Authentication: server greeting, password scramble, COM_CHANGE_USER *)

Module Auth.
Import Wire Proto.

(** [len] bytes behind a pointer, as [memcpy] and the hash helpers read
    them; fewer bytes behind the pointer would be read past the end. *)
Definition read_bytes (len : nat) (p : list byte) : option (list byte) :=
  if bool_decide (len <= length p)%nat then Some (take len p) else None.

(** Pointer arithmetic [p + n] within a buffer. *)
Definition ptr_add (n : nat) (p : list byte) : option (list byte) :=
  if bool_decide (n <= length p)%nat then Some (drop n p) else None.

(** [memcpy(buf + off, src, |src|)] *)
Definition memcpy_at (off : nat) (src buf : list byte)
    : option (list byte) :=
  if bool_decide (off + length src <= length buf)%nat
  then Some (take off buf ++ src ++ drop (off + length src) buf)
  else None.

(** The characters of a C string: the bytes before the first NUL. *)
Fixpoint c_str (s : list byte) : list byte :=
  match s with
  | [] => []
  | b :: s' => if byte_val b =? 0 then [] else b :: c_str s'
  end.

Definition strlen (s : list byte) : nat := length (c_str s).

(** [strcmp(p, lit) == 0] for a literal without NUL bytes. *)
Fixpoint strcmp_eq (p lit : list byte) : option bool :=
  match lit, p with
  | [], [] => None
  | [], b :: _ => Some (byte_val b =? 0)
  | _ :: _, [] => None
  | l :: lit', b :: p' =>
      if byte_val b =? byte_val l then strcmp_eq p' lit' else Some false
  end.

(** Modelled from the spec: [gw_strend] (core utilities, not among the
    sources at hand) returns the position of the terminating NUL of a C
    string. *)
Fixpoint gw_strend (p : list byte) : option (list byte) :=
  match p with
  | [] => None
  | b :: p' => if byte_val b =? 0 then Some p else gw_strend p'
  end.

Definition gw_mysql_get_byte2 (p : list byte) : option Z :=
  le_value <$> read_bytes 2 p.

Definition gw_mysql_get_byte4 (p : list byte) : option Z :=
  le_value <$> read_bytes 4 p.

Definition xor_byte (a b : byte) : byte :=
  byte_of_Z (Z.lxor (byte_val a) (byte_val b)).

(** The specification's XOR of two byte strings. *)
Definition xor_bytes (a b : list byte) : list byte := zip_with xor_byte a b.

Definition null_client_sha1 : list byte :=
  replicate (Z.to_nat MYSQL_SCRAMBLE_LEN) x00.

(** What the server greeting leaves in the connection. *)
Record Greeting := mkGreeting {
  m_thread_id : Z;              (* uint64_t, from a uint32_t *)
  server_capabilities : Z;      (* uint32_t *)
  m_scramble : list byte        (* uint8_t[MYSQL_SCRAMBLE_LEN] *)
}.

(** The client side of the session ([MYSQL_session]). *)
Record MYSQL_session := mkSession {
  user : list byte;
  db : list byte;
  auth_token_phase2 : list byte;
  client_charset : byte;
  connect_attrs : list byte
}.

Definition gw_decode_mysql_server_handshake (payload : list byte)
    (conn : Greeting) : option (Z * Greeting) :=
  protocol_version ← deref payload;
  if negb (protocol_version =? GW_MYSQL_PROTOCOL_VERSION) then Some (-1, conn)
  else
    payload ← ptr_add 1 payload;
    server_version_end ← gw_strend payload;
    payload ← ptr_add 1 server_version_end;
    tid ← gw_mysql_get_byte4 payload;
    let conn := mkGreeting tid (server_capabilities conn) (m_scramble conn) in
    payload ← ptr_add 4 payload;
    scramble_data_1 ← read_bytes (Z.to_nat GW_SCRAMBLE_LENGTH_323) payload;
    payload ← ptr_add (Z.to_nat GW_SCRAMBLE_LENGTH_323) payload;
    payload ← ptr_add 1 payload;
    mysql_server_capabilities_one ← gw_mysql_get_byte2 payload;
    payload ← ptr_add 5 payload;
    mysql_server_capabilities_two ← gw_mysql_get_byte2 payload;
    let conn :=
      mkGreeting (m_thread_id conn)
        (Z.lor mysql_server_capabilities_one
           (mysql_server_capabilities_two ≪ 16) mod 2 ^ 32)
        (m_scramble conn) in
    payload ← ptr_add 2 payload;
    b ← deref payload;
    let accepted (scramble_len : Z) :=
      payload ← ptr_add 11 payload;
      let n2 := Z.to_nat (scramble_len - GW_SCRAMBLE_LENGTH_323) in
      copied ← read_bytes n2 payload;
      (* scramble_data_2 and mxs_scramble start out zeroed *)
      let scramble_data_2 :=
        copied
        ++ replicate
             (Z.to_nat (GW_MYSQL_SCRAMBLE_SIZE - GW_SCRAMBLE_LENGTH_323)
              - n2) x00 in
      let mxs_scramble :=
        scramble_data_1 ++ take n2 scramble_data_2
        ++ replicate
             (Z.to_nat (GW_MYSQL_SCRAMBLE_SIZE - GW_SCRAMBLE_LENGTH_323)
              - n2) x00 in
      Some (0, mkGreeting (m_thread_id conn) (server_capabilities conn)
                 mxs_scramble) in
    if 0 <? b then
      let scramble_len := b - 1 in
      if (scramble_len <? GW_SCRAMBLE_LENGTH_323)
         || (GW_MYSQL_SCRAMBLE_SIZE <? scramble_len)
      then Some (-2, conn)
      else accepted scramble_len
    else accepted GW_MYSQL_SCRAMBLE_SIZE.

Section WithSHA1.

(** SHA-1 is computed by the cryptographic library behind the helpers
    below; it is a parameter here. *)
Variable SHA1 : list byte -> list byte.

(** Modelled from the spec: [gw_sha1_str], [gw_sha1_2_str] and
    [gw_str_xor] (core utilities, not among the sources at hand): the
    SHA-1 of a buffer, of two buffers one after the other, and the XOR of
    two buffers of one length. *)
Definition gw_sha1_str (in_ : list byte) (in_len : nat)
    : option (list byte) :=
  d ← read_bytes in_len in_; Some (SHA1 d).

Definition gw_sha1_2_str (in1 : list byte) (in1_len : nat)
    (in2 : list byte) (in2_len : nat) : option (list byte) :=
  d1 ← read_bytes in1_len in1;
  d2 ← read_bytes in2_len in2;
  Some (SHA1 (d1 ++ d2)).

Definition gw_str_xor (input1 input2 : list byte) (len : nat)
    : option (list byte) :=
  d1 ← read_bytes len input1;
  d2 ← read_bytes len input2;
  Some (zip_with xor_byte d1 d2).

Definition mxs_mysql_calculate_hash (scramble passwd : list byte)
    : option (list byte) :=
  let size := Z.to_nat GW_MYSQL_SCRAMBLE_SIZE in
  hash1 ← read_bytes size passwd;
  hash2 ← gw_sha1_str hash1 size;
  new_sha ← gw_sha1_2_str scramble size hash2 size;
  gw_str_xor new_sha hash1 size.

(** The scramble as the specification writes it:
    [H1 XOR SHA1(S || SHA1(H1))]. *)
Definition scramble_spec (S H1 : list byte) : list byte :=
  xor_bytes H1 (SHA1 (S ++ SHA1 H1)).

Definition gw_create_change_user_packet (mses : MYSQL_session)
    (scramble : list byte) : option (list byte) :=
  let size := Z.to_nat GW_MYSQL_SCRAMBLE_SIZE in
  let db := c_str (db mses) in
  let curr_db := if (0 <? length db)%nat then Some db else None in
  let curr_passwd :=
    if (length (auth_token_phase2 mses) =? size)%nat
    then Some (auth_token_phase2 mses) else None in
  let bytes := 1%nat in
  let user := c_str (user mses) in
  let bytes := (bytes + (length user + 1))%nat in
  let bytes :=
    match curr_passwd with
    | Some _ => (bytes + size)%nat
    | None => bytes
    end in
  let bytes := S bytes in
  let bytes :=
    match curr_db with
    | Some d => (bytes + length d)%nat
    | None => bytes
    end in
  let bytes := S bytes in
  let plugin_strlen := length DEFAULT_MYSQL_AUTH_PLUGIN in
  let bytes := (bytes + 2)%nat in
  let bytes := (bytes + (plugin_strlen + 1))%nat in
  let bytes := (bytes + length (connect_attrs mses))%nat in
  let bytes := (bytes + 4)%nat in
  let buffer := replicate bytes x00 in
  buffer ← memcpy_at 3 [x00] buffer;
  let payload := 4%nat in
  buffer ← memcpy_at payload [x11] buffer;
  let payload := S payload in
  buffer ← memcpy_at payload user buffer;
  let payload := (payload + length user)%nat in
  let payload := S payload in
  '(buffer, payload) ←
    match curr_passwd with
    | Some passwd =>
        hash1 ← read_bytes size passwd;
        hash2 ← gw_sha1_str hash1 size;
        new_sha ←
          gw_sha1_2_str scramble (Z.to_nat MYSQL_SCRAMBLE_LEN) hash2
            (Z.to_nat MYSQL_SCRAMBLE_LEN);
        client_scramble ← gw_str_xor new_sha hash1 size;
        buffer ← memcpy_at payload [byte_of_Z GW_MYSQL_SCRAMBLE_SIZE] buffer;
        let payload := S payload in
        buffer ← memcpy_at payload client_scramble buffer;
        Some (buffer, (payload + size)%nat)
    | None => Some (buffer, S payload)
    end;
  '(buffer, payload) ←
    match curr_db with
    | Some d =>
        buffer ← memcpy_at payload d buffer;
        Some (buffer, (payload + length d)%nat)
    | None => Some (buffer, payload)
    end;
  let payload := S payload in
  buffer ← memcpy_at payload [client_charset mses] buffer;
  let payload := S payload in
  buffer ← memcpy_at payload [x00] buffer;
  let payload := S payload in
  buffer ← memcpy_at payload DEFAULT_MYSQL_AUTH_PLUGIN buffer;
  let payload := (payload + (plugin_strlen + 1))%nat in
  buffer ←
    (if (0 <? length (connect_attrs mses))%nat
     then memcpy_at payload (connect_attrs mses) buffer
     else Some buffer);
  memcpy_at 0 (le_bytes 3 (Z.of_nat bytes - MYSQL_HEADER_LEN)) buffer.

(** The buffer [send_mysql_native_password_response] hands to
    [writeq_append]. *)
Definition mysql_native_password_response (mses : MYSQL_session)
    (scramble : list byte) : option (list byte) :=
  let curr_passwd :=
    match auth_token_phase2 mses with
    | [] => null_client_sha1
    | token => token
    end in
  hash ← mxs_mysql_calculate_hash scramble curr_passwd;
  Some (le_bytes 3 GW_MYSQL_SCRAMBLE_SIZE ++ [x02] ++ hash).

End WithSHA1.

(** The password field of a COM_CHANGE_USER packet built for a user whose
    name has [user_len] characters: the byte announcing its length and
    the bytes after it. *)
Definition change_user_password_length (user_len : nat)
    (packet : list byte) : option Z :=
  deref (drop (4 + 1 + user_len + 1) packet).

Definition change_user_password (user_len : nat) (packet : list byte)
    : list byte :=
  take (Z.to_nat GW_MYSQL_SCRAMBLE_SIZE)
    (drop (4 + 1 + user_len + 1 + 1) packet).

End Auth.

(** ** SHA-1 (FIPS 180-4)

    The digest the cryptographic library computes, written out for the
    closed examples of the password scramble. *)

Module SHA1Ref.
Import Wire.

Definition mask32 (x : Z) : Z := x mod 2 ^ 32.

Definition rotl (n x : Z) : Z :=
  Z.lor (mask32 (x ≪ n)) (x ≫ (32 - n)).

Definition be_value (bs : list byte) : Z :=
  fold_left (fun acc b => acc * 256 + byte_val b) bs 0.

Definition be_bytes (n : nat) (v : Z) : list byte := rev (le_bytes n v).

(** The message, the bit 1, zeros up to 56 modulo 64, and the length in
    bits on eight bytes. *)
Definition pad (m : list byte) : list byte :=
  let len := Z.of_nat (length m) in
  m ++ x80 :: replicate (Z.to_nat ((55 - len) mod 64)) x00
    ++ be_bytes 8 (8 * len).

Definition block (padded : list byte) (i : nat) : list byte :=
  take 64 (drop (64 * i) padded).

Definition word (blk : list byte) (j : nat) : Z :=
  be_value (take 4 (drop (4 * j) blk)).

Definition at_ (w : list Z) (t : nat) : Z := nth t w 0.

(** The eighty words of the message schedule. *)
Definition schedule (blk : list byte) : list Z :=
  fold_left
    (fun w t =>
       w ++ [rotl 1 (Z.lxor (Z.lxor (at_ w (t - 3)) (at_ w (t - 8)))
                        (Z.lxor (at_ w (t - 14)) (at_ w (t - 16))))])
    (seq 16 64) (map (word blk) (seq 0 16)).

Definition State : Type := Z * Z * Z * Z * Z.

Definition f_k (t : nat) (b c d : Z) : Z * Z :=
  if (t <? 20)%nat
  then (Z.lor (Z.land b c) (Z.land (Z.lxor b 0xffffffff) d), 0x5a827999)
  else if (t <? 40)%nat
  then (Z.lxor (Z.lxor b c) d, 0x6ed9eba1)
  else if (t <? 60)%nat
  then (Z.lor (Z.lor (Z.land b c) (Z.land b d)) (Z.land c d), 0x8f1bbcdc)
  else (Z.lxor (Z.lxor b c) d, 0xca62c1d6).

Definition round (w : list Z) (s : State) (t : nat) : State :=
  let '(a, b, c, d, e) := s in
  let '(f, k) := f_k t b c d in
  (mask32 (rotl 5 a + f + e + k + at_ w t), a, rotl 30 b, c, d).

Definition compress (h : State) (blk : list byte) : State :=
  let '(a, b, c, d, e) := fold_left (round (schedule blk)) (seq 0 80) h in
  let '(h0, h1, h2, h3, h4) := h in
  (mask32 (h0 + a), mask32 (h1 + b), mask32 (h2 + c), mask32 (h3 + d),
   mask32 (h4 + e)).

Definition initial : State :=
  (0x67452301, 0xefcdab89, 0x98badcfe, 0x10325476, 0xc3d2e1f0).

Definition digest (h : State) : list byte :=
  let '(h0, h1, h2, h3, h4) := h in
  be_bytes 4 h0 ++ be_bytes 4 h1 ++ be_bytes 4 h2 ++ be_bytes 4 h3
  ++ be_bytes 4 h4.

Definition sha1 (m : list byte) : list byte :=
  let padded := pad m in
  digest (fold_left (fun h i => compress h (block padded i))
            (seq 0 (length padded / 64)) initial).

End SHA1Ref.

(** ** Connection reuse: COM_CHANGE_USER on a pooled connection *)

Module Reuse.
Import Wire Proto Auth.

Inductive AuthState :=
  | CONNECTED | RESPONSE_SENT | FAIL | FAIL_HANDSHAKE | COMPLETE.

#[global] Instance AuthState_eq_dec : EqDecision AuthState.
Proof. solve_decision. Defined.

(** A buffer handed to [write], with the one type flag looked at here. *)
Record GWBUF := mkBuf {
  buf_data : list byte;
  buf_ignorable : bool           (* gwbuf_is_ignorable *)
}.

(** The members of [MariaDBBackendConnection] that take part in the reuse
    of a connection, with the parts of its DCB and session they use.
    Modelled from the spec: [DCB] is declared outside the sources at hand;
    its write queue is the list of the buffers appended to it and
    [dcb_write_ok] says whether [writeq_append] succeeds. *)
Record Backend := mkBackend {
  m_auth_state : AuthState;
  m_ignore_replies : Z;          (* int *)
  m_stored_query : option GWBUF;
  m_scramble : list byte;        (* uint8_t[MYSQL_SCRAMBLE_LEN] *)
  m_changing_user : bool;
  client_changing_user : bool;   (* m_client_data->changing_user *)
  m_client_data : MYSQL_session;
  dcb_polling : bool;            (* dcb->state() == DCB::State::POLLING *)
  dcb_write_ok : bool;
  dcb_writeq : list (list byte);
  dcb_delayq : list (list byte);
  dcb_hangup : bool;             (* trigger_hangup_event was called *)
  persistent_conns_enabled : bool;
  reply_command : Z;             (* m_reply.command() *)
  load_active : bool;            (* session_is_load_active *)
  m_large_query : bool;
  server_maintenance : bool      (* set on ER_HOST_IS_BLOCKED *)
}.

Definition established (b : Backend) : bool :=
  bool_decide (m_auth_state b = COMPLETE)
  && (m_ignore_replies b =? 0)
  && negb (bool_decide (is_Some (m_stored_query b))).

Definition set_ignore_replies (n : Z) (b : Backend) : Backend :=
  mkBackend (m_auth_state b) n (m_stored_query b) (m_scramble b)
    (m_changing_user b) (client_changing_user b) (m_client_data b)
    (dcb_polling b) (dcb_write_ok b) (dcb_writeq b) (dcb_delayq b)
    (dcb_hangup b) (persistent_conns_enabled b) (reply_command b)
    (load_active b) (m_large_query b) (server_maintenance b).

Definition set_stored_query (q : option GWBUF) (b : Backend)
    : Backend :=
  mkBackend (m_auth_state b) (m_ignore_replies b) q (m_scramble b)
    (m_changing_user b) (client_changing_user b) (m_client_data b)
    (dcb_polling b) (dcb_write_ok b) (dcb_writeq b) (dcb_delayq b)
    (dcb_hangup b) (persistent_conns_enabled b) (reply_command b)
    (load_active b) (m_large_query b) (server_maintenance b).

Definition set_scramble (s : list byte) (b : Backend) : Backend :=
  mkBackend (m_auth_state b) (m_ignore_replies b) (m_stored_query b) s
    (m_changing_user b) (client_changing_user b) (m_client_data b)
    (dcb_polling b) (dcb_write_ok b) (dcb_writeq b) (dcb_delayq b)
    (dcb_hangup b) (persistent_conns_enabled b) (reply_command b)
    (load_active b) (m_large_query b) (server_maintenance b).

Definition set_changing_user (m client : bool) (b : Backend) : Backend :=
  mkBackend (m_auth_state b) (m_ignore_replies b) (m_stored_query b)
    (m_scramble b) m client (m_client_data b)
    (dcb_polling b) (dcb_write_ok b) (dcb_writeq b) (dcb_delayq b)
    (dcb_hangup b) (persistent_conns_enabled b) (reply_command b)
    (load_active b) (m_large_query b) (server_maintenance b).

(** [assign_session]: the connection serves another client session. *)
Definition assign_session (mses : MYSQL_session) (b : Backend) : Backend :=
  mkBackend (m_auth_state b) (m_ignore_replies b) (m_stored_query b)
    (m_scramble b) (m_changing_user b) (client_changing_user b) mses
    (dcb_polling b) (dcb_write_ok b) (dcb_writeq b) (dcb_delayq b)
    (dcb_hangup b) (persistent_conns_enabled b) (reply_command b)
    (load_active b) (m_large_query b) (server_maintenance b).

Definition set_writeq (q : list (list byte)) (b : Backend) : Backend :=
  mkBackend (m_auth_state b) (m_ignore_replies b) (m_stored_query b)
    (m_scramble b) (m_changing_user b) (client_changing_user b)
    (m_client_data b) (dcb_polling b) (dcb_write_ok b) q (dcb_delayq b)
    (dcb_hangup b) (persistent_conns_enabled b) (reply_command b)
    (load_active b) (m_large_query b) (server_maintenance b).

Definition delayq_append (buf : list byte) (b : Backend) : Backend :=
  mkBackend (m_auth_state b) (m_ignore_replies b) (m_stored_query b)
    (m_scramble b) (m_changing_user b) (client_changing_user b)
    (m_client_data b) (dcb_polling b) (dcb_write_ok b) (dcb_writeq b)
    (dcb_delayq b ++ [buf])
    (dcb_hangup b) (persistent_conns_enabled b) (reply_command b)
    (load_active b) (m_large_query b) (server_maintenance b).

Definition trigger_hangup_event (b : Backend) : Backend :=
  mkBackend (m_auth_state b) (m_ignore_replies b) (m_stored_query b)
    (m_scramble b) (m_changing_user b) (client_changing_user b)
    (m_client_data b) (dcb_polling b) (dcb_write_ok b) (dcb_writeq b)
    (dcb_delayq b) true (persistent_conns_enabled b) (reply_command b)
    (load_active b) (m_large_query b) (server_maintenance b).

Definition set_tracking (command : Z) (load large : bool) (b : Backend)
    : Backend :=
  mkBackend (m_auth_state b) (m_ignore_replies b) (m_stored_query b)
    (m_scramble b) (m_changing_user b) (client_changing_user b)
    (m_client_data b) (dcb_polling b) (dcb_write_ok b) (dcb_writeq b)
    (dcb_delayq b) (dcb_hangup b) (persistent_conns_enabled b) command
    load large (server_maintenance b).

Definition set_server_maintenance (b : Backend) : Backend :=
  mkBackend (m_auth_state b) (m_ignore_replies b) (m_stored_query b)
    (m_scramble b) (m_changing_user b) (client_changing_user b)
    (m_client_data b) (dcb_polling b) (dcb_write_ok b) (dcb_writeq b)
    (dcb_delayq b) (dcb_hangup b) (persistent_conns_enabled b)
    (reply_command b) (load_active b) (m_large_query b) true.

Definition writeq_append (buf : list byte) (b : Backend)
    : bool * Backend :=
  if dcb_write_ok b then (true, set_writeq (dcb_writeq b ++ [buf]) b)
  else (false, b).

(** Byte [i] of a contiguous buffer. *)
Definition byte_at (i : nat) (data : list byte) : option Z :=
  deref (drop i data).

(** [MYSQL_GET_PAYLOAD_LEN] and [MYSQL_GET_COMMAND] *)
Definition MYSQL_GET_PAYLOAD_LEN (data : list byte) : option Z :=
  le_value <$> read_bytes 3 data.

Definition MYSQL_GET_COMMAND (data : list byte) : option Z := byte_at 4 data.

Definition MYSQL_IS_COM_QUIT (data : list byte) : option bool :=
  cmd ← MYSQL_GET_COMMAND data;
  if cmd =? MXS_COM_QUIT
  then len ← MYSQL_GET_PAYLOAD_LEN data; Some (len =? 1)
  else Some false.

Definition ER_HOST_IS_BLOCKED : Z := 1129.

Definition handle_error_response (buffer : list byte) (b : Backend)
    : option Backend :=
  cmd ← MYSQL_GET_COMMAND buffer;
  errcode ←
    (if cmd =? MYSQL_REPLY_ERR
     then gw_mysql_get_byte2 (drop 5 buffer) else Some 0);
  Some (if errcode =? ER_HOST_IS_BLOCKED
        then set_server_maintenance b else b).

Definition auth_change_requested (buf : list byte) : option bool :=
  cmd ← MYSQL_GET_COMMAND buf;
  Some ((cmd =? MYSQL_REPLY_AUTHSWITCHREQUEST)
        && (MYSQL_EOF_PACKET_LEN <? Z.of_nat (length buf))).

(** [gwbuf_copy_data(buffer, offset, bytes, dest)]: copies what the
    buffer holds of the [bytes] bytes at [offset] to the front of
    [dest]. *)
Definition gwbuf_copy_data (buffer : list byte) (offset bytes : nat)
    (dest : list byte) : list byte :=
  let copied := take bytes (drop offset buffer) in
  copied ++ drop (length copied) dest.

(** [gwbuf_append(head, tail)]: the data of both, under the type of the
    head when there is one. *)
Definition gwbuf_append (head : option GWBUF) (tail : GWBUF) : GWBUF :=
  match head with
  | Some h => mkBuf (buf_data h ++ buf_data tail) (buf_ignorable h)
  | None => tail
  end.

Section WithSHA1.
Variable SHA1 : list byte -> list byte.

Definition send_mysql_native_password_response (b : Backend)
    : option (bool * Backend) :=
  buffer ← mysql_native_password_response SHA1 (m_client_data b)
             (m_scramble b);
  Some (writeq_append buffer b).

Definition handle_auth_change_response (reply : list byte) (b : Backend)
    : option (bool * Backend) :=
  same ← strcmp_eq (drop 5 reply) DEFAULT_MYSQL_AUTH_PLUGIN;
  if same : bool then
    let b :=
      set_scramble
        (gwbuf_copy_data reply
           (5 + length DEFAULT_MYSQL_AUTH_PLUGIN + 1)
           (Z.to_nat MYSQL_SCRAMBLE_LEN) (m_scramble b)) b in
    send_mysql_native_password_response b
  else Some (false, b).

Definition gw_send_change_user_to_backend (b : Backend)
    : option (Z * Backend) :=
  buffer ← gw_create_change_user_packet SHA1 (m_client_data b)
             (m_scramble b);
  let '(ok, b) := writeq_append buffer b in
  if ok
  then Some (1, set_changing_user true (client_changing_user b) b)
  else Some (0, b).

Definition reuse_connection (session : MYSQL_session) (b : Backend)
    : option (bool * Backend) :=
  if negb (dcb_polling b) || negb (bool_decide (m_auth_state b = COMPLETE))
  then Some (false, b)
  else
    let orig_session := m_client_data b in
    let b := assign_session session b in
    let b := set_ignore_replies 0 b in
    let b := set_stored_query None b in
    buf ← gw_create_change_user_packet SHA1 (m_client_data b)
            (m_scramble b);
    let '(ok, b) := writeq_append buf b in
    if ok
    then Some (true, set_ignore_replies ((m_ignore_replies b + 1)) b)
    else Some (false, assign_session orig_session b).

Definition handle_persistent_connection (queue : GWBUF) (b : Backend)
    : option (Z * Backend) :=
  quit ← MYSQL_IS_COM_QUIT (buf_data queue);
  if quit : bool then Some (0, trigger_hangup_event b)
  else
    Some (1, set_stored_query (Some (gwbuf_append (m_stored_query b) queue))
               b).

(** The part of [track_query] that decides [m_reply.command()]. *)
Definition track_query (data : list byte) (b : Backend) : option Backend :=
  if m_changing_user b then Some b
  else
    len ← MYSQL_GET_PAYLOAD_LEN data;
    let large := len =? GW_MYSQL_MAX_PACKET_LEN in
    if load_active b then
      Some (set_tracking (reply_command b)
              (if len =? 0 then false else true) large b)
    else if negb (m_large_query b) then
      cmd ← MYSQL_GET_COMMAND data;
      Some (set_tracking cmd false large b)
    else Some (set_tracking (reply_command b) false large b).

Definition prepare_for_write (queue : GWBUF) (b : Backend)
    : option Backend :=
  if negb (buf_ignorable queue) then track_query (buf_data queue) b
  else Some b.

(** [write]; its call of [gw_change_user], which frees the queue and
    returns what [gw_send_change_user_to_backend] returns, is written as
    the call of the latter. *)
Definition write (queue : GWBUF) (b : Backend) : option (Z * Backend) :=
  if 0 <? m_ignore_replies b then handle_persistent_connection queue b
  else
    match m_auth_state b with
    | FAIL_HANDSHAKE | FAIL => Some (0, b)
    | COMPLETE =>
        cmd ← MYSQL_GET_COMMAND (buf_data queue);
        b ← prepare_for_write queue b;
        if reply_command b =? MXS_COM_CHANGE_USER
        then gw_send_change_user_to_backend b
        else if (cmd =? MXS_COM_QUIT) && persistent_conns_enabled b
        then Some (1, b)
        else
          let b :=
            if buf_ignorable queue
            then set_ignore_replies (m_ignore_replies b + 1) b else b in
          let '(ok, b) := writeq_append (buf_data queue) b in
          Some (if ok then 1 else 0, b)
    | _ => Some (1, delayq_append (buf_data queue) b)
    end.

(** Where [gw_read_and_write] ends: it returns, or goes on to route the
    read buffer to the client. *)
Inductive ReadOutcome :=
  | Returned (rval : Z)
  | Routes (read_buffer : list (list byte)).

(** [gw_read_and_write] from the point where [read_buffer] holds the
    complete packets read from the backend (a non-empty list of packets
    here); the routing loop that follows is not part of the model.

    First the block guarded by [m_changing_user]: [Some b'] when the
    function returns from it. *)
Definition read_changing_user (read_buffer : list (list byte)) (b : Backend)
    : option (option Backend * list (list byte) * Backend) :=
  if m_changing_user b then
    requested ← auth_change_requested (concat read_buffer);
    '(ok, b') ←
      (if requested : bool
       then handle_auth_change_response (concat read_buffer) b
       else Some (false, b));
    if ok : bool then Some (Some b', read_buffer, b')
    else
      first ← list.head read_buffer;
      first' ← memcpy_at 3 [x03] first;
      Some (None, first' :: tail read_buffer,
            set_changing_user false false b')
  else Some (None, read_buffer, b).

(** Then the block guarded by [m_ignore_replies > 0]. *)
Definition read_ignored_reply (read_buffer : list (list byte)) (b : Backend)
    : option (Z * Backend) :=
  let query := m_stored_query b in
  let b := set_stored_query None b in
  let b := set_ignore_replies (m_ignore_replies b - 1) b in
  reply ← list.last read_buffer;
  result ← MYSQL_GET_COMMAND reply;
  if result =? MYSQL_REPLY_OK then
    match query return option (Z * Backend) with
    | Some q => write q b
    | None => Some (1, b)
    end
  else
    requested ← auth_change_requested reply;
    if requested : bool then
      '(ok, b) ← handle_auth_change_response reply b;
      if ok : bool then
        let b := set_stored_query query b in
        let b := set_ignore_replies (m_ignore_replies b + 1) b in
        Some (0, b)
      else Some (0, trigger_hangup_event b)
    else
      b ← (if result =? MYSQL_REPLY_ERR
           then handle_error_response reply b else Some b);
      Some (0, trigger_hangup_event b).

Definition gw_read_and_write (read_buffer : list (list byte)) (b : Backend)
    : option (ReadOutcome * Backend) :=
  '(returned, read_buffer, b) ← read_changing_user read_buffer b;
  match returned with
  | Some b' => Some (Returned 0, b')
  | None =>
      if 0 <? m_ignore_replies b then
        '(rval, b) ← read_ignored_reply read_buffer b;
        Some (Returned rval, b)
      else Some (Routes read_buffer, b)
  end.

End WithSHA1.

End Reuse.

(** ** The wire formats, as the specification lays them out

    These encoders follow the specification's description of the packets
    (section 6, "Wire formats", and the table of section 4.6); they are
    what the server side of the protocol produces and are used to state
    what the decoding code above makes of well-formed input. *)

Module Format.
Import Wire Proto.

(** Length-encoded integer. *)
Definition lenenc_int (n : Z) : list byte :=
  if n <? 0xfb then [byte_of_Z n]
  else if n <? 2 ^ 16 then xfc :: le_bytes 2 n
  else if n <? 2 ^ 24 then xfd :: le_bytes 3 n
  else xfe :: le_bytes 8 n.

(** Length-encoded string. *)
Definition lenenc_str (s : list byte) : list byte :=
  lenenc_int (Z.of_nat (length s)) ++ s.

(** Generic packet: [u24 length | u8 seq | payload]. *)
Definition frame (seq : byte) (payload : list byte) : list byte :=
  le_bytes 3 (Z.of_nat (length payload)) ++ seq :: payload.

(** OK packet:
    [0x00 | lenenc affected_rows | lenenc last_insert_id | u16 status |
     u16 warnings | rest]. *)
Definition ok_payload (affected_rows last_insert_id status warnings : Z)
    (rest : list byte) : list byte :=
  x00 :: lenenc_int affected_rows ++ lenenc_int last_insert_id
      ++ le_bytes 2 status ++ le_bytes 2 warnings ++ rest.

(** EOF packet: [0xFE | u16 warnings | u16 status]. *)
Definition eof_payload (warnings status : Z) : list byte :=
  xfe :: le_bytes 2 warnings ++ le_bytes 2 status.

(** COM_STMT_PREPARE OK packet:
    [0x00 | u32 statement id | u16 columns | u16 parameters | filler |
     u16 warnings]. *)
Definition ps_ok_payload (stmt_id columns params warnings : Z) : list byte :=
  x00 :: le_bytes 4 stmt_id ++ le_bytes 2 columns ++ le_bytes 2 params
      ++ x00 :: le_bytes 2 warnings.

(** The entries of a session-track block. *)
Inductive TrackEntry :=
  | SystemVariable (name value : list byte)
  | Schema (name : list byte)
  | StateChange (body : list byte)
  | Gtids (encoding_spec : Z) (gtid : list byte)
  | TransactionCharacteristics (value : list byte)
  | TransactionType (value : list byte)
  | UnknownEntry (type : byte) (body : list byte).

Definition entry_type (e : TrackEntry) : byte :=
  match e with
  | SystemVariable _ _ => x00
  | Schema _ => x01
  | StateChange _ => x02
  | Gtids _ _ => x03
  | TransactionCharacteristics _ => x04
  | TransactionType _ => x05
  | UnknownEntry t _ => t
  end.

Definition entry_body (e : TrackEntry) : list byte :=
  match e with
  | SystemVariable name value => lenenc_str name ++ lenenc_str value
  | Schema name => lenenc_str name
  | StateChange body => body
  | Gtids encoding_spec gtid => lenenc_int encoding_spec ++ lenenc_str gtid
  | TransactionCharacteristics value => lenenc_str value
  | TransactionType value => lenenc_str value
  | UnknownEntry _ body => body
  end.

(** The buffers holding one packet each, for a list of packets given as
    (sequence byte, payload). *)
Definition frames (ps : list (byte * list byte)) : list (list byte) :=
  map (fun p => frame p.1 p.2) ps.

(** The number of packets that follow a COM_STMT_PREPARE OK packet
    declaring the given numbers of columns and parameters. *)
Definition ps_count (columns params : Z) : Z :=
  (if 0 <? columns then columns + 1 else 0)
  + (if 0 <? params then params + 1 else 0).

(** A byte string made of complete packets only. *)
Inductive whole_packets : list byte -> Prop :=
  | whole_packets_nil : whole_packets []
  | whole_packets_cons (seq : byte) (payload rest : list byte) :
      Z.of_nat (length payload) < 2 ^ 24 ->
      whole_packets rest ->
      whole_packets (frame seq payload ++ rest).

(** A byte string that does not start with a complete packet: its header
    is cut short, or the payload the header announces is. *)
Definition incomplete (bs : list byte) : Prop :=
  (length bs < 4)%nat
  \/ Z.of_nat (length bs) < 4 + le_value (take 3 bs).

(** One entry: [type | lenenc total_size | body]. *)
Definition encode_entry (e : TrackEntry) : list byte :=
  entry_type e :: lenenc_int (Z.of_nat (length (entry_body e)))
    ++ entry_body e.

Definition track_block (es : list TrackEntry) : list byte :=
  concat (map encode_entry es).

(** What follows the fixed fields of an OK packet that reports a session
    state change: [lenenc info | lenenc total | entries]. *)
Definition track_info (info : list byte) (es : list TrackEntry) : list byte :=
  lenenc_str info ++ lenenc_int (Z.of_nat (length (track_block es)))
    ++ track_block es.

(** An entry of a type the extractor does not know. *)
Definition unknown_type (t : byte) : Prop := 6 <= byte_val t.

(** The [set_variable] calls an entry stands for. *)
Definition entry_variable (e : TrackEntry)
    : option (list byte * list byte) :=
  match e with
  | SystemVariable name value => Some (name, value)
  | Gtids _ gtid => Some (MXS_LAST_GTID, gtid)
  | TransactionCharacteristics value => Some (TRX_CHARACTERISTICS, value)
  | TransactionType value => Some (TRX_STATE, value)
  | Schema _ | StateChange _ | UnknownEntry _ _ => None
  end.

(** The sizes the encoders above can represent: every length fits a
    packet and every length-encoded number its eight bytes. *)
Definition entry_wf (e : TrackEntry) : Prop :=
  Z.of_nat (length (entry_body e)) < 2 ^ 24
  /\ match e with
     | Gtids encoding_spec _ => 0 <= encoding_spec < 2 ^ 64
     | UnknownEntry t _ => unknown_type t
     | _ => True
     end.

(** The [set_variable] calls a block stands for, in order. *)
Definition tracked_variables (es : list TrackEntry)
    : list (list byte * list byte) :=
  omap entry_variable es.

(** The fields of an OK packet. *)
Record OkPacket := mkOk {
  ok_affected_rows : Z;
  ok_last_insert_id : Z;
  ok_status : Z;
  ok_warnings : Z;
  ok_rest : list byte
}.

Definition ok_bytes (o : OkPacket) : list byte :=
  ok_payload (ok_affected_rows o) (ok_last_insert_id o) (ok_status o)
    (ok_warnings o) (ok_rest o).

Definition ok_wf (o : OkPacket) : Prop :=
  0 <= ok_affected_rows o < 2 ^ 64
  /\ 0 <= ok_last_insert_id o < 2 ^ 64
  /\ 0 <= ok_status o < 2 ^ 16
  /\ 0 <= ok_warnings o < 2 ^ 16
  /\ Z.of_nat (length (ok_bytes o)) < GW_MYSQL_MAX_PACKET_LEN.

(** The server greeting (protocol version 10), as section 4.3 of the
    specification lays it out. *)
Record ServerGreeting := mkServerGreeting {
  sg_protocol : byte;
  sg_server_version : list byte;     (* NUL-terminated on the wire *)
  sg_thread_id : list byte;          (* 4 bytes *)
  sg_scramble_1 : list byte;         (* 8 bytes *)
  sg_filler : byte;
  sg_capabilities_lo : list byte;    (* 2 bytes *)
  sg_charset : byte;
  sg_status : list byte;             (* 2 bytes *)
  sg_capabilities_hi : list byte;    (* 2 bytes *)
  sg_auth_data_len : byte;
  sg_reserved : list byte;           (* 10 bytes *)
  sg_rest : list byte                (* rest of the scramble, plugin name *)
}.

Definition greeting_bytes (g : ServerGreeting) : list byte :=
  sg_protocol g :: sg_server_version g ++ x00 :: sg_thread_id g
    ++ sg_scramble_1 g ++ sg_filler g :: sg_capabilities_lo g
    ++ sg_charset g :: sg_status g ++ sg_capabilities_hi g
    ++ sg_auth_data_len g :: sg_reserved g ++ sg_rest g.

(** The length of the scramble the greeting declares, and the number of
    bytes of its second part. *)
Definition declared_scramble_len (g : ServerGreeting) : Z :=
  if byte_val (sg_auth_data_len g) =? 0 then GW_MYSQL_SCRAMBLE_SIZE
  else byte_val (sg_auth_data_len g) - 1.

Definition greeting_wf (g : ServerGreeting) : Prop :=
  Forall (fun b => byte_val b <> 0) (sg_server_version g)
  /\ length (sg_thread_id g) = 4%nat
  /\ length (sg_scramble_1 g) = 8%nat
  /\ length (sg_capabilities_lo g) = 2%nat
  /\ length (sg_status g) = 2%nat
  /\ length (sg_capabilities_hi g) = 2%nat
  /\ length (sg_reserved g) = 10%nat
  /\ (declared_scramble_len g <= GW_MYSQL_SCRAMBLE_SIZE ->
      declared_scramble_len g - GW_SCRAMBLE_LENGTH_323
      <= Z.of_nat (length (sg_rest g))).

(** COM_CHANGE_USER payload:
    [0x11 | username NUL | u8 scramble_len | scramble | db NUL |
     u16 charset | plugin NUL | connect attributes]. *)
Definition change_user_payload (username scramble database : list byte)
    (charset : byte) (plugin attrs : list byte) : list byte :=
  x11 :: username ++ x00 :: byte_of_Z (Z.of_nat (length scramble))
      :: scramble ++ database ++ x00 :: charset :: x00
      :: plugin ++ x00 :: attrs.

(** An AuthSwitchRequest: [header | 0xFE | plugin name NUL | data]. *)
Definition auth_switch_request (header plugin data : list byte)
    : list byte :=
  header ++ xfe :: plugin ++ x00 :: data.

End Format.

(** ** Well-formed replies, for stating what the machine makes of them *)

Module Replies.
Import Wire Proto Machine Format.

Section WithVariables.
Context {Vars : Type}.
Variable set_variable : list byte -> list byte -> Vars -> Vars.

(** Applying a sequence of [set_variable] calls to the reply of a
    connection. *)
Definition apply_variables (kvs : list (list byte * list byte))
    (c : @Conn Vars) : @Conn Vars :=
  fold_left (fun c kv => reply_set_variable set_variable kv.1 kv.2 c) kvs c.

(** An OK packet the connection can take in: either no session-state
    extraction is due for it, or what follows its fixed fields is a
    well-formed session-track block. *)
Definition ok_tracked (c : @Conn Vars) (o : OkPacket) : Prop :=
  extraction_wanted (ok_status o) c = false
  \/ exists info es,
       ok_rest o = track_info info es
       /\ Z.of_nat (length info) < 2 ^ 24
       /\ Forall entry_wf es.

(** An OK packet (with its sequence byte) that announces more results,
    and one that does not. *)
Definition more_ok (c : @Conn Vars) (p : byte * OkPacket) : Prop :=
  ok_wf p.2
  /\ has_flag (ok_status p.2) SERVER_MORE_RESULTS_EXIST = true
  /\ ok_tracked c p.2.

Definition last_ok (c : @Conn Vars) (p : byte * OkPacket) : Prop :=
  ok_wf p.2
  /\ has_flag (ok_status p.2) SERVER_MORE_RESULTS_EXIST = false
  /\ ok_tracked c p.2.

End WithVariables.

Definition ok_stream (oks : list (byte * OkPacket))
    : list (byte * list byte) :=
  map (fun p => (p.1, ok_bytes p.2)) oks.

End Replies.

(** ** Concrete connections used to instantiate the properties *)

Module Sample.
Import Wire Proto Machine.

(** A variable store that records the [set_variable] calls in order. *)
Definition Log : Type := list (list byte * list byte).

Definition log_variable (k v : list byte) (l : Log) : Log := l ++ [(k, v)].

(** A connection whose reply has just been cleared for command [cmd], in
    reply state [st]; [track] tells whether session-state tracking is
    required and requested. *)
Definition conn_of (cmd : Z) (st : ReplyState) (track : bool) : @Conn Log :=
  mkConn (mkReply cmd st 0 0 [] false 0 0 None []) 0 0 false false false
    track false track.

End Sample.

(** ** A pooled connection and the packets of its reuse, for closed lemmas *)

Module ReuseSample.
Import Wire Proto Format Auth Reuse.

Section Data.
Import String.

(** The scramble of the server greeting and the one a later
    AuthSwitchRequest brings. *)
Definition scramble0 : list byte :=
  [x01; x02; x03; x04; x05; x06; x07; x08; x09; x0a; x0b; x0c; x0d; x0e; x0f; x10; x11; x12; x13; x14].

Definition scramble1 : list byte :=
  [x15; x16; x17; x18; x19; x1a; x1b; x1c; x1d; x1e; x1f; x20; x21; x22; x23; x24; x25; x26; x27; x28].

Definition secret : list byte := ascii_bytes "secret"%string.

(** SHA1("secret"), the password hash the client session caches. *)
Definition H1_secret : list byte :=
  [xe5; xe9; xfa; x1b; xa3; x1e; xcd; x1a; xe8; x4f; x75; xca; xaa; x47; x4f; x3a; x66; x3f; x05; xf4].

Definition session0 : MYSQL_session :=
  mkSession (ascii_bytes "bob"%string ++ [x00]) [x00] H1_secret x21 [].

(** An authenticated connection waiting in the pool. *)
Definition pooled : Backend :=
  mkBackend COMPLETE 0 None scramble0 false false session0 true true [] []
    false true 0 false false false.

(** The same connection after COM_CHANGE_USER went out for its reuse, and
    after a COM_CHANGE_USER of the client went out. *)
Definition waiting : Backend := set_ignore_replies 1 pooled.
Definition changing : Backend := set_changing_user true true pooled.


(** A client query ([SELECT 1]) as it reaches [write]. *)
Definition query0 : GWBUF :=
  mkBuf ([x09; x00; x00; x00; x03] ++ ascii_bytes "SELECT 1"%string) false.

(** A version 10 greeting whose auth-data length byte is 9: it declares a
    scramble of 8 bytes. *)
Definition greeting8 : ServerGreeting :=
  mkServerGreeting x0a (ascii_bytes "10.4.2"%string) [x07; x00; x00; x00]
    (take 8 scramble0) x00 [xff; xf7] x21 [x02; x00] [xff; x81] x09
    (replicate 10 x00) [].

Definition conn0 : Greeting := mkGreeting 0 0 (replicate 20 x00).

End Data.

End ReuseSample.

(** ** The calls made on a pooled connection, in sequence *)

Module Exchange.
Import Wire Proto Auth Reuse.



Section WithSHA1.
Variable SHA1 : list byte -> list byte.



End WithSHA1.

(** A read buffer whose last packet is an OK packet: the reply that ends
    a COM_CHANGE_USER exchange successfully. *)
Definition ends_with_ok (read_buffer : list (list byte)) : Prop :=
  exists reply,
    list.last read_buffer = Some reply
    /\ MYSQL_GET_COMMAND reply = Some MYSQL_REPLY_OK.

#[global] Instance ends_with_ok_dec (read_buffer : list (list byte)) :
  Decision (ends_with_ok read_buffer).
Proof.
  unfold ends_with_ok.
  destruct (list.last read_buffer) as [reply|].
  - destruct (decide (MYSQL_GET_COMMAND reply = Some MYSQL_REPLY_OK))
      as [Hok|Hno].
    + left. exists reply. split; [reflexivity|exact Hok].
    + right. intros (reply' & [= <-] & Hok). exact (Hno Hok).
  - right. intros (reply' & [=] & _).
Defined.

End Exchange.

(** ** Further constants of the protocol header

    [maxscale/protocol/mysql.h] is not among the sources at hand; the
    command bytes and sizes below are those of the MySQL client/server
    protocol that it declares. *)

Module Commands.

Definition MXS_COM_STMT_EXECUTE : Z := 0x17.
Definition MXS_COM_STMT_SEND_LONG_DATA : Z := 0x18.
Definition MXS_COM_STMT_CLOSE : Z := 0x19.
Definition MXS_COM_STMT_RESET : Z := 0x1a.
Definition MXS_COM_STMT_FETCH : Z := 0x1c.
Definition MXS_COM_STMT_BULK_EXECUTE : Z := 0xfa.

End Commands.

(** ** Result sets, for stating what the machine makes of them *)

Module Results.
Import Wire Proto Machine.

(** A packet [process_one_packet] counts as a row in [RSET_ROWS]: its
    first byte is not 0xFF and it is not a 0xFE packet of five bytes. *)
Definition is_row (p : list byte) : bool :=
  match p with
  | [] => false
  | b :: _ =>
      negb (byte_val b =? MYSQL_REPLY_ERR)
      && negb ((byte_val b =? MYSQL_REPLY_EOF)
               && (Z.of_nat (length p)
                   =? MYSQL_EOF_PACKET_LEN - MYSQL_HEADER_LEN))
  end.

(** The first byte of a packet that [process_result_start] takes for the
    start of a result set. *)
Definition starts_result (cmd : Z) : bool :=
  negb (cmd =? MYSQL_REPLY_OK) && negb (cmd =? MYSQL_REPLY_LOCAL_INFILE)
  && negb (cmd =? MYSQL_REPLY_ERR) && negb (cmd =? MYSQL_REPLY_EOF).

(** What the packets of a result set leave alone. *)
Definition steady {Vars : Type} (c c' : @Conn Vars) : Prop :=
  command (m_reply c') = command (m_reply c)
  /\ field_counts (m_reply c') = field_counts (m_reply c)
  /\ variables (m_reply c') = variables (m_reply c)
  /\ error (m_reply c') = error (m_reply c)
  /\ is_ok (m_reply c') = is_ok (m_reply c)
  /\ m_skip_next c' = m_skip_next c
  /\ m_opening_cursor c' = m_opening_cursor c
  /\ load_active c' = load_active c.

(** ERR packet: [0xFF | u16 code | marker | 5 bytes SQL state | message]. *)
Definition err_payload (code : Z) (marker : byte)
    (sql_state message : list byte) : list byte :=
  xff :: le_bytes 2 code ++ marker :: sql_state ++ message.

(** What processing packets never undoes in a reply, and what it never
    touches in the connection. *)
Definition never_undone {Vars : Type} (c c' : @Conn Vars) : Prop :=
  rows (m_reply c) <= rows (m_reply c')
  /\ field_counts (m_reply c) `prefix_of` field_counts (m_reply c')
  /\ (is_ok (m_reply c) = true -> is_ok (m_reply c') = true)
  /\ (load_active c = true -> load_active c' = true)
  /\ (is_Some (error (m_reply c)) -> is_Some (error (m_reply c')))
  /\ command (m_reply c') = command (m_reply c)
  /\ m_changing_user c' = m_changing_user c
  /\ m_track_state c' = m_track_state c
  /\ session_track_required c' = session_track_required c.

End Results.

(** ** Sequences of writes *)

Module Traffic.
Import Wire Proto Auth Reuse.
Section WithSHA1.
Variable SHA1 : list byte -> list byte.
(** The buffers the router hands to [write], one call after the other; a
    call that fails (returns 0) does not stop the next one. *)
Fixpoint write_all (queues : list GWBUF) (b : Backend) : option Backend :=
  match queues with
  | [] => Some b
  | q :: queues' => '(_, b') ← write SHA1 q b; write_all queues' b'
  end.

(** The same calls, with what each of them returned. *)
Fixpoint write_each (queues : list GWBUF) (b : Backend)
    : option (list Z * Backend) :=
  match queues with
  | [] => Some ([], b)
  | q :: queues' =>
      '(rv, b') ← write SHA1 q b;
      '(rvs, b'') ← write_each queues' b';
      Some (rv :: rvs, b'')
  end.
End WithSHA1.
End Traffic.

(** ** Routines of the protocol's common part and of the delay queue *)

Module Common.
Import Wire Proto Auth Reuse.

(** [COM_QUIT_PACKET_SIZE]: header and command byte. *)
Definition COM_QUIT_PACKET_SIZE : nat := 5.

(** [mysql_create_com_quit]: the five bytes are stored one after the
    other into the buffer given, or into a new buffer of
    [COM_QUIT_PACKET_SIZE] bytes. *)
Definition mysql_create_com_quit (bufparam : option (list byte))
    (packet_number : Z) : option (list byte) :=
  let buf :=
    match bufparam with
    | None => replicate COM_QUIT_PACKET_SIZE x00
    | Some buf => buf
    end in
  buf ← memcpy_at 0 [x01] buf;
  buf ← memcpy_at 1 [x00] buf;
  buf ← memcpy_at 2 [x00] buf;
  buf ← memcpy_at 3 [byte_of_Z packet_number] buf;
  memcpy_at 4 [x01] buf.

(** [MYSQL_IS_CHANGE_USER] *)
Definition MYSQL_IS_CHANGE_USER (data : list byte) : option bool :=
  cmd ← MYSQL_GET_COMMAND data; Some (cmd =? MXS_COM_CHANGE_USER).

Section WithSHA1.
Variable SHA1 : list byte -> list byte.

(** [backend_write_delayqueue]: the value returned and the connection;
    on 0 the error is reported upstream ([do_handle_error]), which leaves
    the connection as it is. *)
Definition backend_write_delayqueue (buffer : list byte) (b : Backend)
    : option (Z * Backend) :=
  change_user ← MYSQL_IS_CHANGE_USER buffer;
  buffer ←
    (if change_user : bool
     then gw_create_change_user_packet SHA1 (m_client_data b) (m_scramble b)
     else Some buffer);
  quit ← MYSQL_IS_COM_QUIT buffer;
  if (quit : bool) && persistent_conns_enabled b then Some (1, b)
  else
    let '(ok, b) := writeq_append buffer b in
    Some (if ok then 1 else 0, b).

(** [mysql_send_com_quit]: [dcb->protocol_write] of a backend DCB is
    [write]. *)
Definition mysql_send_com_quit (packet_number : Z)
    (bufparam : option GWBUF) (b : Backend) : option (Z * Backend) :=
  buf ←
    match bufparam with
    | Some buf => Some buf
    | None =>
        data ← mysql_create_com_quit None packet_number;
        Some (mkBuf data false)
    end;
  write SHA1 buf b.

End WithSHA1.
End Common.

(** ** Further packets for the closed lemmas on connection reuse *)

Module TrafficSample.
Import Wire Proto Format Auth Reuse ReuseSample Results.

Section Data.
Import String.

(** An OK packet and an ERR packet with error 1129 as replies of the
    server. *)
Definition ok_reply0 : list byte := frame x01 (ok_bytes (mkOk 0 0 2 0 [])).

Definition blocked_reply0 : list byte :=
  frame x01
    (err_payload 1129 x23 (ascii_bytes "HY000"%string)
       (ascii_bytes "Host is blocked"%string)).

(** An AuthSwitchRequest that names another plugin. *)
Definition other_plugin_request0 : list byte :=
  auth_switch_request [x2c; x00; x00; x01]
    (ascii_bytes "caching_sha2_password"%string) (scramble1 ++ [x00]).

(** The connection before its authentication is complete. *)
Definition connecting : Backend :=
  mkBackend RESPONSE_SENT 0 None scramble0 false false session0 true true
    [] [] false true 0 false false false.

(** A second query, the COM_CHANGE_USER packet of a client and an
    ignorable COM_PING. *)
Definition query1 : GWBUF :=
  mkBuf ([x09; x00; x00; x00; x03] ++ ascii_bytes "SELECT 2"%string) false.

Definition change_user0 : GWBUF :=
  mkBuf ([x05; x00; x00; x00; x11] ++ ascii_bytes "bob"%string ++ [x00])
    false.

Definition ping0 : GWBUF := mkBuf [x01; x00; x00; x00; x0e] true.

End Data.

End TrafficSample.

(** ** Further data for the closed lemmas on authentication *)

Module AuthSample.
Import Wire Proto Format Auth ReuseSample.

Section Data.
Import String.

(** A version 10 greeting whose auth-data length byte is 21: it declares
    the full scramble of 20 bytes, the last 12 of them before the NUL and
    the plugin name. *)
Definition greeting21 : ServerGreeting :=
  mkServerGreeting x0a (ascii_bytes "10.4.2"%string) [x07; x00; x00; x00]
    (take 8 scramble0) x00 [xff; xf7] x21 [x02; x00] [xff; x81] x15
    (replicate 10 x00)
    (drop 8 scramble0 ++ x00 :: DEFAULT_MYSQL_AUTH_PLUGIN ++ [x00]).

(** A greeting of protocol version 9. *)
Definition greeting_v9 : ServerGreeting :=
  mkServerGreeting x09 (ascii_bytes "3.20"%string) [x07; x00; x00; x00]
    (take 8 scramble0) x00 [xff; xf7] x21 [x02; x00] [xff; x81] x15
    (replicate 10 x00) (drop 8 scramble0 ++ [x00]).

(** A session without a password: user [bob], database [test]. *)
Definition session_nopw : MYSQL_session :=
  mkSession (ascii_bytes "bob"%string ++ [x00])
    (ascii_bytes "test"%string ++ [x00]) [] x21 [].

End Data.

End AuthSample.

(** ** Tracking the commands sent to the server *)

Module Tracking.
Import Wire Proto Machine Commands.

(** [MYSQL_PS_ID_OFFSET], [MYSQL_PS_ID_SIZE] and [MYSQL_PACKET_LENGTH_MAX]
    come from the protocol header, which is not among the sources at
    hand: the statement id of a COM_STMT_EXECUTE follows the command byte
    and takes four bytes; the largest payload is 0xFFFFFF bytes long. *)
Definition MYSQL_PS_ID_OFFSET : Z := MYSQL_HEADER_LEN + 1.
Definition MYSQL_PS_ID_SIZE : Z := 4.
Definition MYSQL_PACKET_LENGTH_MAX : Z := 0x00ffffff.

Definition mxs_mysql_command_will_respond (cmd : Z) : bool :=
  negb (cmd =? MXS_COM_STMT_SEND_LONG_DATA)
  && negb (cmd =? MXS_COM_QUIT)
  && negb (cmd =? MXS_COM_STMT_CLOSE).

Section WithVariables.
Context {Vars : Type}.

(** [Reply::clear] is declared outside the sources at hand; what it
    leaves in a reply is a parameter. *)
Variable clear : @Reply Vars -> @Reply Vars.

Definition set_command (cmd : Z) (r : @Reply Vars) : @Reply Vars :=
  mkReply cmd (state r) (rows r) (num_warnings r) (field_counts r)
    (is_ok r) (generated_id r) (param_count r) (error r) (variables r).

(** The connection as [track_query] sees it: the members the reply
    machine uses and [m_large_query]. *)
Record Tracked := mkTracked {
  conn : @Conn Vars;
  m_large_query : bool
}.

(** [track_query], on a contiguous buffer. *)
Definition track_query (data : list byte) (t : Tracked) : option Tracked :=
  let c := conn t in
  if m_changing_user c then Some t
  else
    len ← Reuse.MYSQL_GET_PAYLOAD_LEN data;
    c ← (if load_active c then
           Some (if len =? 0
                 then set_reply_state START (session_set_load_active false c)
                 else c)
         else if negb (m_large_query t) then
           cmd ← Reuse.MYSQL_GET_COMMAND data;
           let c := with_reply (fun r => set_command cmd (clear r)) c in
           let c := if mxs_mysql_command_will_respond cmd
                    then set_reply_state START c else c in
           if cmd =? MXS_COM_STMT_EXECUTE then
             flags ← Reuse.byte_at
                        (Z.to_nat (MYSQL_PS_ID_OFFSET + MYSQL_PS_ID_SIZE))
                        data;
             Some (set_opening_cursor (negb (flags =? 0)) c)
           else if cmd =? MXS_COM_STMT_FETCH then
             Some (set_reply_state RSET_ROWS c)
           else Some c
         else Some c);
    Some (mkTracked c (len =? MYSQL_PACKET_LENGTH_MAX)).

(** The connection [track_query] leaves for a new command other than
    COM_STMT_EXECUTE. *)
Definition tracked_command (cmd : Z) (c : @Conn Vars) : @Conn Vars :=
  let c := with_reply (fun r => set_command cmd (clear r)) c in
  let c := if mxs_mysql_command_will_respond cmd
           then set_reply_state START c else c in
  if cmd =? MXS_COM_STMT_FETCH then set_reply_state RSET_ROWS c else c.

(** A packet of the client that carries data: its header announces a
    payload that is not empty. *)
Definition carries_data (data : list byte) : bool :=
  match Reuse.MYSQL_GET_PAYLOAD_LEN data with
  | Some len => negb (len =? 0)
  | None => false
  end.

(** The buffers of the client tracked one after the other. *)
Fixpoint track_all (buffers : list (list byte)) (t : Tracked)
    : option Tracked :=
  match buffers with
  | [] => Some t
  | data :: rest => t' ← track_query data t; track_all rest t'
  end.

End WithVariables.

End Tracking.

(** ** Data for the closed lemmas on tracked commands *)

Module TrackingSample.
Import Wire Proto Machine Commands Tracking Sample.

Section Data.
Import String.

(** A stand-in for [Reply::clear] in the closed lemmas: it resets every
    field. *)
Definition clear0 (r : @Reply Log) : @Reply Log :=
  mkReply 0 DONE 0 0 [] false 0 0 None [].

(** An idle connection. *)
Definition idle : @Tracked Log :=
  mkTracked (conn_of MXS_COM_QUERY DONE false) false.

Definition load_query : list byte :=
  [x1e; x00; x00; x00; x03]
    ++ ascii_bytes "LOAD DATA LOCAL INFILE 'f' .."%string.

(** COM_STMT_EXECUTE of statement 1 with a cursor (flag byte 1) and
    COM_STMT_FETCH of five rows of it. *)
Definition execute_cursor : list byte :=
  [x0a; x00; x00; x00; x17; x01; x00; x00; x00; x01; x01; x00; x00; x00].

Definition fetch_rows : list byte :=
  [x09; x00; x00; x00; x1c; x01; x00; x00; x00; x05; x00; x00; x00].

End Data.

End TrackingSample.

(** ** The response to the server greeting *)

Module Connect.
Import Wire Proto Auth.

(** The capability bits and [MYSQL_AUTH_PACKET_BASE_SIZE] come from the
    protocol header, which is not among the sources at hand; the values
    are those of the MySQL client/server protocol. *)
Definition GW_MYSQL_CAPABILITIES_CONNECT_WITH_DB : Z := 2 ^ 3.
Definition GW_MYSQL_CAPABILITIES_SSL : Z := 2 ^ 11.
Definition GW_MYSQL_CAPABILITIES_MULTI_STATEMENTS : Z := 2 ^ 16.
Definition GW_MYSQL_CAPABILITIES_PLUGIN_AUTH : Z := 2 ^ 19.
Definition GW_MYSQL_CAPABILITIES_CONNECT_ATTRS : Z := 2 ^ 20.
Definition GW_MYSQL_CAPABILITIES_SESSION_TRACK : Z := 2 ^ 23.
Definition MYSQL_AUTH_PACKET_BASE_SIZE : nat := 36.

(** The client session with the two capability words its methods
    [client_capabilities()] and [extra_capabilitites()] return.  The
    strings of the session are kept as C strings; [length()] of one is
    the number of its characters. *)
Record Client := mkClient {
  session : MYSQL_session;
  client_capabilities : Z;       (* uint32_t *)
  extra_capabilities : Z         (* uint32_t *)
}.

(** [client->db[0]] *)
Definition db_specified (mses : MYSQL_session) : bool :=
  match db mses with
  | b :: _ => negb (byte_val b =? 0)
  | [] => false
  end.

(** [response_length]; a null pointer is [None]. *)
Definition response_length (with_ssl ssl_established : bool)
    (user passwd dbname : option (list byte)) (auth_module : list byte)
    : nat :=
  if with_ssl && negb ssl_established then MYSQL_AUTH_PACKET_BASE_SIZE
  else
    let bytes := 32%nat in
    let bytes :=
      match user with
      | Some u => (bytes + strlen u)%nat
      | None => bytes
      end in
    let bytes := S bytes in
    let bytes :=
      match passwd with
      | Some _ => (bytes + Z.to_nat GW_MYSQL_SCRAMBLE_SIZE)%nat
      | None => bytes
      end in
    let bytes := S bytes in
    let bytes :=
      match dbname with
      | Some d =>
          if (0 <? strlen d)%nat then S (bytes + strlen d) else bytes
      | None => bytes
      end in
    let bytes := (bytes + strlen auth_module)%nat in
    let bytes := S bytes in
    (bytes + 4)%nat.

Section WithSHA1.
Variable SHA1 : list byte -> list byte.

(** [GW_MYSQL_CAPABILITIES_CLIENT], the mask of the capabilities passed
    on from the client, is declared in the protocol header. *)
Variable GW_MYSQL_CAPABILITIES_CLIENT : Z.

(** [create_capabilities]; [session_track] is
    [rcap_type_required(capabilities, RCAP_TYPE_SESSION_STATE_TRACKING)]. *)
Definition create_capabilities (client : Client)
    (with_ssl db_specified session_track : bool) : Z :=
  let final_capabilities :=
    Z.land (client_capabilities client mod 2 ^ 32)
      (GW_MYSQL_CAPABILITIES_CLIENT mod 2 ^ 32) in
  let final_capabilities :=
    if with_ssl
    then Z.lor final_capabilities GW_MYSQL_CAPABILITIES_SSL
    else final_capabilities in
  let final_capabilities :=
    if session_track
    then Z.lor final_capabilities GW_MYSQL_CAPABILITIES_SESSION_TRACK
    else final_capabilities in
  let final_capabilities :=
    Z.lor final_capabilities GW_MYSQL_CAPABILITIES_MULTI_STATEMENTS in
  let final_capabilities :=
    if db_specified
    then Z.lor final_capabilities GW_MYSQL_CAPABILITIES_CONNECT_WITH_DB
    else Z.land final_capabilities
           (Z.lnot GW_MYSQL_CAPABILITIES_CONNECT_WITH_DB) in
  Z.lor final_capabilities GW_MYSQL_CAPABILITIES_PLUGIN_AUTH.

(** [load_hashed_password]: the buffer written and the position after
    the password. *)
Definition load_hashed_password (scramble : list byte) (payload : nat)
    (passwd buffer : list byte) : option (list byte * nat) :=
  buffer ← memcpy_at payload [byte_of_Z GW_MYSQL_SCRAMBLE_SIZE] buffer;
  let payload := S payload in
  hash ← mxs_mysql_calculate_hash SHA1 scramble passwd;
  buffer ← memcpy_at payload hash buffer;
  Some (buffer, (payload + Z.to_nat GW_MYSQL_SCRAMBLE_SIZE)%nat).

(** [gw_generate_auth_response] for a connection with the given server
    capabilities and scramble.  [extra_capabilities] is copied as the
    host stores it, little-endian here. *)
Definition gw_generate_auth_response (client : Client)
    (server_capabilities : Z) (scramble : list byte)
    (with_ssl ssl_established session_track : bool) : option (list byte) :=
  let mses := session client in
  let curr_passwd :=
    match auth_token_phase2 mses with
    | [] => None
    | token => Some token
    end in
  let capabilities :=
    create_capabilities client with_ssl (db_specified mses) session_track in
  let auth_plugin_name := DEFAULT_MYSQL_AUTH_PLUGIN in
  let username := c_str (user mses) in
  let bytes :=
    response_length with_ssl ssl_established (Some (user mses)) curr_passwd
      (Some (db mses)) auth_plugin_name in
  let attrs :=
    negb (Z.land (Z.land capabilities server_capabilities)
            GW_MYSQL_CAPABILITIES_CONNECT_ATTRS =? 0) in
  let bytes :=
    if attrs then (bytes + length (connect_attrs mses))%nat else bytes in
  let buffer := replicate bytes x00 in
  buffer ← memcpy_at 0 (le_bytes 3 (Z.of_nat bytes - 4)) buffer;
  buffer ← memcpy_at 3 [if ssl_established then x02 else x01] buffer;
  let payload := 4%nat in
  buffer ← memcpy_at payload (le_bytes 4 capabilities) buffer;
  let payload := (payload + 4)%nat in
  buffer ← memcpy_at payload (le_bytes 4 16777216) buffer;
  let payload := (payload + 4)%nat in
  buffer ← memcpy_at payload [client_charset mses] buffer;
  let payload := S payload in
  let payload := (payload + 19)%nat in
  buffer ←
    memcpy_at payload (le_bytes 4 (extra_capabilities client)) buffer;
  let payload := (payload + 4)%nat in
  if negb with_ssl || ssl_established then
    buffer ← memcpy_at payload username buffer;
    let payload := (payload + length username)%nat in
    let payload := S payload in
    '(buffer, payload) ←
      match curr_passwd with
      | Some passwd => load_hashed_password scramble payload passwd buffer
      | None => Some (buffer, S payload)
      end;
    '(buffer, payload) ←
      (if db_specified mses then
         buffer ← memcpy_at payload (c_str (db mses)) buffer;
         Some (buffer, S (payload + length (c_str (db mses))))
       else Some (buffer, payload));
    buffer ← memcpy_at payload auth_plugin_name buffer;
    if attrs && (0 <? length (connect_attrs mses))%nat then
      let payload := (payload + (length auth_plugin_name + 1))%nat in
      memcpy_at payload (connect_attrs mses) buffer
    else Some buffer
  else Some buffer.

End WithSHA1.

(** The payload of a HandshakeResponse:
    [u32 capabilities | u32 max packet size | charset | 19 zero bytes |
     u32 extra capabilities | user NUL | password | database | plugin NUL |
     connect attributes]. *)
Definition handshake_response_payload (capabilities extra : Z)
    (charset : byte) (username password database plugin attrs : list byte)
    : list byte :=
  le_bytes 4 capabilities ++ le_bytes 4 16777216
    ++ charset :: replicate 19 x00 ++ le_bytes 4 extra
    ++ username ++ x00 :: password ++ database ++ plugin ++ x00 :: attrs.

End Connect.

(** ** Data for the closed lemmas on the handshake response *)

Module ConnectSample.
Import Wire Proto Auth Connect ReuseSample AuthSample.

(** A mask of known capabilities, and the clients of the two sample
    sessions with the capabilities they announced. *)
Definition mask0 : Z := 0x01bfa6ef.

Definition client0 : Client := mkClient session0 0x20a2a68d 0.

Definition client_nopw : Client := mkClient session_nopw 0x20a2a68d 4.

End ConnectSample.

(** ** Reading while the connection authenticates *)

Module Connecting.
Import Wire Proto Auth Reuse Connect Common.

(** The states of [DCB::SSLState] the code tells apart, and the results
    of [BackendAuthenticator::authenticate]. *)
Inductive SSLState := ESTABLISHED | HANDSHAKE_FAILED | HANDSHAKE_OTHER.

#[global] Instance SSLState_eq_dec : EqDecision SSLState.
Proof. solve_decision. Defined.

Inductive AuthRes := SUCCESS | INCOMPLETE | AUTH_FAIL.

(** What [ready_for_reading] asks of the DCB, the session, the service
    and the authenticator.  Modelled from the spec: these are declared
    outside the sources at hand.  The authenticator is taken by its
    results: whether [extract] accepts a buffer, what [authenticate]
    returns and the buffers it appends to the write queue meanwhile. *)
Record Env := mkEnv {
  session_usable : bool;
    (* dcb->session() is not null, in state CREATED or STARTED *)
  ssl_context : bool;           (* dcb->server()->ssl().context() *)
  ssl_state : SSLState;         (* dcb->ssl_state() *)
  ssl_handshake_ok : bool;      (* dcb->ssl_handshake() >= 0 *)
  session_track : bool;
    (* rcap_type_required(capabilities, RCAP_TYPE_SESSION_STATE_TRACKING) *)
  extract : list byte -> bool;
  authenticate : AuthRes;
  authenticate_writes : list (list byte);
  delayq_ignorable : bool
    (* gwbuf_is_ignorable of the buffer delayq_release returns *)
}.

(** What reading from the DCB comes back with: an error, no complete
    packet, or the complete packets read (at least one). *)
Inductive ReadResult :=
  | ReadFailed
  | NoPacket
  | Packets (packets : list (list byte)).

(** The connection while it authenticates: the members of the reuse
    model, what the greeting leaves besides the scramble, the capability
    words of the client session, and the number of errors handed
    upstream by [do_handle_error]. *)
Record Connection := mkConnection {
  backend : Backend;
  m_thread_id : Z;
  server_capabilities : Z;
  client_capabilities : Z;
  extra_capabilities : Z;
  handled_errors : nat
}.

Definition with_backend (b : Backend) (c : Connection) : Connection :=
  mkConnection b (m_thread_id c) (server_capabilities c)
    (client_capabilities c) (extra_capabilities c) (handled_errors c).

Definition set_auth_state (s : AuthState) (c : Connection) : Connection :=
  let b := backend c in
  with_backend
    (mkBackend s (m_ignore_replies b) (m_stored_query b)
       (Reuse.m_scramble b) (m_changing_user b) (client_changing_user b)
       (m_client_data b) (dcb_polling b) (dcb_write_ok b) (dcb_writeq b)
       (dcb_delayq b) (dcb_hangup b) (persistent_conns_enabled b)
       (reply_command b) (load_active b) (m_large_query b)
       (server_maintenance b)) c.

(** [do_handle_error]: the error it builds goes upstream. *)
Definition do_handle_error (c : Connection) : Connection :=
  mkConnection (backend c) (m_thread_id c) (server_capabilities c)
    (client_capabilities c) (extra_capabilities c) (S (handled_errors c)).

Definition set_delayq (q : list (list byte)) (b : Backend) : Backend :=
  mkBackend (m_auth_state b) (m_ignore_replies b) (m_stored_query b)
    (Reuse.m_scramble b) (m_changing_user b) (client_changing_user b)
    (m_client_data b) (dcb_polling b) (dcb_write_ok b) (dcb_writeq b)
    q (dcb_hangup b) (persistent_conns_enabled b)
    (reply_command b) (load_active b) (m_large_query b)
    (server_maintenance b).

(** [dcb->delayq_release()] *)
Definition delayq_release (b : Backend) : list (list byte) * Backend :=
  (dcb_delayq b, set_delayq [] b).

(** [is_error_response] *)
Definition is_error_response (buffer : list byte) : bool :=
  match take 1 (drop (Z.to_nat MYSQL_HEADER_LEN) buffer) with
  | cmd :: _ => byte_val cmd =? MYSQL_REPLY_ERR
  | [] => false
  end.

(** [handle_server_response] *)
Definition handle_server_response (env : Env) (buffer : list byte)
    (c : Connection) : AuthState * Connection :=
  let rval :=
    if bool_decide (m_auth_state (backend c) = CONNECTED)
    then FAIL_HANDSHAKE else FAIL in
  if extract env buffer then
    let b := backend c in
    let c :=
      with_backend
        (set_writeq (dcb_writeq b ++ authenticate_writes env) b) c in
    match authenticate env with
    | INCOMPLETE => (RESPONSE_SENT, c)
    | SUCCESS => (COMPLETE, c)
    | AUTH_FAIL => (rval, c)
    end
  else (rval, c).

Section WithSHA1.
Variable SHA1 : list byte -> list byte.
Variable GW_MYSQL_CAPABILITIES_CLIENT : Z.

(** [gw_send_backend_auth] *)
Definition gw_send_backend_auth (env : Env) (c : Connection)
    : option (AuthState * Connection) :=
  if negb (session_usable env)
     || (ssl_context env
         && bool_decide (ssl_state env = HANDSHAKE_FAILED))
  then Some (FAIL, c)
  else
    let with_ssl := ssl_context env in
    let ssl_established := bool_decide (ssl_state env = ESTABLISHED) in
    buffer ←
      gw_generate_auth_response SHA1 GW_MYSQL_CAPABILITIES_CLIENT
        (mkClient (m_client_data (backend c)) (client_capabilities c)
           (extra_capabilities c))
        (server_capabilities c) (Reuse.m_scramble (backend c))
        with_ssl ssl_established (session_track env);
    let '(ok, b) := writeq_append buffer (backend c) in
    let c := with_backend b c in
    if with_ssl && negb ssl_established then
      Some (if ok && ssl_handshake_ok env then CONNECTED else FAIL, c)
    else Some (if ok then RESPONSE_SENT else FAIL, c).

(** [gw_read_backend_handshake] *)
Definition gw_read_backend_handshake (buffer : list byte) (c : Connection)
    : option (bool * Connection) :=
  payload ← ptr_add 4 buffer;
  '(rc, g) ←
    gw_decode_mysql_server_handshake payload
      (mkGreeting (m_thread_id c) (server_capabilities c)
         (Reuse.m_scramble (backend c)));
  Some (0 <=? rc,
        mkConnection (set_scramble (Auth.m_scramble g) (backend c))
          (Auth.m_thread_id g) (Auth.server_capabilities g)
          (client_capabilities c) (extra_capabilities c)
          (handled_errors c)).

(** [ready_for_reading].  In state [COMPLETE] it is [gw_read_and_write],
    which reports a failed read upstream and returns when nothing was
    read; otherwise the packets read are made contiguous. *)
Definition ready_for_reading (env : Env) (input : ReadResult)
    (c : Connection) : option Connection :=
  if bool_decide (m_auth_state (backend c) = COMPLETE) then
    match input with
    | ReadFailed => Some (do_handle_error c)
    | NoPacket => Some c
    | Packets packets =>
        '(_, b) ← gw_read_and_write SHA1 packets (backend c);
        Some (with_backend b c)
    end
  else
    match input with
    | ReadFailed => Some (do_handle_error (set_auth_state FAIL c))
    | Packets packets =>
        let readbuf := concat packets in
        c ←
          (if is_error_response readbuf then
             let c := set_auth_state FAIL c in
             b ← handle_error_response readbuf (backend c);
             Some (with_backend b c)
           else Some c);
        c ←
          match m_auth_state (backend c) with
          | CONNECTED =>
              '(ok, c) ← gw_read_backend_handshake readbuf c;
              if ok : bool then
                '(s, c) ← gw_send_backend_auth env c;
                Some (set_auth_state s c)
              else Some (set_auth_state FAIL c)
          | RESPONSE_SENT =>
              let '(s, c) := handle_server_response env readbuf c in
              Some (set_auth_state s c)
          | _ => Some c
          end;
        match m_auth_state (backend c) with
        | COMPLETE =>
            let '(localq, b) := delayq_release (backend c) in
            let c := with_backend b c in
            match localq with
            | [] => Some c
            | _ :: _ =>
                let localq :=
                  mkBuf (concat localq) (delayq_ignorable env) in
                b ← prepare_for_write localq (backend c);
                '(rc, b) ←
                  backend_write_delayqueue SHA1 (buf_data localq) b;
                let c := with_backend b c in
                Some (if rc =? 0 then do_handle_error c else c)
            end
        | FAIL | FAIL_HANDSHAKE => Some (do_handle_error c)
        | _ => Some c
        end
    | NoPacket =>
        if bool_decide (m_auth_state (backend c) = CONNECTED)
           && bool_decide (ssl_state env = ESTABLISHED)
        then
          '(s, c) ← gw_send_backend_auth env c;
          Some (set_auth_state s c)
        else Some c
    end.

End WithSHA1.

End Connecting.

(** ** Data for the closed lemmas on the authentication *)

Module ConnectingSample.
Import Wire Proto Format Auth Reuse Connect Connecting ReuseSample
  AuthSample TrafficSample ConnectSample.

(** A service without SSL whose authenticator accepts the reply of the
    server and writes nothing. *)
Definition env0 : Env :=
  mkEnv true false HANDSHAKE_OTHER true false (fun _ => true) SUCCESS []
    false.

(** A connection that has just been opened for the sample session, and
    the same after its response to the greeting went out. *)
Definition opened : Connection :=
  mkConnection
    (mkBackend CONNECTED 0 None (replicate 20 x00) false false session0
       true true [] [] false true 0 false false false)
    0 0 0x20a2a68d 0 0.

Definition answered : Connection :=
  mkConnection connecting 7 0x81fff7ff 0x20a2a68d 0 0.

(** The greeting of the examples as the packet read from the server. *)
Definition greeting_packet : list byte :=
  [x4a; x00; x00; x00] ++ greeting_bytes greeting21.

End ConnectingSample.

(** * Properties *)

(** ** Bytes and length-encoded integers *)

Module WireFacts.
Import Wire Format.

Lemma byte_val_range (b : byte) : 0 <= byte_val b < 256.
Proof.
  unfold byte_val. pose proof (Byte.to_N_bounded b). lia.
Qed.

Lemma byte_val_of_Z (z : Z) : byte_val (byte_of_Z z) = z mod 256.
Proof.
  unfold byte_of_Z, byte_val.
  assert (Hz : 0 <= z mod 256 < 256) by (apply Z.mod_pos_bound; lia).
  destruct (Byte.of_N (Z.to_N (z mod 256))) as [b|] eqn:Hb; simpl.
  - apply Byte.to_of_N in Hb. rewrite Hb. lia.
  - apply Byte.of_N_None_iff in Hb. lia.
Qed.

Lemma byte_of_Z_val (b : byte) : byte_of_Z (byte_val b) = b.
Proof.
  unfold byte_of_Z, byte_val.
  pose proof (Byte.to_N_bounded b).
  rewrite Z.mod_small by lia.
  rewrite N2Z.id, Byte.of_to_N. reflexivity.
Qed.

Lemma byte_val_inj (a b : byte) : byte_val a = byte_val b -> a = b.
Proof.
  intros H. rewrite <- (byte_of_Z_val a), <- (byte_of_Z_val b).
  now rewrite H.
Qed.

(** A shifted value occupies bits the low part does not use, so [Z.lor]
    adds. *)
Lemma lor_shiftl_add (a b n : Z) :
  0 <= n -> 0 <= a < 2 ^ n -> Z.lor a (b ≪ n) = a + b * 2 ^ n.
Proof.
  intros Hn Ha.
  rewrite Z.shiftl_mul_pow2 by lia.
  rewrite <- Z.lxor_lor, <- Z.add_nocarry_lxor; try reflexivity.
  all: apply Z.bits_inj'; intros i Hi; rewrite Z.land_spec, Z.bits_0.
  all: destruct (Z.lt_ge_cases i n) as [Hlt|Hge].
  all: try (rewrite (Z.mul_pow2_bits_low b n i) by lia;
            apply andb_false_r).
  all: rewrite <- (Z.mod_small a (2 ^ n)) by lia.
  all: rewrite Z.mod_pow2_bits_high by lia; reflexivity.
Qed.

Lemma le_value_range (bs : list byte) :
  0 <= le_value bs < 256 ^ Z.of_nat (length bs).
Proof.
  induction bs as [|b bs IH]; simpl le_value; simpl length.
  - simpl. lia.
  - pose proof (byte_val_range b).
    rewrite Nat2Z.inj_succ, Z.pow_succ_r by lia. lia.
Qed.

Lemma advance_app (n : nat) (pre it : Iter) :
  length pre = n -> advance (Z.of_nat n) (pre ++ it) = Some it.
Proof.
  intros <-. unfold advance.
  rewrite bool_decide_eq_true_2 by (rewrite length_app; lia).
  rewrite Nat2Z.id, drop_app_length. reflexivity.
Qed.

Lemma advance_Some (n : Z) (it it' : Iter) :
  advance n it = Some it' ->
  0 <= n <= Z.of_nat (length it) /\ it' = drop (Z.to_nat n) it.
Proof.
  unfold advance. case_bool_decide; intros [= <-]; auto.
Qed.

Lemma lor2 (b0 b1 : byte) :
  Z.lor (byte_val b0) (byte_val b1 ≪ 8) = le_value [b0; b1].
Proof.
  pose proof (byte_val_range b0). pose proof (byte_val_range b1).
  simpl le_value. rewrite lor_shiftl_add by lia. lia.
Qed.

Lemma lor3 (b0 b1 b2 : byte) :
  Z.lor (Z.lor (byte_val b0) (byte_val b1 ≪ 8)) (byte_val b2 ≪ 16)
  = le_value [b0; b1; b2].
Proof.
  pose proof (byte_val_range b0). pose proof (byte_val_range b1).
  pose proof (byte_val_range b2).
  simpl le_value. rewrite !lor_shiftl_add by (rewrite ?lor_shiftl_add; lia). lia.
Qed.

Lemma lor8 (b0 b1 b2 b3 b4 b5 b6 b7 : byte) :
  Z.lor (Z.lor (Z.lor (Z.lor (Z.lor (Z.lor (Z.lor
    (byte_val b0) (byte_val b1 ≪ 8)) (byte_val b2 ≪ 16))
    (byte_val b3 ≪ 24)) (byte_val b4 ≪ 32)) (byte_val b5 ≪ 40))
    (byte_val b6 ≪ 48)) (byte_val b7 ≪ 56)
  = le_value [b0; b1; b2; b3; b4; b5; b6; b7].
Proof.
  pose proof (byte_val_range b0). pose proof (byte_val_range b1).
  pose proof (byte_val_range b2). pose proof (byte_val_range b3).
  pose proof (byte_val_range b4). pose proof (byte_val_range b5).
  pose proof (byte_val_range b6). pose proof (byte_val_range b7).
  simpl le_value.
  rewrite (lor_shiftl_add _ _ 8) by lia.
  rewrite (lor_shiftl_add _ _ 16) by lia.
  rewrite (lor_shiftl_add _ _ 24) by lia.
  rewrite (lor_shiftl_add _ _ 32) by lia.
  rewrite (lor_shiftl_add _ _ 40) by lia.
  rewrite (lor_shiftl_add _ _ 48) by lia.
  rewrite (lor_shiftl_add _ _ 56) by lia.
  lia.
Qed.

Lemma le_value_le_bytes (k : nat) (n : Z) :
  0 <= n < 256 ^ Z.of_nat k -> le_value (le_bytes k n) = n.
Proof.
  revert n. induction k as [|k IH]; intros n Hn.
  - simpl in *. lia.
  - cbn [le_bytes le_value]. rewrite byte_val_of_Z.
    rewrite Nat2Z.inj_succ, Z.pow_succ_r in Hn by lia.
    rewrite IH.
    + pose proof (Z.div_mod n 256). lia.
    + split; [apply Z.div_pos; lia|].
      apply Z.div_lt_upper_bound; lia.
Qed.

Lemma length_le_bytes (k : nat) (n : Z) : length (le_bytes k n) = k.
Proof. revert n. induction k; intros; simpl; auto. Qed.


Lemma u16_add (b0 b1 : byte) :
  (byte_val b0 + byte_val b1 ≪ 8) `mod` 2 ^ 16 = le_value [b0; b1].
Proof.
  pose proof (byte_val_range b0). pose proof (byte_val_range b1).
  rewrite Z.shiftl_mul_pow2 by lia. simpl le_value.
  rewrite Z.mod_small; lia.
Qed.

Lemma u16_lor (b0 b1 : byte) :
  Z.lor (byte_val b0) (byte_val b1 ≪ 8) `mod` 2 ^ 16 = le_value [b0; b1].
Proof.
  pose proof (byte_val_range b0). pose proof (byte_val_range b1).
  rewrite lor2. simpl le_value. rewrite Z.mod_small; lia.
Qed.

Lemma le_value_2_range (b0 b1 : byte) : 0 <= le_value [b0; b1] < 2 ^ 16.
Proof. pose proof (le_value_range [b0; b1]). simpl length in *. lia. Qed.

Lemma le_bytes_le_value (bs : list byte) :
  le_bytes (length bs) (le_value bs) = bs.
Proof.
  induction bs as [|b bs IH]; [reflexivity|].
  cbn [length le_bytes le_value].
  pose proof (byte_val_range b) as Hb.
  f_equal.
  - apply byte_val_inj. rewrite byte_val_of_Z.
    rewrite (Z.mul_comm 256), Z.mod_add by lia. apply Z.mod_small; lia.
  - replace ((byte_val b + 256 * le_value bs) `div` 256) with (le_value bs);
      [exact IH|].
    rewrite (Z.mul_comm 256), Z.div_add by lia.
    rewrite (Z.div_small (byte_val b)) by lia. lia.
Qed.



Lemma take_le_bytes_app (k : nat) (n : Z) (rest : list byte) :
  take k (le_bytes k n ++ rest) = le_bytes k n.
Proof. apply take_app_length'. symmetry. apply length_le_bytes. Qed.

Lemma lenenc_int_length (n : Z) :
  (1 <= length (lenenc_int n) <= 9)%nat.
Proof.
  unfold lenenc_int. repeat destruct (_ <? _); cbn [length le_bytes]; lia. 
Qed.

Lemma get_encoded_int_enc (n : Z) (rest : list byte) :
  0 <= n < 2 ^ 64 -> get_encoded_int (lenenc_int n ++ rest) = Some (n, rest).
Proof.
  intros Hn. unfold lenenc_int, get_encoded_int.
  destruct (Z.ltb_spec n 0xfb) as [H1|H1].
  { cbn [app next mbind option_bind]. rewrite byte_val_of_Z, Z.mod_small by lia.
    rewrite !(proj2 (Z.eqb_neq _ _)) by lia. reflexivity. }
  destruct (Z.ltb_spec n (2 ^ 16)) as [H2|H2].
  { cbn [app le_bytes next mbind option_bind Z.eqb Pos.eqb].
    change (byte_val xfc =? 252) with true. cbv iota.
    rewrite lor2. f_equal. f_equal.
    apply (le_value_le_bytes 2). change (256 ^ Z.of_nat 2) with (2 ^ 16). lia. }
  destruct (Z.ltb_spec n (2 ^ 24)) as [H3|H3].
  { cbn [app le_bytes next mbind option_bind].
    change (byte_val xfd =? 252) with false.
    change (byte_val xfd =? 253) with true. cbv iota.
    rewrite lor3. f_equal. f_equal.
    apply (le_value_le_bytes 3). change (256 ^ Z.of_nat 3) with (2 ^ 24). lia. }
  cbn [app le_bytes next mbind option_bind].
  change (byte_val xfe =? 252) with false.
  change (byte_val xfe =? 253) with false.
  change (byte_val xfe =? 254) with true. cbv iota.
  rewrite lor8. f_equal. f_equal.
  apply (le_value_le_bytes 8). change (256 ^ Z.of_nat 8) with (2 ^ 64). lia.
Qed.

Lemma skip_encoded_int_enc (n : Z) (rest : list byte) :
  0 <= n < 2 ^ 64 -> skip_encoded_int (lenenc_int n ++ rest) = Some rest.
Proof.
  intros Hn. unfold lenenc_int, skip_encoded_int.
  destruct (Z.ltb_spec n 0xfb) as [H1|H1].
  { cbn [app deref mbind option_bind]. rewrite byte_val_of_Z, Z.mod_small by lia.
    rewrite !(proj2 (Z.eqb_neq _ _)) by lia. reflexivity. }
  destruct (Z.ltb_spec n (2 ^ 16)) as [H2|H2].
  { cbn [app deref mbind option_bind].
    change (byte_val xfc =? 252) with true. cbv iota.
    apply (advance_app 3 (xfc :: le_bytes 2 n)). reflexivity. }
  destruct (Z.ltb_spec n (2 ^ 24)) as [H3|H3].
  { cbn [app deref mbind option_bind].
    change (byte_val xfd =? 252) with false.
    change (byte_val xfd =? 253) with true. cbv iota.
    apply (advance_app 4 (xfd :: le_bytes 3 n)). reflexivity. }
  cbn [app deref mbind option_bind].
  change (byte_val xfe =? 252) with false.
  change (byte_val xfe =? 253) with false.
  change (byte_val xfe =? 254) with true. cbv iota.
  apply (advance_app 9 (xfe :: le_bytes 8 n)). reflexivity.
Qed.

Lemma get_encoded_str_enc (s rest : list byte) :
  Z.of_nat (length s) < 2 ^ 64 ->
  get_encoded_str (lenenc_str s ++ rest) = Some (s, rest).
Proof.
  intros Hs. unfold get_encoded_str, lenenc_str. rewrite <- app_assoc.
  rewrite get_encoded_int_enc by lia. cbn [mbind option_bind].
  rewrite advance_app by reflexivity. cbn [mbind option_bind].
  unfold range, distance. rewrite length_app.
  rewrite bool_decide_eq_true_2 by lia. cbn [mbind option_bind].
  replace (length s + length rest - length rest)%nat with (length s) by lia.
  rewrite take_app_length. reflexivity.
Qed.

Lemma skip_encoded_str_enc (s rest : list byte) :
  Z.of_nat (length s) < 2 ^ 64 ->
  skip_encoded_str (lenenc_str s ++ rest) = Some rest.
Proof.
  intros Hs. unfold skip_encoded_str, lenenc_str. rewrite <- app_assoc.
  rewrite get_encoded_int_enc by lia. cbn [mbind option_bind].
  apply advance_app. reflexivity.
Qed.

Lemma next_le_bytes_2 (n : Z) (rest : list byte) :
  0 <= n < 2 ^ 16 ->
  exists b0 b1, le_bytes 2 n ++ rest = b0 :: b1 :: rest /\ le_value [b0; b1] = n.
Proof.
  intros Hn. eexists _, _. split; [reflexivity|].
  change (le_value (le_bytes 2 n) = n). apply le_value_le_bytes.
  change (256 ^ Z.of_nat 2) with (2 ^ 16). lia.
Qed.

End WireFacts.

Module Lenenc.
Import Wire WireFacts.

(** C9. A length-encoded integer is decoded as the specification reads it:
    a first byte [b < 0xFB] is the value itself; after [0xFC], [0xFD] and
    [0xFE] the value is the little-endian number held by the next 2, 3 and
    8 bytes.  [get_encoded_int] returns that value and both it and
    [skip_encoded_int] leave the iterator exactly 1, 3, 4 or 9 bytes
    further. *)
Theorem lenenc_int_decoding (it : Iter) (v : Z) (n : nat) :
  lenenc_int_spec it = Some (v, n) ->
  get_encoded_int it = Some (v, drop n it)
  /\ skip_encoded_int it = Some (drop n it)
  /\ length (drop n it) = (length it - n)%nat
  /\ (n <= length it)%nat.
Proof.
  destruct it as [|b rest]; [discriminate|].
  unfold lenenc_int_spec, get_encoded_int, skip_encoded_int.
  simpl next. simpl deref. simpl mbind.
  pose proof (byte_val_range b) as Hb.
  case_bool_decide as H1.
  { intros [= <- <-].
    rewrite !(proj2 (Z.eqb_neq _ _)) by lia. simpl. repeat split; try lia.
    rewrite drop_0. lia. }
  case_bool_decide as H2.
  { case_bool_decide as Hl; [|discriminate]. intros [= <- <-].
    destruct rest as [|b0 [|b1 rest]]; simpl in Hl; try lia.
    rewrite H2. simpl. rewrite lor2. rewrite drop_0. repeat split; simpl; try lia.
    exact (advance_app 3 [b; b0; b1] rest eq_refl). }
  case_bool_decide as H3.
  { case_bool_decide as Hl; [|discriminate]. intros [= <- <-].
    destruct rest as [|b0 [|b1 [|b2 rest]]]; simpl in Hl; try lia.
    rewrite H3. simpl. rewrite lor3. rewrite drop_0. repeat split; simpl; try lia.
    exact (advance_app 4 [b; b0; b1; b2] rest eq_refl). }
  case_bool_decide as H4; [|discriminate].
  case_bool_decide as Hl; [|discriminate]. intros [= <- <-].
  destruct rest as [|b0 [|b1 [|b2 [|b3 [|b4 [|b5 [|b6 [|b7 rest]]]]]]]];
    simpl in Hl; try lia.
  rewrite H4. simpl. rewrite lor8. rewrite drop_0. repeat split; simpl; try lia.
  exact (advance_app 9 [b; b0; b1; b2; b3; b4; b5; b6; b7] rest eq_refl).
Qed.

Lemma lenenc_int_decoding_witness :
  lenenc_int_spec [xfd; x56; x34; x12; xaa] = Some (0x123456, 4%nat)
  /\ get_encoded_int [xfd; x56; x34; x12; xaa] = Some (0x123456, [xaa])
  /\ skip_encoded_int [xfd; x56; x34; x12; xaa] = Some [xaa].
Proof.
  split; [reflexivity|].
  destruct (lenenc_int_decoding [xfd; x56; x34; x12; xaa] 0x123456 4
              eq_refl) as (Hget & Hskip & _).
  split; [exact Hget | exact Hskip].
Defined.

End Lenenc.

(** ** Reads are stable when the buffer grows *)

Module Stability.
Import Wire Proto WireFacts Format Machine.

(** Stability of reads under extension of the buffer *)
Lemma deref_app it x v : deref it = Some v -> deref (it ++ x) = Some v.
Proof. destruct it; [discriminate|]. simpl. auto. Qed.

Lemma incr_app it x it' : incr it = Some it' -> incr (it ++ x) = Some (it' ++ x).
Proof. destruct it; [discriminate|]. simpl. congruence. Qed.

Lemma next_app it x v it' : next it = Some (v, it') -> next (it ++ x) = Some (v, it' ++ x).
Proof. destruct it; [discriminate|]. simpl. congruence. Qed.

Lemma advance_stable n it x it' : advance n it = Some it' -> advance n (it ++ x) = Some (it' ++ x).
Proof.
  unfold advance. case_bool_decide as H; [|discriminate]. intros [= <-].
  rewrite bool_decide_eq_true_2 by (rewrite length_app; lia).
  rewrite drop_app_le by lia. reflexivity.
Qed.

Lemma advance_length n it it' : advance n it = Some it' -> Z.of_nat (length it') = Z.of_nat (length it) - n.
Proof.
  intros H. apply advance_Some in H as [Hn ->]. rewrite length_drop. lia.
Qed.

Lemma distance_app it end_ x : distance (it ++ x) (end_ ++ x) = distance it end_.
Proof.
  unfold distance. rewrite !length_app.
  repeat case_bool_decide; try lia; try done. f_equal; lia.
Qed.

Lemma range_app it end_ x s : range it end_ = Some s -> range (it ++ x) (end_ ++ x) = Some s.
Proof.
  unfold range. rewrite distance_app. unfold distance.
  case_bool_decide; [|discriminate]. simpl. intros [= <-].
  rewrite take_app_le by lia. reflexivity.
Qed.

Lemma iter_neq_app it end_ x : iter_neq (it ++ x) (end_ ++ x) = iter_neq it end_.
Proof.
  unfold iter_neq. rewrite !length_app. f_equal.
  destruct (Nat.eqb_spec (length it) (length end_)), (Nat.eqb_spec (length it + length x) (length end_ + length x)); auto; lia.
Qed.

Ltac stable_step :=
  match goal with
  | H : deref ?it = Some _ |- context [deref (?it ++ ?x)] => rewrite (deref_app _ x _ H)
  | H : incr ?it = Some _ |- context [incr (?it ++ ?x)] => rewrite (incr_app _ x _ H)
  | H : next ?it = Some _ |- context [next (?it ++ ?x)] => rewrite (next_app _ x _ _ H)
  | H : advance ?n ?it = Some _ |- context [advance ?n (?it ++ ?x)] => rewrite (advance_stable _ _ x _ H)
  | H : range ?it ?e = Some _ |- context [range (?it ++ ?x) (?e ++ ?x)] => rewrite (range_app _ _ x _ H)
  end; cbn [mbind option_bind].

Ltac bind_inv :=
  repeat match goal with
  | H : mbind _ ?e = Some _ |- _ =>
      let E := fresh "E" in destruct e as [?|] eqn:E; cbn [mbind option_bind] in H; [|discriminate H]
  | H : (let '(_, _) := ?p in _) = Some _ |- _ => destruct p
  | H : Some _ = Some _ |- _ => injection H as H; try subst
  | H : context [if ?b then _ else _] |- _ =>
      match type of H with _ = Some _ => let E := fresh "E" in destruct b eqn:E end
  end.

Lemma skip_encoded_int_app it x it' :
  skip_encoded_int it = Some it' -> skip_encoded_int (it ++ x) = Some (it' ++ x).
Proof.
  unfold skip_encoded_int. intros H. bind_inv; repeat stable_step; rewrite ?E0, ?E1, ?E2; try done; repeat stable_step; done.
Qed.

Lemma get_encoded_int_app it x v it' :
  get_encoded_int it = Some (v, it') -> get_encoded_int (it ++ x) = Some (v, it' ++ x).
Proof.
  unfold get_encoded_int. intros H. bind_inv; repeat stable_step; rewrite ?E0, ?E1, ?E2; repeat stable_step; try done.
Qed.

Lemma get_encoded_str_app it x s it' :
  get_encoded_str it = Some (s, it') -> get_encoded_str (it ++ x) = Some (s, it' ++ x).
Proof.
  unfold get_encoded_str. intros H. bind_inv.
  rewrite (get_encoded_int_app _ x _ _ E). cbn [mbind option_bind].
  repeat stable_step. done.
Qed.

Lemma skip_encoded_str_app it x it' :
  skip_encoded_str it = Some it' -> skip_encoded_str (it ++ x) = Some (it' ++ x).
Proof.
  unfold skip_encoded_str. intros H. bind_inv.
  rewrite (get_encoded_int_app _ x _ _ E). cbn [mbind option_bind].
  repeat stable_step. done.
Qed.

Ltac stable_step2 :=
  first
  [ stable_step
  | match goal with
    | H : skip_encoded_int ?it = Some _ |- context [skip_encoded_int (?it ++ ?x)] => rewrite (skip_encoded_int_app _ x _ H)
    | H : get_encoded_int ?it = Some _ |- context [get_encoded_int (?it ++ ?x)] => rewrite (get_encoded_int_app _ x _ _ H)
    | H : get_encoded_str ?it = Some _ |- context [get_encoded_str (?it ++ ?x)] => rewrite (get_encoded_str_app _ x _ _ H)
    | H : skip_encoded_str ?it = Some _ |- context [skip_encoded_str (?it ++ ?x)] => rewrite (skip_encoded_str_app _ x _ H)
    end; cbn [mbind option_bind] ].

Ltac use_eqs :=
  cbn [mbind option_bind];
  repeat match goal with
  | H : ?e = Some _ |- context [?e] => rewrite H; cbn [mbind option_bind]
  | H : ?b = true |- context [if ?b then _ else _] => rewrite H
  | H : ?b = false |- context [if ?b then _ else _] => rewrite H
  end.

Section Stable.
Context {Vars : Type} (set_variable : list byte -> list byte -> Vars -> Vars).
Abbreviation Conn := (@Conn Vars).

Lemma is_last_eof_app it x b : is_last_eof it = Some b -> is_last_eof (it ++ x) = Some b.
Proof.
  unfold is_last_eof. intros H. bind_inv. repeat stable_step2. done.
Qed.

Lemma update_error_app it end_ x (c c' : Conn) :
  update_error it end_ c = Some c' -> update_error (it ++ x) (end_ ++ x) c = Some c'.
Proof.
  unfold update_error. intros H. bind_inv. repeat stable_step2. done.
Qed.

Ltac stable_step3 :=
  first
  [ stable_step2
  | match goal with
    | H : is_last_eof ?it = Some _ |- context [is_last_eof (?it ++ ?x)] =>
        rewrite (is_last_eof_app _ x _ H)
    | H : update_error ?it ?e ?c = Some _
      |- context [update_error (?it ++ ?x) (?e ++ ?x) ?c] =>
        rewrite (update_error_app _ _ x _ _ H)
    end; cbn [mbind option_bind] ].

Lemma session_track_loop_app fuel : forall it end_ x (c c' : Conn),
  session_track_loop set_variable fuel it end_ c = Some c' ->
  session_track_loop set_variable fuel (it ++ x) (end_ ++ x) c = Some c'.
Proof.
  induction fuel as [|fuel IH]; intros it end_ x c c'; cbn [session_track_loop];
    rewrite iter_neq_app; destruct (iter_neq it end_); try done.
  intros H. bind_inv; repeat (first [stable_step2 | progress use_eqs]); eauto.
Qed.

Lemma session_track_loop_fuel fuel : forall fuel' it end_ (c c' : Conn),
  (fuel <= fuel')%nat ->
  session_track_loop set_variable fuel it end_ c = Some c' ->
  session_track_loop set_variable fuel' it end_ c = Some c'.
Proof.
  induction fuel as [|fuel IH]; intros fuel' it end_ c c' Hle; cbn [session_track_loop].
  - destruct fuel'; cbn [session_track_loop]; destruct (iter_neq it end_); done.
  - destruct fuel' as [|fuel']; [lia|]. cbn [session_track_loop].
    destruct (iter_neq it end_); try done.
    intros H. bind_inv; use_eqs; apply (IH fuel'); try lia; done.
Qed.

Lemma process_ok_packet_app it end_ x (c c' : Conn) :
  process_ok_packet set_variable it end_ c = Some c' ->
  process_ok_packet set_variable (it ++ x) (end_ ++ x) c = Some c'.
Proof.
  unfold process_ok_packet. intros H. bind_inv; repeat stable_step2; use_eqs; try done.
  all: repeat stable_step2; use_eqs; try done.
  all: match goal with
       | H : session_track_loop _ (length ?l) ?l _ _ = Some _ |- _ =>
           apply session_track_loop_fuel with (fuel := length l);
           [rewrite length_app; lia | apply session_track_loop_app; exact H]
       end.
Qed.

Lemma process_ps_response_app it end_ x (c c' : Conn) :
  process_ps_response it end_ c = Some c' ->
  process_ps_response (it ++ x) (end_ ++ x) c = Some c'.
Proof.
  unfold process_ps_response. intros H. bind_inv; repeat stable_step2; done.
Qed.

Lemma process_result_start_app it end_ x (c c' : Conn) :
  process_result_start set_variable it end_ c = Some c' ->
  process_result_start set_variable (it ++ x) (end_ ++ x) c = Some c'.
Proof.
  unfold process_result_start. intros H. bind_inv; repeat stable_step3; use_eqs;
    repeat stable_step3; try done.
  - apply process_ps_response_app; done.
  - apply process_ok_packet_app; done.
Qed.

Lemma process_reply_start_app it end_ x (c c' : Conn) :
  process_reply_start set_variable it end_ c = Some c' ->
  process_reply_start set_variable (it ++ x) (end_ ++ x) c = Some c'.
Proof.
  unfold process_reply_start. intros H. bind_inv; use_eqs; try done.
  apply process_result_start_app; done.
Qed.

Lemma process_one_packet_app it end_ x len (c c' : Conn) :
  process_one_packet set_variable it end_ len c = Some c' ->
  process_one_packet set_variable (it ++ x) (end_ ++ x) len c = Some c'.
Proof.
  unfold process_one_packet. intros H.
  destruct (deref it) as [cmd|] eqn:Hcmd; [|discriminate].
  rewrite (deref_app _ x _ Hcmd). cbn [mbind option_bind] in *.
  destruct (reply_state c); bind_inv; use_eqs; repeat stable_step3; try done.
  apply process_reply_start_app; done.
Qed.
End Stable.

End Stability.

(** ** The packet loop *)

Module Loop.
Import Wire Proto WireFacts Format Machine Stability.

Section Unfold.
Context {Vars : Type} (set_variable : list byte -> list byte -> Vars -> Vars).
Abbreviation Conn := (@Conn Vars).

Lemma loop_unfold (fuel : nat) (total : Z) (it : Iter) (used : Z) (c : Conn) :
  process_packets_loop set_variable (S fuel) total it used c =
  match it with
  | [] => Some (c, used)
  | _ =>
      if total - used <? MYSQL_HEADER_LEN then Some (c, used)
      else
        '(len, it') ← read_header it;
        if total - used <? len + MYSQL_HEADER_LEN then Some (c, used)
        else
          end_ ← advance len it';
          c' ← packet_turn set_variable it' end_ len c;
          process_packets_loop set_variable fuel total end_
            (used + (len + MYSQL_HEADER_LEN)) c'
  end.
Proof.
  destruct it as [|b0 it]; [reflexivity|].
  cbn [process_packets_loop]. destruct (total - used <? MYSQL_HEADER_LEN); [reflexivity|].
  unfold read_header.
  destruct (next (b0 :: it)) as [[l0 it0]|]; cbn [mbind option_bind]; [|reflexivity].
  destruct (next it0) as [[l1 it1]|]; cbn [mbind option_bind]; [|reflexivity].
  destruct (next it1) as [[l2 it2]|]; cbn [mbind option_bind]; [|reflexivity].
  destruct (incr it2) as [it3|]; cbn [mbind option_bind]; reflexivity.
Qed.

Lemma loop_0 (total : Z) (it : Iter) (used : Z) (c : Conn) :
  process_packets_loop set_variable 0 total it used c =
  match it with
  | [] => Some (c, used)
  | _ => if total - used <? MYSQL_HEADER_LEN then Some (c, used) else None
  end.
Proof. destruct it; reflexivity. Qed.

Lemma read_header_length it len it' :
  read_header it = Some (len, it') ->
  length it = (4 + length it')%nat /\ 0 <= len < 2 ^ 24
  /\ len = le_value (take 3 it).
Proof.
  unfold read_header. destruct it as [|b0 [|b1 [|b2 [|b3 it]]]]; try done.
  cbn. intros [= <- <-]. rewrite lor3.
  pose proof (le_value_range [b0; b1; b2]) as Hr. simpl length in Hr.
  rewrite Z.mod_small by lia. repeat split; try lia. 
Qed.

Lemma read_header_app it x len it' :
  read_header it = Some (len, it') -> read_header (it ++ x) = Some (len, it' ++ x).
Proof.
  unfold read_header. intros H. bind_inv. repeat stable_step2. done.
Qed.

Lemma packet_turn_app it end_ x len (c c' : Conn) :
  packet_turn set_variable it end_ len c = Some c' ->
  packet_turn set_variable (it ++ x) (end_ ++ x) len c = Some c'.
Proof.
  unfold packet_turn. destruct (m_skip_next c); [done|].
  apply process_one_packet_app.
Qed.


Lemma loop_fuel_irrel (n : nat) : forall (m : nat) total it used (c : Conn),
  (length it <= n)%nat -> (length it <= m)%nat ->
  process_packets_loop set_variable n total it used c
  = process_packets_loop set_variable m total it used c.
Proof.
  induction n as [|n IH]; intros m total it used c Hn Hm.
  - destruct it; [|simpl in Hn; lia]. destruct m; reflexivity.
  - destruct m as [|m].
    { destruct it; [reflexivity|simpl in Hm; lia]. }
    rewrite !loop_unfold. destruct it as [|b it]; [reflexivity|].
    destruct (total - used <? MYSQL_HEADER_LEN); [reflexivity|].
    destruct (read_header (b :: it)) as [[len it']|] eqn:Hh; [|reflexivity].
    cbn [mbind option_bind].
    destruct (total - used <? len + MYSQL_HEADER_LEN); [reflexivity|].
    destruct (advance len it') as [end_|] eqn:Ha; [|reflexivity].
    cbn [mbind option_bind].
    destruct (packet_turn set_variable it' end_ len c) as [c'|]; [|reflexivity].
    cbn [mbind option_bind].
    apply read_header_length in Hh as (Hl & Hlen & _).
    apply advance_length in Ha. cbn [length] in *.
    apply IH; lia.
Qed.

Lemma loop_app (n : nat) : forall it used total (c c1 : Conn) used1 x,
  (length it <= n)%nat -> total - used = Z.of_nat (length it) ->
  process_packets_loop set_variable n total it used c = Some (c1, used1) ->
  used <= used1 <= total
  /\ process_packets_loop set_variable (n + length x)
       (total + Z.of_nat (length x)) (it ++ x) used c
     = process_packets_loop set_variable (n + length x)
         (total + Z.of_nat (length x))
         (drop (Z.to_nat (used1 - used)) it ++ x) used1 c1.
Proof.
  induction n as [|n IH]; intros it used total c c1 used1 x Hn Ht.
  - destruct it; [|simpl in Hn; lia]. rewrite loop_0. intros [= <- <-].
    simpl in Ht. split; [lia|]. rewrite Z.sub_diag. reflexivity.
  - rewrite loop_unfold.
    destruct it as [|b it].
    { intros [= <- <-]. simpl in Ht. split; [lia|].
      rewrite Z.sub_diag. reflexivity. }
    destruct (Z.ltb_spec (total - used) MYSQL_HEADER_LEN) as [Hlt|Hge].
    { intros [= <- <-]. split; [lia|]. rewrite Z.sub_diag. reflexivity. }
    destruct (read_header (b :: it)) as [[len it']|] eqn:Hh; [|discriminate].
    cbn [mbind option_bind].
    destruct (Z.ltb_spec (total - used) (len + MYSQL_HEADER_LEN)) as [Hlt|Hge'].
    { intros [= <- <-]. split; [lia|]. rewrite Z.sub_diag. reflexivity. }
    destruct (advance len it') as [end_|] eqn:Ha; [|discriminate].
    cbn [mbind option_bind].
    destruct (packet_turn set_variable it' end_ len c) as [c'|] eqn:Hp; [|discriminate].
    cbn [mbind option_bind]. intros Hrec.
    pose proof (read_header_length _ _ _ Hh) as (Hl & Hlen & _).
    pose proof (advance_length _ _ _ Ha) as Hal.
    pose proof (advance_Some _ _ _ Ha) as [_ Hend].
    unfold MYSQL_HEADER_LEN in *. cbn [length] in Hl, Hn, Ht.
    destruct (IH end_ (used + (len + 4)) total c' c1 used1 x) as [Hu Heq];
      [lia | lia | exact Hrec |].
    split; [lia|].
    change (S n + length x)%nat with (S (n + length x)).
    rewrite (loop_unfold (n + length x)).
    change ((b :: it) ++ x) with (b :: (it ++ x)).
    cbv beta iota.
    change (b :: (it ++ x)) with ((b :: it) ++ x).
    rewrite (proj2 (Z.ltb_ge _ _)) by (unfold MYSQL_HEADER_LEN; lia).
    rewrite (read_header_app _ x _ _ Hh). cbn [mbind option_bind].
    rewrite (proj2 (Z.ltb_ge _ _)) by (unfold MYSQL_HEADER_LEN; lia).
    rewrite (advance_stable _ _ x _ Ha). cbn [mbind option_bind].
    rewrite (packet_turn_app _ _ x _ _ _ Hp). cbn [mbind option_bind].
    unfold MYSQL_HEADER_LEN. rewrite Heq.
    assert (Hdrop : drop (Z.to_nat (used1 - used)) (b :: it)
                    = drop (Z.to_nat (used1 - (used + (len + 4)))) end_).
    { rewrite Hend.
      assert (Hit' : it' = drop 4 (b :: it)).
      { clear -Hh. unfold read_header in Hh.
        destruct it as [|b1 [|b2 [|b3 it]]]; try done.
        cbn in Hh. injection Hh as _ <-. reflexivity. }
      rewrite Hit', !drop_drop. f_equal. lia. }
    rewrite Hdrop.
    apply loop_fuel_irrel; rewrite length_app, length_drop; lia.
Qed.

Lemma loop_shift (n : nat) : forall total total' it used used' (c : Conn),
  total' - used' = total - used ->
  process_packets_loop set_variable n total' it used' c
  = (fun r : Conn * Z => (r.1, r.2 + (used' - used)))
      <$> process_packets_loop set_variable n total it used c.
Proof.
  induction n as [|n IH]; intros total total' it used used' c Ht.
  - rewrite !loop_0, Ht. destruct it; [|destruct (_ <? _)]; simpl; try done.
    all: do 2 f_equal; lia.
  - rewrite !loop_unfold, Ht. destruct it as [|b it].
    { simpl. do 2 f_equal. lia. }
    destruct (_ <? _). { simpl. do 2 f_equal. lia. }
    destruct (read_header (b :: it)) as [[len it']|]; [|reflexivity].
    cbn [mbind option_bind].
    destruct (_ <? _). { simpl. do 2 f_equal. lia. }
    destruct (advance len it') as [end_|]; [|reflexivity].
    cbn [mbind option_bind].
    destruct (packet_turn set_variable it' end_ len c) as [c'|]; [|reflexivity].
    cbn [mbind option_bind].
    rewrite (IH total total' end_ (used + (len + MYSQL_HEADER_LEN))
               (used' + (len + MYSQL_HEADER_LEN)) c') by lia.
    destruct (process_packets_loop _ _ _ _ _ _) as [[c2 u2]|]; simpl; [|done].
    do 2 f_equal. lia.
Qed.

End Unfold.

Section Split.
Context {Vars : Type} (set_variable : list byte -> list byte -> Vars -> Vars).
Abbreviation Conn := (@Conn Vars).

Lemma read_header_frame it len it' end_ :
  read_header it = Some (len, it') -> advance len it' = Some end_ ->
  exists seq payload, it = frame seq payload ++ end_
    /\ Z.of_nat (length payload) = len.
Proof.
  intros Hh Ha. pose proof (read_header_length _ _ _ Hh) as (_ & Hlen & Hv).
  unfold read_header in Hh.
  destruct it as [|b0 [|b1 [|b2 [|seq it]]]]; try done.
  cbn in Hh. injection Hh as _ <-.
  apply advance_Some in Ha as [Hn ->].
  exists seq, (take (Z.to_nat len) it). 
  assert (Hl : Z.of_nat (length (take (Z.to_nat len) it)) = len)
    by (rewrite length_take; lia).
  split; [|exact Hl].
  unfold frame. rewrite Hl, Hv. cbn [take].
  change 3%nat with (length [b0; b1; b2]) at 1.
  rewrite le_bytes_le_value. cbn [app]. rewrite take_drop. reflexivity.
Qed.

Lemma loop_whole (n : nat) : forall it used total (c c1 : Conn) used1,
  total - used = Z.of_nat (length it) ->
  process_packets_loop set_variable n total it used c = Some (c1, used1) ->
  used <= used1 <= total
  /\ whole_packets (take (Z.to_nat (used1 - used)) it)
  /\ incomplete (drop (Z.to_nat (used1 - used)) it).
Proof.
  assert (Hstop : forall it : Iter,
    (it = [] \/ Z.of_nat (length it) < 4
     \/ exists len it', read_header it = Some (len, it')
          /\ Z.of_nat (length it) < len + 4) ->
    whole_packets (take (Z.to_nat 0) it) /\ incomplete (drop (Z.to_nat 0) it)).
  { intros it H. change (Z.to_nat 0) with 0%nat. rewrite take_0, drop_0.
    split; [constructor|].
    destruct H as [-> | [H | (len & it' & Hh & H)]].
    - left. simpl. lia.
    - left. lia.
    - right. apply read_header_length in Hh as (_ & _ & Hv). lia. }
  induction n as [|n IH]; intros it used total c c1 used1 Ht.
  - rewrite loop_0. destruct it as [|b it].
    + intros [= <- <-]. rewrite Z.sub_diag. split; [lia|]; apply Hstop. auto.
    + destruct (Z.ltb_spec (total - used) MYSQL_HEADER_LEN); [|done].
      intros [= <- <-]. rewrite Z.sub_diag. split; [lia|]; apply Hstop.
      unfold MYSQL_HEADER_LEN in *. right; left; lia.
  - rewrite loop_unfold. destruct it as [|b it].
    { intros [= <- <-]. rewrite Z.sub_diag. split; [lia|]; apply Hstop. auto. }
    destruct (Z.ltb_spec (total - used) MYSQL_HEADER_LEN).
    { intros [= <- <-]. rewrite Z.sub_diag. split; [lia|]; apply Hstop.
      unfold MYSQL_HEADER_LEN in *. right; left; lia. }
    destruct (read_header (b :: it)) as [[len it']|] eqn:Hh; [|discriminate].
    cbn [mbind option_bind].
    destruct (Z.ltb_spec (total - used) (len + MYSQL_HEADER_LEN)).
    { intros [= <- <-]. rewrite Z.sub_diag. split; [lia|]; apply Hstop.
      unfold MYSQL_HEADER_LEN in *. right; right. exists len, it'. split; [done|lia]. }
    destruct (advance len it') as [end_|] eqn:Ha; [|discriminate].
    cbn [mbind option_bind].
    destruct (packet_turn set_variable it' end_ len c) as [c'|] eqn:Hp; [|discriminate].
    cbn [mbind option_bind]. intros Hrec.
    pose proof (read_header_length _ _ _ Hh) as (Hl & Hlen & _).
    pose proof (advance_length _ _ _ Ha) as Hal.
    destruct (read_header_frame _ _ _ _ Hh Ha) as (seq & payload & Hit & Hpl).
    unfold MYSQL_HEADER_LEN in *.
    destruct (IH end_ (used + (len + 4)) total c' c1 used1) as (Hu & Hw & Hi);
      [lia | exact Hrec |].
    assert (Hfl : length (frame seq payload) = Z.to_nat (len + 4)).
    { unfold frame. rewrite length_app, length_le_bytes. simpl. lia. }
    rewrite Hit.
    replace (Z.to_nat (used1 - used))
      with (length (frame seq payload) + Z.to_nat (used1 - (used + (len + 4))))%nat by lia.
    rewrite take_app_add, drop_app_add.
    split; [lia|]. split; [|exact Hi]. constructor; [lia|exact Hw].
Qed.

Lemma process_packets_Some (buffer : list byte) (c c1 : Conn) p1 r1 :
  process_packets set_variable buffer c = Some (c1, p1, r1) ->
  exists used1, 0 <= used1 <= Z.of_nat (length buffer)
    /\ process_packets_loop set_variable (length buffer)
         (Z.of_nat (length buffer)) buffer 0 c = Some (c1, used1)
    /\ p1 = take (Z.to_nat used1) buffer /\ r1 = drop (Z.to_nat used1) buffer.
Proof.
  unfold process_packets. intros H.
  destruct (process_packets_loop _ _ _ _ _ _) as [[c' used1]|] eqn:Hl; [|done].
  cbn [mbind option_bind] in H. injection H as -> <- <-.
  exists used1. split; [|done].
  apply loop_whole in Hl as (Hu & _); lia.
Qed.

(** The consumed part is made of whole packets and nothing complete is
    left at the front of the residue. *)
Lemma process_packets_framing (buffer : list byte) (c c1 : Conn) p1 r1 :
  process_packets set_variable buffer c = Some (c1, p1, r1) ->
  buffer = p1 ++ r1 /\ whole_packets p1 /\ incomplete r1.
Proof.
  intros H. apply process_packets_Some in H as (used1 & Hu & Hl & -> & ->).
  split; [symmetry; apply take_drop|].
  apply loop_whole in Hl as (_ & Hw & Hi); [|lia].
  rewrite Z.sub_0_r in Hw, Hi. done.
Qed.

(** Processing a buffer and then the residue followed by more bytes is
    processing the whole at once. *)
Lemma process_packets_app (a b : list byte) (c c1 c2 : Conn) p1 r1 p2 r2 :
  process_packets set_variable a c = Some (c1, p1, r1) ->
  process_packets set_variable (r1 ++ b) c1 = Some (c2, p2, r2) ->
  process_packets set_variable (a ++ b) c = Some (c2, p1 ++ p2, r2).
Proof.
  intros Ha Hb.
  apply process_packets_Some in Ha as (used1 & Hu1 & Hl1 & -> & ->).
  apply process_packets_Some in Hb as (used2 & Hu2 & Hl2 & -> & ->).
  unfold process_packets.
  destruct (loop_app set_variable (length a) a 0 (Z.of_nat (length a)) c c1 used1 b)
    as [_ Heq]; [lia | lia | exact Hl1 |].
  rewrite Z.sub_0_r in Heq.
  rewrite length_app, Nat2Z.inj_add, Heq.
  rewrite (loop_shift set_variable _
             (Z.of_nat (length (drop (Z.to_nat used1) a ++ b)))
             _ _ 0 used1).
  2: { rewrite length_app, length_drop. lia. }
  rewrite (loop_fuel_irrel set_variable _
             (length (drop (Z.to_nat used1) a ++ b))).
  2, 3: rewrite length_app, length_drop; lia.
  rewrite Hl2. cbn [fmap option_fmap option_map mbind option_bind fst snd].
  rewrite Z.sub_0_r.
  rewrite length_app, length_drop in Hu2.
  f_equal. f_equal; [f_equal|].
  - rewrite <- (take_drop (Z.to_nat used1) a) at 1.
    rewrite <- app_assoc.
    replace (Z.to_nat (used2 + used1))
      with (length (take (Z.to_nat used1) a) + Z.to_nat used2)%nat
      by (rewrite length_take; lia).
    rewrite take_app_add. reflexivity.
  - rewrite <- (take_drop (Z.to_nat used1) a) at 1.
    rewrite <- app_assoc.
    replace (Z.to_nat (used2 + used1))
      with (length (take (Z.to_nat used1) a) + Z.to_nat used2)%nat
      by (rewrite length_take; lia).
    rewrite drop_app_add. reflexivity.
Qed.

Lemma process_packets_nil (c : Conn) :
  process_packets set_variable [] c = Some (c, [], []).
Proof. reflexivity. Qed.

Lemma process_packets_incomplete (r : list byte) (c : Conn) :
  incomplete r -> process_packets set_variable r c = Some (c, [], r).
Proof.
  intros Hi. unfold process_packets.
  assert (Hl : process_packets_loop set_variable (length r)
                 (Z.of_nat (length r)) r 0 c = Some (c, 0)).
  { destruct r as [|b0 r]; [reflexivity|].
    cbn [length]. rewrite loop_unfold. rewrite Z.sub_0_r.
    destruct (Z.ltb_spec (Z.of_nat (S (length r))) MYSQL_HEADER_LEN) as [|Hge];
      [reflexivity|].
    unfold MYSQL_HEADER_LEN in *.
    destruct r as [|b1 [|b2 [|seq r]]]; cbn [length] in Hge; try lia.
    destruct Hi as [Hi|Hi]; [cbn [length] in Hi; lia|].
    cbn [read_header next incr mbind option_bind].
    rewrite lor3. cbn [take] in Hi.
    assert (Hr : 0 <= le_value [b0; b1; b2] < 2 ^ 24).
    { pose proof (byte_val_range b0). pose proof (byte_val_range b1).
      pose proof (byte_val_range b2). cbn [le_value]. lia. }
    rewrite Z.mod_small by (clear -Hr; lia).
    rewrite (proj2 (Z.ltb_lt _ _)); [reflexivity|].
    cbn [length] in *. lia. }
  rewrite Hl. reflexivity.
Qed.

Lemma feed_chunks_whole (chunks : list (list byte)) :
  forall (residual : list byte) (c c' : Conn) packets residual',
  feed_chunks set_variable chunks residual c = Some (c', packets, residual') ->
  incomplete residual ->
  process_packets set_variable (residual ++ concat chunks) c
  = Some (c', packets, residual').
Proof.
  induction chunks as [|chunk chunks IH]; intros residual c c' packets residual' H Hi.
  - cbn in H. injection H as <- <- <-. cbn [concat]. rewrite app_nil_r.
    apply process_packets_incomplete. exact Hi.
  - cbn [feed_chunks] in H.
    destruct (process_packets set_variable (residual ++ chunk) c)
      as [[[c1 p1] r1]|] eqn:H1; [|done].
    cbn [mbind option_bind] in H.
    destruct (feed_chunks set_variable chunks r1 c1)
      as [[[c2 p2] r2]|] eqn:H2; [|done].
    cbn [mbind option_bind] in H. injection H as <- <- <-.
    cbn [concat]. rewrite app_assoc.
    eapply process_packets_app; [exact H1|].
    apply IH; [exact H2|].
    apply process_packets_framing in H1. tauto.
Qed.
End Split.

End Loop.

(** ** What processing a packet keeps, and buffers of one packet *)

Module Packets.
Import Wire Proto WireFacts Format Machine Replies Stability Loop.

Section Keep.
Context {Vars : Type} (set_variable : list byte -> list byte -> Vars -> Vars).
Abbreviation Conn := (@Conn Vars).

Ltac kept_tac :=
  unfold same_but_variables, kept, reply_state in *; simpl in *;
  repeat match goal with
  | |- context [if ?b then _ else _] => destruct b; simpl
  end;
  intuition congruence.

Lemma same_but_variables_refl (c : Conn) : same_but_variables c c.
Proof. repeat split. Qed.

Lemma same_but_variables_set k v (c c' : Conn) :
  same_but_variables (reply_set_variable set_variable k v c) c' ->
  same_but_variables c c'.
Proof. unfold same_but_variables, kept, reply_state. simpl. tauto. Qed.

Lemma session_track_loop_same fuel : forall it end_ (c c' : Conn),
  session_track_loop set_variable fuel it end_ c = Some c' ->
  same_but_variables c c'.
Proof.
  induction fuel as [|fuel IH]; intros it end_ c c'; cbn [session_track_loop];
    destruct (iter_neq it end_); try done;
    try (intros [= <-]; apply same_but_variables_refl).
  intros H. bind_inv; eauto using same_but_variables_set.
Qed.

Lemma update_error_kept it end_ (c c' : Conn) :
  update_error it end_ c = Some c' ->
  kept c c' /\ reply_state c' = reply_state c /\ rows (m_reply c') = rows (m_reply c).
Proof.
  unfold update_error. intros H. bind_inv. kept_tac.
Qed.

Lemma process_ok_packet_kept it end_ (c c' : Conn) :
  process_ok_packet set_variable it end_ c = Some c' -> kept c c'.
Proof.
  unfold process_ok_packet. intros H. bind_inv;
    try match goal with
        | H : session_track_loop _ _ _ _ _ = Some _ |- _ =>
            apply session_track_loop_same in H as [Hk _]
        end; kept_tac.
Qed.

Lemma process_one_packet_kept it end_ len (c c' : Conn) :
  process_one_packet set_variable it end_ len c = Some c' -> kept c c'.
Proof.
  unfold process_one_packet. intros H.
  destruct (deref it) as [cmd|]; [|done]. cbn [mbind option_bind] in H.
  destruct (reply_state c).
  - unfold process_reply_start, process_result_start in H.
    bind_inv;
      try match goal with
          | H : update_error _ _ _ = Some _ |- _ =>
              apply update_error_kept in H as [Hk _]
          | H : process_ok_packet _ _ _ _ = Some _ |- _ =>
              apply process_ok_packet_kept in H
          | H : process_ps_response _ _ _ = Some _ |- _ =>
              unfold process_ps_response in H; bind_inv
          end; kept_tac.
  - bind_inv; try (apply update_error_kept in H as [H _]); kept_tac.
  - bind_inv; kept_tac.
  - bind_inv; kept_tac.
  - bind_inv;
      try match goal with
          | H : update_error _ _ _ = Some _ |- _ =>
              apply update_error_kept in H as [Hk _]
          end; kept_tac.
  - bind_inv; kept_tac.
Qed.

End Keep.

Section Frames.
Context {Vars : Type} (set_variable : list byte -> list byte -> Vars -> Vars).
Abbreviation Conn := (@Conn Vars).

Lemma set_skip_next_id (b : bool) (c : Conn) :
  m_skip_next c = b -> set_skip_next b c = c.
Proof. destruct c. simpl. intros <-. reflexivity. Qed.

Lemma read_header_frame_eq (seq : byte) (p rest : list byte) :
  Z.of_nat (length p) < 2 ^ 24 ->
  read_header (frame seq p ++ rest) = Some (Z.of_nat (length p), p ++ rest).
Proof.
  intros Hp. unfold frame, read_header. cbn [le_bytes app next incr mbind option_bind].
  rewrite lor3.
  change [byte_of_Z (Z.of_nat (length p)); byte_of_Z (Z.of_nat (length p) `div` 256);
          byte_of_Z ((Z.of_nat (length p) `div` 256) `div` 256)]
    with (le_bytes 3 (Z.of_nat (length p))).
  rewrite le_value_le_bytes by (change (256 ^ Z.of_nat 3) with (2 ^ 24); lia).
  rewrite Z.mod_small by lia. reflexivity.
Qed.

Lemma length_frame (seq : byte) (p : list byte) :
  length (frame seq p) = (4 + length p)%nat.
Proof. unfold frame. rewrite length_app, length_le_bytes. reflexivity. Qed.

(** A buffer holding exactly one packet. *)
Lemma process_packets_frame (seq : byte) (p : list byte) (c c' : Conn) :
  m_skip_next c = false ->
  Z.of_nat (length p) < GW_MYSQL_MAX_PACKET_LEN ->
  process_one_packet set_variable p [] (Z.of_nat (length p)) c = Some c' ->
  process_packets set_variable (frame seq p) c = Some (c', frame seq p, []).
Proof.
  intros Hs Hp Hone. unfold GW_MYSQL_MAX_PACKET_LEN in Hp.
  unfold process_packets. rewrite length_frame.
  change (4 + length p)%nat with (S (3 + length p)).
  rewrite loop_unfold.
  assert (Hh := read_header_frame_eq seq p [] ltac:(lia)).
  rewrite !app_nil_r in Hh.
  destruct (frame seq p) as [|b fr] eqn:Hfr.
  { apply (f_equal length) in Hfr. rewrite length_frame in Hfr. done. }
  rewrite <- Hfr in *. clear Hfr b fr.
  unfold MYSQL_HEADER_LEN.
  rewrite (proj2 (Z.ltb_ge _ _)) by lia.
  rewrite Hh. cbn [mbind option_bind].
  rewrite (proj2 (Z.ltb_ge _ _)) by lia.
  assert (Hadv : advance (Z.of_nat (length p)) p = Some []).
  { unfold advance. rewrite bool_decide_eq_true_2 by lia.
    rewrite Nat2Z.id, drop_all. reflexivity. }
  rewrite Hadv. cbn [mbind option_bind].
  unfold packet_turn. rewrite Hs.
  rewrite (proj2 (Z.eqb_neq _ _)) by (unfold GW_MYSQL_MAX_PACKET_LEN; lia).
  rewrite set_skip_next_id by exact Hs.
  rewrite Hone. cbn [mbind option_bind].
  rewrite loop_0 || (destruct (3 + length p)%nat; cbn [process_packets_loop]).
  all: cbn [mbind option_bind].
  all: replace (Z.to_nat (0 + (Z.of_nat (length p) + 4))) with (length (frame seq p))
         by (rewrite length_frame; lia).
  all: rewrite firstn_all, drop_all; reflexivity.
Qed.

Lemma feed_chunks_frames (ps : list (byte * list byte)) : forall (c c' : Conn),
  m_skip_next c = false ->
  Forall (fun p => Z.of_nat (length p.2) < GW_MYSQL_MAX_PACKET_LEN) ps ->
  process_each set_variable ps c = Some c' ->
  feed_chunks set_variable (frames ps) [] c = Some (c', concat (frames ps), []).
Proof.
  induction ps as [|[seq p] ps IH]; intros c c' Hs Hall.
  - intros [= <-]. reflexivity.
  - inversion Hall as [|? ? Hp Hall']; subst. cbn [process_each fst snd] in *.
    intros H. destruct (process_one_packet _ _ _ _ _) as [c1|] eqn:H1; [|done].
    cbn [mbind option_bind] in H.
    cbn [frames map feed_chunks fst snd app].
    rewrite (process_packets_frame seq p c c1 Hs Hp H1).
    cbn [mbind option_bind].
    apply process_one_packet_kept in H1 as (Hk & _).
    fold (frames ps).
    rewrite (IH c1 c'); [reflexivity | congruence | exact Hall' | exact H].
Qed.

End Frames.

Section PsResponse.
Context {Vars : Type} (set_variable : list byte -> list byte -> Vars -> Vars).
Abbreviation Conn := (@Conn Vars).

Lemma process_ps_response_bytes (c : Conn) (i0 i1 i2 i3 c0 c1 p0 p1 : byte) (rest end_ : Iter) :
  let stmt_id :=  Z.lor (Z.lor (Z.lor (byte_val i0) (byte_val i1 ≪ 8)) (byte_val i2 ≪ 16)) (byte_val i3 ≪ 24) mod 2 ^ 32 in
  let columns := le_value [c0; c1] in
  let params := le_value [p0; p1] in
  process_ps_response (x00 :: i0 :: i1 :: i2 :: i3 :: c0 :: c1 :: p0 :: p1 :: rest) end_ c
  = Some (set_reply_state (if ps_count columns params =? 0 then DONE else PREPARE)
           (set_ps_packets (ps_count columns params)
             (set_param_count params (set_generated_id stmt_id c)))).
Proof.
  intros stmt_id columns params.
  unfold process_ps_response. cbn [incr next mbind option_bind].
  rewrite !u16_add. fold stmt_id columns params.
  pose proof (le_value_2_range c0 c1) as Hc. pose proof (le_value_2_range p0 p1) as Hp.
  fold columns in Hc. fold params in Hp.
  assert (Hn : (if params =? 0
      then if columns =? 0 then 0 else (0 + (columns + 1)) `mod` 2 ^ 32
      else
       ((if columns =? 0 then 0 else (0 + (columns + 1)) `mod` 2 ^ 32) +
        (params + 1)) `mod` 2 ^ 32) = ps_count columns params).
  { unfold ps_count.
    destruct (Z.eqb_spec params 0), (Z.eqb_spec columns 0),
      (Z.ltb_spec 0 params), (Z.ltb_spec 0 columns); try lia;
      rewrite ?Z.mod_small; try lia.
    rewrite Z.mod_small; lia. }
  rewrite Hn. reflexivity.
Qed.
End PsResponse.

Section Prepare.
Context {Vars : Type} (set_variable : list byte -> list byte -> Vars -> Vars).
Abbreviation Conn := (@Conn Vars).

Lemma prepare_countdown (pkts : list (byte * list byte)) : forall (c : Conn),
  reply_state c = PREPARE ->
  Forall (fun p => p.2 <> []) pkts ->
  0 < m_ps_packets c < 2 ^ 32 ->
  Z.of_nat (length pkts) <= m_ps_packets c ->
  exists c', process_each set_variable pkts c = Some c'
    /\ m_ps_packets c' = m_ps_packets c - Z.of_nat (length pkts)
    /\ reply_state c' = (if m_ps_packets c' =? 0 then DONE else PREPARE).
Proof.
  induction pkts as [|[seq p] pkts IH]; intros c Hst Hne Hn Hlen.
  - exists c. cbn. rewrite Z.sub_0_r. split; [done|]. split; [done|].
    rewrite (proj2 (Z.eqb_neq _ _)) by lia. done.
  - inversion Hne as [|? ? Hp Hne']; subst. cbn [fst snd] in Hp.
    cbn [process_each fst snd length] in *.
    unfold process_one_packet at 1. destruct p as [|b p]; [done|].
    cbn [deref mbind option_bind]. rewrite Hst.
    rewrite Z.mod_small by lia.
    destruct (Z.eqb_spec (m_ps_packets c - 1) 0) as [H0|H0].
    + destruct pkts as [|q pkts]; [|cbn [length] in Hlen; lia].
      eexists. split; [reflexivity|]. cbn. split; [lia|].
      rewrite H0. reflexivity.
    + edestruct (IH (set_ps_packets (m_ps_packets c - 1) c)) as (c' & H1 & H2 & H3);
        [exact Hst | exact Hne' | cbn; lia | cbn; lia |].
      exists c'. split; [exact H1|]. cbn in H2. split; [lia|exact H3].
Qed.

End Prepare.

End Packets.

(** ** OK packets and their session-track blocks *)

Module OkPackets.
Import Wire Proto WireFacts Format Machine Replies Stability Loop Packets.

Section Track.
Context {Vars : Type} (set_variable : list byte -> list byte -> Vars -> Vars).
Abbreviation Conn := (@Conn Vars).

Lemma lenenc_str_length (s : list byte) :
  (length s < length (lenenc_str s))%nat.
Proof.
  unfold lenenc_str. rewrite length_app.
  pose proof (lenenc_int_length (Z.of_nat (length s))). lia.
Qed.

Lemma iter_neq_longer (pre end_ : Iter) :
  pre <> [] -> iter_neq (pre ++ end_) end_ = true.
Proof.
  intros H. unfold iter_neq. rewrite length_app.
  destruct pre; [done|]. cbn [length].
  destruct (Nat.eqb_spec (S (length pre) + length end_) (length end_)); [lia|done].
Qed.

Lemma session_track_entry (e : TrackEntry) (rest end_ : Iter) (fuel : nat) (c : Conn) :
  entry_wf e ->
  session_track_loop set_variable (S fuel) (encode_entry e ++ rest ++ end_) end_ c
  = session_track_loop set_variable fuel (rest ++ end_) end_
      (apply_variables set_variable (tracked_variables [e]) c).
Proof.
  intros [Hlen Hwf]. cbn [session_track_loop].
  rewrite app_assoc, iter_neq_longer by (unfold encode_entry; done).
  rewrite <- app_assoc.
  unfold encode_entry. cbn [app next mbind option_bind].
  rewrite <- app_assoc.
  rewrite get_encoded_int_enc by lia. cbn [mbind option_bind].
  destruct e as [name value|name|body|spec gtid|value|value|t body];
    cbn [entry_type entry_body tracked_variables omap list_omap entry_variable
         apply_variables fold_left fst snd] in *.
  - change (byte_val x00) with 0. cbn [Z.eqb SESSION_TRACK_STATE_CHANGE SESSION_TRACK_SCHEMA
      SESSION_TRACK_GTIDS SESSION_TRACK_TRANSACTION_CHARACTERISTICS SESSION_TRACK_SYSTEM_VARIABLES].
    pose proof (lenenc_str_length name). pose proof (lenenc_str_length value).
    rewrite length_app in Hlen.
    rewrite <- ?app_assoc.
    rewrite get_encoded_str_enc by lia. cbn [mbind option_bind].
    rewrite get_encoded_str_enc by lia. cbn [mbind option_bind]. reflexivity.
  - change (byte_val x01) with 1. cbn [Z.eqb Pos.eqb SESSION_TRACK_STATE_CHANGE SESSION_TRACK_SCHEMA].
    pose proof (lenenc_str_length name).
    rewrite <- ?app_assoc.
    rewrite skip_encoded_str_enc by lia. cbn [mbind option_bind]. reflexivity.
  - change (byte_val x02) with 2. cbn [Z.eqb Pos.eqb SESSION_TRACK_STATE_CHANGE].
    rewrite advance_app by reflexivity. reflexivity.
  - change (byte_val x03) with 3. cbn [Z.eqb Pos.eqb SESSION_TRACK_STATE_CHANGE SESSION_TRACK_SCHEMA
      SESSION_TRACK_GTIDS].
    pose proof (lenenc_str_length gtid).
    rewrite length_app in Hlen.
    rewrite <- ?app_assoc.
    rewrite skip_encoded_int_enc by lia. cbn [mbind option_bind].
    rewrite get_encoded_str_enc by lia. cbn [mbind option_bind]. reflexivity.
  - change (byte_val x04) with 4. cbn [Z.eqb Pos.eqb SESSION_TRACK_STATE_CHANGE SESSION_TRACK_SCHEMA
      SESSION_TRACK_GTIDS SESSION_TRACK_TRANSACTION_CHARACTERISTICS].
    pose proof (lenenc_str_length value).
    rewrite <- ?app_assoc.
    rewrite get_encoded_str_enc by lia. cbn [mbind option_bind]. reflexivity.
  - change (byte_val x05) with 5. cbn [Z.eqb Pos.eqb SESSION_TRACK_STATE_CHANGE SESSION_TRACK_SCHEMA
      SESSION_TRACK_GTIDS SESSION_TRACK_TRANSACTION_CHARACTERISTICS SESSION_TRACK_SYSTEM_VARIABLES
      SESSION_TRACK_TRANSACTION_TYPE].
    pose proof (lenenc_str_length value).
    rewrite <- ?app_assoc.
    rewrite get_encoded_str_enc by lia. cbn [mbind option_bind]. reflexivity.
  - unfold unknown_type in Hwf.
    unfold SESSION_TRACK_STATE_CHANGE, SESSION_TRACK_SCHEMA,
      SESSION_TRACK_GTIDS, SESSION_TRACK_TRANSACTION_CHARACTERISTICS, SESSION_TRACK_SYSTEM_VARIABLES,
      SESSION_TRACK_TRANSACTION_TYPE.
    rewrite !(proj2 (Z.eqb_neq _ _)) by lia.
    rewrite advance_app by reflexivity. reflexivity.
Qed.

Lemma apply_variables_app kvs1 kvs2 (c : Conn) :
  apply_variables set_variable (kvs1 ++ kvs2) c
  = apply_variables set_variable kvs2 (apply_variables set_variable kvs1 c).
Proof. unfold apply_variables. apply fold_left_app. Qed.

Lemma session_track_block (es : list TrackEntry) : forall (end_ : Iter) (fuel : nat) (c : Conn),
  Forall entry_wf es ->
  (length es <= fuel)%nat ->
  session_track_loop set_variable fuel (track_block es ++ end_) end_ c
  = Some (apply_variables set_variable (tracked_variables es) c).
Proof.
  induction es as [|e es IH]; intros end_ fuel c Hall Hfuel.
  - cbn [track_block map concat app]. 
    assert (Hn : iter_neq end_ end_ = false).
    { unfold iter_neq. rewrite Nat.eqb_refl. reflexivity. }
    destruct fuel; cbn [session_track_loop]; rewrite Hn; reflexivity.
  - inversion Hall as [|? ? He Hall']; subst.
    destruct fuel as [|fuel]; [cbn [length] in Hfuel; lia|].
    cbn [track_block map concat]. fold (track_block es).
    rewrite <- app_assoc.
    rewrite session_track_entry by exact He.
    rewrite IH by (try done; cbn [length] in Hfuel; lia).
    assert (Hcons : tracked_variables (e :: es)
                    = tracked_variables [e] ++ tracked_variables es).
    { unfold tracked_variables. cbn [omap list_omap].
      destruct (entry_variable e); reflexivity. }
    rewrite Hcons, apply_variables_app. reflexivity.
Qed.

Lemma track_block_length (es : list TrackEntry) :
  (length es <= length (track_block es))%nat.
Proof.
  induction es as [|e es IH]; [done|].
  cbn [track_block map concat length]. fold (track_block es).
  rewrite length_app. unfold encode_entry at 1. cbn [length]. lia.
Qed.





Lemma process_ok_packet_enc (c : Conn) (affected insert_id status warnings : Z)
    (rest end_ : Iter) :
  0 <= affected < 2 ^ 64 -> 0 <= insert_id < 2 ^ 64 ->
  0 <= status < 2 ^ 16 -> 0 <= warnings < 2 ^ 16 ->
  process_ok_packet set_variable
    (ok_payload affected insert_id status warnings rest) end_ c
  = if extraction_wanted status c then
      it ← skip_encoded_str rest;
      '(_, it) ← get_encoded_int it;
      session_track_loop set_variable (length it) it end_
        (after_ok status warnings c)
    else Some (after_ok status warnings c).
Proof.
  intros Ha Hi Hs Hw. unfold process_ok_packet, ok_payload.
  cbn [incr mbind option_bind].
  rewrite skip_encoded_int_enc by lia. cbn [mbind option_bind].
  rewrite skip_encoded_int_enc by lia. cbn [mbind option_bind].
  destruct (next_le_bytes_2 status (le_bytes 2 warnings ++ rest) Hs)
    as (s0 & s1 & -> & Hsv).
  destruct (next_le_bytes_2 warnings rest Hw) as (w0 & w1 & -> & Hwv).
  cbn [next mbind option_bind].
  rewrite !u16_lor, Hsv, Hwv.
  unfold extraction_wanted, after_ok, has_flag.
  destruct (Z.land status SERVER_MORE_RESULTS_EXIST =? 0); reflexivity.
Qed.

Lemma process_one_packet_ok (c : Conn) (payload end_ : Iter) (len : Z) :
  reply_state c = START ->
  command (m_reply c) <> MXS_COM_STMT_PREPARE ->
  plain_command (command (m_reply c)) ->
  deref payload = Some MYSQL_REPLY_OK ->
  process_one_packet set_variable payload end_ len c
  = process_ok_packet set_variable payload end_ (set_is_ok true c).
Proof.
  intros Hst H1 (H2 & H3 & H4) Hd. unfold process_one_packet. rewrite Hd.
  cbn [mbind option_bind]. rewrite Hst. unfold process_reply_start.
  rewrite !(proj2 (Z.eqb_neq _ _)) by assumption.
  unfold process_result_start. rewrite Hd. cbn [mbind option_bind].
  change (MYSQL_REPLY_OK =? MYSQL_REPLY_OK) with true. cbv iota.
  change (command (m_reply (set_is_ok true c))) with (command (m_reply c)).
  rewrite (proj2 (Z.eqb_neq _ _)) by assumption. reflexivity.
Qed.


Lemma ok_payload_app (a i s w : Z) (r x : list byte) :
  ok_payload a i s w r ++ x = ok_payload a i s w (r ++ x).
Proof.
  unfold ok_payload. cbn [app]. rewrite <- !app_assoc. reflexivity.
Qed.

Lemma process_one_packet_ok_state (c c' : Conn) (o : OkPacket) (after : Iter)
    (len : Z) :
  reply_state c = START ->
  command (m_reply c) <> MXS_COM_STMT_PREPARE ->
  plain_command (command (m_reply c)) ->
  ok_wf o ->
  process_one_packet set_variable (ok_bytes o ++ after) after len c = Some c' ->
  reply_state c'
  = (if has_flag (ok_status o) SERVER_MORE_RESULTS_EXIST then START else DONE).
Proof.
  intros Hst Hp Hc (Ha & Hi & Hs & Hw & _).
  rewrite process_one_packet_ok by done.
  unfold ok_bytes.
  rewrite ok_payload_app.
  rewrite process_ok_packet_enc by done.
  assert (Hafter : reply_state (after_ok (ok_status o) (ok_warnings o) (set_is_ok true c))
          = (if has_flag (ok_status o) SERVER_MORE_RESULTS_EXIST then START else DONE)).
  { unfold after_ok. destruct (has_flag _ _); [exact Hst|reflexivity]. }
  destruct (extraction_wanted _ _).
  - intros H. bind_inv.
    apply session_track_loop_same in H as (_ & H & _). congruence.
  - intros [= <-]. exact Hafter.
Qed.

Lemma process_one_packet_ok_plain (c : Conn) (o : OkPacket) (after : Iter)
    (len : Z) :
  reply_state c = START ->
  command (m_reply c) <> MXS_COM_STMT_PREPARE ->
  plain_command (command (m_reply c)) ->
  ok_wf o ->
  extraction_wanted (ok_status o) c = false ->
  process_one_packet set_variable (ok_bytes o ++ after) after len c
  = Some (after_ok (ok_status o) (ok_warnings o) (set_is_ok true c)).
Proof.
  intros Hst Hp Hc (Ha & Hi & Hs & Hw & _) He.
  rewrite process_one_packet_ok by done.
  unfold ok_bytes.
  rewrite ok_payload_app.
  rewrite process_ok_packet_enc by done.
  change (extraction_wanted (ok_status o) (set_is_ok true c))
    with (extraction_wanted (ok_status o) c).
  rewrite He. reflexivity.
Qed.




(** An OK packet carrying a well-formed session-track block, when
    extraction is due. *)
Lemma process_one_packet_ok_tracked (c : Conn)
    (affected insert_id status warnings : Z) (info : list byte)
    (es : list TrackEntry) (after : Iter) (len : Z) :
  reply_state c = START ->
  command (m_reply c) <> MXS_COM_STMT_PREPARE ->
  plain_command (command (m_reply c)) ->
  0 <= affected < 2 ^ 64 -> 0 <= insert_id < 2 ^ 64 ->
  0 <= status < 2 ^ 16 -> 0 <= warnings < 2 ^ 16 ->
  Z.of_nat (length info) < 2 ^ 24 ->
  Z.of_nat (length (track_block es)) < 2 ^ 24 ->
  Forall entry_wf es ->
  extraction_wanted status c = true ->
  process_one_packet set_variable
    (ok_payload affected insert_id status warnings (track_info info es)
     ++ after) after len c
  = Some (apply_variables set_variable (tracked_variables es)
            (after_ok status warnings (set_is_ok true c))).
Proof.
  intros Hst Hp Hc Ha Hi Hs Hw Hinfo Hblock Hes Hex.
  rewrite process_one_packet_ok by done.
  rewrite ok_payload_app, process_ok_packet_enc by done.
  change (extraction_wanted status (set_is_ok true c))
    with (extraction_wanted status c).
  rewrite Hex. unfold track_info. rewrite <- !app_assoc.
  rewrite skip_encoded_str_enc by lia. cbn [mbind option_bind].
  rewrite get_encoded_int_enc by lia. cbn [mbind option_bind].
  apply session_track_block; [exact Hes|].
  rewrite length_app. pose proof (track_block_length es). lia.
Qed.

Lemma track_info_lengths (info : list byte) (es : list TrackEntry) :
  (length info <= length (track_info info es))%nat
  /\ (length (track_block es) <= length (track_info info es))%nat.
Proof.
  unfold track_info, lenenc_str. rewrite !length_app. lia.
Qed.

Lemma ok_bytes_rest_length (o : OkPacket) :
  (length (ok_rest o) <= length (ok_bytes o))%nat.
Proof.
  unfold ok_bytes, ok_payload. cbn [length]. rewrite !length_app. lia.
Qed.

(** Every OK packet that is well formed for the connection is taken in. *)
Lemma process_one_packet_ok_total (c : Conn) (o : OkPacket) (after : Iter)
    (len : Z) :
  reply_state c = START ->
  command (m_reply c) <> MXS_COM_STMT_PREPARE ->
  plain_command (command (m_reply c)) ->
  ok_wf o -> ok_tracked c o ->
  exists c',
    process_one_packet set_variable (ok_bytes o ++ after) after len c
    = Some c'.
Proof.
  intros Hst Hp Hc Hwf Htr.
  destruct (extraction_wanted (ok_status o) c) eqn:Hex.
  - destruct Htr as [Hno | (info & es & Hrest & Hinfo & Hes)]; [congruence|].
    destruct Hwf as (Ha & Hi & Hs & Hw & Hlen).
    pose proof (ok_bytes_rest_length o) as Hr. rewrite Hrest in Hr.
    pose proof (track_info_lengths info es) as [_ Hb].
    unfold GW_MYSQL_MAX_PACKET_LEN in Hlen.
    eexists. unfold ok_bytes. rewrite Hrest.
    apply process_one_packet_ok_tracked; try done. lia.
  - eexists. apply process_one_packet_ok_plain; done.
Qed.

Lemma ok_tracked_kept (c0 c : Conn) (o : OkPacket) :
  kept c0 c -> ok_tracked c0 o -> ok_tracked c o.
Proof.
  intros (_ & Ht & Hr & _) [H | H]; [left|right; exact H].
  unfold extraction_wanted in *. rewrite Ht, Hr. exact H.
Qed.

Lemma kept_trans (c1 c2 c3 : Conn) : kept c1 c2 -> kept c2 c3 -> kept c1 c3.
Proof. unfold kept. intuition congruence. Qed.

Lemma ok_chain_each (oks : list (byte * OkPacket)) : forall (c0 c : Conn),
  kept c0 c ->
  reply_state c = START ->
  command (m_reply c) <> MXS_COM_STMT_PREPARE ->
  plain_command (command (m_reply c)) ->
  Forall (more_ok c0) oks ->
  exists c', process_each set_variable (ok_stream oks) c = Some c'
    /\ reply_state c' = START /\ kept c0 c'.
Proof.
  induction oks as [|[seq o] oks IH]; intros c0 c Hk Hst Hp Hc Hall.
  - exists c. repeat split; try done; apply Hk.
  - inversion Hall as [|? ? (Hwf & Hmore & Htr) Hall']; subst.
    cbn [fst snd] in *. cbn [ok_stream map process_each fst snd].
    destruct (process_one_packet_ok_total c o [] (Z.of_nat (length (ok_bytes o)))
                Hst Hp Hc Hwf (ok_tracked_kept _ _ _ Hk Htr)) as (c1 & H1).
    pose proof (process_one_packet_ok_state c c1 o [] _ Hst Hp Hc Hwf H1) as Hs1.
    pose proof (process_one_packet_kept _ _ _ _ _ _ H1) as Hk1.
    rewrite app_nil_r in H1. rewrite H1. cbn [mbind option_bind].
    rewrite Hmore in Hs1.
    apply IH; try done.
    + eapply kept_trans; eassumption.
    + destruct Hk1 as (_ & _ & _ & _ & ->). exact Hp.
    + destruct Hk1 as (_ & _ & _ & _ & ->). exact Hc.
Qed.

Lemma process_each_app (ps qs : list (byte * list byte)) : forall c : Conn,
  process_each set_variable (ps ++ qs) c
  = c' ← process_each set_variable ps c; process_each set_variable qs c'.
Proof.
  induction ps as [|p ps IH]; intros c; [reflexivity|].
  cbn [app process_each].
  destruct (process_one_packet _ _ _ _ _) as [c1|]; [|reflexivity].
  cbn [mbind option_bind]. apply IH.
Qed.

Lemma ok_stream_lengths (oks : list (byte * OkPacket)) :
  Forall (fun p => ok_wf p.2) oks ->
  Forall (fun p : byte * list byte =>
            Z.of_nat (length p.2) < GW_MYSQL_MAX_PACKET_LEN) (ok_stream oks).
Proof.
  intros H. unfold ok_stream. apply Forall_map.
  eapply Forall_impl; [|exact H]. intros [seq o] Hwf. apply Hwf.
Qed.

End Track.

End OkPackets.

(** ** The reply state machine: the claims *)

Module ReplyMachine.
Import Wire Proto WireFacts Format Machine Replies Stability Loop Packets
  OkPackets Sample.

Section Claims.
Context {Vars : Type} (set_variable : list byte -> list byte -> Vars -> Vars).
Abbreviation Conn := (@Conn Vars).

(** C1, amended: for every OK packet processed in reply state [START],
    when the last command is not COM_STMT_PREPARE and is none of
    COM_BINLOG_DUMP, COM_STATISTICS and COM_FIELD_LIST, the machine ends in
    [DONE] if and only if the MORE_RESULTS_EXIST bit of the status field is
    clear, and stays in [START] otherwise; the packet is taken in whenever
    no session-state extraction is due or its tracking block is well
    formed; and for a chain of k OK packets with MORE_RESULTS_EXIST set on
    the first k-1 of them, the machine is in [START] before each of the k
    packets and in [DONE] after the last one. *)
Theorem ok_packet_reply_state (c : Conn) :
  reply_state c = START ->
  command (m_reply c) <> MXS_COM_STMT_PREPARE ->
  plain_command (command (m_reply c)) ->
  (forall (o : OkPacket) (after : Iter) (len : Z) (c' : Conn),
     ok_wf o ->
     process_one_packet set_variable (ok_bytes o ++ after) after len c
     = Some c' ->
     (reply_state c' = DONE
      <-> has_flag (ok_status o) SERVER_MORE_RESULTS_EXIST = false)
     /\ (reply_state c' <> DONE -> reply_state c' = START))
  /\ (forall (o : OkPacket) (after : Iter) (len : Z),
        ok_wf o -> ok_tracked c o ->
        exists c',
          process_one_packet set_variable (ok_bytes o ++ after) after len c
          = Some c')
  /\ (forall (oks : list (byte * OkPacket)) (last : byte * OkPacket),
        m_skip_next c = false ->
        Forall (more_ok c) oks ->
        last_ok c last ->
        let stream := ok_stream (oks ++ [last]) in
        (forall j : nat,
           (j <= length oks)%nat ->
           exists cj,
             feed_chunks set_variable (frames (take j stream)) [] c
             = Some (cj, concat (frames (take j stream)), [])
             /\ reply_state cj = START)
        /\ exists c',
             feed_chunks set_variable (frames stream) [] c
             = Some (c', concat (frames stream), [])
             /\ reply_state c' = DONE).
Proof.
  intros Hst Hp Hc. split; [|split].
  - intros o after len c' Hwf H.
    rewrite (process_one_packet_ok_state set_variable c c' o after len
               Hst Hp Hc Hwf H).
    destruct (has_flag _ _); split; try split; try done.
  - intros o after len Hwf Htr.
    apply process_one_packet_ok_total; done.
  - intros oks last Hs Hall Hlast stream.
    assert (Hk0 : kept c c) by (repeat split).
    assert (Hwf : Forall (fun p : byte * OkPacket => ok_wf p.2) oks).
    { eapply Forall_impl; [|exact Hall]. intros p Hm. apply Hm. }
    split.
    + intros j Hj.
      assert (Htake : take j stream = ok_stream (take j oks)).
      { unfold stream, ok_stream. rewrite firstn_map, take_app_le by lia.
        reflexivity. }
      rewrite Htake.
      destruct (ok_chain_each set_variable (take j oks) c c Hk0 Hst Hp Hc)
        as (cj & H1 & H2 & _).
      { apply Forall_take. exact Hall. }
      exists cj. split; [|exact H2].
      apply feed_chunks_frames; [exact Hs | | exact H1].
      apply ok_stream_lengths. apply Forall_take. exact Hwf.
    + destruct (ok_chain_each set_variable oks c c Hk0 Hst Hp Hc Hall)
        as (c1 & H1 & H2 & Hk).
      destruct Hlast as (Hlwf & Hlflag & Hltr).
      assert (Hp1 : command (m_reply c1) <> MXS_COM_STMT_PREPARE)
        by (destruct Hk as (_ & _ & _ & _ & ->); exact Hp).
      assert (Hc1 : plain_command (command (m_reply c1)))
        by (destruct Hk as (_ & _ & _ & _ & ->); exact Hc).
      destruct (process_one_packet_ok_total set_variable c1 last.2 []
                  (Z.of_nat (length (ok_bytes last.2))) H2 Hp1 Hc1 Hlwf
                  (ok_tracked_kept _ _ _ Hk Hltr)) as (c2 & Hl).
      pose proof (process_one_packet_ok_state set_variable c1 c2 last.2 [] _
                    H2 Hp1 Hc1 Hlwf Hl) as Hs2.
      rewrite Hlflag in Hs2. rewrite app_nil_r in Hl.
      exists c2. split; [|exact Hs2].
      apply feed_chunks_frames; [exact Hs| |].
      { apply ok_stream_lengths. apply Forall_app. split; [exact Hwf|].
        constructor; [exact Hlwf|constructor]. }
      unfold stream, ok_stream. rewrite map_app, process_each_app.
      fold (ok_stream oks). rewrite H1.
      cbn [mbind option_bind map process_each fst snd].
      rewrite Hl. reflexivity.
Qed.

(** C2, amended: in reply state [RSET_ROWS], a packet whose first payload
    byte is 0xFE is an EOF terminator when its payload length is exactly 5
    (a packet of 9 bytes with its header): the machine reads the warning
    and status fields and goes to [START] when MORE_RESULTS_EXIST is set
    and to [DONE] otherwise, counting no row. With any other payload
    length the packet is counted as a row. *)
Theorem eof_packet_in_rows (c : Conn) (end_ : Iter) :
  reply_state c = RSET_ROWS ->
  (forall (w0 w1 s0 s1 : byte) (rest : Iter),
     process_one_packet set_variable (xfe :: w0 :: w1 :: s0 :: s1 :: rest)
       end_ 5 c
     = Some (set_num_warnings (le_value [w0; w1])
               (set_reply_state
                  (if has_flag (le_value [s0; s1]) SERVER_MORE_RESULTS_EXIST
                   then START else DONE) c)))
  /\ (forall (rest : Iter) (len : Z),
        len <> 5 ->
        process_one_packet set_variable (xfe :: rest) end_ len c
        = Some (add_rows 1 c)).
Proof.
  intros Hst. split.
  - intros w0 w1 s0 s1 rest. unfold process_one_packet.
    cbn [deref mbind option_bind]. rewrite Hst.
    change (byte_val xfe =? MYSQL_REPLY_EOF) with true.
    change (5 =? MYSQL_EOF_PACKET_LEN - MYSQL_HEADER_LEN) with true.
    cbn [andb]. unfold is_last_eof.
    cbn [incr next deref mbind option_bind].
    rewrite !u16_lor. unfold has_flag.
    destruct (Z.land _ _ =? 0); reflexivity.
  - intros rest len Hlen. unfold process_one_packet.
    cbn [deref mbind option_bind]. rewrite Hst.
    change (byte_val xfe =? MYSQL_REPLY_EOF) with true.
    change (MYSQL_EOF_PACKET_LEN - MYSQL_HEADER_LEN) with 5.
    rewrite (proj2 (Z.eqb_neq _ _) Hlen). cbn [andb].
    change (byte_val xfe =? MYSQL_REPLY_ERR) with false. reflexivity.
Qed.

(** C5: a COM_STMT_PREPARE OK response declaring c columns and p
    parameters sets the prepare packet count to
    (c>0 ? c+1 : 0) + (p>0 ? p+1 : 0) and takes the machine to [PREPARE]
    when the count is not zero and to [DONE] when it is zero; every
    packet that follows in state [PREPARE] takes one off the count, and
    the machine is in [DONE] exactly when the count has reached zero. *)
Theorem prepare_response_packet_count
    (c : Conn) (id0 id1 id2 id3 c0 c1 p0 p1 : byte) (rest end_ : Iter)
    (len : Z) :
  reply_state c = START ->
  command (m_reply c) = MXS_COM_STMT_PREPARE ->
  let n := ps_count (le_value [c0; c1]) (le_value [p0; p1]) in
  exists c1',
    process_one_packet set_variable
      (x00 :: id0 :: id1 :: id2 :: id3 :: c0 :: c1 :: p0 :: p1 :: rest)
      end_ len c = Some c1'
    /\ m_ps_packets c1' = n
    /\ reply_state c1' = (if n =? 0 then DONE else PREPARE)
    /\ forall pkts : list (byte * list byte),
         m_skip_next c = false ->
         Forall (fun p => p.2 <> []
                          /\ Z.of_nat (length p.2) < GW_MYSQL_MAX_PACKET_LEN)
                pkts ->
         Z.of_nat (length pkts) <= n ->
         exists c2,
           feed_chunks set_variable (frames pkts) [] c1'
           = Some (c2, concat (frames pkts), [])
           /\ m_ps_packets c2 = n - Z.of_nat (length pkts)
           /\ reply_state c2
              = (if n - Z.of_nat (length pkts) =? 0 then DONE else PREPARE).
Proof.
  intros Hst Hcmd n.
  pose proof (process_ps_response_bytes (set_is_ok true c)
                id0 id1 id2 id3 c0 c1 p0 p1 rest end_) as Hps.
  cbv zeta in Hps. fold n in Hps.
  eexists. split.
  { unfold process_one_packet. cbn [deref mbind option_bind]. rewrite Hst.
    unfold process_reply_start. rewrite Hcmd. cbn [Z.eqb Pos.eqb MXS_COM_STMT_PREPARE MXS_COM_BINLOG_DUMP MXS_COM_STATISTICS MXS_COM_FIELD_LIST].
    unfold process_result_start. cbn [deref mbind option_bind].
    change (byte_val "000" =? MYSQL_REPLY_OK) with true. cbv iota.
    assert (Hc : command (m_reply (set_is_ok true c)) = MXS_COM_STMT_PREPARE) by exact Hcmd.
    rewrite Hc. change (MXS_COM_STMT_PREPARE =? MXS_COM_STMT_PREPARE) with true.
    cbv iota. exact Hps. }
  split; [reflexivity|]. split; [reflexivity|].
  intros pkts Hs Hall Hlen.
  assert (Hn : 0 <= n < 2 ^ 32).
  { pose proof (le_value_2_range c0 c1). pose proof (le_value_2_range p0 p1).
    unfold n, ps_count. repeat destruct (_ <? _); lia. }
  set (c1' := set_reply_state _ _).
  destruct pkts as [|pkt pkts].
  { exists c1'. cbn [length]. rewrite Z.sub_0_r. repeat split. }
  assert (Hpos : n <> 0) by (cbn [length] in Hlen; lia).
  assert (Hs1 : m_skip_next c1' = false) by exact Hs.
  destruct (prepare_countdown set_variable (pkt :: pkts) c1') as (c2 & H1 & H2 & H3).
  - unfold c1'. rewrite (proj2 (Z.eqb_neq _ _) Hpos). reflexivity.
  - eapply Forall_impl; [|exact Hall]. cbn. tauto.
  - change (m_ps_packets c1') with n. lia.
  - exact Hlen.
  - exists c2. split.
    + apply feed_chunks_frames; [exact Hs1 | | exact H1].
      eapply Forall_impl; [|exact Hall]. cbn. tauto.
    + change (m_ps_packets c1') with n in H2. rewrite <- H2. split; [reflexivity|exact H3].
Qed.

(** C6, amended: whenever feeding the chunks of a byte stream one at a
    time (carrying the residual bytes and the machine state from call to
    call) reads no byte beyond those received so far, feeding the whole
    stream in one call yields the same whole packets, the same residual
    bytes and the same final connection state; the packets consumed are
    whole packets and the residual is an incomplete header or an
    incomplete packet: nothing beyond the last complete packet is
    consumed. *)
Theorem chunked_feed_agrees (chunks : list (list byte)) (c c' : Conn)
    (packets residual : list byte) :
  feed_chunks set_variable chunks [] c = Some (c', packets, residual) ->
  process_packets set_variable (concat chunks) c
  = Some (c', packets, residual)
  /\ concat chunks = packets ++ residual
  /\ whole_packets packets
  /\ incomplete residual.
Proof.
  intros H.
  assert (Hnil : incomplete []) by (left; simpl; lia).
  pose proof (feed_chunks_whole set_variable chunks [] c c' packets residual
                H Hnil) as Hw.
  cbn [app] in Hw. split; [exact Hw|].
  apply (process_packets_framing set_variable _ c c'). exact Hw.
Qed.


End Claims.

Ltac closed_fact :=
  repeat split; try (vm_compute; first [reflexivity | discriminate]).

(** With COM_BINLOG_DUMP as the last command an OK packet without
    MORE_RESULTS_EXIST leaves the machine in [START]; with COM_STATISTICS
    an OK packet with MORE_RESULTS_EXIST takes it to [DONE]. *)
Lemma ok_packet_other_commands_counterexample :
  reply_state <$>
    process_one_packet log_variable (ok_bytes (mkOk 0 0 0 0 [])) [] 7
      (conn_of MXS_COM_BINLOG_DUMP START false) = Some START
  /\ has_flag 0 SERVER_MORE_RESULTS_EXIST = false
  /\ reply_state <$>
       process_one_packet log_variable (ok_bytes (mkOk 0 0 8 0 [])) [] 7
         (conn_of MXS_COM_STATISTICS START false) = Some DONE
  /\ has_flag 8 SERVER_MORE_RESULTS_EXIST = true.
Proof. repeat split; vm_compute; reflexivity. Qed.

Lemma ok_packet_reply_state_witness :
  let stream := ok_stream [(x01, mkOk 0 0 8 0 []); (x02, mkOk 0 0 0 0 [])] in
  exists c',
    feed_chunks log_variable (frames stream) []
      (conn_of MXS_COM_QUERY START false)
    = Some (c', concat (frames stream), [])
    /\ reply_state c' = DONE.
Proof.
  destruct (ok_packet_reply_state log_variable
              (conn_of MXS_COM_QUERY START false)) as (_ & _ & H);
    [closed_fact ..|].
  destruct (H [(x01, mkOk 0 0 8 0 [])] (x02, mkOk 0 0 0 0 [])) as [_ H2].
  - reflexivity.
  - constructor; [|constructor]. split; [closed_fact|].
    split; [reflexivity|]. left. reflexivity.
  - split; [closed_fact|]. split; [reflexivity|]. left. reflexivity.
  - exact H2.
Defined.

(** In [RSET_ROWS] a packet of seven bytes led by [0xFE] (less than nine
    bytes, status without MORE_RESULTS_EXIST) is counted as a row and the
    machine stays in [RSET_ROWS]. *)
Lemma eof_shorter_than_nine_counterexample :
  process_one_packet log_variable [xfe; x00; x00; x00; x00; x00; x00] [] 7
    (conn_of MXS_COM_QUERY RSET_ROWS false)
  = Some (add_rows 1 (conn_of MXS_COM_QUERY RSET_ROWS false))
  /\ reply_state (add_rows 1 (conn_of MXS_COM_QUERY RSET_ROWS false))
     = RSET_ROWS
  /\ rows (m_reply (add_rows 1 (conn_of MXS_COM_QUERY RSET_ROWS false))) = 1.
Proof. repeat split. Qed.

Lemma eof_packet_in_rows_witness :
  reply_state <$>
    process_one_packet log_variable (eof_payload 0 0x0008) [] 5
      (conn_of MXS_COM_QUERY RSET_ROWS false) = Some START
  /\ reply_state <$>
       process_one_packet log_variable (eof_payload 2 0) [] 5
         (conn_of MXS_COM_QUERY RSET_ROWS false) = Some DONE
  /\ process_one_packet log_variable [xfe; x00; x00] [] 3
       (conn_of MXS_COM_QUERY RSET_ROWS false)
     = Some (add_rows 1 (conn_of MXS_COM_QUERY RSET_ROWS false)).
Proof.
  destruct (eof_packet_in_rows log_variable
              (conn_of MXS_COM_QUERY RSET_ROWS false) [] eq_refl)
    as [Heof Hrow].
  split; [|split].
  - change (eof_payload 0 8) with [xfe; x00; x00; x08; x00].
    rewrite Heof. reflexivity.
  - change (eof_payload 2 0) with [xfe; x02; x00; x00; x00].
    rewrite Heof. reflexivity.
  - apply Hrow. discriminate.
Defined.

(** The stream of scenario S5: a prepare response announcing two columns
    and one parameter is followed by five packets. *)
Lemma prepare_response_packet_count_witness :
  let pkts := [(x02, [x03]); (x03, eof_payload 0 0); (x04, [x03]);
               (x05, [x03]); (x06, eof_payload 0 0)] in
  exists c1 c2,
    process_one_packet log_variable (ps_ok_payload 7 2 1 0) [] 12
      (conn_of MXS_COM_STMT_PREPARE START false) = Some c1
    /\ m_ps_packets c1 = 5 /\ reply_state c1 = PREPARE
    /\ feed_chunks log_variable (frames pkts) [] c1
       = Some (c2, concat (frames pkts), [])
    /\ m_ps_packets c2 = 0 /\ reply_state c2 = DONE.
Proof.
  intros pkts.
  destruct (prepare_response_packet_count log_variable
              (conn_of MXS_COM_STMT_PREPARE START false)
              x07 x00 x00 x00 x02 x00 x01 x00 [x00; x00; x00] [] 12
              eq_refl eq_refl) as (c1 & H1 & H2 & H3 & Hrun).
  destruct (Hrun pkts) as (c2 & H4 & H5 & H6).
  - reflexivity.
  - repeat constructor; closed_fact.
  - closed_fact.
  - exists c1, c2. repeat split; assumption.
Defined.

(** An OK packet cut short: taken alone in its buffer, processing it reads
    past the end of the buffer; followed by the next packet in one buffer,
    the bytes of that packet are read in its place. *)
Lemma chunked_feed_counterexample :
  let p1 := frame x01 [x00] in
  let p2 := frame x02 [xff; x15; x04; x23; x48; x59; x30; x30; x30] in
  feed_chunks log_variable [p1; p2] [] (conn_of MXS_COM_QUERY START false)
  = None
  /\ (fun r => (reply_state r.1.1, r.1.2, r.2)) <$>
       process_packets log_variable (p1 ++ p2)
         (conn_of MXS_COM_QUERY START false)
     = Some (DONE, p1 ++ p2, []).
Proof. split; vm_compute; reflexivity. Qed.

(** A stream of two packets cut inside the first header, inside the first
    payload and inside the second header. *)
Lemma chunked_feed_agrees_witness :
  let stream :=
    frame x01 (ok_bytes (mkOk 0 0 8 0 [])) ++ frame x02 (ok_bytes (mkOk 0 0 0 0 []))
    ++ [x05; x00] in
  exists c',
    process_packets log_variable stream (conn_of MXS_COM_QUERY START false)
    = Some (c', take 22 stream, [x05; x00])
    /\ reply_state c' = DONE.
Proof.
  set (chunks := [[x07; x00]; [x00; x01; x00; x00]; [x00; x08; x00; x00; x00; x07];
                  [x00; x00; x02; x00; x00; x00; x00; x00; x00; x00; x05; x00]]).
  destruct (feed_chunks log_variable chunks [] (conn_of MXS_COM_QUERY START false))
    as [[[c' packets] residual]|] eqn:Hfeed; [|vm_compute in Hfeed; discriminate].
  destruct (chunked_feed_agrees log_variable chunks _ c' packets residual Hfeed)
    as (Hw & _).
  exists c'. vm_compute in Hfeed. injection Hfeed as <- <- <-.
  split; [exact Hw|reflexivity].
Defined.



End ReplyMachine.

(** ** The handshake decoder and the COM_CHANGE_USER packet *)

Module AuthFacts.
Import Wire Proto WireFacts Format Auth.

Lemma read_bytes_app (pre rest : list byte) (n : nat) :
  length pre = n -> read_bytes n (pre ++ rest) = Some pre.
Proof.
  intros <-. unfold read_bytes.
  rewrite bool_decide_eq_true_2 by (rewrite length_app; lia).
  rewrite take_app_length. reflexivity.
Qed.

Lemma ptr_add_app (pre rest : list byte) (n : nat) :
  length pre = n -> ptr_add n (pre ++ rest) = Some rest.
Proof.
  intros <-. unfold ptr_add.
  rewrite bool_decide_eq_true_2 by (rewrite length_app; lia).
  rewrite drop_app_length. reflexivity.
Qed.

Lemma gw_strend_app (s rest : list byte) :
  Forall (fun b => byte_val b <> 0) s ->
  gw_strend (s ++ x00 :: rest) = Some (x00 :: rest).
Proof.
  induction 1 as [|b s Hb _ IH]; [reflexivity|].
  cbn [app gw_strend]. rewrite (proj2 (Z.eqb_neq _ _) Hb). exact IH.
Qed.

Lemma gw_decode_greeting (g : ServerGreeting) (conn : Greeting) :
  greeting_wf g ->
  gw_decode_mysql_server_handshake (greeting_bytes g) conn
  = if negb (byte_val (sg_protocol g) =? GW_MYSQL_PROTOCOL_VERSION)
    then Some (-1, conn)
    else
      let conn' :=
        mkGreeting (le_value (sg_thread_id g))
          (Z.lor (le_value (sg_capabilities_lo g))
             (le_value (sg_capabilities_hi g) ≪ 16) mod 2 ^ 32) in
      let L := declared_scramble_len g in
      if (L <? 8) || (20 <? L)
      then Some (-2, conn' (m_scramble conn))
      else
        Some (0, conn' (sg_scramble_1 g
                        ++ take (Z.to_nat (L - 8)) (sg_rest g)
                        ++ replicate (12 - Z.to_nat (L - 8)) x00)).
Proof.
  intros (Hv & Htid & Hs1 & Hlo & Hst & Hhi & Hres & Hrest).
  unfold declared_scramble_len, GW_MYSQL_SCRAMBLE_SIZE, GW_SCRAMBLE_LENGTH_323 in Hrest.
  unfold gw_decode_mysql_server_handshake, greeting_bytes.
  cbn [deref mbind option_bind].
  destruct (byte_val (sg_protocol g) =? GW_MYSQL_PROTOCOL_VERSION); [|reflexivity].
  cbn [negb].
  change (ptr_add 1 (sg_protocol g :: ?l)) with (ptr_add 1 ([sg_protocol g] ++ l)).
  rewrite ptr_add_app by reflexivity. cbn [mbind option_bind].
  rewrite gw_strend_app by exact Hv. cbn [mbind option_bind].
  change (ptr_add 1 (x00 :: ?l)) with (ptr_add 1 ([x00] ++ l)).
  rewrite ptr_add_app by reflexivity. cbn [mbind option_bind].
  unfold gw_mysql_get_byte4, gw_mysql_get_byte2.
  rewrite read_bytes_app by exact Htid. cbn [fmap option_fmap option_map mbind option_bind].
  rewrite ptr_add_app by exact Htid. cbn [mbind option_bind].
  rewrite read_bytes_app by exact Hs1. cbn [mbind option_bind].
  rewrite ptr_add_app by exact Hs1. cbn [mbind option_bind].
  change (ptr_add 1 (sg_filler g :: ?l)) with (ptr_add 1 ([sg_filler g] ++ l)).
  rewrite ptr_add_app by reflexivity. cbn [mbind option_bind].
  rewrite read_bytes_app by exact Hlo. cbn [fmap option_fmap option_map mbind option_bind].
  assert (H5 : forall l, ptr_add 5 (sg_capabilities_lo g ++ sg_charset g :: sg_status g ++ l) = Some l).
  { intros l.
    change (sg_capabilities_lo g ++ sg_charset g :: sg_status g ++ l)
      with (sg_capabilities_lo g ++ [sg_charset g] ++ sg_status g ++ l).
    rewrite !app_assoc. apply ptr_add_app. rewrite !length_app, Hlo, Hst. reflexivity. }
  rewrite H5. cbn [mbind option_bind].
  rewrite read_bytes_app by exact Hhi. cbn [fmap option_fmap option_map mbind option_bind].
  rewrite ptr_add_app by exact Hhi. cbn [mbind option_bind deref].
  assert (H11 : forall l, ptr_add 11 (sg_auth_data_len g :: sg_reserved g ++ l) = Some l).
  { intros l.
    change (sg_auth_data_len g :: sg_reserved g ++ l)
      with ([sg_auth_data_len g] ++ sg_reserved g ++ l).
    rewrite app_assoc. apply ptr_add_app. rewrite length_app, Hres. reflexivity. }
  rewrite H11. cbn [mbind option_bind].
  unfold declared_scramble_len in *.
  unfold GW_SCRAMBLE_LENGTH_323, GW_MYSQL_SCRAMBLE_SIZE in *.
  pose proof (byte_val_range (sg_auth_data_len g)) as Hb.
  assert (Hread : forall L, 8 <= L <= 20 -> L - 8 <= Z.of_nat (length (sg_rest g)) ->
    (read_bytes (Z.to_nat (L - 8)) (sg_rest g)
     ≫= λ copied : list byte,
       Some (0, {| m_thread_id := le_value (sg_thread_id g);
                   server_capabilities := Z.lor (le_value (sg_capabilities_lo g))
                         (le_value (sg_capabilities_hi g) ≪ 16) `mod` 2 ^ 32;
                   m_scramble := sg_scramble_1 g ++
                      take (Z.to_nat (L - 8))
                         (copied ++ replicate (Z.to_nat (20 - 8) - Z.to_nat (L - 8)) x00) ++
                        replicate (Z.to_nat (20 - 8) - Z.to_nat (L - 8)) x00 |}))
    = Some (0, {| m_thread_id := le_value (sg_thread_id g);
                   server_capabilities := Z.lor (le_value (sg_capabilities_lo g))
                         (le_value (sg_capabilities_hi g) ≪ 16) `mod` 2 ^ 32;
                   m_scramble := sg_scramble_1 g ++ take (Z.to_nat (L - 8)) (sg_rest g)
                        ++ replicate (12 - Z.to_nat (L - 8)) x00 |})).
  { intros L HL HLr. unfold read_bytes.
    rewrite bool_decide_eq_true_2 by lia. cbn [mbind option_bind].
    rewrite take_app_le by (rewrite length_take; lia).
    rewrite take_take, Nat.min_id. reflexivity. }
  set (a := byte_val (sg_auth_data_len g)) in *.
  destruct (Z.eqb_spec a 0) as [H0|H0].
  - rewrite (proj2 (Z.ltb_ge 0 a)) by lia.
    change ((20 <? 8) || (20 <? 20)) with false. cbv iota.
    cbv iota in Hrest.
    apply (Hread 20); lia.
  - rewrite (proj2 (Z.ltb_lt 0 a)) by lia.
    destruct (Z.ltb_spec (a - 1) 8), (Z.ltb_spec 20 (a - 1)); cbn [orb];
      try reflexivity.
    cbv iota in Hrest.
    apply (Hread (a - 1)); lia.
Qed.

Lemma memcpy_at_cursor (pre src : list byte) (n : nat) :
  (length src <= n)%nat ->
  memcpy_at (length pre) src (pre ++ replicate n x00)
  = Some ((pre ++ src) ++ replicate (n - length src) x00).
Proof.
  intros Hn. unfold memcpy_at.
  rewrite bool_decide_eq_true_2
    by (rewrite length_app, length_replicate; lia).
  rewrite take_app_length, drop_app_add, drop_replicate, <- app_assoc.
  reflexivity.
Qed.

Lemma cursor_skip (pre : list byte) (n : nat) :
  pre ++ replicate (S n) x00 = (pre ++ [x00]) ++ replicate n x00.
Proof. rewrite <- app_assoc. reflexivity. Qed.

Lemma memcpy_at_zero (off n : nat) :
  (off < n)%nat ->
  memcpy_at off [x00] (replicate n x00) = Some (replicate n x00).
Proof.
  intros Hn. unfold memcpy_at. cbn [length].
  rewrite bool_decide_eq_true_2 by (rewrite length_replicate; lia).
  rewrite take_replicate, drop_replicate. f_equal.
  change ([x00] ++ ?l) with (replicate 1 x00 ++ l).
  rewrite <- !replicate_add. f_equal. lia.
Qed.

Lemma memcpy_at_front (src buf : list byte) :
  (length src <= length buf)%nat ->
  memcpy_at 0 src buf = Some (src ++ drop (length src) buf).
Proof.
  intros H. unfold memcpy_at. rewrite bool_decide_eq_true_2 by lia.
  reflexivity.
Qed.

Lemma xor_bytes_length (a b : list byte) :
  length a = length b -> length (xor_bytes a b) = length a.
Proof. intros H. unfold xor_bytes. rewrite length_zip_with. lia. Qed.

Lemma xor_byte_comm (a b : byte) : xor_byte a b = xor_byte b a.
Proof. unfold xor_byte. rewrite Z.lxor_comm. reflexivity. Qed.

Lemma xor_bytes_comm (a b : list byte) : xor_bytes a b = xor_bytes b a.
Proof.
  unfold xor_bytes. revert b. induction a as [|x a IH]; intros [|y b];
    cbn [zip_with]; try reflexivity.
  rewrite xor_byte_comm, IH. reflexivity.
Qed.

Lemma read_bytes_all (p : list byte) (n : nat) :
  length p = n -> read_bytes n p = Some p.
Proof.
  intros <-. unfold read_bytes. rewrite bool_decide_eq_true_2 by lia.
  rewrite firstn_all. reflexivity.
Qed.

Section Hash.
Variable SHA1 : list byte -> list byte.
Hypothesis SHA1_length : forall m, length (SHA1 m) = 20%nat.

Lemma scramble_spec_length (S H1 : list byte) :
  length H1 = 20%nat -> length (scramble_spec SHA1 S H1) = 20%nat.
Proof.
  intros H. unfold scramble_spec. rewrite xor_bytes_length; [exact H|].
  rewrite SHA1_length. exact H.
Qed.

Lemma mxs_mysql_calculate_hash_spec (S H1 : list byte) :
  length S = 20%nat -> length H1 = 20%nat ->
  mxs_mysql_calculate_hash SHA1 S H1 = Some (scramble_spec SHA1 S H1).
Proof.
  intros HS HH. unfold mxs_mysql_calculate_hash, gw_sha1_str, gw_sha1_2_str,
    gw_str_xor.
  change (Z.to_nat GW_MYSQL_SCRAMBLE_SIZE) with 20%nat.
  repeat (rewrite read_bytes_all by (first [exact HH | exact HS | apply SHA1_length]);
          cbn [mbind option_bind]).
  unfold scramble_spec. rewrite xor_bytes_comm. reflexivity.
Qed.


Lemma memcpy_at_nil (off : nat) (buf : list byte) :
  (off <= length buf)%nat -> memcpy_at off [] buf = Some buf.
Proof.
  intros H. unfold memcpy_at. cbn [length].
  rewrite bool_decide_eq_true_2 by lia.
  rewrite Nat.add_0_r. cbn [app]. rewrite take_drop. reflexivity.
Qed.

Lemma memcpy_at_optional (off : nat) (src buf : list byte) :
  (off <= length buf)%nat ->
  (if (0 <? length src)%nat then memcpy_at off src buf else Some buf)
  = memcpy_at off src buf.
Proof.
  intros H. destruct src as [|b src]; cbn [length Nat.ltb Nat.leb].
  - rewrite memcpy_at_nil by exact H. reflexivity.
  - reflexivity.
Qed.

Lemma memcpy_at_cursor_k (pre src : list byte) (n k : nat) :
  (k + length src <= n)%nat ->
  memcpy_at (length pre + k) src (pre ++ replicate n x00)
  = Some ((pre ++ replicate k x00 ++ src)
          ++ replicate (n - k - length src) x00).
Proof.
  intros Hn.
  replace n with (k + (n - k))%nat at 1 by lia.
  rewrite replicate_add, app_assoc.
  replace (length pre + k)%nat with (length (pre ++ replicate k x00))
    by (rewrite length_app, length_replicate; reflexivity).
  rewrite memcpy_at_cursor by lia. rewrite <- !app_assoc. reflexivity.
Qed.

Lemma memcpy_at_cursor_at (pre src : list byte) (n k off : nat) :
  off = (length pre + k)%nat -> (k + length src <= n)%nat ->
  memcpy_at off src (pre ++ replicate n x00)
  = Some ((pre ++ replicate k x00 ++ src)
          ++ replicate (n - k - length src) x00).
Proof. intros ->. apply memcpy_at_cursor_k. Qed.

Ltac cursor_lia :=
  rewrite ?length_app, ?length_replicate; cbn [length];
  rewrite ?length_app, ?length_replicate; cbn [length]; lia.

Ltac cursor k :=
  match goal with
  | |- context [memcpy_at ?off ?src (?pre ++ replicate ?n x00)] =>
      rewrite (memcpy_at_cursor_at pre src n k off) by cursor_lia;
      cbn [mbind option_bind]
  end.

Lemma gw_create_change_user_packet_spec (mses : MYSQL_session) (Sc : list byte) :
  length (auth_token_phase2 mses) = 20%nat -> length Sc = 20%nat ->
  gw_create_change_user_packet SHA1 mses Sc
  = Some (frame x00
            (change_user_payload (c_str (user mses))
               (scramble_spec SHA1 Sc (auth_token_phase2 mses))
               (c_str (db mses)) (client_charset mses)
               DEFAULT_MYSQL_AUTH_PLUGIN (connect_attrs mses))).
Proof.
  intros Htok HS. unfold gw_create_change_user_packet.
  change (Z.to_nat GW_MYSQL_SCRAMBLE_SIZE) with 20%nat.
  change (Z.to_nat MYSQL_SCRAMBLE_LEN) with 20%nat.
  rewrite Htok. change (20 =? 20)%nat with true. cbv iota.
  set (U := c_str (user mses)). set (D := c_str (db mses)).
  set (A := connect_attrs mses). set (P := DEFAULT_MYSQL_AUTH_PLUGIN).
  set (X := scramble_spec SHA1 Sc (auth_token_phase2 mses)).
  assert (HX : length X = 20%nat) by (apply scramble_spec_length; exact Htok).
  assert (Hhash :
    (read_bytes 20 (auth_token_phase2 mses) ≫= λ hash1,
       gw_sha1_str SHA1 hash1 20 ≫= λ hash2,
         gw_sha1_2_str SHA1 Sc 20 hash2 20 ≫= λ new_sha,
           gw_str_xor new_sha hash1 20) = Some X).
  { exact (mxs_mysql_calculate_hash_spec Sc _ HS Htok). }
  set (N := (1 + (length U + 1) + 20 + 1 + length D + 1 + 2 + (length P + 1)
             + length A)%nat).
  assert (Hbytes :
    (S match (if (0 <? length D)%nat then Some D else None) with
       | Some d => S (1 + (length U + 1) + 20) + length d
       | None => S (1 + (length U + 1) + 20)
       end + 2 + (length P + 1) + length A + 4)%nat = (4 + N)%nat).
  { unfold N. destruct (Nat.ltb_spec 0 (length D)); lia. }
  rewrite Hbytes.
  rewrite memcpy_at_zero by lia. cbn [mbind option_bind].
  rewrite (replicate_add 4 N).
  cursor 0%nat. cursor 0%nat.
  destruct (read_bytes 20 (auth_token_phase2 mses)) as [hash1|]; [|discriminate].
  cbn [mbind option_bind] in *.
  destruct (gw_sha1_str SHA1 hash1 20) as [hash2|]; [|discriminate].
  cbn [mbind option_bind] in *.
  destruct (gw_sha1_2_str SHA1 Sc 20 hash2 20) as [new_sha|]; [|discriminate].
  cbn [mbind option_bind] in *. rewrite Hhash. cbn [mbind option_bind].
  cursor 1%nat. cursor 0%nat.
  assert (Hlen3 : length (le_bytes 3 (Z.of_nat (4 + N) - MYSQL_HEADER_LEN)) = 3%nat)
    by apply length_le_bytes.
  assert (Hdb : forall (off : nat) (buf : list byte), (off <= length buf)%nat ->
    match (if (0 <? length D)%nat then Some D else None) with
    | Some d => memcpy_at off d buf ≫= λ buffer, Some (buffer, (off + length d)%nat)
    | None => Some (buf, off)
    end = memcpy_at off D buf ≫= λ buffer, Some (buffer, (off + length D)%nat)).
  { intros off buf Hoff. destruct D as [|d0 D0]; cbn [length Nat.ltb Nat.leb].
    - rewrite memcpy_at_nil by exact Hoff. cbn [mbind option_bind].
      rewrite Nat.add_0_r. reflexivity.
    - reflexivity. }
  rewrite Hdb by cursor_lia. clear Hdb.
  cursor 0%nat. cursor 1%nat. cursor 0%nat. cursor 0%nat.
  rewrite memcpy_at_optional by cursor_lia.
  cursor 1%nat.
  match goal with
  | |- context [replicate ?n x00] =>
      lazymatch n with
      | context [N] => replace n with 0%nat by (cbn [length]; unfold N; lia)
      end
  end.
  rewrite memcpy_at_front by (rewrite Hlen3; cbn [replicate app length]; lia).
  rewrite Hlen3. cbn [replicate app drop]. rewrite <- !app_assoc.
  cbn [app]. rewrite app_nil_r.
  unfold frame, change_user_payload. rewrite HX.
  f_equal. f_equal. f_equal.
  repeat (first [rewrite length_app | progress (cbn [length])]).
  rewrite HX. unfold N, MYSQL_HEADER_LEN. lia.
Qed.
End Hash.

Lemma sha1_length (m : list byte) : length (SHA1Ref.sha1 m) = 20%nat.
Proof.
  unfold SHA1Ref.sha1.
  destruct (fold_left _ _ _) as [[[[h0 h1] h2] h3] h4].
  unfold SHA1Ref.digest, SHA1Ref.be_bytes.
  rewrite !length_app, !length_rev, !length_le_bytes. reflexivity.
Qed.

Lemma change_user_password_field (u X tail : list byte) :
  length X = 20%nat ->
  change_user_password_length (length u)
    (frame x00 (x11 :: u ++ x00 :: byte_of_Z (Z.of_nat (length X)) :: X ++ tail))
  = Some 20
  /\ change_user_password (length u)
       (frame x00 (x11 :: u ++ x00 :: byte_of_Z (Z.of_nat (length X)) :: X ++ tail))
     = X.
Proof.
  intros HX. unfold change_user_password_length, change_user_password, frame.
  assert (H3 : forall v, length (le_bytes 3 v ++ [x00; x11] ++ u ++ [x00])
                         = (4 + 1 + length u + 1)%nat).
  { intros v. rewrite !length_app, length_le_bytes. cbn [length]. lia. }
  split.
  - replace (le_bytes 3 _ ++ x00 :: x11 :: u ++ x00 :: _ :: X ++ tail)
      with ((le_bytes 3 (Z.of_nat (length (x11 :: u ++ x00
                :: byte_of_Z (Z.of_nat (length X)) :: X ++ tail)))
             ++ [x00; x11] ++ u ++ [x00])
            ++ byte_of_Z (Z.of_nat (length X)) :: X ++ tail)
      by (rewrite <- !app_assoc; reflexivity).
    rewrite <- (H3 (Z.of_nat (length (x11 :: u ++ x00
                :: byte_of_Z (Z.of_nat (length X)) :: X ++ tail)))).
    rewrite drop_app_length. rewrite HX. reflexivity.
  - replace (le_bytes 3 _ ++ x00 :: x11 :: u ++ x00 :: _ :: X ++ tail)
      with ((le_bytes 3 (Z.of_nat (length (x11 :: u ++ x00
                :: byte_of_Z (Z.of_nat (length X)) :: X ++ tail)))
             ++ [x00; x11] ++ u ++ [x00; byte_of_Z (Z.of_nat (length X))])
            ++ X ++ tail)
      by (rewrite <- ?app_assoc; cbn [app]; rewrite <- ?app_assoc; reflexivity).
    replace (4 + 1 + length u + 1 + 1)%nat
      with (length (le_bytes 3 (Z.of_nat (length (x11 :: u ++ x00
                :: byte_of_Z (Z.of_nat (length X)) :: X ++ tail)))
             ++ [x00; x11] ++ u ++ [x00; byte_of_Z (Z.of_nat (length X))]))
      by (rewrite !length_app, length_le_bytes; cbn [length]; lia).
    rewrite drop_app_length.
    change (Z.to_nat GW_MYSQL_SCRAMBLE_SIZE) with 20%nat. rewrite <- HX.
    rewrite take_app_length. reflexivity.
Qed.

End AuthFacts.

(** ** Reuse of a pooled connection *)

Module ReuseFacts.
Import Wire Proto WireFacts Format Auth AuthFacts Reuse.


Section Response.
Variable SHA1 : list byte -> list byte.
Hypothesis SHA1_length : forall m, length (SHA1 m) = 20%nat.






End Response.



Lemma established_iff (b : Backend) :
  established b = true
  <-> m_auth_state b = COMPLETE /\ m_ignore_replies b = 0
      /\ m_stored_query b = None.
Proof.
  unfold established. rewrite !andb_true_iff, bool_decide_eq_true,
    Z.eqb_eq, negb_true_iff, bool_decide_eq_false.
  rewrite <- eq_None_not_Some. tauto.
Qed.

Lemma established_waiting (b : Backend) :
  0 < m_ignore_replies b -> established b = false.
Proof.
  intros H. apply not_true_is_false. rewrite established_iff. lia.
Qed.



Section Waiting.
Variable SHA1 : list byte -> list byte.
Hypothesis SHA1_length : forall m, length (SHA1 m) = 20%nat.





End Waiting.

End ReuseFacts.

(** ** Sequences of calls on a connection that ignores replies *)

Module ExchangeFacts.
Import Wire Proto WireFacts Format Auth AuthFacts Reuse ReuseFacts Exchange.



Section Calls.
Variable SHA1 : list byte -> list byte.






End Calls.

End ExchangeFacts.

(** ** Claims on authentication *)

Module Authentication.
Import Wire Proto WireFacts Format Auth AuthFacts ReuseSample.

Section Scramble.

Variable SHA1 : list byte -> list byte.
Hypothesis SHA1_length : forall m, length (SHA1 m) = 20%nat.

(** C4: for every 20-byte scramble [Sc] and every 20-byte cached password
    hash [H1], [mxs_mysql_calculate_hash] returns
    [H1 XOR SHA1(Sc || SHA1(H1))], which is 20 bytes long; and whatever
    else a session holds (user, database, character set, connect
    attributes), the COM_CHANGE_USER packet built for a session caching
    [H1] announces a password of 20 bytes and carries exactly these bytes
    in its password field: the scrambled password depends on [Sc] and [H1]
    only. *)
Theorem change_user_scramble (mses : MYSQL_session) (Sc : list byte) :
  length Sc = 20%nat ->
  length (auth_token_phase2 mses) = 20%nat ->
  let H1 := auth_token_phase2 mses in
  let X := xor_bytes H1 (SHA1 (Sc ++ SHA1 H1)) in
  mxs_mysql_calculate_hash SHA1 Sc H1 = Some X
  /\ length X = 20%nat
  /\ (forall mses' : MYSQL_session,
        auth_token_phase2 mses' = H1 ->
        exists packet,
          gw_create_change_user_packet SHA1 mses' Sc = Some packet
          /\ change_user_password_length (length (c_str (user mses'))) packet
             = Some 20
          /\ change_user_password (length (c_str (user mses'))) packet = X).
Proof.
  intros HS Htok H1 X.
  split; [|split].
  - apply (mxs_mysql_calculate_hash_spec SHA1 SHA1_length); assumption.
  - apply (scramble_spec_length SHA1 SHA1_length). exact Htok.
  - intros mses' Hsame.
    assert (Htok' : length (auth_token_phase2 mses') = 20%nat)
      by (rewrite Hsame; exact Htok).
    eexists. split.
    + apply (gw_create_change_user_packet_spec SHA1 SHA1_length); assumption.
    + unfold change_user_payload. rewrite Hsame. fold H1.
      change (scramble_spec SHA1 Sc H1) with X.
      apply change_user_password_field.
      apply (scramble_spec_length SHA1 SHA1_length). exact Htok.
Qed.

End Scramble.

(** The digest behind the closed examples is SHA-1: the test vector of
    FIPS 180 and the hash of the password of the examples. *)
Lemma sha1_abc :
  SHA1Ref.sha1 [x61; x62; x63]
  = [xa9; x99; x3e; x36; x47; x06; x81; x6a; xba; x3e;
     x25; x71; x78; x50; xc2; x6c; x9c; xd0; xd8; x9d].
Proof. vm_compute. reflexivity. Qed.

Lemma sha1_secret : SHA1Ref.sha1 secret = H1_secret.
Proof. vm_compute. reflexivity. Qed.

(** The scramble written for the password "secret" and the scramble
    [01 02 .. 14]. *)
Lemma change_user_scramble_witness :
  mxs_mysql_calculate_hash SHA1Ref.sha1 scramble0 H1_secret
  = Some [xb3; x2b; xb3; xa5; x83; xe1; x34; x0c; x0a; x11;
          x08; xd5; x8b; x1b; xe4; x97; x81; xad; x8c; x2f]
  /\ exists packet,
       gw_create_change_user_packet SHA1Ref.sha1 session0 scramble0
       = Some packet
       /\ change_user_password 3 packet
          = [xb3; x2b; xb3; xa5; x83; xe1; x34; x0c; x0a; x11;
             x08; xd5; x8b; x1b; xe4; x97; x81; xad; x8c; x2f].
Proof.
  destruct (change_user_scramble SHA1Ref.sha1 sha1_length session0 scramble0
              eq_refl eq_refl) as (Hhash & _ & Hpacket).
  split.
  - etransitivity; [exact Hhash|]. vm_compute. reflexivity.
  - destruct (Hpacket session0 eq_refl) as (packet & Hp & _ & Hpw).
    exists packet. split; [exact Hp|].
    etransitivity; [exact Hpw|]. vm_compute. reflexivity.
Defined.

(** C7 (the code at the input on which it leaves the claim): a version 10
    greeting whose auth-data length byte is 9 declares a scramble of
    L = 8 bytes, which is not in the range 8 < L <= 20 the claim and the
    decoder's own assertions require; the check the decoder makes is
    L < 8, so it does not fail: it returns 0 and stores the 8 bytes of the
    first part followed by 12 zero bytes. *)
Theorem handshake_scramble_length_eight :
  greeting_wf greeting8
  /\ declared_scramble_len greeting8 = 8
  /\ gw_decode_mysql_server_handshake (greeting_bytes greeting8) conn0
     = Some (0, mkGreeting 7 0x81fff7ff
                  (take 8 scramble0 ++ replicate 12 x00)).
Proof.
  assert (Hwf : greeting_wf greeting8).
  { repeat split; try reflexivity.
    unfold greeting8. cbn [sg_server_version].
    apply Forall_forall. intros c Hc. vm_compute in Hc.
    repeat (destruct Hc as [<-|Hc]; [discriminate|]). destruct Hc. }
  split; [exact Hwf|]. split; [reflexivity|].
  rewrite (gw_decode_greeting greeting8 conn0 Hwf). vm_compute. reflexivity.
Qed.

End Authentication.

(** ** Claims on connection reuse *)

Module ConnectionReuse.
Import Wire Proto WireFacts Format Auth AuthFacts Reuse ReuseFacts.
Import Exchange ExchangeFacts.
Section Claims.
Variable SHA1 : list byte -> list byte.
Hypothesis SHA1_length : forall m, length (SHA1 m) = 20%nat.



End Claims.

Import ReuseSample.





End ConnectionReuse.

(** ** Length-encoded integers: skipping and reading *)

Module LenencFacts.
Import Wire Proto WireFacts Format.

Lemma advance_short (n : Z) (it : Iter) :
  Z.of_nat (length it) < n -> advance n it = None.
Proof.
  intros H. unfold advance. rewrite bool_decide_eq_false_2 by lia. reflexivity.
Qed.

Lemma advance_cons (n : Z) (b : byte) (it : Iter) :
  0 < n -> advance n (b :: it) = advance (n - 1) it.
Proof.
  intros H. unfold advance. cbn [length].
  destruct (decide (0 <= n - 1 <= Z.of_nat (length it))) as [Hn|Hn].
  - rewrite !bool_decide_eq_true_2 by lia.
    replace (Z.to_nat n) with (S (Z.to_nat (n - 1))) by lia. reflexivity.
  - rewrite !bool_decide_eq_false_2 by lia. reflexivity.
Qed.

Lemma advance_0 (it : Iter) : advance 0 it = Some it.
Proof.
  unfold advance. rewrite bool_decide_eq_true_2 by lia. reflexivity.
Qed.

(** [advance n] written as [n] single steps over the bytes at hand. *)
Ltac step_advance :=
  repeat match goal with
  | |- context [advance 0 ?it] => rewrite (advance_0 it)
  | |- context [advance ?n []] => rewrite (advance_short n []) by (cbn; lia)
  | |- context [advance ?n (?b :: ?it)] =>
      let m := eval cbv in (n - 1) in
      replace (advance n (b :: it)) with (advance m it)
        by (symmetry; apply advance_cons; lia)
  end.

Lemma get_encoded_int_parts (it it' : Iter) (v : Z) :
  get_encoded_int it = Some (v, it') ->
  exists pre, it = pre ++ it'
    /\ (length pre = 1 \/ length pre = 3 \/ length pre = 4 \/ length pre = 9)%nat
    /\ 0 <= v < 2 ^ 64.
Proof.
  destruct it as [|b rest]; [discriminate|].
  unfold get_encoded_int. cbn [next mbind option_bind].
  pose proof (byte_val_range b) as Hb.
  destruct (byte_val b =? 252).
  { destruct rest as [|b0 [|b1 rest]]; try discriminate.
    cbn [next mbind option_bind]. rewrite lor2. intros [= <- <-].
    exists [b; b0; b1]. pose proof (le_value_2_range b0 b1).
    split; [reflexivity|]. split; [auto|]. cbn [le_value] in *. lia. }
  destruct (byte_val b =? 253).
  { destruct rest as [|b0 [|b1 [|b2 rest]]]; try discriminate.
    cbn [next mbind option_bind]. rewrite lor3. intros [= <- <-].
    exists [b; b0; b1; b2]. pose proof (le_value_range [b0; b1; b2]) as Hr.
    cbn [length] in Hr. change (256 ^ Z.of_nat 3) with (2 ^ 24) in Hr.
    split; [reflexivity|]. split; [auto|]. cbn [le_value] in *. lia. }
  destruct (byte_val b =? 254).
  { destruct rest as [|b0 [|b1 [|b2 [|b3 [|b4 [|b5 [|b6 [|b7 rest]]]]]]]];
      try discriminate.
    cbn [next mbind option_bind]. rewrite lor8. intros [= <- <-].
    exists [b; b0; b1; b2; b3; b4; b5; b6; b7].
    pose proof (le_value_range [b0; b1; b2; b3; b4; b5; b6; b7]) as Hr.
    cbn [length] in Hr. change (256 ^ Z.of_nat 8) with (2 ^ 64) in Hr.
    split; [reflexivity|]. split; [auto|]. cbn [le_value] in *. lia. }
  intros [= <- <-]. exists [b]. split; [reflexivity|]. split; [auto|]. lia.
Qed.

(** X1: skipping a length-encoded integer or string leaves the iterator
    exactly where reading it does, and is possible exactly when reading
    is: [skip_encoded_int] and [skip_encoded_str] return the position
    component of [get_encoded_int] and [get_encoded_str]. *)
Theorem skip_follows_get (it : Iter) :
  skip_encoded_int it = snd <$> get_encoded_int it
  /\ skip_encoded_str it = snd <$> get_encoded_str it.
Proof.
  split.
  - destruct it as [|b rest]; [reflexivity|].
    unfold skip_encoded_int, get_encoded_int.
    cbn [deref next mbind option_bind incr].
    destruct (byte_val b =? 252).
    { do 2 (destruct rest as [|? rest]; [step_advance; reflexivity|]).
      step_advance. reflexivity. }
    destruct (byte_val b =? 253).
    { do 3 (destruct rest as [|? rest]; [step_advance; reflexivity|]).
      step_advance. reflexivity. }
    destruct (byte_val b =? 254).
    { do 8 (destruct rest as [|? rest]; [step_advance; reflexivity|]).
      step_advance. reflexivity. }
    reflexivity.
  - unfold skip_encoded_str, get_encoded_str.
    destruct (get_encoded_int it) as [[len it1]|]; [|reflexivity].
    cbn [mbind option_bind].
    destruct (advance len it1) as [it2|] eqn:Ea; [|reflexivity].
    cbn [mbind option_bind].
    apply advance_Some in Ea as [Hlen ->].
    unfold range, distance. rewrite length_drop.
    rewrite bool_decide_eq_true_2 by lia. reflexivity.
Qed.

End LenencFacts.

(** ** The packets of a result set *)

Module ResultFacts.
Import Wire Proto WireFacts Format Machine Replies Stability Loop Packets
  OkPackets Results.
Section Rows.
Context {Vars : Type} (set_variable : list byte -> list byte -> Vars -> Vars).
Abbreviation Conn := (@Conn Vars).

Lemma steady_refl (c : Conn) : steady c c.
Proof. repeat split. Qed.

Lemma steady_trans (a b c : Conn) : steady a b -> steady b c -> steady a c.
Proof.
  unfold steady. intros (?&?&?&?&?&?&?&?) (?&?&?&?&?&?&?&?).
  repeat split; congruence.
Qed.

Lemma coldef_countdown (pkts : list (byte * list byte)) : forall c : Conn,
  reply_state c = RSET_COLDEF ->
  Forall (fun p => p.2 <> []) pkts ->
  0 < m_num_coldefs c < 2 ^ 64 ->
  Z.of_nat (length pkts) <= m_num_coldefs c ->
  exists c', process_each set_variable pkts c = Some c'
    /\ m_num_coldefs c' = m_num_coldefs c - Z.of_nat (length pkts)
    /\ reply_state c'
       = (if m_num_coldefs c' =? 0 then RSET_COLDEF_EOF else RSET_COLDEF)
    /\ rows (m_reply c') = rows (m_reply c)
    /\ num_warnings (m_reply c') = num_warnings (m_reply c)
    /\ steady c c'.
Proof.
  induction pkts as [|p pkts IH]; intros c Hst Hne Hn Hlen.
  - exists c. cbn [process_each length]. rewrite Z.sub_0_r.
    rewrite Hst. rewrite (proj2 (Z.eqb_neq _ _)) by lia.
    repeat split.
  - inversion Hne as [|? ? Hp Hne']; subst.
    cbn [length] in Hlen. cbn [process_each].
    destruct (p.2) as [|b rest] eqn:Ep; [congruence|].
    unfold process_one_packet. cbn [deref mbind option_bind]. rewrite Hst.
    rewrite Z.mod_small by lia.
    destruct (Z.eq_dec (m_num_coldefs c) 1) as [H1|H1].
    + rewrite H1. change (1 - 1 =? 0) with true. cbv iota.
      destruct pkts as [|q pkts]; [|cbn [length] in Hlen; lia].
      cbn [process_each]. eexists. split; [reflexivity|].
      cbn. repeat split; lia.
    + rewrite (proj2 (Z.eqb_neq _ _)) by lia.
      destruct (IH (set_num_coldefs (m_num_coldefs c - 1) c))
        as (c' & Hrun & Hk & Hs & Hr & Hw & Hsteady).
      * exact Hst.
      * exact Hne'.
      * cbn. lia.
      * cbn. lia.
      * exists c'. split; [exact Hrun|]. cbn in Hk, Hr, Hw.
        split; [cbn [length]; lia|]. split; [exact Hs|].
        split; [exact Hr|]. split; [exact Hw|].
        eapply steady_trans; [|exact Hsteady]. repeat split.
Qed.

Lemma rows_counted (pkts : list (byte * list byte)) : forall c : Conn,
  reply_state c = RSET_ROWS ->
  Forall (fun p => is_row p.2 = true) pkts ->
  exists c', process_each set_variable pkts c = Some c'
    /\ rows (m_reply c') = rows (m_reply c) + Z.of_nat (length pkts)
    /\ reply_state c' = RSET_ROWS
    /\ m_num_coldefs c' = m_num_coldefs c
    /\ num_warnings (m_reply c') = num_warnings (m_reply c)
    /\ steady c c'.
Proof.
  induction pkts as [|p pkts IH]; intros c Hst Hrows.
  - exists c. cbn [process_each length]. rewrite Z.add_0_r.
    repeat split. exact Hst.
  - inversion Hrows as [|? ? Hp Hrows']; subst.
    cbn [process_each].
    destruct (p.2) as [|b rest] eqn:Ep; [discriminate|].
    unfold is_row in Hp.
    apply andb_true_iff in Hp as [Herr Heof].
    apply negb_true_iff in Herr, Heof.
    unfold process_one_packet. cbn [deref mbind option_bind]. rewrite Hst.
    rewrite Heof, Herr.
    destruct (IH (add_rows 1 c)) as (c' & Hrun & Hr & Hs & Hk & Hw & Hsteady).
    + exact Hst.
    + exact Hrows'.
    + exists c'. split; [exact Hrun|]. cbn in Hr, Hk, Hw.
      split; [cbn [length]; lia|]. split; [exact Hs|].
      split; [exact Hk|]. split; [exact Hw|].
      eapply steady_trans; [|exact Hsteady]. repeat split.
Qed.

End Rows.
End ResultFacts.

(** ** Result sets *)

Module ResultSets.
Import Wire Proto WireFacts Format Machine Replies Stability Loop Packets
  OkPackets Sample Results ResultFacts LenencFacts Commands.
Section Claims.
Context {Vars : Type} (set_variable : list byte -> list byte -> Vars -> Vars).
Abbreviation Conn := (@Conn Vars).

Lemma process_eof_packet (c : Conn) (warnings status : Z) :
  reply_state c = RSET_ROWS ->
  0 <= warnings < 2 ^ 16 -> 0 <= status < 2 ^ 16 ->
  process_one_packet set_variable (eof_payload warnings status) [] 5 c
  = Some (set_num_warnings warnings
            (set_reply_state
               (if has_flag status SERVER_MORE_RESULTS_EXIST
                then START else DONE) c)).
Proof.
  intros Hst Hw Hs. unfold process_one_packet, eof_payload.
  cbn [deref mbind option_bind le_bytes app]. rewrite Hst.
  change (byte_val xfe =? MYSQL_REPLY_EOF) with true.
  change (5 =? MYSQL_EOF_PACKET_LEN - MYSQL_HEADER_LEN) with true.
  cbn [andb]. unfold is_last_eof.
  cbn [incr next deref mbind option_bind].
  rewrite !u16_lor.
  change [byte_of_Z status; byte_of_Z (status / 256)] with (le_bytes 2 status).
  change [byte_of_Z warnings; byte_of_Z (warnings / 256)]
    with (le_bytes 2 warnings).
  rewrite !(le_value_le_bytes 2) by (change (256 ^ Z.of_nat 2) with (2 ^ 16); lia).
  unfold has_flag. destruct (Z.land _ _ =? 0); reflexivity.
Qed.

Lemma result_head (c : Conn) (p after : Iter) (cmd n : Z) :
  reply_state c = START ->
  plain_command (command (m_reply c)) ->
  deref p = Some cmd -> starts_result cmd = true ->
  get_encoded_int p = Some (n, after) ->
  process_one_packet set_variable p [] (Z.of_nat (length p)) c
  = Some (set_reply_state RSET_COLDEF
            (add_field_count n (set_num_coldefs n c))).
Proof.
  intros Hst (Hb & Hs & Hf) Hcmd Hstart Hn.
  unfold process_one_packet. rewrite Hcmd. cbn [mbind option_bind].
  rewrite Hst. unfold process_reply_start.
  rewrite !(proj2 (Z.eqb_neq _ _)) by assumption.
  unfold process_result_start. rewrite Hcmd. cbn [mbind option_bind].
  unfold starts_result in Hstart.
  repeat (apply andb_true_iff in Hstart as [Hstart ?]).
  repeat match goal with H : negb _ = true |- _ =>
    apply negb_true_iff in H; rewrite H end.
  rewrite Hn. reflexivity.
Qed.

(** The packets up to the EOF that ends the column definitions. *)
Lemma result_definitions (c : Conn) (head eof1 : byte * list byte)
    (coldefs : list (byte * list byte)) (after : Iter) (cmd n : Z) :
  reply_state c = START ->
  plain_command (command (m_reply c)) ->
  deref head.2 = Some cmd -> starts_result cmd = true ->
  get_encoded_int head.2 = Some (n, after) ->
  Z.of_nat (length coldefs) = n -> (0 < length coldefs)%nat ->
  Forall (fun p => p.2 <> []) coldefs -> eof1.2 <> [] ->
  exists c',
    process_each set_variable (head :: coldefs ++ [eof1]) c = Some c'
    /\ reply_state c' = (if m_opening_cursor c then DONE else RSET_ROWS)
    /\ m_opening_cursor c' = false
    /\ rows (m_reply c') = rows (m_reply c)
    /\ num_warnings (m_reply c') = num_warnings (m_reply c)
    /\ field_counts (m_reply c') = field_counts (m_reply c) ++ [n]
    /\ command (m_reply c') = command (m_reply c)
    /\ m_skip_next c' = m_skip_next c.
Proof.
  intros Hst Hplain Hcmd Hstart Hn Hlen Hpos Hne Heof.
  pose proof (get_encoded_int_parts _ _ _ Hn) as (_ & _ & _ & Hrange).
  cbn [process_each].
  rewrite (result_head c head.2 after cmd n) by assumption.
  cbn [mbind option_bind]. rewrite process_each_app.
  set (c1 := set_reply_state RSET_COLDEF
               (add_field_count n (set_num_coldefs n c))).
  destruct (coldef_countdown set_variable coldefs c1)
    as (c2 & Hrun & Hk & Hs2 & Hr2 & Hw2 & Hsteady).
  { reflexivity. }
  { exact Hne. }
  { cbn. lia. }
  { cbn. lia. }
  rewrite Hrun. cbn [mbind option_bind process_each].
  cbn in Hk. rewrite Hk in Hs2.
  replace (n - Z.of_nat (length coldefs)) with 0 in Hs2 by lia.
  change (0 =? 0) with true in Hs2. cbv iota in Hs2.
  destruct (eof1.2) as [|b rest] eqn:Ee; [congruence|].
  unfold process_one_packet. cbn [deref mbind option_bind]. rewrite Hs2.
  destruct Hsteady as (Hc & Hf & _ & _ & _ & Hsk & Hoc & _).
  cbn in Hc, Hf, Hsk, Hoc, Hr2, Hw2.
  cbn [m_opening_cursor set_reply_state with_reply]. rewrite Hoc.
  destruct (m_opening_cursor c); eexists; (split; [reflexivity|]); cbn;
    repeat split; assumption.
Qed.

(** X2: a text result set is followed to its end.  In state [START], for
    a command that is none of COM_BINLOG_DUMP, COM_STATISTICS and
    COM_FIELD_LIST and with no cursor being opened, a packet that starts a
    result set by announcing [n > 0] columns, [n] packets of column
    definitions (whatever they hold), one more packet (the EOF after the
    definitions, whose content is not looked at), any number of row
    packets and a final EOF packet are all consumed; the machine ends in
    [DONE] (in [START] when the final EOF announces more results), the
    row count has grown by the number of row packets, [n] has been added
    to the field counts and the warning count is that of the final
    EOF. *)
Theorem text_result_set (c : Conn) (head eof1 : byte * list byte)
    (coldefs rws : list (byte * list byte)) (after : Iter) (cmd n : Z)
    (seq : byte) (warnings status : Z) :
  reply_state c = START -> m_skip_next c = false ->
  m_opening_cursor c = false ->
  plain_command (command (m_reply c)) ->
  deref head.2 = Some cmd -> starts_result cmd = true ->
  get_encoded_int head.2 = Some (n, after) ->
  Z.of_nat (length coldefs) = n -> (0 < length coldefs)%nat ->
  Forall (fun p => p.2 <> []) coldefs -> eof1.2 <> [] ->
  Forall (fun p => is_row p.2 = true) rws ->
  0 <= warnings < 2 ^ 16 -> 0 <= status < 2 ^ 16 ->
  let stream :=
    head :: coldefs ++ eof1 :: rws ++ [(seq, eof_payload warnings status)] in
  Forall (fun p => Z.of_nat (length p.2) < GW_MYSQL_MAX_PACKET_LEN) stream ->
  exists c',
    process_packets set_variable (concat (frames stream)) c
    = Some (c', concat (frames stream), [])
    /\ reply_state c'
       = (if has_flag status SERVER_MORE_RESULTS_EXIST then START else DONE)
    /\ rows (m_reply c') = rows (m_reply c) + Z.of_nat (length rws)
    /\ field_counts (m_reply c') = field_counts (m_reply c) ++ [n]
    /\ num_warnings (m_reply c') = warnings.
Proof.
  intros Hst Hskip Hcur Hplain Hcmd Hstart Hn Hlen Hpos Hne Heof Hrows Hw Hs
    stream Hsizes.
  destruct (result_definitions c head eof1 coldefs after cmd n)
    as (c1 & Hrun1 & Hs1 & _ & Hr1 & _ & Hf1 & _ & _); try assumption.
  rewrite Hcur in Hs1.
  destruct (rows_counted set_variable rws c1 Hs1 Hrows)
    as (c2 & Hrun2 & Hr2 & Hs2 & _ & _ & Hsteady).
  destruct Hsteady as (_ & Hf2 & _).
  assert (Hrun : process_each set_variable stream c
                 = Some (set_num_warnings warnings
                           (set_reply_state
                              (if has_flag status SERVER_MORE_RESULTS_EXIST
                               then START else DONE) c2))).
  { unfold stream.
    change (head :: coldefs ++ eof1 :: rws ++ [(seq, eof_payload warnings status)])
      with ((head :: coldefs) ++ [eof1] ++ rws ++ [(seq, eof_payload warnings status)]).
    rewrite app_assoc, process_each_app.
    change ((head :: coldefs) ++ [eof1]) with (head :: coldefs ++ [eof1]).
    rewrite Hrun1. cbn [mbind option_bind].
    rewrite process_each_app, Hrun2. cbn [mbind option_bind process_each snd].
    change (Z.of_nat (length (eof_payload warnings status))) with 5.
    rewrite process_eof_packet by assumption. reflexivity. }
  eexists. split.
  - apply (feed_chunks_whole set_variable (frames stream) [] c).
    + apply feed_chunks_frames; [exact Hskip|exact Hsizes|exact Hrun].
    + left. cbn. lia.
  - cbn. rewrite Hr2, Hr1, Hf2, Hf1.
    split; [destruct (has_flag _ _); reflexivity|]. repeat split.
Qed.

(** X3: when a cursor is being opened ([m_opening_cursor], set for a
    COM_STMT_EXECUTE with a non-zero flag byte) the reply ends with the
    EOF that follows the column definitions: after the packet announcing
    [n > 0] columns, the [n] definitions and that EOF, the machine is in
    [DONE] without any row counted, and the cursor flag is cleared. *)
Theorem cursor_result_set (c : Conn) (head eof1 : byte * list byte)
    (coldefs : list (byte * list byte)) (after : Iter) (cmd n : Z) :
  reply_state c = START -> m_skip_next c = false ->
  m_opening_cursor c = true ->
  plain_command (command (m_reply c)) ->
  deref head.2 = Some cmd -> starts_result cmd = true ->
  get_encoded_int head.2 = Some (n, after) ->
  Z.of_nat (length coldefs) = n -> (0 < length coldefs)%nat ->
  Forall (fun p => p.2 <> []) coldefs -> eof1.2 <> [] ->
  let stream := head :: coldefs ++ [eof1] in
  Forall (fun p => Z.of_nat (length p.2) < GW_MYSQL_MAX_PACKET_LEN) stream ->
  exists c',
    process_packets set_variable (concat (frames stream)) c
    = Some (c', concat (frames stream), [])
    /\ reply_state c' = DONE
    /\ m_opening_cursor c' = false
    /\ rows (m_reply c') = rows (m_reply c)
    /\ field_counts (m_reply c') = field_counts (m_reply c) ++ [n].
Proof.
  intros Hst Hskip Hcur Hplain Hcmd Hstart Hn Hlen Hpos Hne Heof stream
    Hsizes.
  destruct (result_definitions c head eof1 coldefs after cmd n)
    as (c1 & Hrun1 & Hs1 & Hc1 & Hr1 & _ & Hf1 & _ & _); try assumption.
  rewrite Hcur in Hs1. exists c1. split.
  - apply (feed_chunks_whole set_variable (frames stream) [] c).
    + apply feed_chunks_frames; [exact Hskip|exact Hsizes|exact Hrun1].
    + left. cbn. lia.
  - repeat split; assumption.
Qed.

End Claims.

(** A result set of two columns and three rows, the last of them led by
    [0xFE] but longer than an EOF packet; then the same head with a
    cursor being opened. *)
Lemma text_result_set_witness :
  let stream :=
    [(x01, [x02]); (x02, [x03; x64; x65; x66]); (x03, [x03; x64; x65; x66]);
     (x04, eof_payload 0 2);
     (x05, [x01; x31]); (x06, [xfb; x01; x32]);
     (x07, [xfe; x01; x02; x03; x04; x05]);
     (x08, eof_payload 1 2)] in
  exists c',
    process_packets log_variable (concat (frames stream))
      (conn_of MXS_COM_QUERY START false)
    = Some (c', concat (frames stream), [])
    /\ reply_state c' = DONE
    /\ rows (m_reply c') = 3
    /\ field_counts (m_reply c') = [2]
    /\ num_warnings (m_reply c') = 1.
Proof.
  intros stream.
  destruct (text_result_set log_variable (conn_of MXS_COM_QUERY START false)
              (x01, [x02]) (x04, eof_payload 0 2)
              [(x02, [x03; x64; x65; x66]); (x03, [x03; x64; x65; x66])]
              [(x05, [x01; x31]); (x06, [xfb; x01; x32]);
               (x07, [xfe; x01; x02; x03; x04; x05])]
              [] 2 2 x08 1 2)
    as (c' & Hrun & Hs & Hr & Hf & Hw);
    try reflexivity; try lia.
  - repeat split; discriminate.
  - cbn. lia.
  - repeat constructor; discriminate.
  - discriminate.
  - repeat constructor.
  - repeat constructor; vm_compute; reflexivity.
  - exists c'. repeat split; assumption.
Defined.

Lemma cursor_result_set_witness :
  let stream :=
    [(x01, [x01]); (x02, [x03; x64; x65; x66]); (x03, eof_payload 0 2)] in
  exists c',
    process_packets log_variable (concat (frames stream))
      (set_opening_cursor true (conn_of MXS_COM_STMT_EXECUTE START false))
    = Some (c', concat (frames stream), [])
    /\ reply_state c' = DONE
    /\ rows (m_reply c') = 0.
Proof.
  intros stream.
  destruct (cursor_result_set log_variable
              (set_opening_cursor true
                 (conn_of MXS_COM_STMT_EXECUTE START false))
              (x01, [x01]) (x03, eof_payload 0 2)
              [(x02, [x03; x64; x65; x66])] [] 1 1)
    as (c' & Hrun & Hs & _ & Hr & _);
    try reflexivity; try lia.
  - repeat split; discriminate.
  - cbn. lia.
  - repeat constructor; discriminate.
  - discriminate.
  - repeat constructor; vm_compute; reflexivity.
  - exists c'. repeat split; assumption.
Defined.

End ResultSets.

(** ** Error packets *)

Module Errors.
Import Wire Proto WireFacts Format Machine Replies Stability Loop Packets
  OkPackets Sample Results ResultFacts LenencFacts Commands.
Section Claims.
Context {Vars : Type} (set_variable : list byte -> list byte -> Vars -> Vars).
Abbreviation Conn := (@Conn Vars).

Lemma update_error_enc (c : Conn) (code : Z) (marker : byte)
    (sql_state message after : list byte) :
  0 <= code < 2 ^ 16 -> length sql_state = 5%nat ->
  update_error
    (le_bytes 2 code ++ marker :: sql_state ++ message ++ after) after c
  = Some (set_error (mkError code sql_state message) c).
Proof.
  intros Hc Hs. unfold update_error.
  cbn [le_bytes app next incr mbind option_bind].
  rewrite u16_lor.
  change [byte_of_Z code; byte_of_Z (code / 256)] with (le_bytes 2 code).
  rewrite (le_value_le_bytes 2) by (change (256 ^ Z.of_nat 2) with (2 ^ 16); lia).
  rewrite (advance_app 5 sql_state) by exact Hs.
  cbn [mbind option_bind]. unfold range, distance.
  rewrite !length_app.
  rewrite !bool_decide_eq_true_2 by lia. cbn [mbind option_bind].
  replace (length sql_state + (length message + length after)
           - (length message + length after))%nat
    with (length sql_state) by lia.
  rewrite take_app_length.
  replace (length message + length after - length after)%nat
    with (length message) by lia.
  rewrite take_app_length. reflexivity.
Qed.

Lemma set_reply_state_same (c : Conn) :
  set_reply_state (reply_state c) c = c.
Proof. destruct c as [[] ]. reflexivity. Qed.

(** X4: an ERR packet ends the reply and its fields are recorded.  In
    state [START] (for a command that is none of COM_BINLOG_DUMP,
    COM_STATISTICS and COM_FIELD_LIST), in [RSET_ROWS] and in [DONE], a
    packet [0xFF | code | marker | SQL state | message] leaves the machine
    in [DONE] with the error made of the 16-bit code, the five bytes of
    SQL state after the marker byte and the message, which runs to the end
    of the packet; nothing else of the connection changes. *)
Theorem error_packet (c : Conn) (code : Z) (marker : byte)
    (sql_state message after : list byte) (len : Z) :
  0 <= code < 2 ^ 16 -> length sql_state = 5%nat ->
  (reply_state c = START /\ plain_command (command (m_reply c)))
  \/ reply_state c = RSET_ROWS \/ reply_state c = DONE ->
  process_one_packet set_variable
    (err_payload code marker sql_state message ++ after) after len c
  = Some (set_reply_state DONE
            (set_error (mkError code sql_state message) c)).
Proof.
  intros Hc Hs Hst. unfold process_one_packet, err_payload.
  cbn [app deref mbind option_bind incr].
  rewrite <- !app_assoc. cbn [app]. rewrite <- !app_assoc.
  pose proof (update_error_enc c code marker sql_state message after Hc Hs)
    as Herr.
  destruct Hst as [[Hst (Hb & Hst' & Hf)]|[Hst|Hst]]; rewrite Hst.
  - unfold process_reply_start.
    rewrite !(proj2 (Z.eqb_neq _ _)) by assumption.
    unfold process_result_start. cbn [deref mbind option_bind incr].
    change (byte_val xff =? MYSQL_REPLY_OK) with false.
    change (byte_val xff =? MYSQL_REPLY_LOCAL_INFILE) with false.
    change (byte_val xff =? MYSQL_REPLY_ERR) with true. cbv iota.
    rewrite Herr. reflexivity.
  - change (byte_val xff =? MYSQL_REPLY_EOF) with false.
    change (byte_val xff =? MYSQL_REPLY_ERR) with true. cbn [andb]. cbv iota.
    rewrite Herr. reflexivity.
  - change (byte_val xff =? MYSQL_REPLY_ERR) with true. cbv iota.
    rewrite Herr. f_equal.
    rewrite <- (set_reply_state_same c) at 1. rewrite Hst.
    destruct c as [[] ]. reflexivity.
Qed.

End Claims.

(** Error 1064 (SQL state 42000) in the middle of the rows of a result. *)
Lemma error_packet_witness :
  process_one_packet log_variable
    (err_payload 1064 x23 [x34; x32; x30; x30; x30] [x6e; x6f]) [] 11
    (add_rows 4 (conn_of MXS_COM_QUERY RSET_ROWS false))
  = Some (set_reply_state DONE
            (set_error (mkError 1064 [x34; x32; x30; x30; x30] [x6e; x6f])
               (add_rows 4 (conn_of MXS_COM_QUERY RSET_ROWS false)))).
Proof.
  pose proof (error_packet log_variable
                (add_rows 4 (conn_of MXS_COM_QUERY RSET_ROWS false))
                1064 x23 [x34; x32; x30; x30; x30] [x6e; x6f] [] 11) as H.
  rewrite app_nil_r in H. apply H; [lia|reflexivity|].
  right. left. reflexivity.
Defined.

End Errors.

(** ** Packets of the maximum size *)

Module LargePackets.
Import Wire Proto WireFacts Format Machine Replies Stability Loop Packets
  OkPackets Sample Results ResultFacts LenencFacts Commands.
Section Claims.
Context {Vars : Type} (set_variable : list byte -> list byte -> Vars -> Vars).
Abbreviation Conn := (@Conn Vars).

Lemma process_packets_turn (seq : byte) (p : list byte) (c c' : Conn) :
  Z.of_nat (length p) < 2 ^ 24 ->
  packet_turn set_variable p [] (Z.of_nat (length p)) c = Some c' ->
  process_packets set_variable (frame seq p) c = Some (c', frame seq p, []).
Proof.
  intros Hp Hone.
  unfold process_packets. rewrite length_frame.
  change (4 + length p)%nat with (S (3 + length p)).
  rewrite loop_unfold.
  assert (Hh := read_header_frame_eq seq p [] Hp).
  rewrite !app_nil_r in Hh.
  destruct (frame seq p) as [|b fr] eqn:Hfr.
  { apply (f_equal length) in Hfr. rewrite length_frame in Hfr. done. }
  rewrite <- Hfr in *. clear Hfr b fr.
  unfold MYSQL_HEADER_LEN.
  rewrite (proj2 (Z.ltb_ge _ _)) by lia.
  rewrite Hh. cbn [mbind option_bind].
  rewrite (proj2 (Z.ltb_ge _ _)) by lia.
  assert (Hadv : advance (Z.of_nat (length p)) p = Some []).
  { unfold advance. rewrite bool_decide_eq_true_2 by lia.
    rewrite Nat2Z.id, drop_all. reflexivity. }
  rewrite Hadv. cbn [mbind option_bind].
  rewrite Hone. cbn [mbind option_bind].
  rewrite loop_0 || (destruct (3 + length p)%nat; cbn [process_packets_loop]).
  all: cbn [mbind option_bind].
  all: replace (Z.to_nat (0 + (Z.of_nat (length p) + 4))) with (length (frame seq p))
         by (rewrite length_frame; lia).
  all: rewrite firstn_all, drop_all; reflexivity.
Qed.

(** X5: the packet after a packet of the maximum size is not looked
    at.  A packet whose payload is 0xFFFFFF bytes long is processed like
    any other, with [m_skip_next] set; the packet that follows it (shorter
    than 0xFFFFFF bytes, whatever it holds) is consumed without being
    interpreted: the state after both is the state after the first, with
    [m_skip_next] cleared. *)
Theorem large_packet_continuation (c c1 : Conn) (seq1 seq2 : byte)
    (big cont : list byte) :
  m_skip_next c = false ->
  Z.of_nat (length big) = GW_MYSQL_MAX_PACKET_LEN ->
  Z.of_nat (length cont) < GW_MYSQL_MAX_PACKET_LEN ->
  process_one_packet set_variable big [] GW_MYSQL_MAX_PACKET_LEN
    (set_skip_next true c) = Some c1 ->
  process_packets set_variable (frame seq1 big) c
  = Some (c1, frame seq1 big, [])
  /\ m_skip_next c1 = true
  /\ process_packets set_variable (frame seq1 big ++ frame seq2 cont) c
     = Some (set_skip_next false c1, frame seq1 big ++ frame seq2 cont, []).
Proof.
  intros Hskip Hbig Hcont Hone.
  assert (Hkept : m_skip_next c1 = true).
  { apply process_one_packet_kept in Hone. destruct Hone as (H & _).
    exact H. }
  assert (Hfirst : process_packets set_variable (frame seq1 big) c
                   = Some (c1, frame seq1 big, [])).
  { apply process_packets_turn; [unfold GW_MYSQL_MAX_PACKET_LEN in Hbig; lia|].
    unfold packet_turn. rewrite Hskip, Hbig, Z.eqb_refl. exact Hone. }
  split; [exact Hfirst|]. split; [exact Hkept|].
  apply (process_packets_app set_variable (frame seq1 big) (frame seq2 cont)
           c c1 (set_skip_next false c1) (frame seq1 big) []
           (frame seq2 cont) []); [exact Hfirst|].
  cbn [app]. apply process_packets_turn.
  { unfold GW_MYSQL_MAX_PACKET_LEN in Hcont. lia. }
  unfold packet_turn. rewrite Hkept.
  rewrite (proj2 (Z.eqb_neq _ _)) by lia. reflexivity.
Qed.

End Claims.

(** A row of 0xFFFFFF bytes followed by the packet that holds its last
    three bytes, which look like the start of an ERR packet. *)
Lemma large_packet_continuation_witness :
  let big := x01 :: replicate (Z.to_nat 0xfffffe) x61 in
  let cont := [xff; x00; x00] in
  process_packets log_variable (frame x05 big ++ frame x06 cont)
    (conn_of MXS_COM_QUERY RSET_ROWS false)
  = Some (add_rows 1 (conn_of MXS_COM_QUERY RSET_ROWS false),
          frame x05 big ++ frame x06 cont, []).
Proof.
  intros big cont.
  assert (Hlen : Z.of_nat (length big) = GW_MYSQL_MAX_PACKET_LEN).
  { unfold big. cbn [length]. rewrite length_replicate, Nat2Z.inj_succ.
    rewrite Z2Nat.id by lia. reflexivity. }
  destruct (large_packet_continuation log_variable
              (conn_of MXS_COM_QUERY RSET_ROWS false)
              (set_skip_next true
                 (add_rows 1 (conn_of MXS_COM_QUERY RSET_ROWS false)))
              x05 x06 big cont eq_refl Hlen eq_refl eq_refl)
    as (_ & _ & H).
  exact H.
Defined.

End LargePackets.

(** ** What packet processing never undoes *)

Module ProgressFacts.
Import Wire Proto WireFacts Format Machine Replies Stability Loop Packets
  OkPackets Sample Results ResultFacts LenencFacts Commands.
Section Keep.
Context {Vars : Type} (set_variable : list byte -> list byte -> Vars -> Vars).
Abbreviation Conn := (@Conn Vars).

Lemma never_undone_refl (c : Conn) : never_undone c c.
Proof. unfold never_undone. repeat split; auto; lia. Qed.

Lemma never_undone_trans (a b c : Conn) :
  never_undone a b -> never_undone b c -> never_undone a c.
Proof.
  unfold never_undone.
  intros (?&?&?&?&?&?&?&?&?) (?&?&?&?&?&?&?&?&?).
  repeat split; try congruence; auto; try lia.
  etransitivity; eassumption.
Qed.

Ltac undone_tac :=
  unfold never_undone, reply_state in *; simpl in *;
  repeat match goal with
  | |- context [if ?b then _ else _] => destruct b; simpl
  end;
  repeat match goal with H : _ /\ _ |- _ => destruct H end;
  repeat split; auto; try lia; try congruence;
  try (apply prefix_app_r; reflexivity); try (intros; eexists; reflexivity);
  try (etransitivity; [|eassumption]; apply prefix_app_r; reflexivity).

Lemma never_undone_set k v (c c' : Conn) :
  never_undone (reply_set_variable set_variable k v c) c' ->
  never_undone c c'.
Proof. unfold never_undone. simpl. tauto. Qed.

Lemma session_track_loop_undone fuel : forall it end_ (c c' : Conn),
  session_track_loop set_variable fuel it end_ c = Some c' ->
  never_undone c c'.
Proof.
  induction fuel as [|fuel IH]; intros it end_ c c'; cbn [session_track_loop];
    destruct (iter_neq it end_); try done;
    try (intros [= <-]; apply never_undone_refl).
  intros H. bind_inv; eauto using never_undone_set.
Qed.

Lemma update_error_undone it end_ (c c' : Conn) :
  update_error it end_ c = Some c' ->
  never_undone c c' /\ reply_state c' = reply_state c.
Proof.
  unfold update_error. intros H. bind_inv. undone_tac.
Qed.

Lemma process_ok_packet_undone it end_ (c c' : Conn) :
  process_ok_packet set_variable it end_ c = Some c' -> never_undone c c'.
Proof.
  unfold process_ok_packet. intros H. bind_inv;
    try match goal with
        | H : session_track_loop _ _ _ _ _ = Some _ |- _ =>
            apply session_track_loop_undone in H
        end; undone_tac.
Qed.

Lemma process_one_packet_undone it end_ len (c c' : Conn) :
  process_one_packet set_variable it end_ len c = Some c' ->
  never_undone c c'.
Proof.
  unfold process_one_packet. intros H.
  destruct (deref it) as [cmd|]; [|done]. cbn [mbind option_bind] in H.
  destruct (reply_state c).
  - unfold process_reply_start, process_result_start in H.
    bind_inv;
      try match goal with
          | H : update_error _ _ _ = Some _ |- _ =>
              apply update_error_undone in H as [Hk _]
          | H : process_ok_packet _ _ _ _ = Some _ |- _ =>
              apply process_ok_packet_undone in H
          | H : process_ps_response _ _ _ = Some _ |- _ =>
              unfold process_ps_response in H; bind_inv
          end; undone_tac.
  - bind_inv; try (apply update_error_undone in H as [H _]); undone_tac.
  - bind_inv; undone_tac.
  - bind_inv; undone_tac.
  - bind_inv;
      try match goal with
          | H : update_error _ _ _ = Some _ |- _ =>
              apply update_error_undone in H as [Hk _]
          end; undone_tac.
  - bind_inv; undone_tac.
Qed.

Lemma packet_turn_undone it end_ len (c c' : Conn) :
  packet_turn set_variable it end_ len c = Some c' -> never_undone c c'.
Proof.
  unfold packet_turn. destruct (m_skip_next c).
  - intros [= <-]. repeat split; auto; reflexivity.
  - intros H. apply process_one_packet_undone in H.
    eapply never_undone_trans; [|exact H]. repeat split; auto; reflexivity.
Qed.

Lemma loop_undone (n : nat) : forall total it used (c c' : Conn) used',
  process_packets_loop set_variable n total it used c = Some (c', used') ->
  never_undone c c'.
Proof.
  induction n as [|n IH]; intros total it used c c' used'.
  - rewrite loop_0. destruct it; [|destruct (_ <? _)]; try done;
      intros [= <- <-]; apply never_undone_refl.
  - rewrite loop_unfold. destruct it as [|b it].
    { intros [= <- <-]. apply never_undone_refl. }
    destruct (_ <? _); [intros [= <- <-]; apply never_undone_refl|].
    destruct (read_header (b :: it)) as [[len it']|]; [|discriminate].
    cbn [mbind option_bind].
    destruct (_ <? _); [intros [= <- <-]; apply never_undone_refl|].
    destruct (advance len it') as [end_|]; [|discriminate].
    cbn [mbind option_bind].
    destruct (packet_turn set_variable it' end_ len c) as [c1|] eqn:Ht;
      [|discriminate].
    cbn [mbind option_bind]. intros Hrec.
    eapply never_undone_trans; [exact (packet_turn_undone _ _ _ _ _ Ht)|].
    exact (IH _ _ _ _ _ _ Hrec).
Qed.

(** X6: processing packets never takes back what a reply has recorded and
    never touches what the client side set up.  Whatever the buffer
    holds, after [process_packets] the row count is not smaller, the
    field counts are extended at the end only, a reply that was OK, a
    load that was active and an error that was recorded stay so, and the
    command, the changing-user flag and the two session-tracking flags
    are unchanged. *)
Theorem replies_only_grow (buffer : list byte) (c c' : Conn)
    (packets residual : list byte) :
  process_packets set_variable buffer c = Some (c', packets, residual) ->
  rows (m_reply c) <= rows (m_reply c')
  /\ field_counts (m_reply c) `prefix_of` field_counts (m_reply c')
  /\ (is_ok (m_reply c) = true -> is_ok (m_reply c') = true)
  /\ (load_active c = true -> load_active c' = true)
  /\ (is_Some (error (m_reply c)) -> is_Some (error (m_reply c')))
  /\ command (m_reply c') = command (m_reply c)
  /\ m_changing_user c' = m_changing_user c
  /\ m_track_state c' = m_track_state c
  /\ session_track_required c' = session_track_required c.
Proof.
  intros H. unfold process_packets in H.
  destruct (process_packets_loop set_variable (length buffer)
              (Z.of_nat (length buffer)) buffer 0 c)
    as [[c1 used]|] eqn:Hloop; [|discriminate].
  cbn [mbind option_bind] in H. injection H as <- _ _.
  exact (loop_undone _ _ _ _ _ _ _ Hloop).
Qed.

End Keep.

(** A reply that counts four rows of a first result takes in a row, the
    EOF that announces a second result and the OK packet that is the
    second result. *)
Lemma replies_only_grow_witness :
  let c :=
    add_field_count 2 (add_rows 4 (conn_of MXS_COM_QUERY RSET_ROWS false)) in
  let buffer :=
    frame x07 [x01; x31] ++ frame x08 (eof_payload 0 0x000a)
    ++ frame x09 (ok_bytes (mkOk 0 0 2 0 [])) in
  exists c',
    process_packets log_variable buffer c = Some (c', buffer, [])
    /\ 4 <= rows (m_reply c')
    /\ [2] `prefix_of` field_counts (m_reply c').
Proof.
  intros c buffer.
  destruct (process_packets log_variable buffer c) as [[[c' p] r]|] eqn:Hrun;
    [|vm_compute in Hrun; discriminate].
  pose proof (replies_only_grow log_variable buffer c c' p r Hrun)
    as (Hr & Hf & _).
  exists c'. vm_compute in Hrun. injection Hrun as <- <- <-.
  split; [reflexivity|]. split; [exact Hr|exact Hf].
Defined.

End ProgressFacts.

(** ** Traffic on a pooled connection *)

Module Pooling.
Import Wire Proto WireFacts Format Auth AuthFacts Reuse ReuseFacts ReuseSample
  Commands Traffic Results TrafficSample.
Section Claims.
Variable SHA1 : list byte -> list byte.
Hypothesis SHA1_length : forall m, length (SHA1 m) = 20%nat.

(** What [write] does with a query on an established connection. *)
Lemma write_forwards (q : GWBUF) (b : Backend) (cmd len : Z) :
  m_auth_state b = COMPLETE -> m_ignore_replies b = 0 ->
  m_changing_user b = false -> load_active b = false ->
  m_large_query b = false -> buf_ignorable q = false ->
  dcb_write_ok b = true ->
  MYSQL_GET_COMMAND (buf_data q) = Some cmd ->
  MYSQL_GET_PAYLOAD_LEN (buf_data q) = Some len ->
  cmd <> MXS_COM_CHANGE_USER ->
  cmd <> MXS_COM_QUIT \/ persistent_conns_enabled b = false ->
  write SHA1 q b
  = Some (1, set_writeq (dcb_writeq b ++ [buf_data q])
               (set_tracking cmd false (len =? GW_MYSQL_MAX_PACKET_LEN) b)).
Proof.
  intros Ha Hi Hcu Hl Hlq Hig Hw Hcmd Hlen Hnc Hq.
  unfold write. rewrite Hi. change (0 <? 0) with false. cbv iota.
  rewrite Ha, Hcmd. cbn [mbind option_bind].
  unfold prepare_for_write, track_query. rewrite Hig. cbn [negb].
  rewrite Hcu, Hlen. cbn [mbind option_bind]. rewrite Hl, Hlq. cbn [negb].
  rewrite Hcmd. cbn [mbind option_bind reply_command set_tracking].
  rewrite (proj2 (Z.eqb_neq _ _) Hnc).
  assert (Hquit : (cmd =? MXS_COM_QUIT) && persistent_conns_enabled b = false).
  { destruct Hq as [Hq|Hq].
    - rewrite (proj2 (Z.eqb_neq _ _) Hq). reflexivity.
    - rewrite Hq. apply andb_false_r. }
  cbn [persistent_conns_enabled set_tracking]. rewrite Hquit.
  unfold writeq_append. cbn [dcb_write_ok set_tracking]. rewrite Hw.
  reflexivity.
Qed.

(** X7: the OK reply to the COM_CHANGE_USER of a reused connection ends
    the reuse.  With one reply ignored and no user change of the client
    under way, [gw_read_and_write] of a buffer whose last packet is an OK
    packet returns 1 without routing anything to the client; the counter
    of ignored replies is back to zero and the connection is established.
    A query stored meanwhile (not ignorable, neither COM_CHANGE_USER nor a
    COM_QUIT held back for the pool) is now appended to the write queue,
    as the only buffer added, and tracked as the current command. *)
Theorem reuse_completed (read_buffer : list (list byte))
    (reply : list byte) (b : Backend) :
  m_changing_user b = false -> m_ignore_replies b = 1 ->
  m_auth_state b = COMPLETE ->
  list.last read_buffer = Some reply ->
  MYSQL_GET_COMMAND reply = Some MYSQL_REPLY_OK ->
  (m_stored_query b = None ->
   exists b',
     gw_read_and_write SHA1 read_buffer b = Some (Returned 1, b')
     /\ dcb_writeq b' = dcb_writeq b
     /\ established b' = true)
  /\ (forall (q : GWBUF) (cmd len : Z),
        m_stored_query b = Some q ->
        load_active b = false -> m_large_query b = false ->
        buf_ignorable q = false -> dcb_write_ok b = true ->
        MYSQL_GET_COMMAND (buf_data q) = Some cmd ->
        MYSQL_GET_PAYLOAD_LEN (buf_data q) = Some len ->
        cmd <> MXS_COM_CHANGE_USER ->
        cmd <> MXS_COM_QUIT \/ persistent_conns_enabled b = false ->
        exists b',
          gw_read_and_write SHA1 read_buffer b = Some (Returned 1, b')
          /\ dcb_writeq b' = dcb_writeq b ++ [buf_data q]
          /\ m_stored_query b' = None
          /\ reply_command b' = cmd
          /\ established b' = true).
Proof.
  intros Hcu Hi Ha Hlast Hok.
  assert (Hrun : gw_read_and_write SHA1 read_buffer b
                 = '(rval, b') ←
                     match m_stored_query b with
                     | Some q =>
                         write SHA1 q
                           (set_ignore_replies 0 (set_stored_query None b))
                     | None =>
                         Some (1, set_ignore_replies 0 (set_stored_query None b))
                     end;
                   Some (Returned rval, b')).
  { unfold gw_read_and_write, read_changing_user. rewrite Hcu.
    cbn [mbind option_bind]. rewrite Hi. change (0 <? 1) with true. cbv iota.
    unfold read_ignored_reply. rewrite Hlast. cbn [mbind option_bind].
    rewrite Hok. cbn [mbind option_bind]. rewrite Z.eqb_refl.
    cbn [m_ignore_replies set_stored_query]. rewrite Hi. reflexivity. }
  split.
  - intros Hq. rewrite Hrun, Hq. cbn [mbind option_bind].
    eexists. split; [reflexivity|]. split; [reflexivity|].
    apply established_iff. cbn. rewrite Ha. repeat split.
  - intros q cmd len Hq Hl Hlq Hig Hw Hcmd Hlen Hnc Hquit.
    rewrite Hrun, Hq.
    rewrite (write_forwards q _ cmd len) by (first [assumption|reflexivity]).
    cbn [mbind option_bind]. eexists. split; [reflexivity|].
    split; [reflexivity|]. split; [reflexivity|]. split; [reflexivity|].
    apply established_iff. cbn. rewrite Ha. repeat split.
Qed.

(** X8: any other reply to the COM_CHANGE_USER of a reused connection
    closes it.  When the last packet read is neither an OK packet nor an
    AuthSwitchRequest (longer than an EOF packet), [gw_read_and_write]
    returns 0 with a hangup triggered; the stored query is dropped,
    nothing is written, one ignored reply is counted off, and the server
    is put into maintenance exactly when the reply is an ERR packet with
    error 1129 (ER_HOST_IS_BLOCKED), unless it was already. *)
Theorem reuse_rejected (read_buffer : list (list byte))
    (reply : list byte) (b : Backend) (cmd : Z) :
  m_changing_user b = false -> 0 < m_ignore_replies b ->
  list.last read_buffer = Some reply ->
  MYSQL_GET_COMMAND reply = Some cmd ->
  cmd <> MYSQL_REPLY_OK ->
  cmd <> MYSQL_REPLY_AUTHSWITCHREQUEST
  \/ Z.of_nat (length reply) <= MYSQL_EOF_PACKET_LEN ->
  (cmd = MYSQL_REPLY_ERR -> (7 <= length reply)%nat) ->
  exists b',
    gw_read_and_write SHA1 read_buffer b = Some (Returned 0, b')
    /\ dcb_hangup b' = true
    /\ m_stored_query b' = None
    /\ dcb_writeq b' = dcb_writeq b
    /\ m_ignore_replies b' = m_ignore_replies b - 1
    /\ server_maintenance b'
       = server_maintenance b
         || ((cmd =? MYSQL_REPLY_ERR)
             && (le_value (take 2 (drop 5 reply)) =? ER_HOST_IS_BLOCKED)).
Proof.
  intros Hcu Hi Hlast Hcmd Hnok Hnsw Herr.
  unfold gw_read_and_write, read_changing_user. rewrite Hcu.
  cbn [mbind option_bind]. rewrite (proj2 (Z.ltb_lt _ _) Hi).
  unfold read_ignored_reply. rewrite Hlast. cbn [mbind option_bind].
  rewrite Hcmd. cbn [mbind option_bind].
  rewrite (proj2 (Z.eqb_neq _ _) Hnok).
  unfold auth_change_requested. rewrite Hcmd. cbn [mbind option_bind].
  assert (Hsw : (cmd =? MYSQL_REPLY_AUTHSWITCHREQUEST)
                && (MYSQL_EOF_PACKET_LEN <? Z.of_nat (length reply)) = false).
  { destruct Hnsw as [H|H].
    - rewrite (proj2 (Z.eqb_neq _ _) H). reflexivity.
    - rewrite (proj2 (Z.ltb_ge _ _) H). apply andb_false_r. }
  rewrite Hsw.
  destruct (Z.eqb_spec cmd MYSQL_REPLY_ERR) as [Hc|Hc].
  - unfold handle_error_response. rewrite Hcmd. cbn [mbind option_bind].
    rewrite Hc, Z.eqb_refl.
    unfold gw_mysql_get_byte2, read_bytes.
    rewrite bool_decide_eq_true_2
      by (rewrite length_drop; specialize (Herr Hc); lia).
    cbn [fmap option_fmap option_map mbind option_bind].
    destruct (le_value (take 2 (drop 5 reply)) =? ER_HOST_IS_BLOCKED);
      eexists; (split; [reflexivity|]); cbn;
      rewrite ?orb_true_r, ?orb_false_r; repeat split.
  - cbn [mbind option_bind andb]. eexists. split; [reflexivity|]. cbn.
    rewrite orb_false_r. repeat split.
Qed.

(** X9: an AuthSwitchRequest that names another plugin than
    mysql_native_password, received for a reused connection, is not
    answered: [gw_read_and_write] returns 0 with a hangup triggered, the
    stored query is dropped, nothing is written and the scramble is left
    as it was. *)
Theorem reuse_other_plugin (read_buffer : list (list byte))
    (reply : list byte) (b : Backend) :
  m_changing_user b = false -> 0 < m_ignore_replies b ->
  list.last read_buffer = Some reply ->
  MYSQL_GET_COMMAND reply = Some MYSQL_REPLY_AUTHSWITCHREQUEST ->
  MYSQL_EOF_PACKET_LEN < Z.of_nat (length reply) ->
  strcmp_eq (drop 5 reply) DEFAULT_MYSQL_AUTH_PLUGIN = Some false ->
  exists b',
    gw_read_and_write SHA1 read_buffer b = Some (Returned 0, b')
    /\ dcb_hangup b' = true
    /\ m_stored_query b' = None
    /\ dcb_writeq b' = dcb_writeq b
    /\ m_scramble b' = m_scramble b.
Proof.
  intros Hcu Hi Hlast Hcmd Hlen Hplugin.
  unfold gw_read_and_write, read_changing_user. rewrite Hcu.
  cbn [mbind option_bind]. rewrite (proj2 (Z.ltb_lt _ _) Hi).
  unfold read_ignored_reply. rewrite Hlast. cbn [mbind option_bind].
  rewrite Hcmd. cbn [mbind option_bind].
  change (MYSQL_REPLY_AUTHSWITCHREQUEST =? MYSQL_REPLY_OK) with false.
  cbv iota. unfold auth_change_requested. rewrite Hcmd.
  cbn [mbind option_bind]. rewrite Z.eqb_refl, (proj2 (Z.ltb_lt _ _) Hlen).
  cbn [andb]. unfold handle_auth_change_response. rewrite Hplugin.
  cbn [mbind option_bind]. eexists. split; [reflexivity|].
  repeat split.
Qed.

(** X10: before the authentication is complete nothing goes to the
    server.  In state CONNECTED or RESPONSE_SENT every [write] succeeds
    (it returns 1) and only appends its buffer to the delay queue: after
    any sequence of writes each call has returned 1, the delay queue holds
    the buffers in the order written after what it held, and the write
    queue, the authentication state and the stored query are untouched. *)
Theorem writes_before_authentication (queues : list GWBUF) :
  forall b : Backend,
  m_ignore_replies b <= 0 ->
  m_auth_state b = CONNECTED \/ m_auth_state b = RESPONSE_SENT ->
  exists b',
    write_each SHA1 queues b = Some (replicate (length queues) 1, b')
    /\ write_all SHA1 queues b = Some b'
    /\ dcb_delayq b' = dcb_delayq b ++ map buf_data queues
    /\ dcb_writeq b' = dcb_writeq b
    /\ m_auth_state b' = m_auth_state b
    /\ m_stored_query b' = m_stored_query b.
Proof.
  induction queues as [|q queues IH]; intros b Hi Ha.
  - exists b. cbn [write_each write_all map length replicate].
    rewrite app_nil_r. repeat split.
  - cbn [write_each write_all map length replicate].
    assert (Hw : write SHA1 q b = Some (1, delayq_append (buf_data q) b)).
    { unfold write. rewrite (proj2 (Z.ltb_ge _ _) Hi).
      destruct Ha as [-> | ->]; reflexivity. }
    rewrite Hw. cbn [mbind option_bind].
    destruct (IH (delayq_append (buf_data q) b))
      as (b' & Heach & Hrun & Hd & Hq & Hs & Hst).
    + exact Hi.
    + exact Ha.
    + exists b'. rewrite Heach. cbn [mbind option_bind].
      split; [reflexivity|]. split; [exact Hrun|].
      cbn in Hd, Hq, Hs, Hst.
      rewrite Hd, <- app_assoc. repeat split; assumption.
Qed.

(** X11: while the reply to the COM_CHANGE_USER of a reused connection is
    awaited, queries are stored, in order.  After any sequence of writes
    of buffers that are not COM_QUIT packets, the stored query holds what
    it held before followed by the bytes of the buffers in the order
    written; nothing is written to the server, no hangup is triggered and
    the count of ignored replies is unchanged. *)
Theorem writes_during_reuse (queues : list GWBUF) :
  forall b : Backend,
  0 < m_ignore_replies b ->
  Forall (fun q => MYSQL_IS_COM_QUIT (buf_data q) = Some false) queues ->
  exists b',
    write_all SHA1 queues b = Some b'
    /\ default [] (buf_data <$> m_stored_query b')
       = default [] (buf_data <$> m_stored_query b)
         ++ concat (map buf_data queues)
    /\ (queues <> [] -> is_Some (m_stored_query b'))
    /\ dcb_writeq b' = dcb_writeq b
    /\ dcb_hangup b' = dcb_hangup b
    /\ m_ignore_replies b' = m_ignore_replies b.
Proof.
  induction queues as [|q queues IH]; intros b Hi Hq.
  - exists b. cbn [write_all map concat]. rewrite app_nil_r.
    repeat split. done.
  - inversion Hq as [|? ? Hq1 Hq2]; subst.
    cbn [write_all]. unfold write. rewrite (proj2 (Z.ltb_lt _ _) Hi).
    unfold handle_persistent_connection. rewrite Hq1.
    cbn [mbind option_bind].
    destruct (IH (set_stored_query
                    (Some (gwbuf_append (m_stored_query b) q)) b))
      as (b' & Hrun & Hs & Hsome & Hw & Hh & Hn); [exact Hi|exact Hq2|].
    exists b'. split; [exact Hrun|].
    cbn in Hs, Hw, Hh, Hn. rewrite Hs.
    split; [|split; [|repeat split; assumption]].
    + cbn [map concat]. rewrite app_assoc. f_equal.
      destruct (m_stored_query b); reflexivity.
    + intros _. destruct queues as [|q' queues'].
      * cbn [write_all] in Hrun. injection Hrun as <-. cbn. eauto.
      * apply Hsome. discriminate.
Qed.

(** X12: a connection that does not qualify is not reused.  When the DCB
    is not polling or the authentication is not complete,
    [reuse_connection] returns false and changes nothing.  When the
    COM_CHANGE_USER packet cannot be written it returns false with
    the session of the connection restored and nothing written; the
    stored query has been dropped and the count of ignored replies reset
    to zero all the same. *)
Theorem reuse_connection_refused (session : MYSQL_session) (b : Backend) :
  (dcb_polling b = false \/ m_auth_state b <> COMPLETE ->
   reuse_connection SHA1 session b = Some (false, b))
  /\ (dcb_polling b = true -> m_auth_state b = COMPLETE ->
      dcb_write_ok b = false ->
      length (m_scramble b) = 20%nat ->
      length (auth_token_phase2 session) = 20%nat ->
      exists b',
        reuse_connection SHA1 session b = Some (false, b')
        /\ m_client_data b' = m_client_data b
        /\ dcb_writeq b' = dcb_writeq b
        /\ m_ignore_replies b' = 0
        /\ m_stored_query b' = None).
Proof.
  split.
  - intros H. unfold reuse_connection.
    destruct H as [H|H].
    + rewrite H. reflexivity.
    + rewrite (bool_decide_eq_false_2 _ H), orb_true_r. reflexivity.
  - intros Hp Ha Hw Hs Ht. unfold reuse_connection. rewrite Hp, Ha.
    rewrite bool_decide_eq_true_2 by reflexivity. cbn [negb orb].
    cbn [m_client_data m_scramble assign_session set_ignore_replies
         set_stored_query].
    rewrite (gw_create_change_user_packet_spec SHA1 SHA1_length)
      by assumption.
    cbn [mbind option_bind]. unfold writeq_append.
    cbn [dcb_write_ok assign_session set_ignore_replies set_stored_query].
    rewrite Hw. eexists. split; [reflexivity|]. repeat split.
Qed.

(** X13: a COM_CHANGE_USER of the client is not forwarded as sent.  On an
    established connection, [write] of a buffer whose command byte is
    COM_CHANGE_USER appends to the write queue the packet built by
    [gw_create_change_user_packet] from the session's user, database,
    character set and connect attributes and the password scrambled with
    the scramble of this backend, whatever the bytes of the client's own
    packet are; it returns 1 and marks the connection as changing
    user. *)
Theorem client_change_user (queue : GWBUF) (b : Backend) (len : Z) :
  m_auth_state b = COMPLETE -> m_ignore_replies b = 0 ->
  m_changing_user b = false -> load_active b = false ->
  m_large_query b = false -> buf_ignorable queue = false ->
  dcb_write_ok b = true ->
  MYSQL_GET_COMMAND (buf_data queue) = Some MXS_COM_CHANGE_USER ->
  MYSQL_GET_PAYLOAD_LEN (buf_data queue) = Some len ->
  length (m_scramble b) = 20%nat ->
  length (auth_token_phase2 (m_client_data b)) = 20%nat ->
  exists b',
    write SHA1 queue b = Some (1, b')
    /\ dcb_writeq b'
       = dcb_writeq b
         ++ [frame x00
               (change_user_payload (c_str (user (m_client_data b)))
                  (scramble_spec SHA1 (m_scramble b)
                     (auth_token_phase2 (m_client_data b)))
                  (c_str (db (m_client_data b)))
                  (client_charset (m_client_data b))
                  DEFAULT_MYSQL_AUTH_PLUGIN
                  (connect_attrs (m_client_data b)))]
    /\ m_changing_user b' = true
    /\ reply_command b' = MXS_COM_CHANGE_USER
    /\ m_ignore_replies b' = 0.
Proof.
  intros Ha Hi Hcu Hl Hlq Hig Hw Hcmd Hlen Hs Ht.
  unfold write. rewrite Hi. change (0 <? 0) with false. cbv iota.
  rewrite Ha, Hcmd. cbn [mbind option_bind].
  unfold prepare_for_write, track_query. rewrite Hig. cbn [negb].
  rewrite Hcu, Hlen. cbn [mbind option_bind]. rewrite Hl, Hlq. cbn [negb].
  rewrite Hcmd. cbn [mbind option_bind reply_command set_tracking].
  rewrite Z.eqb_refl. unfold gw_send_change_user_to_backend.
  cbn [m_client_data m_scramble set_tracking].
  rewrite (gw_create_change_user_packet_spec SHA1 SHA1_length)
    by assumption.
  cbn [mbind option_bind]. unfold writeq_append.
  cbn [dcb_write_ok set_tracking]. rewrite Hw.
  eexists. split; [reflexivity|]. cbn. rewrite Hi. repeat split.
Qed.

(** X14: the final reply to a client's COM_CHANGE_USER is routed with
    sequence number 3.  While the connection is changing user and no
    reply is ignored, a buffer that is not an AuthSwitchRequest (longer
    than an EOF packet) goes on to the client with the sequence byte of
    its first packet set to 3 and all its other bytes unchanged; both
    changing-user flags are cleared and nothing is written to the
    server. *)
Theorem change_user_final_reply (first : list byte)
    (others : list (list byte)) (b : Backend) (cmd : Z) :
  m_changing_user b = true -> m_ignore_replies b <= 0 ->
  MYSQL_GET_COMMAND first = Some cmd ->
  cmd <> MYSQL_REPLY_AUTHSWITCHREQUEST
  \/ Z.of_nat (length (concat (first :: others))) <= MYSQL_EOF_PACKET_LEN ->
  exists b',
    gw_read_and_write SHA1 (first :: others) b
    = Some (Routes ((take 3 first ++ x03 :: drop 4 first) :: others), b')
    /\ m_changing_user b' = false
    /\ client_changing_user b' = false
    /\ dcb_writeq b' = dcb_writeq b
    /\ m_scramble b' = m_scramble b
    /\ m_ignore_replies b' = m_ignore_replies b.
Proof.
  intros Hcu Hi Hcmd Hnsw.
  assert (Hlen : (5 <= length first)%nat).
  { unfold MYSQL_GET_COMMAND, byte_at in Hcmd.
    destruct (drop 4 first) as [|c rest] eqn:E; [discriminate|].
    apply (f_equal length) in E. rewrite length_drop in E.
    cbn [length] in E. lia. }
  assert (Hcmd' : MYSQL_GET_COMMAND (concat (first :: others)) = Some cmd).
  { unfold MYSQL_GET_COMMAND, byte_at in *. cbn [concat].
    rewrite drop_app_le by lia.
    destruct (drop 4 first) as [|c rest]; [discriminate|]. exact Hcmd. }
  unfold gw_read_and_write, read_changing_user. rewrite Hcu.
  unfold auth_change_requested. rewrite Hcmd'. cbn [mbind option_bind].
  assert (Hsw : (cmd =? MYSQL_REPLY_AUTHSWITCHREQUEST)
                && (MYSQL_EOF_PACKET_LEN
                    <? Z.of_nat (length (concat (first :: others)))) = false).
  { destruct Hnsw as [H|H].
    - rewrite (proj2 (Z.eqb_neq _ _) H). reflexivity.
    - rewrite (proj2 (Z.ltb_ge _ _) H). apply andb_false_r. }
  rewrite Hsw. cbn [mbind option_bind list.head tail].
  unfold memcpy_at. cbn [length].
  rewrite bool_decide_eq_true_2 by lia. cbn [mbind option_bind].
  cbn [m_ignore_replies set_changing_user].
  rewrite (proj2 (Z.ltb_ge _ _) Hi).
  eexists. split; [reflexivity|]. repeat split.
Qed.

End Claims.

(** The reuse of the sample connection ends with the query stored
    meanwhile going out. *)
Lemma reuse_completed_witness :
  exists b',
    gw_read_and_write SHA1Ref.sha1 [ok_reply0]
      (set_stored_query (Some query0) waiting) = Some (Returned 1, b')
    /\ dcb_writeq b' = [buf_data query0]
    /\ established b' = true.
Proof.
  destruct (reuse_completed SHA1Ref.sha1 [ok_reply0] ok_reply0
              (set_stored_query (Some query0) waiting)
              eq_refl eq_refl eq_refl eq_refl eq_refl) as [_ H].
  assert (H3 : 3 <> MXS_COM_CHANGE_USER) by discriminate.
  assert (H4 : 3 <> MXS_COM_QUIT
               \/ persistent_conns_enabled
                    (set_stored_query (Some query0) waiting) = false)
    by (left; discriminate).
  destruct (H query0 3 9 eq_refl eq_refl eq_refl eq_refl eq_refl eq_refl
              eq_refl H3 H4)
    as (b' & Hrun & Hw & _ & _ & He).
  exists b'. repeat split; assumption.
Defined.

Lemma reuse_rejected_witness :
  exists b',
    gw_read_and_write SHA1Ref.sha1 [blocked_reply0]
      (set_stored_query (Some query0) waiting) = Some (Returned 0, b')
    /\ dcb_hangup b' = true
    /\ server_maintenance b' = true.
Proof.
  assert (H1 : MYSQL_REPLY_ERR <> MYSQL_REPLY_OK) by discriminate.
  assert (H2 : MYSQL_REPLY_ERR <> MYSQL_REPLY_AUTHSWITCHREQUEST
               \/ Z.of_nat (length blocked_reply0) <= MYSQL_EOF_PACKET_LEN)
    by (left; discriminate).
  assert (H3 : MYSQL_REPLY_ERR = MYSQL_REPLY_ERR ->
               (7 <= length blocked_reply0)%nat)
    by (intros _; vm_compute; lia).
  destruct (reuse_rejected SHA1Ref.sha1 [blocked_reply0] blocked_reply0
              (set_stored_query (Some query0) waiting) MYSQL_REPLY_ERR
              eq_refl eq_refl eq_refl eq_refl H1 H2 H3)
    as (b' & Hrun & Hh & _ & _ & _ & Hm).
  exists b'. repeat split; assumption.
Defined.

Lemma reuse_other_plugin_witness :
  exists b',
    gw_read_and_write SHA1Ref.sha1 [other_plugin_request0] waiting
    = Some (Returned 0, b')
    /\ dcb_hangup b' = true /\ dcb_writeq b' = [].
Proof.
  destruct (reuse_other_plugin SHA1Ref.sha1 [other_plugin_request0]
              other_plugin_request0 waiting
              eq_refl eq_refl eq_refl eq_refl eq_refl eq_refl)
    as (b' & Hrun & Hh & _ & Hw & _).
  exists b'. repeat split; assumption.
Defined.

Lemma writes_before_authentication_witness :
  exists b',
    write_each SHA1Ref.sha1 [query0; query1] connecting = Some ([1; 1], b')
    /\ write_all SHA1Ref.sha1 [query0; query1] connecting = Some b'
    /\ dcb_delayq b' = [buf_data query0; buf_data query1]
    /\ dcb_writeq b' = [].
Proof.
  assert (H1 : m_ignore_replies connecting <= 0) by reflexivity.
  assert (H2 : m_auth_state connecting = CONNECTED
               \/ m_auth_state connecting = RESPONSE_SENT)
    by (right; reflexivity).
  destruct (writes_before_authentication SHA1Ref.sha1 [query0; query1]
              connecting H1 H2)
    as (b' & Heach & Hrun & Hd & Hw & _).
  exists b'. repeat split; assumption.
Defined.

Lemma writes_during_reuse_witness :
  exists b',
    write_all SHA1Ref.sha1 [query0; query1] waiting = Some b'
    /\ default [] (buf_data <$> m_stored_query b')
       = buf_data query0 ++ buf_data query1 ++ []
    /\ dcb_writeq b' = [].
Proof.
  assert (H1 : Forall (fun q => MYSQL_IS_COM_QUIT (buf_data q) = Some false)
                 [query0; query1]) by (repeat constructor).
  destruct (writes_during_reuse SHA1Ref.sha1 [query0; query1] waiting
              eq_refl H1)
    as (b' & Hrun & Hs & _ & Hw & _).
  exists b'. repeat split; assumption.
Defined.

Lemma reuse_connection_refused_witness :
  reuse_connection SHA1Ref.sha1 session0 connecting
  = Some (false, connecting)
  /\ exists b',
       reuse_connection SHA1Ref.sha1 session0
         (set_stored_query (Some query0)
            (mkBackend COMPLETE 0 None scramble0 false false session0 true
               false [] [] false true 0 false false false))
       = Some (false, b')
       /\ m_stored_query b' = None.
Proof.
  destruct (reuse_connection_refused SHA1Ref.sha1 sha1_length session0
              connecting) as [H1 _].
  assert (Hc : dcb_polling connecting = false
               \/ m_auth_state connecting <> COMPLETE)
    by (right; discriminate).
  split; [exact (H1 Hc)|].
  destruct (reuse_connection_refused SHA1Ref.sha1 sha1_length session0
              (set_stored_query (Some query0)
                 (mkBackend COMPLETE 0 None scramble0 false false session0
                    true false [] [] false true 0 false false false)))
    as [_ H2].
  destruct (H2 eq_refl eq_refl eq_refl eq_refl eq_refl)
    as (b' & Hrun & _ & _ & _ & Hs).
  exists b'. split; assumption.
Defined.

Lemma client_change_user_witness :
  exists b',
    write SHA1Ref.sha1 change_user0 pooled = Some (1, b')
    /\ m_changing_user b' = true
    /\ length (dcb_writeq b') = 1%nat.
Proof.
  destruct (client_change_user SHA1Ref.sha1 sha1_length change_user0 pooled 5
              eq_refl eq_refl eq_refl eq_refl eq_refl eq_refl eq_refl
              eq_refl eq_refl eq_refl eq_refl)
    as (b' & Hrun & Hw & Hc & _).
  exists b'. split; [exact Hrun|]. split; [exact Hc|].
  rewrite Hw. reflexivity.
Defined.

Lemma change_user_final_reply_witness :
  exists b',
    gw_read_and_write SHA1Ref.sha1 [ok_reply0] changing
    = Some (Routes [[x07; x00; x00; x03; x00; x00; x00; x02; x00; x00; x00]],
            b')
    /\ m_changing_user b' = false.
Proof.
  assert (H1 : m_ignore_replies changing <= 0) by reflexivity.
  assert (H2 : 0 <> MYSQL_REPLY_AUTHSWITCHREQUEST
               \/ Z.of_nat (length (concat [ok_reply0]))
                  <= MYSQL_EOF_PACKET_LEN)
    by (left; discriminate).
  destruct (change_user_final_reply SHA1Ref.sha1 ok_reply0 [] changing 0
              eq_refl H1 eq_refl H2)
    as (b' & Hrun & Hc & _).
  exists b'. split; [exact Hrun|exact Hc].
Defined.

End Pooling.

(** ** COM_QUIT, the delay queue and ignorable packets *)

Module CommonFacts.
Import Wire Proto WireFacts Format Auth AuthFacts Reuse ReuseFacts ReuseSample
  Commands Traffic Results TrafficSample Common.

Lemma mysql_create_com_quit_bytes (bufparam : option (list byte))
    (packet_number : Z) :
  (forall buf, bufparam = Some buf -> length buf = COM_QUIT_PACKET_SIZE) ->
  mysql_create_com_quit bufparam packet_number
  = Some [x01; x00; x00; byte_of_Z packet_number; x01].
Proof.
  intros H. unfold mysql_create_com_quit.
  destruct bufparam as [buf|]; [|reflexivity].
  specialize (H buf eq_refl).
  destruct buf as [|b0 [|b1 [|b2 [|b3 [|b4 [|b5 buf]]]]]]; try discriminate.
  reflexivity.
Qed.

Lemma com_quit_recognised (packet_number : Z) :
  MYSQL_IS_COM_QUIT [x01; x00; x00; byte_of_Z packet_number; x01] = Some true.
Proof. reflexivity. Qed.

End CommonFacts.

Module Quit.
Import Wire Proto WireFacts Format Auth AuthFacts Reuse ReuseFacts ReuseSample
  Commands Traffic Results TrafficSample Common.
Import CommonFacts.
Section Claims.
Variable SHA1 : list byte -> list byte.
Hypothesis SHA1_length : forall m, length (SHA1 m) = 20%nat.

(** X15: a COM_QUIT does not reach a server whose connections are
    pooled.  [mysql_create_com_quit] builds the five bytes
    [01 00 00 n 01] (in a new buffer or in the five-byte buffer given).
    With persistent connections enabled, [mysql_send_com_quit] on an
    established connection returns 1 and writes nothing (only the tracked
    command becomes COM_QUIT); while replies are ignored it returns 0 and
    triggers a hangup; and a COM_QUIT waiting in the delay queue is
    dropped by [backend_write_delayqueue], which returns 1 and leaves the
    connection as it is. *)
Theorem com_quit_kept_from_pool (packet_number : Z) (b : Backend) :
  persistent_conns_enabled b = true ->
  let packet := [x01; x00; x00; byte_of_Z packet_number; x01] in
  (forall bufparam : option (list byte),
     (forall buf, bufparam = Some buf -> length buf = COM_QUIT_PACKET_SIZE) ->
     mysql_create_com_quit bufparam packet_number = Some packet)
  /\ (m_auth_state b = COMPLETE -> m_ignore_replies b = 0 ->
      m_changing_user b = false -> load_active b = false ->
      m_large_query b = false ->
      exists b',
        mysql_send_com_quit SHA1 packet_number None b = Some (1, b')
        /\ dcb_writeq b' = dcb_writeq b
        /\ dcb_hangup b' = dcb_hangup b
        /\ reply_command b' = MXS_COM_QUIT)
  /\ (0 < m_ignore_replies b ->
      mysql_send_com_quit SHA1 packet_number None b
      = Some (0, trigger_hangup_event b))
  /\ backend_write_delayqueue SHA1 packet b = Some (1, b).
Proof.
  intros Hpool packet.
  assert (Hsend : mysql_send_com_quit SHA1 packet_number None b
                  = write SHA1 (mkBuf packet false) b).
  { unfold mysql_send_com_quit.
    rewrite (mysql_create_com_quit_bytes None packet_number) by done.
    reflexivity. }
  split; [exact (fun bufparam H =>
                   mysql_create_com_quit_bytes bufparam packet_number H)|].
  split; [|split].
  - intros Ha Hi Hcu Hl Hlq. rewrite Hsend.
    unfold write. rewrite Hi. change (0 <? 0) with false. cbv iota.
    rewrite Ha. unfold packet.
    cbn [buf_data MYSQL_GET_COMMAND byte_at drop deref mbind option_bind].
    unfold prepare_for_write, track_query.
    cbn [buf_ignorable buf_data negb]. rewrite Hcu.
    unfold MYSQL_GET_PAYLOAD_LEN, read_bytes. cbn [length].
    rewrite bool_decide_eq_true_2 by lia.
    cbn [fmap option_fmap option_map mbind option_bind].
    rewrite Hl, Hlq.
    cbn [negb MYSQL_GET_COMMAND byte_at drop deref mbind option_bind
         reply_command set_tracking persistent_conns_enabled].
    rewrite Hpool.
    change (byte_val x01 =? MXS_COM_CHANGE_USER) with false.
    change (byte_val x01 =? MXS_COM_QUIT) with true.
    cbn [andb]. eexists. split; [reflexivity|]. repeat split.
  - intros Hi. rewrite Hsend. unfold write.
    rewrite (proj2 (Z.ltb_lt _ _) Hi).
    unfold handle_persistent_connection. cbn [buf_data]. unfold packet.
    rewrite com_quit_recognised. reflexivity.
  - unfold backend_write_delayqueue, MYSQL_IS_CHANGE_USER, packet.
    cbn [MYSQL_GET_COMMAND byte_at drop deref mbind option_bind].
    change (byte_val x01 =? MXS_COM_CHANGE_USER) with false. cbv iota.
    cbn [mbind option_bind]. rewrite com_quit_recognised.
    cbn [mbind option_bind]. rewrite Hpool. reflexivity.
Qed.

(** X16: a COM_CHANGE_USER that waited in the delay queue is written
    anew.  For a buffer whose command byte is COM_CHANGE_USER,
    [backend_write_delayqueue] appends to the write queue the packet
    [gw_create_change_user_packet] builds now, not the buffer: its
    password field is the session's password hash scrambled with the
    scramble this backend sent. *)
Theorem delayed_change_user (buffer : list byte) (b : Backend) :
  MYSQL_GET_COMMAND buffer = Some MXS_COM_CHANGE_USER ->
  dcb_write_ok b = true ->
  length (m_scramble b) = 20%nat ->
  length (auth_token_phase2 (m_client_data b)) = 20%nat ->
  exists packet,
    gw_create_change_user_packet SHA1 (m_client_data b) (m_scramble b)
    = Some packet
    /\ backend_write_delayqueue SHA1 buffer b
       = Some (1, set_writeq (dcb_writeq b ++ [packet]) b)
    /\ change_user_password (length (c_str (user (m_client_data b)))) packet
       = xor_bytes (auth_token_phase2 (m_client_data b))
           (SHA1 (m_scramble b ++ SHA1 (auth_token_phase2 (m_client_data b)))).
Proof.
  intros Hcmd Hw Hs Ht.
  pose proof (gw_create_change_user_packet_spec SHA1 SHA1_length
                (m_client_data b) (m_scramble b) Ht Hs) as Hp.
  eexists. split; [exact Hp|]. split.
  - unfold backend_write_delayqueue, MYSQL_IS_CHANGE_USER.
    rewrite Hcmd. cbn [mbind option_bind]. rewrite Z.eqb_refl, Hp.
    cbn [mbind option_bind].
    assert (Hq : MYSQL_IS_COM_QUIT
                   (frame x00
                      (change_user_payload (c_str (user (m_client_data b)))
                         (scramble_spec SHA1 (m_scramble b)
                            (auth_token_phase2 (m_client_data b)))
                         (c_str (db (m_client_data b)))
                         (client_charset (m_client_data b))
                         DEFAULT_MYSQL_AUTH_PLUGIN
                         (connect_attrs (m_client_data b)))) = Some false).
    { unfold MYSQL_IS_COM_QUIT, MYSQL_GET_COMMAND, byte_at, frame,
        change_user_payload.
      change (le_bytes 3 ?v ++ x00 :: x11 :: ?r)
        with ((le_bytes 3 v ++ [x00]) ++ x11 :: r).
      rewrite drop_app_length'
        by (rewrite length_app, length_le_bytes; reflexivity).
      reflexivity. }
    rewrite Hq. cbn [mbind option_bind andb]. unfold writeq_append.
    rewrite Hw. reflexivity.
  - unfold change_user_payload.
    apply change_user_password_field.
    apply (scramble_spec_length SHA1 SHA1_length). exact Ht.
Qed.

(** X17: the reply to an ignorable packet stays inside.  On an
    established connection, [write] of an ignorable buffer (such as the
    COM_PING of [ping]) sends it, leaves the tracked command alone and
    counts one reply to ignore, so that the connection is not established
    meanwhile; the OK packet that answers it is consumed by
    [gw_read_and_write], which returns 1 without routing or writing
    anything, and the connection is established again. *)
Theorem ignorable_reply_consumed (q : GWBUF) (reply : list byte)
    (b : Backend) (cmd : Z) :
  m_auth_state b = COMPLETE -> m_ignore_replies b = 0 ->
  m_stored_query b = None -> m_changing_user b = false ->
  buf_ignorable q = true -> dcb_write_ok b = true ->
  MYSQL_GET_COMMAND (buf_data q) = Some cmd ->
  reply_command b <> MXS_COM_CHANGE_USER ->
  cmd <> MXS_COM_QUIT \/ persistent_conns_enabled b = false ->
  MYSQL_GET_COMMAND reply = Some MYSQL_REPLY_OK ->
  exists b1 b2,
    write SHA1 q b = Some (1, b1)
    /\ dcb_writeq b1 = dcb_writeq b ++ [buf_data q]
    /\ reply_command b1 = reply_command b
    /\ established b1 = false
    /\ gw_read_and_write SHA1 [reply] b1 = Some (Returned 1, b2)
    /\ dcb_writeq b2 = dcb_writeq b1
    /\ established b2 = true.
Proof.
  intros Ha Hi Hs Hcu Hig Hw Hcmd Hnc Hq Hok.
  assert (Hquit : (cmd =? MXS_COM_QUIT) && persistent_conns_enabled b = false).
  { destruct Hq as [Hq|Hq].
    - rewrite (proj2 (Z.eqb_neq _ _) Hq). reflexivity.
    - rewrite Hq. apply andb_false_r. }
  assert (Hwrite : write SHA1 q b
                   = Some (1, set_writeq (dcb_writeq b ++ [buf_data q])
                                (set_ignore_replies 1 b))).
  { unfold write. rewrite Hi. change (0 <? 0) with false. cbv iota.
    rewrite Ha, Hcmd. cbn [mbind option_bind].
    unfold prepare_for_write. rewrite Hig. cbn [negb mbind option_bind].
    rewrite (proj2 (Z.eqb_neq _ _) Hnc), Hquit, Hi.
    unfold writeq_append. cbn [dcb_write_ok set_ignore_replies].
    rewrite Hw. reflexivity. }
  do 2 eexists. split; [exact Hwrite|].
  split; [reflexivity|]. split; [reflexivity|].
  split; [apply established_waiting; reflexivity|].
  unfold gw_read_and_write, read_changing_user.
  cbn [m_changing_user set_writeq set_ignore_replies]. rewrite Hcu.
  cbn [mbind option_bind m_ignore_replies set_writeq set_ignore_replies].
  change (0 <? 1) with true. cbv iota.
  unfold read_ignored_reply. cbn [list.last mbind option_bind].
  rewrite Hok. cbn [mbind option_bind]. rewrite Z.eqb_refl.
  cbn [m_stored_query set_writeq set_ignore_replies set_stored_query].
  rewrite Hs. cbn [mbind option_bind].
  split; [reflexivity|]. split; [reflexivity|].
  apply established_iff. cbn. rewrite Ha. repeat split.
Qed.

End Claims.

Lemma com_quit_kept_from_pool_witness :
  exists b',
    mysql_send_com_quit SHA1Ref.sha1 0 None pooled = Some (1, b')
    /\ dcb_writeq b' = []
  /\ backend_write_delayqueue SHA1Ref.sha1 [x01; x00; x00; x00; x01] pooled
     = Some (1, pooled).
Proof.
  destruct (com_quit_kept_from_pool SHA1Ref.sha1 0 pooled eq_refl)
    as (_ & H1 & _ & H2).
  destruct (H1 eq_refl eq_refl eq_refl eq_refl eq_refl)
    as (b' & Hrun & Hw & _).
  exists b'. split; [exact Hrun|]. split; [exact Hw|exact H2].
Defined.

Lemma delayed_change_user_witness :
  exists packet,
    backend_write_delayqueue SHA1Ref.sha1 (buf_data change_user0) pooled
    = Some (1, set_writeq [packet] pooled)
    /\ change_user_password 3 packet
       = [xb3; x2b; xb3; xa5; x83; xe1; x34; x0c; x0a; x11;
          x08; xd5; x8b; x1b; xe4; x97; x81; xad; x8c; x2f].
Proof.
  destruct (delayed_change_user SHA1Ref.sha1 sha1_length
              (buf_data change_user0) pooled eq_refl eq_refl eq_refl eq_refl)
    as (packet & _ & Hrun & Hpw).
  exists packet. split; [exact Hrun|].
  etransitivity; [exact Hpw|]. vm_compute. reflexivity.
Defined.

Lemma ignorable_reply_consumed_witness :
  exists b1 b2,
    write SHA1Ref.sha1 ping0 pooled = Some (1, b1)
    /\ established b1 = false
    /\ gw_read_and_write SHA1Ref.sha1 [ok_reply0] b1 = Some (Returned 1, b2)
    /\ established b2 = true.
Proof.
  assert (H1 : reply_command pooled <> MXS_COM_CHANGE_USER) by discriminate.
  assert (H2 : 0x0e <> MXS_COM_QUIT \/ persistent_conns_enabled pooled = false)
    by (left; discriminate).
  destruct (ignorable_reply_consumed SHA1Ref.sha1 ping0 ok_reply0 pooled 0x0e
              eq_refl eq_refl eq_refl eq_refl eq_refl eq_refl eq_refl H1 H2
              eq_refl)
    as (b1 & b2 & Hw & _ & _ & He1 & Hr & _ & He2).
  exists b1, b2. repeat split; assumption.
Defined.

End Quit.


Module Handshake.
Import Wire Proto WireFacts Format Auth AuthFacts ReuseSample AuthSample.

Lemma le_value_app (a b : list byte) :
  le_value (a ++ b) = le_value a + 256 ^ Z.of_nat (length a) * le_value b.
Proof.
  induction a as [|x a IH]; cbn [app le_value length].
  - change (256 ^ Z.of_nat 0) with 1. lia.
  - rewrite IH, Nat2Z.inj_succ, Z.pow_succ_r by lia. lia.
Qed.

(** X18: what [gw_decode_mysql_server_handshake] takes from a greeting.
    A greeting of another protocol version than 10 is refused with -1 and
    the connection is left as it was.  A version 10 greeting that declares
    a scramble of more than 8 and at most 20 bytes is accepted with 0: the
    thread id is the little-endian value of its four bytes, the server
    capabilities are the lower and the upper two bytes put together, and
    the scramble is the 8 bytes of the first part, the declared number of
    bytes of the second part, and zero bytes up to 20. *)
Theorem handshake_fields (g : ServerGreeting) (conn : Greeting) :
  greeting_wf g ->
  (byte_val (sg_protocol g) <> GW_MYSQL_PROTOCOL_VERSION ->
   gw_decode_mysql_server_handshake (greeting_bytes g) conn
   = Some (-1, conn))
  /\ (byte_val (sg_protocol g) = GW_MYSQL_PROTOCOL_VERSION ->
      8 < declared_scramble_len g <= 20 ->
      let n2 := Z.to_nat (declared_scramble_len g - 8) in
      exists conn',
        gw_decode_mysql_server_handshake (greeting_bytes g) conn
        = Some (0, conn')
        /\ m_thread_id conn' = le_value (sg_thread_id g)
        /\ server_capabilities conn'
           = le_value (sg_capabilities_lo g ++ sg_capabilities_hi g)
        /\ m_scramble conn'
           = sg_scramble_1 g ++ take n2 (sg_rest g)
             ++ replicate (12 - n2) x00
        /\ length (m_scramble conn') = 20%nat).
Proof.
  intros Hwf. pose proof (gw_decode_greeting g conn Hwf) as Hdec.
  destruct Hwf as (_ & _ & Hs1 & Hlo & _ & Hhi & _ & Hrest).
  split.
  - intros Hp. rewrite Hdec, (proj2 (Z.eqb_neq _ _) Hp). reflexivity.
  - intros Hp HL n2. rewrite Hdec, Hp, Z.eqb_refl. cbn [negb].
    cbv zeta.
    rewrite (proj2 (Z.ltb_ge _ _)) by lia.
    rewrite (proj2 (Z.ltb_ge _ _)) by lia. cbn [orb].
    eexists. split; [reflexivity|]. cbn [m_thread_id server_capabilities m_scramble].
    split; [reflexivity|]. split; [|split; [reflexivity|]].
    + rewrite le_value_app, Hlo.
      pose proof (le_value_range (sg_capabilities_lo g)) as Rlo.
      pose proof (le_value_range (sg_capabilities_hi g)) as Rhi.
      rewrite Hlo in Rlo. rewrite Hhi in Rhi.
      change (256 ^ Z.of_nat 2) with (2 ^ 16) in *.
      rewrite lor_shiftl_add by lia.
      rewrite Z.mod_small by lia. lia.
    + rewrite !length_app, length_take, length_replicate, Hs1.
      unfold GW_MYSQL_SCRAMBLE_SIZE, GW_SCRAMBLE_LENGTH_323 in Hrest.
      fold n2. lia.
Qed.

Lemma greeting_wf_sample (g : ServerGreeting) :
  forallb (fun b => negb (byte_val b =? 0)) (sg_server_version g) = true ->
  length (sg_thread_id g) = 4%nat -> length (sg_scramble_1 g) = 8%nat ->
  length (sg_capabilities_lo g) = 2%nat -> length (sg_status g) = 2%nat ->
  length (sg_capabilities_hi g) = 2%nat -> length (sg_reserved g) = 10%nat ->
  (12 <= length (sg_rest g))%nat ->
  greeting_wf g.
Proof.
  intros Hv H1 H2 H3 H4 H5 H6 H7. repeat split; try assumption.
  - apply Forall_forall. intros c Hc.
    rewrite forallb_forall in Hv. specialize (Hv c Hc).
    apply negb_true_iff, Z.eqb_neq in Hv. exact Hv.
  - unfold GW_MYSQL_SCRAMBLE_SIZE, GW_SCRAMBLE_LENGTH_323. lia.
Qed.

Lemma handshake_fields_witness :
  gw_decode_mysql_server_handshake (greeting_bytes greeting_v9) conn0
  = Some (-1, conn0)
  /\ exists conn',
       gw_decode_mysql_server_handshake (greeting_bytes greeting21) conn0
       = Some (0, conn')
       /\ m_thread_id conn' = 7
       /\ server_capabilities conn' = 0x81fff7ff
       /\ m_scramble conn' = scramble0.
Proof.
  assert (H9 : greeting_wf greeting_v9)
    by (apply greeting_wf_sample; vm_compute; solve [reflexivity | lia]).
  assert (H21 : greeting_wf greeting21)
    by (apply greeting_wf_sample; vm_compute; solve [reflexivity | lia]).
  assert (Hv : byte_val (sg_protocol greeting_v9) <> GW_MYSQL_PROTOCOL_VERSION)
    by discriminate.
  assert (HL : 8 < declared_scramble_len greeting21 <= 20)
    by (vm_compute; split; [reflexivity | discriminate]).
  split.
  - exact (proj1 (handshake_fields greeting_v9 conn0 H9) Hv).
  - destruct (proj2 (handshake_fields greeting21 conn0 H21) eq_refl HL)
      as (conn' & Hrun & Ht & Hc & Hs & _).
    exists conn'. split; [exact Hrun|].
    split; [exact Ht|]. split; [exact Hc|]. exact Hs.
Defined.

End Handshake.

Module Passwords.
Import Wire Proto WireFacts Format Auth AuthFacts ReuseSample AuthSample.
Section Claims.
Variable SHA1 : list byte -> list byte.
Hypothesis SHA1_length : forall m, length (SHA1 m) = 20%nat.

Lemma xor_byte_cancel (a b : byte) : xor_byte (xor_byte a b) b = a.
Proof.
  unfold xor_byte. rewrite byte_val_of_Z.
  pose proof (byte_val_range a) as Ha. pose proof (byte_val_range b) as Hb.
  assert (Hx : 0 <= Z.lxor (byte_val a) (byte_val b) < 256).
  { split; [apply Z.lxor_nonneg; lia|].
    change 256 with (2 ^ 8).
    destruct (Z.eq_dec (Z.lxor (byte_val a) (byte_val b)) 0) as [->|Hn];
      [lia|].
    apply Z.log2_lt_pow2; [pose proof (Z.lxor_nonneg (byte_val a) (byte_val b)); lia|].
    eapply Z.le_lt_trans; [apply Z.log2_lxor; lia|].
    apply Z.max_lub_lt.
    - destruct (Z.eq_dec (byte_val a) 0) as [->|?]; [reflexivity|].
      apply Z.log2_lt_pow2; lia.
    - destruct (Z.eq_dec (byte_val b) 0) as [->|?]; [reflexivity|].
      apply Z.log2_lt_pow2; lia. }
  rewrite Z.mod_small by exact Hx.
  rewrite Z.lxor_assoc, Z.lxor_nilpotent, Z.lxor_0_r.
  apply byte_of_Z_val.
Qed.

Lemma xor_bytes_cancel (a b : list byte) :
  length a = length b -> xor_bytes (xor_bytes a b) b = a.
Proof.
  unfold xor_bytes. revert b.
  induction a as [|x a IH]; intros [|y b] H; try discriminate;
    cbn [zip_with]; [reflexivity|].
  rewrite xor_byte_cancel, IH by (cbn [length] in H; lia). reflexivity.
Qed.

Lemma xor_bytes_zero (n : nat) (a : list byte) :
  length a = n -> xor_bytes a (replicate n x00) = a.
Proof.
  unfold xor_bytes. revert n.
  induction a as [|x a IH]; intros [|n] H; try discriminate;
    cbn [replicate zip_with]; [reflexivity|].
  rewrite (IH n) by (cbn [length] in H; lia). f_equal.
  unfold xor_byte. change (byte_val x00) with 0. rewrite Z.lxor_0_r.
  apply byte_of_Z_val.
Qed.

(** X19: the answer to an AuthSwitchRequest can be checked by the server.
    For a scramble of 20 bytes, [send_mysql_native_password_response]
    writes a packet with sequence number 2 and a payload of 20 bytes.  For
    a session with a 20-byte password hash H1 the payload X satisfies
    X XOR SHA1(scramble ++ SHA1(H1)) = H1, so that who knows the scramble
    and SHA1(H1) recovers H1; for a session without a password hash the
    payload is SHA1(scramble ++ SHA1(twenty zero bytes)), not an empty
    answer. *)
Theorem native_password_response_verifiable (mses : MYSQL_session)
    (Sc : list byte) :
  length Sc = 20%nat ->
  (length (auth_token_phase2 mses) = 20%nat ->
   exists X,
     mysql_native_password_response SHA1 mses Sc
     = Some ([x14; x00; x00; x02] ++ X)
     /\ length X = 20%nat
     /\ xor_bytes X (SHA1 (Sc ++ SHA1 (auth_token_phase2 mses)))
        = auth_token_phase2 mses)
  /\ (auth_token_phase2 mses = [] ->
      mysql_native_password_response SHA1 mses Sc
      = Some ([x14; x00; x00; x02]
                ++ SHA1 (Sc ++ SHA1 (replicate 20 x00)))).
Proof.
  intros HS. unfold mysql_native_password_response. split.
  - intros HH. destruct (auth_token_phase2 mses) as [|t token] eqn:Ht;
      [discriminate HH|].
    rewrite (mxs_mysql_calculate_hash_spec SHA1 SHA1_length Sc (t :: token))
      by assumption.
    cbn [mbind option_bind]. eexists. split; [reflexivity|].
    split; [apply (scramble_spec_length SHA1 SHA1_length); assumption|].
    unfold scramble_spec. apply xor_bytes_cancel.
    rewrite SHA1_length. exact HH.
  - intros ->.
    rewrite (mxs_mysql_calculate_hash_spec SHA1 SHA1_length Sc null_client_sha1)
      by (try assumption; reflexivity).
    cbn [mbind option_bind].
    transitivity (Some ([x14; x00; x00; x02]
                          ++ scramble_spec SHA1 Sc null_client_sha1));
      [reflexivity|].
    do 2 f_equal. unfold scramble_spec, null_client_sha1.
    change (Z.to_nat MYSQL_SCRAMBLE_LEN) with 20%nat.
    rewrite xor_bytes_comm. apply xor_bytes_zero. apply SHA1_length.
Qed.

Ltac cursor_lia :=
  rewrite ?length_app, ?length_replicate; cbn [length];
  rewrite ?length_app, ?length_replicate; cbn [length]; lia.

Ltac cursor k :=
  match goal with
  | |- context [memcpy_at ?off ?src (?pre ++ replicate ?n x00)] =>
      rewrite (memcpy_at_cursor_at pre src n k off) by cursor_lia;
      cbn [mbind option_bind]
  end.

(** X20: the COM_CHANGE_USER packet of a session without a password.
    When the cached password hash is not 20 bytes long,
    [gw_create_change_user_packet] leaves the password out: the packet has
    sequence number 0 and the payload
    [0x11 | user NUL | 0x00 | database NUL | charset 0x00 | plugin NUL |
     connect attributes], the zero byte after the user name being the
    length of the password, and the header announces exactly the length of
    this payload. *)
Theorem change_user_without_password (mses : MYSQL_session)
    (Sc : list byte) :
  length (auth_token_phase2 mses) <> 20%nat ->
  gw_create_change_user_packet SHA1 mses Sc
  = Some (frame x00
            (x11 :: c_str (user mses) ++ x00 :: x00 :: c_str (db mses)
               ++ x00 :: client_charset mses :: x00
               :: DEFAULT_MYSQL_AUTH_PLUGIN ++ x00 :: connect_attrs mses)).
Proof.
  intros Htok. unfold gw_create_change_user_packet.
  change (Z.to_nat GW_MYSQL_SCRAMBLE_SIZE) with 20%nat.
  rewrite (proj2 (Nat.eqb_neq _ _) Htok). cbv iota.
  set (U := c_str (user mses)). set (D := c_str (db mses)).
  set (A := connect_attrs mses). set (P := DEFAULT_MYSQL_AUTH_PLUGIN).
  set (N := (1 + (length U + 1) + 1 + length D + 1 + 2 + (length P + 1)
             + length A)%nat).
  assert (Hbytes :
    (S match (if (0 <? length D)%nat then Some D else None) with
       | Some d => S (1 + (length U + 1)) + length d
       | None => S (1 + (length U + 1))
       end + 2 + (length P + 1) + length A + 4)%nat = (4 + N)%nat).
  { unfold N. destruct (Nat.ltb_spec 0 (length D)); lia. }
  rewrite Hbytes.
  rewrite memcpy_at_zero by lia. cbn [mbind option_bind].
  rewrite (replicate_add 4 N).
  cursor 0%nat. cursor 0%nat.
  assert (Hlen3 : length (le_bytes 3 (Z.of_nat (4 + N) - MYSQL_HEADER_LEN)) = 3%nat)
    by apply length_le_bytes.
  assert (Hdb : forall (off : nat) (buf : list byte), (off <= length buf)%nat ->
    match (if (0 <? length D)%nat then Some D else None) with
    | Some d => memcpy_at off d buf ≫= λ buffer, Some (buffer, (off + length d)%nat)
    | None => Some (buf, off)
    end = memcpy_at off D buf ≫= λ buffer, Some (buffer, (off + length D)%nat)).
  { intros off buf Hoff. destruct D as [|d0 D0]; cbn [length Nat.ltb Nat.leb].
    - rewrite memcpy_at_nil by exact Hoff. cbn [mbind option_bind].
      rewrite Nat.add_0_r. reflexivity.
    - reflexivity. }
  rewrite Hdb by cursor_lia. clear Hdb.
  cursor 2%nat. cursor 1%nat. cursor 0%nat. cursor 0%nat.
  rewrite memcpy_at_optional by cursor_lia.
  cursor 1%nat.
  match goal with
  | |- context [replicate ?n x00] =>
      lazymatch n with
      | context [N] => replace n with 0%nat by (cbn [length]; unfold N; lia)
      end
  end.
  rewrite memcpy_at_front by (rewrite Hlen3; cbn [replicate app length]; lia).
  rewrite Hlen3. cbn [replicate app drop]. rewrite <- !app_assoc.
  cbn [app]. rewrite app_nil_r.
  unfold frame.
  f_equal. f_equal. f_equal.
  repeat (first [rewrite length_app | progress (cbn [length])]).
  unfold N, MYSQL_HEADER_LEN. lia.
Qed.

End Claims.

Lemma native_password_response_verifiable_witness :
  (exists X,
     mysql_native_password_response SHA1Ref.sha1 session0 scramble0
     = Some ([x14; x00; x00; x02] ++ X)
     /\ xor_bytes X
          (SHA1Ref.sha1 (scramble0 ++ SHA1Ref.sha1 H1_secret))
        = H1_secret)
  /\ mysql_native_password_response SHA1Ref.sha1 session_nopw scramble0
     = Some ([x14; x00; x00; x02]
               ++ SHA1Ref.sha1
                    (scramble0 ++ SHA1Ref.sha1 (replicate 20 x00))).
Proof.
  split.
  - destruct (proj1 (native_password_response_verifiable SHA1Ref.sha1
                       sha1_length session0 scramble0 eq_refl) eq_refl)
      as (X & Hrun & _ & Hback).
    exists X. split; [exact Hrun|exact Hback].
  - exact (proj2 (native_password_response_verifiable SHA1Ref.sha1
                    sha1_length session_nopw scramble0 eq_refl) eq_refl).
Defined.

Lemma change_user_without_password_witness :
  gw_create_change_user_packet SHA1Ref.sha1 session_nopw scramble0
  = Some [x23; x00; x00; x00; x11; x62; x6f; x62; x00; x00;
          x74; x65; x73; x74; x00; x21; x00;
          x6d; x79; x73; x71; x6c; x5f; x6e; x61; x74; x69; x76; x65; x5f;
          x70; x61; x73; x73; x77; x6f; x72; x64; x00].
Proof.
  assert (Hno : length (auth_token_phase2 session_nopw) <> 20%nat)
    by discriminate.
  etransitivity;
    [exact (change_user_without_password SHA1Ref.sha1 session_nopw
              scramble0 Hno)|].
  vm_compute. reflexivity.
Defined.

End Passwords.

(** ** Commands whose replies are not result sets *)

Module SpecialCommands.
Import Wire Proto WireFacts Format Machine Replies Stability Loop Packets
  OkPackets Sample Results ResultFacts ResultSets.
Section Claims.
Context {Vars : Type} (set_variable : list byte -> list byte -> Vars -> Vars).
Abbreviation Conn := (@Conn Vars).

Lemma binlog_dump_each (stream : list (byte * list byte)) (c : Conn) :
  command (m_reply c) = MXS_COM_BINLOG_DUMP ->
  reply_state c = START ->
  Forall (fun p => p.2 <> []) stream ->
  process_each set_variable stream c = Some c.
Proof.
  intros Hcmd Hst Hall. induction Hall as [|p stream Hp _ IH];
    cbn [process_each]; [reflexivity|].
  destruct (p.2) as [|b rest] eqn:Ep; [congruence|].
  unfold process_one_packet. cbn [deref mbind option_bind]. rewrite Hst.
  unfold process_reply_start. rewrite Hcmd, Z.eqb_refl.
  cbn [mbind option_bind]. exact IH.
Qed.

(** X21: replies that are never interpreted.  For COM_BINLOG_DUMP the
    reply never ends: in state [START], whatever packets arrive (OK, ERR
    and EOF packets among them), [process_packets] consumes them all and
    leaves the connection exactly as it was, still in [START].  For
    COM_STATISTICS the first packet, whatever it holds, ends the reply:
    the state becomes [DONE] and nothing else changes (an ERR packet is
    not recorded as an error). *)
Theorem uninterpreted_replies (stream : list (byte * list byte))
    (seq : byte) (p : list byte) (c : Conn) :
  reply_state c = START -> m_skip_next c = false ->
  Forall (fun p => p.2 <> []
                   /\ Z.of_nat (length p.2) < GW_MYSQL_MAX_PACKET_LEN) stream ->
  p <> [] -> Z.of_nat (length p) < GW_MYSQL_MAX_PACKET_LEN ->
  (command (m_reply c) = MXS_COM_BINLOG_DUMP ->
   process_packets set_variable (concat (frames stream)) c
   = Some (c, concat (frames stream), []))
  /\ (command (m_reply c) = MXS_COM_STATISTICS ->
      process_packets set_variable (frame seq p) c
      = Some (set_reply_state DONE c, frame seq p, [])).
Proof.
  intros Hst Hskip Hall Hp Hlen. split; intros Hcmd.
  - apply (feed_chunks_whole set_variable (frames stream) [] c).
    + apply feed_chunks_frames; [exact Hskip| |].
      * eapply Forall_impl; [|exact Hall]. intros q [_ Hq]. exact Hq.
      * apply binlog_dump_each; [exact Hcmd|exact Hst|].
        eapply Forall_impl; [|exact Hall]. intros q [Hq _]. exact Hq.
    + left. cbn. lia.
  - assert (Hrun : process_each set_variable [(seq, p)] c
                   = Some (set_reply_state DONE c)).
    { cbn [process_each snd]. destruct p as [|b rest]; [congruence|].
      unfold process_one_packet. cbn [deref mbind option_bind]. rewrite Hst.
      unfold process_reply_start. rewrite Hcmd.
      change (MXS_COM_STATISTICS =? MXS_COM_BINLOG_DUMP) with false.
      rewrite Z.eqb_refl. reflexivity. }
    assert (Hsize : Forall (fun q : byte * list byte =>
                      Z.of_nat (length q.2) < GW_MYSQL_MAX_PACKET_LEN)
                      [(seq, p)])
      by (apply Forall_cons_2; [exact Hlen|apply Forall_nil_2]).
    assert (Hinc : incomplete []) by (left; cbn; lia).
    pose proof (feed_chunks_whole set_variable (frames [(seq, p)]) [] c _ _ _
                  (feed_chunks_frames set_variable [(seq, p)] c _ Hskip
                     Hsize Hrun) Hinc) as H.
    cbn [frames map concat fst snd app] in H. rewrite app_nil_r in H.
    exact H.
Qed.

(** X22: the reply to COM_FIELD_LIST.  Its first packet is not looked at:
    whatever it holds (a field definition, but also an ERR or an EOF
    packet) the machine goes to [RSET_ROWS] without counting a row or
    recording an error.  The packets after it are counted as rows up to
    the EOF packet, which ends the reply ([START] when it announces more
    results) and sets the warning count. *)
Theorem field_list_reply (first : byte * list byte)
    (fields : list (byte * list byte)) (seq : byte) (warnings status : Z)
    (c : Conn) :
  command (m_reply c) = MXS_COM_FIELD_LIST ->
  reply_state c = START -> m_skip_next c = false ->
  first.2 <> [] ->
  Forall (fun p => is_row p.2 = true) fields ->
  0 <= warnings < 2 ^ 16 -> 0 <= status < 2 ^ 16 ->
  let stream := first :: fields ++ [(seq, eof_payload warnings status)] in
  Forall (fun p => Z.of_nat (length p.2) < GW_MYSQL_MAX_PACKET_LEN) stream ->
  exists c',
    process_packets set_variable (concat (frames stream)) c
    = Some (c', concat (frames stream), [])
    /\ reply_state c'
       = (if has_flag status SERVER_MORE_RESULTS_EXIST then START else DONE)
    /\ rows (m_reply c') = rows (m_reply c) + Z.of_nat (length fields)
    /\ num_warnings (m_reply c') = warnings
    /\ error (m_reply c') = error (m_reply c)
    /\ is_ok (m_reply c') = is_ok (m_reply c)
    /\ field_counts (m_reply c') = field_counts (m_reply c).
Proof.
  intros Hcmd Hst Hskip Hfirst Hrows Hw Hs stream Hsizes.
  assert (H1 : process_one_packet set_variable first.2 []
                 (Z.of_nat (length first.2)) c
               = Some (set_reply_state RSET_ROWS c)).
  { destruct (first.2) as [|b rest]; [congruence|].
    unfold process_one_packet. cbn [deref mbind option_bind]. rewrite Hst.
    unfold process_reply_start. rewrite Hcmd.
    change (MXS_COM_FIELD_LIST =? MXS_COM_BINLOG_DUMP) with false.
    change (MXS_COM_FIELD_LIST =? MXS_COM_STATISTICS) with false.
    rewrite Z.eqb_refl. reflexivity. }
  destruct (rows_counted set_variable fields (set_reply_state RSET_ROWS c)
              eq_refl Hrows)
    as (c2 & Hrun2 & Hr2 & Hs2 & _ & _ & Hsteady).
  destruct Hsteady as (_ & Hf2 & _ & He2 & Hok2 & _).
  cbn in Hr2, Hf2, He2, Hok2.
  assert (Hrun : process_each set_variable stream c
                 = Some (set_num_warnings warnings
                           (set_reply_state
                              (if has_flag status SERVER_MORE_RESULTS_EXIST
                               then START else DONE) c2))).
  { unfold stream. cbn [process_each]. rewrite H1. cbn [mbind option_bind].
    rewrite process_each_app, Hrun2. cbn [mbind option_bind process_each snd].
    change (Z.of_nat (length (eof_payload warnings status))) with 5.
    rewrite (process_eof_packet set_variable) by assumption. reflexivity. }
  eexists. split.
  - apply (feed_chunks_whole set_variable (frames stream) [] c).
    + apply feed_chunks_frames; [exact Hskip|exact Hsizes|exact Hrun].
    + left. cbn. lia.
  - cbn. rewrite Hr2, Hf2, He2, Hok2.
    split; [destruct (has_flag _ _); reflexivity|]. repeat split.
Qed.

End Claims.

(** A binlog stream of an OK, an event and an ERR packet; the string that
    answers COM_STATISTICS. *)
Lemma uninterpreted_replies_witness :
  let stream :=
    [(x01, ok_bytes (mkOk 0 0 2 0 [])); (x02, [x00; x01; x02; x03]);
     (x03, err_payload 1236 x23 [x48; x59; x30; x30; x30] [x78])] in
  process_packets log_variable (concat (frames stream))
    (conn_of MXS_COM_BINLOG_DUMP START false)
  = Some (conn_of MXS_COM_BINLOG_DUMP START false, concat (frames stream), [])
  /\ process_packets log_variable (frame x01 [x55])
       (conn_of MXS_COM_STATISTICS START false)
     = Some (conn_of MXS_COM_STATISTICS DONE false, frame x01 [x55], []).
Proof.
  intros stream.
  assert (Hall : Forall (fun p : byte * list byte =>
                   p.2 <> []
                   /\ Z.of_nat (length p.2) < GW_MYSQL_MAX_PACKET_LEN) stream).
  { repeat (apply Forall_cons_2; [split; [discriminate|reflexivity]|]).
    apply Forall_nil_2. }
  assert (Hp : [x55] <> @nil byte) by discriminate.
  split.
  - exact (proj1 (uninterpreted_replies log_variable stream x01 [x55]
                    (conn_of MXS_COM_BINLOG_DUMP START false)
                    eq_refl eq_refl Hall Hp eq_refl) eq_refl).
  - exact (proj2 (uninterpreted_replies log_variable stream x01 [x55]
                    (conn_of MXS_COM_STATISTICS START false)
                    eq_refl eq_refl Hall Hp eq_refl) eq_refl).
Defined.

(** A field list of three packets and one whose first packet is an ERR
    packet. *)
Lemma field_list_reply_witness :
  let stream :=
    [(x01, [x03; x64; x65; x66]); (x02, [x03; x64; x65; x67]);
     (x03, [x03; x64; x65; x68]); (x04, eof_payload 0 2)] in
  exists c',
    process_packets log_variable (concat (frames stream))
      (conn_of MXS_COM_FIELD_LIST START false)
    = Some (c', concat (frames stream), [])
    /\ reply_state c' = DONE
    /\ rows (m_reply c') = 2.
Proof.
  intros stream.
  assert (Hfirst : (x01, [x03; x64; x65; x66]).2 <> @nil byte) by discriminate.
  assert (Hrows : Forall (fun p : byte * list byte => is_row p.2 = true)
                    [(x02, [x03; x64; x65; x67]); (x03, [x03; x64; x65; x68])]).
  { repeat (apply Forall_cons_2; [reflexivity|]). apply Forall_nil_2. }
  assert (Hsizes : Forall (fun p : byte * list byte =>
                     Z.of_nat (length p.2) < GW_MYSQL_MAX_PACKET_LEN) stream).
  { repeat (apply Forall_cons_2; [reflexivity|]). apply Forall_nil_2. }
  assert (Hw : 0 <= 0 < 2 ^ 16) by lia.
  assert (Hs : 0 <= 2 < 2 ^ 16) by lia.
  destruct (field_list_reply log_variable (x01, [x03; x64; x65; x66])
              [(x02, [x03; x64; x65; x67]); (x03, [x03; x64; x65; x68])]
              x04 0 2 (conn_of MXS_COM_FIELD_LIST START false)
              eq_refl eq_refl eq_refl Hfirst Hrows Hw Hs Hsizes)
    as (c' & Hrun & Hst & Hr & _).
  exists c'. split; [exact Hrun|]. split; [exact Hst|exact Hr].
Defined.

End SpecialCommands.

(** ** Tracked commands and their replies *)

Module TrackingFacts.
Import Wire Proto WireFacts Format Machine Replies Stability Loop Packets
  OkPackets Results ResultFacts Commands Tracking.
Section Track.
Context {Vars : Type} (set_variable : list byte -> list byte -> Vars -> Vars).
Variable clear : @Reply Vars -> @Reply Vars.
Abbreviation Conn := (@Conn Vars).
Abbreviation Tracked := (@Tracked Vars).

Lemma track_query_new (data : list byte) (t : Tracked) (len cmd : Z) :
  m_changing_user (conn t) = false -> load_active (conn t) = false ->
  m_large_query t = false ->
  Reuse.MYSQL_GET_PAYLOAD_LEN data = Some len ->
  Reuse.MYSQL_GET_COMMAND data = Some cmd ->
  cmd <> MXS_COM_STMT_EXECUTE ->
  track_query clear data t
  = Some (mkTracked (tracked_command clear cmd (conn t))
            (len =? MYSQL_PACKET_LENGTH_MAX)).
Proof.
  intros Hcu Hload Hlarge Hlen Hcmd Hne. unfold track_query.
  rewrite Hcu, Hlen. cbn [mbind option_bind]. rewrite Hload, Hlarge.
  cbn [negb]. rewrite Hcmd. cbn [mbind option_bind].
  rewrite (proj2 (Z.eqb_neq _ _) Hne). unfold tracked_command.
  destruct (cmd =? MXS_COM_STMT_FETCH); reflexivity.
Qed.

Lemma track_query_execute (data : list byte) (t : Tracked) (len flags : Z) :
  m_changing_user (conn t) = false -> load_active (conn t) = false ->
  m_large_query t = false ->
  Reuse.MYSQL_GET_PAYLOAD_LEN data = Some len ->
  Reuse.MYSQL_GET_COMMAND data = Some MXS_COM_STMT_EXECUTE ->
  Reuse.byte_at 9 data = Some flags ->
  track_query clear data t
  = Some (mkTracked
            (set_opening_cursor (negb (flags =? 0))
               (set_reply_state START
                  (with_reply (fun r => set_command MXS_COM_STMT_EXECUTE
                                          (clear r)) (conn t))))
            (len =? MYSQL_PACKET_LENGTH_MAX)).
Proof.
  intros Hcu Hload Hlarge Hlen Hcmd Hflags. unfold track_query.
  rewrite Hcu, Hlen. cbn [mbind option_bind]. rewrite Hload, Hlarge.
  cbn [negb]. rewrite Hcmd. cbn [mbind option_bind].
  change (MXS_COM_STMT_EXECUTE =? MXS_COM_STMT_EXECUTE) with true.
  change (Z.to_nat (MYSQL_PS_ID_OFFSET + MYSQL_PS_ID_SIZE)) with 9%nat.
  rewrite Hflags. reflexivity.
Qed.

Lemma track_query_load (data : list byte) (t : Tracked) (len : Z) :
  m_changing_user (conn t) = false -> load_active (conn t) = true ->
  Reuse.MYSQL_GET_PAYLOAD_LEN data = Some len ->
  track_query clear data t
  = Some (mkTracked
            (if len =? 0
             then set_reply_state START
                    (session_set_load_active false (conn t))
             else conn t)
            (len =? MYSQL_PACKET_LENGTH_MAX)).
Proof.
  intros Hcu Hload Hlen. unfold track_query.
  rewrite Hcu, Hlen. cbn [mbind option_bind]. rewrite Hload. reflexivity.
Qed.

Lemma track_query_continued (data : list byte) (t : Tracked) (len : Z) :
  m_changing_user (conn t) = false -> load_active (conn t) = false ->
  m_large_query t = true ->
  Reuse.MYSQL_GET_PAYLOAD_LEN data = Some len ->
  track_query clear data t
  = Some (mkTracked (conn t) (len =? MYSQL_PACKET_LENGTH_MAX)).
Proof.
  intros Hcu Hload Hlarge Hlen. unfold track_query.
  rewrite Hcu, Hlen. cbn [mbind option_bind]. rewrite Hload, Hlarge.
  reflexivity.
Qed.

Lemma track_all_app (a b : list (list byte)) : forall t : Tracked,
  track_all clear (a ++ b) t = track_all clear a t ≫= track_all clear b.
Proof.
  induction a as [|d a IH]; intros t; cbn [app track_all mbind option_bind];
    [reflexivity|].
  destruct (track_query clear d t) as [t'|]; cbn [mbind option_bind];
    [apply IH|reflexivity].
Qed.

Lemma track_all_load (chunks : list (list byte)) : forall (c : Conn) (l : bool),
  m_changing_user c = false -> load_active c = true ->
  Forall (fun d => carries_data d = true) chunks ->
  exists l', track_all clear chunks (mkTracked c l) = Some (mkTracked c l').
Proof.
  induction chunks as [|d chunks IH]; intros c l Hcu Hload Hall.
  - exists l. reflexivity.
  - inversion Hall as [|? ? Hd Hall']; subst. unfold carries_data in Hd.
    destruct (Reuse.MYSQL_GET_PAYLOAD_LEN d) as [len|] eqn:Hlen;
      [|discriminate].
    apply negb_true_iff in Hd. cbn [track_all].
    rewrite (track_query_load d (mkTracked c l) len Hcu Hload Hlen).
    cbn [mbind option_bind conn]. rewrite Hd. apply IH; assumption.
Qed.

Lemma track_all_continued (middles : list (list byte)) : forall c : Conn,
  m_changing_user c = false -> load_active c = false ->
  Forall (fun d => Reuse.MYSQL_GET_PAYLOAD_LEN d
                   = Some MYSQL_PACKET_LENGTH_MAX) middles ->
  track_all clear middles (mkTracked c true) = Some (mkTracked c true).
Proof.
  induction middles as [|d middles IH]; intros c Hcu Hload Hall;
    [reflexivity|].
  inversion Hall as [|? ? Hd Hall']; subst. cbn [track_all].
  rewrite (track_query_continued d (mkTracked c true) _ Hcu Hload eq_refl Hd).
  cbn [mbind option_bind conn]. rewrite Z.eqb_refl. apply IH; assumption.
Qed.

End Track.
End TrackingFacts.

(** ** Commands and their replies, end to end *)

Module TrackedReplies.
Import Wire Proto WireFacts Format Machine Replies Stability Loop Packets
  OkPackets Sample Results ResultFacts ResultSets Commands Tracking
  TrackingFacts TrackingSample.
Section Claims.
Context {Vars : Type} (set_variable : list byte -> list byte -> Vars -> Vars).
Variable clear : @Reply Vars -> @Reply Vars.
Abbreviation Conn := (@Conn Vars).
Abbreviation Tracked := (@Tracked Vars).

(** X23: LOAD DATA LOCAL INFILE, end to end.  A COM_QUERY is tracked and
    the reply awaited ([START]); the server's 0xFB packet makes the load
    active and ends that reply ([DONE]); the packets of file data the
    client sends next, whatever their fifth byte, leave the reply and the
    tracked command exactly as they are; the empty packet that ends the
    data makes the load inactive and a reply awaited again ([START]); and
    the OK packet that answers it ends in [DONE] with the command still
    COM_QUERY. *)
Theorem load_data_exchange (query name final : list byte) (seq seq' : byte)
    (chunks : list (list byte)) (o : OkPacket) (t : Tracked) (len : Z) :
  m_changing_user (conn t) = false -> load_active (conn t) = false ->
  m_large_query t = false -> m_skip_next (conn t) = false ->
  Reuse.MYSQL_GET_PAYLOAD_LEN query = Some len ->
  Reuse.MYSQL_GET_COMMAND query = Some MXS_COM_QUERY ->
  Z.of_nat (length (xfb :: name)) < GW_MYSQL_MAX_PACKET_LEN ->
  Forall (fun d => carries_data d = true) chunks ->
  Reuse.MYSQL_GET_PAYLOAD_LEN final = Some 0 ->
  ok_wf o -> extraction_wanted (ok_status o) (conn t) = false ->
  has_flag (ok_status o) SERVER_MORE_RESULTS_EXIST = false ->
  exists (t1 : Tracked) (c2 : Conn) (t3 t4 : Tracked) (c5 : Conn),
    track_query clear query t = Some t1
    /\ reply_state (conn t1) = START
    /\ process_packets set_variable (frame seq (xfb :: name)) (conn t1)
       = Some (c2, frame seq (xfb :: name), [])
    /\ load_active c2 = true /\ reply_state c2 = DONE
    /\ track_all clear chunks (mkTracked c2 (m_large_query t1)) = Some t3
    /\ conn t3 = c2
    /\ track_query clear final t3 = Some t4
    /\ load_active (conn t4) = false /\ reply_state (conn t4) = START
    /\ process_packets set_variable (frame seq' (ok_bytes o)) (conn t4)
       = Some (c5, frame seq' (ok_bytes o), [])
    /\ reply_state c5 = DONE /\ is_ok (m_reply c5) = true
    /\ command (m_reply c5) = MXS_COM_QUERY.
Proof.
  intros Hcu Hload Hlarge Hskip Hlen Hcmd Hname Hchunks Hfinal Hwf Hext Hmore.
  assert (Hq : MXS_COM_QUERY <> MXS_COM_STMT_EXECUTE) by discriminate.
  pose proof (track_query_new clear query t len MXS_COM_QUERY
                Hcu Hload Hlarge Hlen Hcmd Hq) as H1.
  set (c1 := tracked_command clear MXS_COM_QUERY (conn t)) in *.
  assert (Hplain : plain_command MXS_COM_QUERY)
    by (repeat split; discriminate).
  set (c2 := set_reply_state DONE (session_set_load_active true c1)).
  assert (H2 : process_one_packet set_variable (xfb :: name) []
                 (Z.of_nat (length (xfb :: name))) c1 = Some c2).
  { unfold process_one_packet. cbn [deref mbind option_bind].
    change (reply_state c1) with START. cbv iota.
    unfold process_reply_start.
    change (command (m_reply c1)) with MXS_COM_QUERY.
    change (MXS_COM_QUERY =? MXS_COM_BINLOG_DUMP) with false.
    change (MXS_COM_QUERY =? MXS_COM_STATISTICS) with false.
    change (MXS_COM_QUERY =? MXS_COM_FIELD_LIST) with false. cbv iota.
    unfold process_result_start. cbn [deref mbind option_bind].
    reflexivity. }
  destruct (track_all_load clear chunks c2 (len =? MYSQL_PACKET_LENGTH_MAX))
    as (l3 & H3); [exact Hcu|reflexivity|exact Hchunks|].
  pose proof (track_query_load clear final (mkTracked c2 l3) 0
                Hcu eq_refl Hfinal) as H4.
  change (0 =? 0) with true in H4. cbv iota in H4. cbn [conn] in H4.
  set (c4 := set_reply_state START (session_set_load_active false c2)) in *.
  assert (H5 : process_one_packet set_variable (ok_bytes o) []
                 (Z.of_nat (length (ok_bytes o))) c4
               = Some (after_ok (ok_status o) (ok_warnings o)
                         (set_is_ok true c4))).
  { pose proof (process_one_packet_ok_plain set_variable c4 o []
                  (Z.of_nat (length (ok_bytes o)))) as H.
    rewrite app_nil_r in H. apply H.
    - reflexivity.
    - discriminate.
    - exact Hplain.
    - exact Hwf.
    - exact Hext. }
  exists (mkTracked c1 (len =? MYSQL_PACKET_LENGTH_MAX)), c2,
    (mkTracked c2 l3), (mkTracked c4 (0 =? MYSQL_PACKET_LENGTH_MAX)).
  eexists. cbn [conn m_large_query].
  split; [exact H1|]. split; [reflexivity|].
  split; [apply (process_packets_frame set_variable seq (xfb :: name) c1 c2
                   Hskip Hname H2)|].
  split; [reflexivity|]. split; [reflexivity|].
  split; [exact H3|]. split; [reflexivity|].
  split; [exact H4|]. split; [reflexivity|]. split; [reflexivity|].
  split; [apply (process_packets_frame set_variable seq' (ok_bytes o) c4 _
                   Hskip (proj2 (proj2 (proj2 (proj2 Hwf)))) H5)|].
  unfold after_ok. rewrite Hmore. repeat split.
Qed.

(** X24: what [track_query] does not take for a command.  While the user
    of the connection is being changed it does nothing at all, whatever
    the buffers hold.  Otherwise, after a packet whose payload is
    0xFFFFFF bytes long, the packets that continue it are not looked at
    for a command byte: after the first packet, any number of further
    packets of that length and a last shorter one, the reply and the
    tracked command are what the first packet left, and the next packet
    is taken for a command again. *)
Theorem continuations_not_tracked (buffers : list (list byte))
    (first last : list byte) (middles : list (list byte)) (t : Tracked)
    (cmd len : Z) :
  (m_changing_user (conn t) = true ->
   track_all clear buffers t = Some t)
  /\ (m_changing_user (conn t) = false -> load_active (conn t) = false ->
      m_large_query t = false ->
      Reuse.MYSQL_GET_PAYLOAD_LEN first = Some MYSQL_PACKET_LENGTH_MAX ->
      Reuse.MYSQL_GET_COMMAND first = Some cmd ->
      cmd <> MXS_COM_STMT_EXECUTE ->
      Forall (fun d => Reuse.MYSQL_GET_PAYLOAD_LEN d
                       = Some MYSQL_PACKET_LENGTH_MAX) middles ->
      Reuse.MYSQL_GET_PAYLOAD_LEN last = Some len ->
      len <> MYSQL_PACKET_LENGTH_MAX ->
      track_query clear first t
      = Some (mkTracked (tracked_command clear cmd (conn t)) true)
      /\ track_all clear (first :: middles ++ [last]) t
         = Some (mkTracked (tracked_command clear cmd (conn t)) false)).
Proof.
  split.
  - intros Hcu. induction buffers as [|d buffers IH]; [reflexivity|].
    cbn [track_all]. unfold track_query. rewrite Hcu.
    cbn [mbind option_bind]. exact IH.
  - intros Hcu Hload Hlarge Hfirst Hcmd Hne Hmid Hlast Hlen.
    pose proof (track_query_new clear first t _ cmd
                  Hcu Hload Hlarge Hfirst Hcmd Hne) as H1.
    rewrite Z.eqb_refl in H1. split; [exact H1|].
    set (c1 := tracked_command clear cmd (conn t)) in *.
    assert (Hcu1 : m_changing_user c1 = false).
    { unfold c1, tracked_command.
      destruct (mxs_mysql_command_will_respond cmd),
        (cmd =? MXS_COM_STMT_FETCH); exact Hcu. }
    assert (Hload1 : load_active c1 = false).
    { unfold c1, tracked_command.
      destruct (mxs_mysql_command_will_respond cmd),
        (cmd =? MXS_COM_STMT_FETCH); exact Hload. }
    cbn [track_all]. rewrite H1. cbn [mbind option_bind].
    rewrite track_all_app.
    rewrite (track_all_continued clear middles c1 Hcu1 Hload1 Hmid).
    cbn [mbind option_bind track_all].
    rewrite (track_query_continued clear last (mkTracked c1 true) len
               Hcu1 Hload1 eq_refl Hlast).
    cbn [mbind option_bind conn].
    rewrite (proj2 (Z.eqb_neq _ _) Hlen). reflexivity.
Qed.

(** X25: a COM_STMT_EXECUTE and the cursor it opens.  [track_query] of a
    COM_STMT_EXECUTE awaits a reply ([START]) and remembers whether the
    flag byte after the statement id is not zero.  When the server then
    sends the head of a result set of [n > 0] columns, the [n] column
    definitions and the EOF after them, the reply is complete ([DONE]) if
    the flag byte was not zero (a cursor was opened) and the rows are
    awaited ([RSET_ROWS]) if it was zero. *)
Theorem execute_and_cursor (data : list byte) (t : Tracked) (len flags : Z)
    (head eof1 : byte * list byte) (coldefs : list (byte * list byte))
    (after : Iter) (first n : Z) :
  m_changing_user (conn t) = false -> load_active (conn t) = false ->
  m_large_query t = false -> m_skip_next (conn t) = false ->
  Reuse.MYSQL_GET_PAYLOAD_LEN data = Some len ->
  Reuse.MYSQL_GET_COMMAND data = Some MXS_COM_STMT_EXECUTE ->
  Reuse.byte_at 9 data = Some flags ->
  deref head.2 = Some first -> starts_result first = true ->
  get_encoded_int head.2 = Some (n, after) ->
  Z.of_nat (length coldefs) = n -> (0 < length coldefs)%nat ->
  Forall (fun p => p.2 <> []) coldefs -> eof1.2 <> [] ->
  let stream := head :: coldefs ++ [eof1] in
  Forall (fun p => Z.of_nat (length p.2) < GW_MYSQL_MAX_PACKET_LEN) stream ->
  exists (t1 : Tracked) (c2 : Conn),
    track_query clear data t = Some t1
    /\ reply_state (conn t1) = START
    /\ m_opening_cursor (conn t1) = negb (flags =? 0)
    /\ process_packets set_variable (concat (frames stream)) (conn t1)
       = Some (c2, concat (frames stream), [])
    /\ reply_state c2 = (if flags =? 0 then RSET_ROWS else DONE)
    /\ m_opening_cursor c2 = false
    /\ command (m_reply c2) = MXS_COM_STMT_EXECUTE.
Proof.
  intros Hcu Hload Hlarge Hskip Hlen Hcmd Hflags Hfirst Hstart Hn Hcount
    Hpos Hne Heof stream Hsizes.
  pose proof (track_query_execute clear data t len flags
                Hcu Hload Hlarge Hlen Hcmd Hflags) as H1.
  match type of H1 with _ = Some (mkTracked ?c _) => set (c1 := c) in * end.
  assert (Hplain : plain_command (command (m_reply c1)))
    by (repeat split; discriminate).
  destruct (result_definitions set_variable c1 head eof1 coldefs after
              first n eq_refl Hplain Hfirst Hstart Hn Hcount Hpos Hne Heof)
    as (c2 & Hrun & Hs2 & Hc2 & _ & _ & _ & Hcmd2 & _).
  exists (mkTracked c1 (len =? MYSQL_PACKET_LENGTH_MAX)), c2.
  cbn [conn]. split; [exact H1|]. split; [reflexivity|].
  split; [reflexivity|]. split.
  - apply (feed_chunks_whole set_variable (frames stream) [] c1).
    + apply feed_chunks_frames; [exact Hskip|exact Hsizes|exact Hrun].
    + left. cbn. lia.
  - split; [|split; [exact Hc2|exact Hcmd2]].
    rewrite Hs2. change (m_opening_cursor c1) with (negb (flags =? 0)).
    destruct (flags =? 0); reflexivity.
Qed.

(** X26: a COM_STMT_FETCH and its rows.  [track_query] of a
    COM_STMT_FETCH puts the machine straight into [RSET_ROWS]: the
    packets the server sends next are counted as rows, from what
    [Reply::clear] left as the row count, up to the EOF packet, which
    ends the reply ([START] when it announces more results) and sets the
    warning count. *)
Theorem fetch_and_rows (data : list byte) (t : Tracked) (len : Z)
    (rws : list (byte * list byte)) (seq : byte) (warnings status : Z) :
  m_changing_user (conn t) = false -> load_active (conn t) = false ->
  m_large_query t = false -> m_skip_next (conn t) = false ->
  Reuse.MYSQL_GET_PAYLOAD_LEN data = Some len ->
  Reuse.MYSQL_GET_COMMAND data = Some MXS_COM_STMT_FETCH ->
  Forall (fun p => is_row p.2 = true) rws ->
  0 <= warnings < 2 ^ 16 -> 0 <= status < 2 ^ 16 ->
  let stream := rws ++ [(seq, eof_payload warnings status)] in
  Forall (fun p => Z.of_nat (length p.2) < GW_MYSQL_MAX_PACKET_LEN) stream ->
  exists (t1 : Tracked) (c2 : Conn),
    track_query clear data t = Some t1
    /\ reply_state (conn t1) = RSET_ROWS
    /\ process_packets set_variable (concat (frames stream)) (conn t1)
       = Some (c2, concat (frames stream), [])
    /\ reply_state c2
       = (if has_flag status SERVER_MORE_RESULTS_EXIST then START else DONE)
    /\ rows (m_reply c2)
       = rows (clear (m_reply (conn t))) + Z.of_nat (length rws)
    /\ num_warnings (m_reply c2) = warnings
    /\ command (m_reply c2) = MXS_COM_STMT_FETCH.
Proof.
  intros Hcu Hload Hlarge Hskip Hlen Hcmd Hrows Hw Hs stream Hsizes.
  assert (Hq : MXS_COM_STMT_FETCH <> MXS_COM_STMT_EXECUTE) by discriminate.
  pose proof (track_query_new clear data t len MXS_COM_STMT_FETCH
                Hcu Hload Hlarge Hlen Hcmd Hq) as H1.
  set (c1 := tracked_command clear MXS_COM_STMT_FETCH (conn t)) in *.
  destruct (rows_counted set_variable rws c1 eq_refl Hrows)
    as (c2 & Hrun2 & Hr2 & Hs2 & _ & _ & Hsteady).
  destruct Hsteady as (Hc2 & _).
  assert (Hrun : process_each set_variable stream c1
                 = Some (set_num_warnings warnings
                           (set_reply_state
                              (if has_flag status SERVER_MORE_RESULTS_EXIST
                               then START else DONE) c2))).
  { unfold stream. rewrite process_each_app, Hrun2.
    cbn [mbind option_bind process_each snd].
    change (Z.of_nat (length (eof_payload warnings status))) with 5.
    rewrite (process_eof_packet set_variable) by assumption. reflexivity. }
  exists (mkTracked c1 (len =? MYSQL_PACKET_LENGTH_MAX)). eexists.
  cbn [conn]. split; [exact H1|]. split; [reflexivity|]. split.
  - apply (feed_chunks_whole set_variable (frames stream) [] c1).
    + apply feed_chunks_frames; [exact Hskip|exact Hsizes|exact Hrun].
    + left. cbn. lia.
  - cbn. rewrite Hr2, Hc2.
    split; [destruct (has_flag _ _); reflexivity|]. repeat split.
Qed.

End Claims.

Ltac sample_fact :=
  repeat split; try (vm_compute; first [reflexivity | discriminate]).

Ltac sample_list :=
  repeat (apply Forall_cons_2; [sample_fact|]); apply Forall_nil_2.

(** The query of the examples, the server's request for file [f], two
    packets of data, the empty packet and the final OK. *)
Lemma load_data_exchange_witness :
  exists (t1 : @Tracked Log) (c2 : @Conn Log) (t3 t4 : @Tracked Log)
         (c5 : @Conn Log),
    track_query clear0 load_query idle = Some t1
    /\ process_packets log_variable (frame x01 [xfb; x66]) (conn t1)
       = Some (c2, frame x01 [xfb; x66], [])
    /\ load_active c2 = true
    /\ track_all clear0
         [[x03; x00; x00; x02; x61; x62; x63]; [x02; x00; x00; x03; x03; x64]]
         (mkTracked c2 (m_large_query t1)) = Some t3
    /\ conn t3 = c2
    /\ track_query clear0 [x00; x00; x00; x04] t3 = Some t4
    /\ load_active (conn t4) = false
    /\ process_packets log_variable (frame x05 (ok_bytes (mkOk 2 0 2 0 [])))
         (conn t4)
       = Some (c5, frame x05 (ok_bytes (mkOk 2 0 2 0 [])), [])
    /\ reply_state c5 = DONE.
Proof.
  assert (Hchunks : Forall (fun d => carries_data d = true)
            [[x03; x00; x00; x02; x61; x62; x63];
             [x02; x00; x00; x03; x03; x64]]) by sample_list.
  assert (Hwf : ok_wf (mkOk 2 0 2 0 [])) by sample_fact.
  destruct (load_data_exchange log_variable clear0 load_query [x66]
              [x00; x00; x00; x04] x01 x05
              [[x03; x00; x00; x02; x61; x62; x63];
               [x02; x00; x00; x03; x03; x64]]
              (mkOk 2 0 2 0 []) idle 30
              eq_refl eq_refl eq_refl eq_refl eq_refl eq_refl eq_refl
              Hchunks eq_refl Hwf eq_refl eq_refl)
    as (t1 & c2 & t3 & t4 & c5 & H1 & _ & H2 & H3 & _ & H4 & H5 & H6 & H7
        & _ & H8 & H9 & _).
  exists t1, c2, t3, t4, c5. repeat split; assumption.
Defined.

(** A query of 16 MiB - 1 bytes, one packet that continues it and the
    short packet that ends it, the latter two led by the byte of
    COM_QUIT. *)
Lemma continuations_not_tracked_witness :
  track_all clear0
    [[xff; xff; xff; x00; x03; x01]; [xff; xff; xff; x01; x01];
     [x01; x00; x00; x02; x01]] idle
  = Some (mkTracked (tracked_command clear0 MXS_COM_QUERY (conn idle)) false)
  /\ command (m_reply (tracked_command clear0 MXS_COM_QUERY (conn idle)))
     = MXS_COM_QUERY.
Proof.
  assert (Hq : MXS_COM_QUERY <> MXS_COM_STMT_EXECUTE) by discriminate.
  assert (Hmid : Forall (fun d => Reuse.MYSQL_GET_PAYLOAD_LEN d
                                  = Some MYSQL_PACKET_LENGTH_MAX)
                   [[xff; xff; xff; x01; x01]]) by sample_list.
  assert (Hlen : 1 <> MYSQL_PACKET_LENGTH_MAX) by discriminate.
  split; [|reflexivity].
  exact (proj2 (proj2 (continuations_not_tracked clear0 []
                         [xff; xff; xff; x00; x03; x01]
                         [x01; x00; x00; x02; x01]
                         [[xff; xff; xff; x01; x01]] idle MXS_COM_QUERY 1)
                  eq_refl eq_refl eq_refl eq_refl eq_refl Hq Hmid eq_refl
                  Hlen)).
Defined.

(** The COM_STMT_EXECUTE of the examples opens a cursor on a result of
    two columns. *)
Lemma execute_and_cursor_witness :
  let stream :=
    [(x01, [x02]); (x02, [x03; x64; x65; x66]); (x03, [x03; x64; x65; x66]);
     (x04, eof_payload 0 2)] in
  exists (t1 : @Tracked Log) (c2 : @Conn Log),
    track_query clear0 execute_cursor idle = Some t1
    /\ process_packets log_variable (concat (frames stream)) (conn t1)
       = Some (c2, concat (frames stream), [])
    /\ reply_state c2 = DONE.
Proof.
  intros stream.
  assert (Hne : Forall (fun p : byte * list byte => p.2 <> [])
                  [(x02, [x03; x64; x65; x66]); (x03, [x03; x64; x65; x66])])
    by sample_list.
  assert (Heof : (x04, eof_payload 0 2).2 <> []) by discriminate.
  assert (Hsizes : Forall (fun p : byte * list byte =>
                     Z.of_nat (length p.2) < GW_MYSQL_MAX_PACKET_LEN) stream)
    by sample_list.
  assert (Hpos : (0 < length [(x02, [x03; x64; x65; x66]);
                              (x03, [x03; x64; x65; x66])])%nat)
    by (cbn [length]; lia).
  destruct (execute_and_cursor log_variable clear0 execute_cursor idle 10 1
              (x01, [x02]) (x04, eof_payload 0 2)
              [(x02, [x03; x64; x65; x66]); (x03, [x03; x64; x65; x66])]
              [] 2 2 eq_refl eq_refl eq_refl eq_refl eq_refl eq_refl eq_refl
              eq_refl eq_refl eq_refl eq_refl Hpos Hne Heof Hsizes)
    as (t1 & c2 & H1 & _ & _ & H2 & H3 & _).
  exists t1, c2. split; [exact H1|]. split; [exact H2|exact H3].
Defined.

(** The COM_STMT_FETCH of the examples answered by two rows. *)
Lemma fetch_and_rows_witness :
  let stream :=
    [(x01, [x00; x01; x31]); (x02, [x00; x01; x32]); (x03, eof_payload 0 2)] in
  exists (t1 : @Tracked Log) (c2 : @Conn Log),
    track_query clear0 fetch_rows idle = Some t1
    /\ process_packets log_variable (concat (frames stream)) (conn t1)
       = Some (c2, concat (frames stream), [])
    /\ reply_state c2 = DONE
    /\ rows (m_reply c2) = 2.
Proof.
  intros stream.
  assert (Hrows : Forall (fun p : byte * list byte => is_row p.2 = true)
                    [(x01, [x00; x01; x31]); (x02, [x00; x01; x32])])
    by sample_list.
  assert (Hsizes : Forall (fun p : byte * list byte =>
                     Z.of_nat (length p.2) < GW_MYSQL_MAX_PACKET_LEN) stream)
    by sample_list.
  assert (Hw : 0 <= 0 < 2 ^ 16) by lia.
  assert (Hs : 0 <= 2 < 2 ^ 16) by lia.
  destruct (fetch_and_rows log_variable clear0 fetch_rows idle 9
              [(x01, [x00; x01; x31]); (x02, [x00; x01; x32])] x03 0 2
              eq_refl eq_refl eq_refl eq_refl eq_refl eq_refl Hrows Hw Hs
              Hsizes)
    as (t1 & c2 & H1 & _ & H2 & H3 & H4 & _).
  exists t1, c2. split; [exact H1|]. split; [exact H2|].
  split; [exact H3|exact H4].
Defined.

End TrackedReplies.

(** ** The response to the server greeting *)

Module HandshakeResponse.
Import Wire Proto WireFacts Format Auth AuthFacts Connect ReuseSample
  AuthSample ConnectSample.

Lemma db_specified_strlen (mses : MYSQL_session) :
  db_specified mses = (0 <? strlen (db mses))%nat.
Proof.
  unfold db_specified, strlen. destruct (db mses) as [|b d]; [reflexivity|].
  cbn [c_str]. destruct (byte_val b =? 0); reflexivity.
Qed.

Ltac layout_lia :=
  rewrite ?length_app, ?length_replicate, ?length_le_bytes; cbn [length];
  rewrite ?length_app, ?length_replicate, ?length_le_bytes; cbn [length];
  lia.

Ltac layout k :=
  match goal with
  | |- context [memcpy_at ?off ?src (?pre ++ replicate ?n x00)] =>
      rewrite (memcpy_at_cursor_at pre src n k off) by layout_lia;
      cbn [mbind option_bind]
  end.

Ltac layout_any :=
  first [layout 0%nat | layout 1%nat | layout 2%nat | layout 19%nat].

Ltac bits_done :=
  repeat match goal with
         | |- context [Z.testbit ?a ?b] =>
             let t := fresh "t" in set (t := Z.testbit a b); clearbody t
         end;
  cbn;
  repeat match goal with
         | b : bool |- _ => destruct b
         end;
  reflexivity.

Section Claims.
Variable SHA1 : list byte -> list byte.
Hypothesis SHA1_length : forall m, length (SHA1 m) = 20%nat.
Variable GW_MYSQL_CAPABILITIES_CLIENT : Z.

Lemma create_capabilities_bit (client : Client)
    (with_ssl db session_track : bool) (i : Z) :
  0 <= i ->
  Z.testbit
    (create_capabilities GW_MYSQL_CAPABILITIES_CLIENT client with_ssl db
       session_track) i
  = ((Z.testbit (client_capabilities client mod 2 ^ 32) i
      && Z.testbit (GW_MYSQL_CAPABILITIES_CLIENT mod 2 ^ 32) i
      || with_ssl && (i =? 11) || session_track && (i =? 23) || (i =? 16))
     && negb (i =? 3)
     || db && (i =? 3) || (i =? 19)).
Proof.
  intros Hi. unfold create_capabilities.
  unfold GW_MYSQL_CAPABILITIES_SSL, GW_MYSQL_CAPABILITIES_SESSION_TRACK,
    GW_MYSQL_CAPABILITIES_MULTI_STATEMENTS,
    GW_MYSQL_CAPABILITIES_CONNECT_WITH_DB, GW_MYSQL_CAPABILITIES_PLUGIN_AUTH.
  destruct with_ssl, session_track, db;
    repeat (first [ rewrite Z.lor_spec | rewrite Z.land_spec
                  | rewrite Z.lnot_spec by exact Hi
                  | rewrite Z.pow2_bits_eqb by lia ]);
    rewrite ?(Z.eqb_sym _ i); cbn [andb orb negb];
    destruct (i =? 3) eqn:E3, (i =? 11) eqn:E11, (i =? 16) eqn:E16,
      (i =? 19) eqn:E19, (i =? 23) eqn:E23;
    rewrite ?andb_true_r, ?andb_false_r, ?orb_true_r, ?orb_false_r;
    try reflexivity; lia.
Qed.

(** X28: the capabilities MaxScale announces to a server.  In the word
    [create_capabilities] computes, PLUGIN_AUTH and MULTI_STATEMENTS are
    always set; CONNECT_WITH_DB is set exactly when a database is given,
    whatever the client announced; SSL and SESSION_TRACK are set when SSL
    is used and when session tracking is required; and every other bit is
    set exactly when the client announced it and the mask of known
    capabilities has it, so that no bit above the 32nd is ever set. *)
Theorem announced_capabilities (client : Client)
    (with_ssl db session_track : bool) :
  let capabilities :=
    create_capabilities GW_MYSQL_CAPABILITIES_CLIENT client with_ssl db
      session_track in
  Z.testbit capabilities 19 = true
  /\ Z.testbit capabilities 16 = true
  /\ Z.testbit capabilities 3 = db
  /\ (with_ssl = true -> Z.testbit capabilities 11 = true)
  /\ (session_track = true -> Z.testbit capabilities 23 = true)
  /\ (forall i : Z,
        0 <= i -> i <> 3 -> i <> 11 -> i <> 16 -> i <> 19 -> i <> 23 ->
        Z.testbit capabilities i
        = Z.testbit (client_capabilities client) i
          && Z.testbit GW_MYSQL_CAPABILITIES_CLIENT i && (i <? 32))
  /\ 0 <= capabilities < 2 ^ 32.
Proof.
  intros capabilities.
  assert (Hbit := create_capabilities_bit client with_ssl db session_track).
  fold capabilities in Hbit.
  assert (Hmod : forall a i, 0 <= i ->
            Z.testbit (a mod 2 ^ 32) i = Z.testbit a i && (i <? 32)).
  { intros a i Hi. destruct (Z.ltb_spec i 32).
    - rewrite Z.mod_pow2_bits_low by lia. rewrite andb_true_r. reflexivity.
    - rewrite Z.mod_pow2_bits_high by lia. rewrite andb_false_r.
      reflexivity. }
  assert (Hother : forall i : Z,
            0 <= i -> i <> 3 -> i <> 11 -> i <> 16 -> i <> 19 -> i <> 23 ->
            Z.testbit capabilities i
            = Z.testbit (client_capabilities client) i
              && Z.testbit GW_MYSQL_CAPABILITIES_CLIENT i && (i <? 32)).
  { intros i Hi H3 H11 H16 H19 H23. rewrite Hbit by exact Hi.
    rewrite !Hmod by exact Hi.
    rewrite !(proj2 (Z.eqb_neq _ _)) by assumption.
    rewrite ?andb_false_r, ?orb_false_r, ?andb_true_r.
    destruct (Z.testbit (client_capabilities client) i),
      (Z.testbit GW_MYSQL_CAPABILITIES_CLIENT i), (i <? 32); reflexivity. }
  repeat split.
  - rewrite Hbit by lia. bits_done.
  - rewrite Hbit by lia. bits_done.
  - rewrite Hbit by lia. bits_done.
  - intros ->. rewrite Hbit by lia. bits_done.
  - intros ->. rewrite Hbit by lia. bits_done.
  - exact Hother.
  - destruct (Z.neg_nonneg_cases capabilities) as [Hneg|Hpos]; [|exact Hpos].
    exfalso. apply Z.bits_iff_neg_ex in Hneg as (k & Hk).
    specialize (Hk (Z.max (k + 1) 32) ltac:(lia)).
    rewrite Hother in Hk by lia.
    rewrite (proj2 (Z.ltb_ge _ _)) in Hk by lia.
    rewrite andb_false_r in Hk. discriminate.
  - destruct (Z.lt_ge_cases capabilities (2 ^ 32)) as [Hlt|Hge];
      [exact Hlt|].
    exfalso.
    assert (Hpos : 0 < capabilities) by lia.
    pose proof (Z.bit_log2 capabilities Hpos) as Hlog.
    assert (H32 : 32 <= Z.log2 capabilities)
      by (apply Z.log2_le_pow2; lia).
    rewrite Hother in Hlog by lia.
    rewrite (proj2 (Z.ltb_ge _ _)) in Hlog by lia.
    rewrite andb_false_r in Hlog. discriminate.
Qed.

Lemma gw_generate_auth_response_plain (client : Client)
    (server_capabilities : Z) (Sc : list byte)
    (with_ssl ssl_established session_track : bool) :
  length Sc = 20%nat ->
  auth_token_phase2 (session client) = []
  \/ length (auth_token_phase2 (session client)) = 20%nat ->
  negb with_ssl || ssl_established = true ->
  let mses := session client in
  let capabilities :=
    create_capabilities GW_MYSQL_CAPABILITIES_CLIENT client with_ssl
      (db_specified mses) session_track in
  let attrs :=
    if Z.land (Z.land capabilities server_capabilities)
         GW_MYSQL_CAPABILITIES_CONNECT_ATTRS =? 0
    then [] else connect_attrs mses in
  gw_generate_auth_response SHA1 GW_MYSQL_CAPABILITIES_CLIENT client
    server_capabilities Sc with_ssl ssl_established session_track
  = Some (frame (if ssl_established then x02 else x01)
            (handshake_response_payload capabilities
               (extra_capabilities client) (client_charset mses)
               (c_str (user mses))
               (match auth_token_phase2 mses with
                | [] => [x00]
                | token => x14 :: scramble_spec SHA1 Sc token
                end)
               (if db_specified mses then c_str (db mses) ++ [x00] else [])
               DEFAULT_MYSQL_AUTH_PLUGIN attrs)).
Proof.
  intros HS Htok Hplain mses capabilities attrs.
  set (U := c_str (user mses)). set (D := c_str (db mses)).
  set (P := DEFAULT_MYSQL_AUTH_PLUGIN).
  assert (HP : strlen P = length P) by reflexivity.
  unfold gw_generate_auth_response.
  fold mses. fold capabilities. fold U. fold D. fold P.
  rewrite Hplain.
  assert (Hresp : forall pw,
    response_length with_ssl ssl_established (Some (user mses)) pw
      (Some (db mses)) P
    = (32 + length U + 1 + match pw with Some _ => 20 | None => 0 end + 1
       + (if db_specified mses then length D + 1 else 0)
       + length P + 1 + 4)%nat).
  { intros pw. unfold response_length.
    destruct with_ssl, ssl_established; try discriminate Hplain;
      cbn [andb negb]; rewrite HP, db_specified_strlen;
      fold (strlen (user mses)); unfold strlen; fold U; fold D;
      change (Z.to_nat GW_MYSQL_SCRAMBLE_SIZE) with 20%nat;
      destruct pw, (0 <? length D)%nat; lia. }
  rewrite Hresp. clear Hresp.
  fold mses in Htok.
  remember (auth_token_phase2 mses) as T eqn:ET0.
  set (A := connect_attrs mses) in *.
  unfold handshake_response_payload, frame. subst attrs.
  assert (Hhash : forall t T', T = t :: T' -> length T = 20%nat ->
            mxs_mysql_calculate_hash SHA1 Sc (t :: T')
            = Some (scramble_spec SHA1 Sc (t :: T'))).
  { intros t T' E HT. rewrite <- E.
    apply (mxs_mysql_calculate_hash_spec SHA1 SHA1_length); assumption. }
  assert (Hlen : forall t T', T = t :: T' -> length T = 20%nat ->
            length (scramble_spec SHA1 Sc (t :: T')) = 20%nat).
  { intros t T' E HT. rewrite <- E.
    apply (scramble_spec_length SHA1 SHA1_length). exact HT. }
  destruct (Z.land _ _ =? 0) eqn:Hflag; cbn [negb andb];
    destruct (db_specified mses) eqn:Hdb;
    (destruct Htok as [Ht|Ht];
     [rewrite Ht
     |destruct T as [|t T'] eqn:ET; [discriminate Ht|];
      specialize (Hhash t T' eq_refl Ht);
      specialize (Hlen t T' eq_refl Ht)]);
    match goal with
    | |- context [replicate ?n x00] =>
        set (total := n);
        change (replicate total x00) with ([] ++ replicate total x00)
    end;
    unfold load_hashed_password;
    change (Z.to_nat GW_MYSQL_SCRAMBLE_SIZE) with 20%nat;
    repeat (first [ rewrite memcpy_at_optional by layout_lia
                  | layout_any
                  | rewrite Hhash; cbn [mbind option_bind] ]).
  all: repeat match goal with x := _ : nat |- _ => subst x end.
  all: match goal with
    | |- context [replicate (?a - ?b) x00] =>
        first [ replace (a - b)%nat with 1%nat by (rewrite ?Hlen; layout_lia)
              | replace (a - b)%nat with 0%nat by (rewrite ?Hlen; layout_lia) ]
    end.
  all: cbn [replicate app]; rewrite <- ?app_assoc; cbn [app];
    rewrite ?app_nil_r; rewrite <- ?app_assoc; cbn [app];
    f_equal.
  all: f_equal; f_equal;
    repeat (first [ rewrite length_app | rewrite length_le_bytes
                  | rewrite Hlen | progress (cbn [length]) ]);
    lia.
Qed.

(** X27: the packet that answers the server greeting.  For a scramble
    of 20 bytes and a session whose password hash is empty or 20 bytes
    long, [gw_generate_auth_response] without SSL (or once SSL is
    established) builds one packet with sequence number 1 (2 after SSL)
    whose header announces exactly the length of its payload: the
    capabilities of [create_capabilities], the maximum packet size
    16777216, the character set, 19 zero bytes, the extra capabilities,
    the user name, the password field ([0x14] and the hash scrambled with
    the scramble of the greeting, or a single zero byte when there is no
    password), the database when one is given, the plugin name, and the
    connect attributes when both sides support them.  When SSL is used but
    not yet established the packet stops after the extra capabilities,
    followed by as many zero bytes as there are connect attributes to
    send. *)
Theorem handshake_response_layout (client : Client)
    (server_capabilities : Z) (Sc : list byte)
    (with_ssl ssl_established session_track : bool) :
  length Sc = 20%nat ->
  auth_token_phase2 (session client) = []
  \/ length (auth_token_phase2 (session client)) = 20%nat ->
  let mses := session client in
  let capabilities :=
    create_capabilities GW_MYSQL_CAPABILITIES_CLIENT client with_ssl
      (db_specified mses) session_track in
  let attrs :=
    if Z.land (Z.land capabilities server_capabilities)
         GW_MYSQL_CAPABILITIES_CONNECT_ATTRS =? 0
    then [] else connect_attrs mses in
  (negb with_ssl || ssl_established = true ->
   gw_generate_auth_response SHA1 GW_MYSQL_CAPABILITIES_CLIENT client
     server_capabilities Sc with_ssl ssl_established session_track
   = Some (frame (if ssl_established then x02 else x01)
             (handshake_response_payload capabilities
                (extra_capabilities client) (client_charset mses)
                (c_str (user mses))
                (match auth_token_phase2 mses with
                 | [] => [x00]
                 | token => x14 :: scramble_spec SHA1 Sc token
                 end)
                (if db_specified mses then c_str (db mses) ++ [x00] else [])
                DEFAULT_MYSQL_AUTH_PLUGIN attrs)))
  /\ (with_ssl = true -> ssl_established = false ->
      gw_generate_auth_response SHA1 GW_MYSQL_CAPABILITIES_CLIENT client
        server_capabilities Sc with_ssl ssl_established session_track
      = Some (frame x01
                (le_bytes 4 capabilities ++ le_bytes 4 16777216
                   ++ client_charset mses :: replicate 19 x00
                   ++ le_bytes 4 (extra_capabilities client)
                   ++ replicate (length attrs) x00))).
Proof.
  intros HS Htok mses capabilities attrs. split.
  - intros Hplain.
    exact (gw_generate_auth_response_plain client server_capabilities Sc
             with_ssl ssl_established session_track HS Htok Hplain).
  - intros -> ->. unfold gw_generate_auth_response.
    fold mses. fold capabilities. cbn [negb orb andb response_length].
    unfold frame. subst attrs.
    unfold MYSQL_AUTH_PACKET_BASE_SIZE.
    destruct (Z.land _ _ =? 0) eqn:Hflag; cbn [negb];
      match goal with
      | |- context [replicate ?n x00] =>
          change (replicate n x00) with ([] ++ replicate n x00)
      end;
      repeat layout_any.
    all: try match goal with
      | |- context [replicate (?a - ?b) x00] =>
          replace (a - b)%nat with (length (connect_attrs mses))
            by layout_lia
      end.
    all: cbn [replicate app length]; rewrite <- ?app_assoc; cbn [app];
      rewrite ?app_nil_r; rewrite <- ?app_assoc; cbn [app].
    all: f_equal; f_equal; f_equal;
      repeat (first [ rewrite length_app | rewrite length_le_bytes
                    | rewrite length_replicate | progress (cbn [length]) ]);
      lia.
Qed.

End Claims.

(** The sample client with password [secret] answers the greeting of the
    examples; the session without a password asks for SSL first. *)
Lemma handshake_response_layout_witness :
  gw_generate_auth_response SHA1Ref.sha1 mask0 client0 0x81fff7ff scramble0
    false false false
  = Some (frame x01
            (handshake_response_payload 0xaba685 0 x21 [x62; x6f; x62]
               [x14; xb3; x2b; xb3; xa5; x83; xe1; x34; x0c; x0a; x11;
                x08; xd5; x8b; x1b; xe4; x97; x81; xad; x8c; x2f]
               [] DEFAULT_MYSQL_AUTH_PLUGIN []))
  /\ gw_generate_auth_response SHA1Ref.sha1 mask0 client_nopw 0x81fff7ff
       scramble0 true false false
     = Some [x20; x00; x00; x01; x8d; xae; xab; x00; x00; x00; x00; x01; x21;
             x00; x00; x00; x00; x00; x00; x00; x00; x00; x00; x00; x00; x00;
             x00; x00; x00; x00; x00; x00; x04; x00; x00; x00].
Proof.
  assert (H0 : auth_token_phase2 (session client0) = []
               \/ length (auth_token_phase2 (session client0)) = 20%nat)
    by (right; reflexivity).
  assert (H1 : auth_token_phase2 (session client_nopw) = []
               \/ length (auth_token_phase2 (session client_nopw)) = 20%nat)
    by (left; reflexivity).
  split.
  - etransitivity;
      [exact (proj1 (handshake_response_layout SHA1Ref.sha1 sha1_length
                       mask0 client0 0x81fff7ff scramble0 false false false
                       eq_refl H0) eq_refl)|].
    vm_compute. reflexivity.
  - etransitivity;
      [exact (proj2 (handshake_response_layout SHA1Ref.sha1 sha1_length
                       mask0 client_nopw 0x81fff7ff scramble0 true false
                       false eq_refl H1) eq_refl eq_refl)|].
    vm_compute. reflexivity.
Defined.

(** The capabilities announced for the sample client: those it shares
    with the mask, MULTI_STATEMENTS and PLUGIN_AUTH, without
    CONNECT_WITH_DB. *)
Lemma announced_capabilities_witness :
  create_capabilities mask0 client0 false false false = 0xaba685
  /\ Z.testbit (create_capabilities mask0 client0 false false false) 3
     = false
  /\ 0 <= create_capabilities mask0 client0 false false false < 2 ^ 32.
Proof.
  destruct (announced_capabilities mask0 client0 false false false)
    as (_ & _ & H3 & _ & _ & _ & Hrange).
  split; [reflexivity|]. split; [exact H3|exact Hrange].
Defined.

End HandshakeResponse.


(** ** Reading while the connection authenticates *)

Module ConnectingFacts.
Import Wire Proto WireFacts Format Auth AuthFacts Reuse ReuseFacts Connect
  Common Traffic Connecting.

Lemma is_error_response_frame (header payload : list byte) :
  length header = 4%nat ->
  is_error_response (header ++ payload)
  = match payload with
    | cmd :: _ => byte_val cmd =? MYSQL_REPLY_ERR
    | [] => false
    end.
Proof.
  intros Hh. unfold is_error_response.
  change (Z.to_nat MYSQL_HEADER_LEN) with 4%nat.
  rewrite drop_app_length' by (symmetry; exact Hh).
  destruct payload; reflexivity.
Qed.

Lemma set_delayq_same (b : Backend) : set_delayq (dcb_delayq b) b = b.
Proof. destruct b. reflexivity. Qed.

Section Writes.
Variable SHA1 : list byte -> list byte.

(** Before the authentication is complete the buffers written wait in the
    delay queue. *)
Lemma write_all_delays (queues : list GWBUF) : forall b : Backend,
  m_ignore_replies b <= 0 ->
  m_auth_state b = CONNECTED \/ m_auth_state b = RESPONSE_SENT ->
  write_all SHA1 queues b
  = Some (set_delayq (dcb_delayq b ++ map buf_data queues) b).
Proof.
  induction queues as [|q queues IH]; intros b Hi Ha.
  - cbn [write_all map]. rewrite app_nil_r, set_delayq_same. reflexivity.
  - cbn [write_all map].
    assert (Hw : write SHA1 q b = Some (1, delayq_append (buf_data q) b)).
    { unfold write. rewrite (proj2 (Z.ltb_ge _ _) Hi).
      destruct Ha as [-> | ->]; reflexivity. }
    rewrite Hw. cbn [mbind option_bind].
    rewrite IH by assumption. cbn. rewrite <- app_assoc. reflexivity.
Qed.

End Writes.
End ConnectingFacts.

(** ** The connection gets authenticated *)

Module Connections.
Import Wire Proto WireFacts Format Auth AuthFacts Reuse ReuseFacts Connect
  Common Traffic Connecting ConnectingFacts Handshake HandshakeResponse
  ReuseSample AuthSample TrafficSample ConnectSample ConnectingSample.
Ltac fields :=
  cbn [Reuse.m_auth_state Reuse.m_ignore_replies Reuse.m_stored_query
       Reuse.m_scramble Reuse.m_changing_user Reuse.client_changing_user
       Reuse.m_client_data Reuse.dcb_polling Reuse.dcb_write_ok
       Reuse.dcb_writeq Reuse.dcb_delayq Reuse.dcb_hangup
       Reuse.persistent_conns_enabled Reuse.reply_command Reuse.load_active
       Reuse.m_large_query Reuse.server_maintenance
       set_delayq set_writeq set_tracking set_server_maintenance
       backend with_backend set_auth_state do_handle_error handled_errors].

Section Claims.
Variable SHA1 : list byte -> list byte.
Hypothesis SHA1_length : forall m, length (SHA1 m) = 20%nat.
Variable GW_MYSQL_CAPABILITIES_CLIENT : Z.

(** X29: the greeting of the server is answered at once.  In state
    [CONNECTED], without SSL and with a usable session, when the packet
    read is a well-formed greeting of protocol version 10 that declares a
    scramble of more than 8 and at most 20 bytes, [ready_for_reading]
    stores the scramble and the capabilities of the greeting, appends to
    the write queue exactly one packet, the response
    [gw_generate_auth_response] builds from that scramble and those
    capabilities, and moves to [RESPONSE_SENT]; the delay queue is left
    alone and no error is reported.  A greeting of another protocol
    version is refused: the state becomes [FAIL], nothing is written and
    one error is handed upstream. *)
Theorem greeting_answered (env : Env) (header : list byte)
    (g : ServerGreeting) (c : Connection) :
  m_auth_state (backend c) = CONNECTED ->
  session_usable env = true -> ssl_context env = false ->
  ssl_state env <> ESTABLISHED ->
  dcb_write_ok (backend c) = true ->
  length header = 4%nat -> greeting_wf g ->
  let mses := m_client_data (backend c) in
  auth_token_phase2 mses = [] \/ length (auth_token_phase2 mses) = 20%nat ->
  let input := Packets [header ++ greeting_bytes g] in
  (byte_val (sg_protocol g) = GW_MYSQL_PROTOCOL_VERSION ->
   8 < declared_scramble_len g <= 20 ->
   let n2 := Z.to_nat (declared_scramble_len g - 8) in
   exists (packet : list byte) (c' : Connection),
     ready_for_reading SHA1 GW_MYSQL_CAPABILITIES_CLIENT env input c
     = Some c'
     /\ m_auth_state (backend c') = RESPONSE_SENT
     /\ Reuse.m_scramble (backend c')
        = sg_scramble_1 g ++ take n2 (sg_rest g) ++ replicate (12 - n2) x00
     /\ server_capabilities c'
        = le_value (sg_capabilities_lo g ++ sg_capabilities_hi g)
     /\ gw_generate_auth_response SHA1 GW_MYSQL_CAPABILITIES_CLIENT
          (mkClient mses (client_capabilities c) (extra_capabilities c))
          (server_capabilities c') (Reuse.m_scramble (backend c'))
          false false (session_track env)
        = Some packet
     /\ dcb_writeq (backend c') = dcb_writeq (backend c) ++ [packet]
     /\ dcb_delayq (backend c') = dcb_delayq (backend c)
     /\ handled_errors c' = handled_errors c)
  /\ (byte_val (sg_protocol g) <> GW_MYSQL_PROTOCOL_VERSION ->
      byte_val (sg_protocol g) <> MYSQL_REPLY_ERR ->
      exists c' : Connection,
        ready_for_reading SHA1 GW_MYSQL_CAPABILITIES_CLIENT env input c
        = Some c'
        /\ m_auth_state (backend c') = FAIL
        /\ dcb_writeq (backend c') = dcb_writeq (backend c)
        /\ handled_errors c' = S (handled_errors c)).
Proof.
  intros Ha Hsess Hssl Hest Hw Hh Hwf mses Htok input.
  pose proof (gw_decode_greeting g
                (mkGreeting (m_thread_id c) (server_capabilities c)
                   (Reuse.m_scramble (backend c))) Hwf) as Hdec.
  assert (Herr : forall cmd, byte_val (sg_protocol g) = cmd ->
            is_error_response (header ++ greeting_bytes g)
            = (cmd =? MYSQL_REPLY_ERR)).
  { intros cmd <-. rewrite is_error_response_frame by exact Hh.
    reflexivity. }
  assert (Hptr : ptr_add 4 (header ++ greeting_bytes g)
                 = Some (greeting_bytes g))
    by (apply ptr_add_app; exact Hh).
  destruct Hwf as (_ & _ & Hs1 & Hlo & _ & Hhi & _ & Hrest).
  split.
  - intros Hp HL n2.
    rewrite Hp, Z.eqb_refl in Hdec. cbn [negb] in Hdec. cbv zeta in Hdec.
    rewrite (proj2 (Z.ltb_ge _ _)) in Hdec by lia.
    rewrite (proj2 (Z.ltb_ge _ _)) in Hdec by lia. cbn [orb] in Hdec.
    fold n2 in Hdec.
    set (S := sg_scramble_1 g ++ take n2 (sg_rest g)
              ++ replicate (12 - n2) x00) in *.
    assert (HS : length S = 20%nat).
    { unfold S. rewrite !length_app, length_take, length_replicate, Hs1.
      unfold GW_MYSQL_SCRAMBLE_SIZE, GW_SCRAMBLE_LENGTH_323 in Hrest.
      fold n2. lia. }
    set (caps := Z.lor (le_value (sg_capabilities_lo g))
                   (le_value (sg_capabilities_hi g) ≪ 16) mod 2 ^ 32) in *.
    assert (Hcaps : caps = le_value (sg_capabilities_lo g
                                     ++ sg_capabilities_hi g)).
    { unfold caps. rewrite le_value_app, Hlo.
      pose proof (le_value_range (sg_capabilities_lo g)) as Rlo.
      pose proof (le_value_range (sg_capabilities_hi g)) as Rhi.
      rewrite Hlo in Rlo. rewrite Hhi in Rhi.
      change (256 ^ Z.of_nat 2) with (2 ^ 16) in *.
      rewrite lor_shiftl_add by lia.
      rewrite Z.mod_small by lia. lia. }
    pose proof (gw_generate_auth_response_plain SHA1 SHA1_length
                  GW_MYSQL_CAPABILITIES_CLIENT
                  (mkClient mses (client_capabilities c)
                     (extra_capabilities c))
                  caps S false false (session_track env) HS Htok eq_refl)
      as Hgen.
    cbv zeta in Hgen.
    eexists. eexists. split.
    + unfold ready_for_reading, input.
      rewrite bool_decide_eq_false_2 by (rewrite Ha; discriminate).
      cbn [concat]. rewrite app_nil_r.
      rewrite (Herr GW_MYSQL_PROTOCOL_VERSION Hp).
      change (GW_MYSQL_PROTOCOL_VERSION =? MYSQL_REPLY_ERR) with false.
      cbv iota. cbn [mbind option_bind]. rewrite Ha.
      unfold gw_read_backend_handshake. rewrite Hptr.
      cbn [mbind option_bind]. rewrite Hdec. cbn [mbind option_bind].
      change (0 <=? 0) with true. cbv iota.
      unfold gw_send_backend_auth. rewrite Hsess, Hssl.
      cbn [negb orb andb backend client_capabilities extra_capabilities
           server_capabilities m_client_data set_scramble Reuse.m_scramble
           Auth.m_scramble Auth.server_capabilities Auth.m_thread_id].
      rewrite (bool_decide_eq_false_2 _ Hest).
      fold mses. rewrite Hgen. cbn [mbind option_bind].
      unfold writeq_append. cbn [dcb_write_ok set_scramble]. rewrite Hw.
      cbn [andb]. reflexivity.
    + cbn. fold mses. rewrite Hgen. repeat split. exact Hcaps.
  - intros Hp Hne.
    rewrite (proj2 (Z.eqb_neq _ _) Hp) in Hdec. cbn [negb] in Hdec.
    eexists. split.
    + unfold ready_for_reading, input.
      rewrite bool_decide_eq_false_2 by (rewrite Ha; discriminate).
      cbn [concat]. rewrite app_nil_r.
      rewrite (Herr _ eq_refl), (proj2 (Z.eqb_neq _ _) Hne).
      cbv iota. cbn [mbind option_bind]. rewrite Ha.
      unfold gw_read_backend_handshake. rewrite Hptr.
      cbn [mbind option_bind]. rewrite Hdec. cbn [mbind option_bind].
      change (0 <=? -1) with false. cbv iota. reflexivity.
    + cbn. repeat split.
Qed.

(** X30: what was written during the authentication goes out when it
    succeeds.  From state [RESPONSE_SENT] with an empty delay queue, the
    buffers written meanwhile wait in the delay queue and nothing reaches
    the server.  When the reply of the server is then accepted by the
    authenticator, [ready_for_reading] moves to [COMPLETE], empties the
    delay queue and appends its content to the write queue as one buffer,
    in the order written, after what the authenticator wrote; the command
    tracked is that of the first delayed packet.  When the reply is an ERR
    packet instead, the state becomes [FAIL], one error is handed
    upstream, nothing is written, the delayed buffers stay in the delay
    queue, and the server is put into maintenance exactly when the error
    is 1129 (unless it was already). *)
Theorem authentication_outcome (env : Env) (packets : list (list byte))
    (queues : list GWBUF) (c : Connection) (cmd len : Z) :
  m_auth_state (backend c) = RESPONSE_SENT ->
  m_ignore_replies (backend c) <= 0 ->
  dcb_delayq (backend c) = [] ->
  let delayed := concat (map buf_data queues) in
  let readbuf := concat packets in
  exists b1 : Backend,
    write_all SHA1 queues (backend c) = Some b1
    /\ dcb_writeq b1 = dcb_writeq (backend c)
    /\ (is_error_response readbuf = false ->
        extract env readbuf = true -> authenticate env = SUCCESS ->
        queues <> [] -> delayq_ignorable env = false ->
        m_changing_user (backend c) = false ->
        load_active (backend c) = false ->
        m_large_query (backend c) = false ->
        dcb_write_ok (backend c) = true ->
        MYSQL_GET_COMMAND delayed = Some cmd ->
        MYSQL_GET_PAYLOAD_LEN delayed = Some len ->
        cmd <> MXS_COM_CHANGE_USER ->
        cmd <> MXS_COM_QUIT \/ persistent_conns_enabled (backend c) = false ->
        exists c' : Connection,
          ready_for_reading SHA1 GW_MYSQL_CAPABILITIES_CLIENT env
            (Packets packets) (with_backend b1 c) = Some c'
          /\ m_auth_state (backend c') = COMPLETE
          /\ dcb_writeq (backend c')
             = dcb_writeq (backend c) ++ authenticate_writes env ++ [delayed]
          /\ dcb_delayq (backend c') = []
          /\ reply_command (backend c') = cmd
          /\ handled_errors c' = handled_errors c)
    /\ (is_error_response readbuf = true -> (7 <= length readbuf)%nat ->
        exists c' : Connection,
          ready_for_reading SHA1 GW_MYSQL_CAPABILITIES_CLIENT env
            (Packets packets) (with_backend b1 c) = Some c'
          /\ m_auth_state (backend c') = FAIL
          /\ dcb_writeq (backend c') = dcb_writeq (backend c)
          /\ dcb_delayq (backend c') = map buf_data queues
          /\ server_maintenance (backend c')
             = server_maintenance (backend c)
               || (le_value (take 2 (drop 5 readbuf)) =? ER_HOST_IS_BLOCKED)
          /\ handled_errors c' = S (handled_errors c)).
Proof.
  intros Ha Hi Hd delayed readbuf.
  pose proof (write_all_delays SHA1 queues (backend c) Hi (or_intror Ha))
    as Hall.
  rewrite Hd in Hall. cbn [app] in Hall.
  eexists. split; [exact Hall|]. split; [reflexivity|]. split.
  - intros Herr Hext Hauth Hne Hig Hcu Hload Hlarge Hw Hcmd Hlen Hnc Hq.
    subst delayed.
    unfold ready_for_reading.
    rewrite bool_decide_eq_false_2 by (fields; rewrite Ha; discriminate).
    fold readbuf. rewrite Herr. cbn [mbind option_bind].
    cbn [backend with_backend m_auth_state set_delayq]. rewrite Ha.
    unfold handle_server_response. rewrite Hext, Hauth.
    cbn [mbind option_bind backend with_backend set_auth_state m_auth_state
         set_writeq set_delayq].
    unfold delayq_release.
    cbn [dcb_delayq set_delayq set_writeq backend with_backend].
    destruct (map buf_data queues) as [|d ds] eqn:Hmap.
    { destruct queues; [congruence|discriminate Hmap]. }
    rewrite <- Hmap in Hcmd, Hlen |- *.
    unfold prepare_for_write. cbn [buf_ignorable buf_data]. rewrite Hig.
    cbn [negb]. unfold track_query. fields. rewrite Hcu, Hlen.
    cbn [mbind option_bind]. fields. rewrite Hload, Hlarge. cbn [negb].
    rewrite Hcmd. cbn [mbind option_bind].
    unfold backend_write_delayqueue, MYSQL_IS_CHANGE_USER. rewrite Hcmd.
    cbn [mbind option_bind]. rewrite (proj2 (Z.eqb_neq _ _) Hnc).
    cbn [mbind option_bind]. unfold MYSQL_IS_COM_QUIT. rewrite Hcmd, Hlen.
    cbn [mbind option_bind]. fields.
    assert (Hp : forall q : bool, (cmd =? MXS_COM_QUIT) = true ->
              q && persistent_conns_enabled (backend c) = false).
    { intros q E. destruct Hq as [Hq|Hq].
      - apply Z.eqb_eq in E. contradiction.
      - rewrite Hq. apply andb_false_r. }
    destruct (cmd =? MXS_COM_QUIT) eqn:E; cbn [mbind option_bind];
      [rewrite Hp by reflexivity|cbn [andb]];
      unfold writeq_append; fields; rewrite Hw; cbn [mbind option_bind];
      change (1 =? 0) with false; cbv iota;
      (eexists; split; [reflexivity|]); fields;
      rewrite <- app_assoc; repeat split.
  - intros Herr Hlen.
    assert (Hcmd : MYSQL_GET_COMMAND readbuf = Some MYSQL_REPLY_ERR).
    { unfold is_error_response in Herr. unfold MYSQL_GET_COMMAND, byte_at.
      change (Z.to_nat MYSQL_HEADER_LEN) with 4%nat in Herr.
      destruct (drop 4 readbuf) as [|b r]; [discriminate Herr|].
      cbn [take] in Herr. apply Z.eqb_eq in Herr. cbn [deref].
      rewrite Herr. reflexivity. }
    assert (Hcode : gw_mysql_get_byte2 (drop 5 readbuf)
                    = Some (le_value (take 2 (drop 5 readbuf)))).
    { unfold gw_mysql_get_byte2, read_bytes.
      rewrite bool_decide_eq_true_2 by (rewrite length_drop; lia).
      reflexivity. }
    unfold ready_for_reading.
    rewrite bool_decide_eq_false_2 by (fields; rewrite Ha; discriminate).
    fold readbuf. rewrite Herr.
    unfold handle_error_response. rewrite Hcmd. cbn [mbind option_bind].
    rewrite Z.eqb_refl, Hcode. cbn [mbind option_bind]. fields.
    destruct (le_value (take 2 (drop 5 readbuf)) =? ER_HOST_IS_BLOCKED);
      fields; cbn [mbind option_bind]; fields;
      (eexists; split; [reflexivity|]); fields;
      rewrite ?orb_true_r, ?orb_false_r; repeat split.
Qed.

End Claims.

(** The sample connection answers the greeting of the examples. *)
Lemma greeting_answered_witness :
  exists (packet : list byte) (c' : Connection),
    ready_for_reading SHA1Ref.sha1 mask0 env0 (Packets [greeting_packet])
      opened = Some c'
    /\ m_auth_state (backend c') = RESPONSE_SENT
    /\ Reuse.m_scramble (backend c') = scramble0
    /\ dcb_writeq (backend c') = [packet]
    /\ take 5 packet = [x4f; x00; x00; x01; x85].
Proof.
  assert (Hwf : greeting_wf greeting21)
    by (apply greeting_wf_sample; vm_compute; solve [reflexivity | lia]).
  assert (Hest : ssl_state env0 <> ESTABLISHED) by discriminate.
  assert (Htok : auth_token_phase2 (m_client_data (backend opened)) = []
                 \/ length (auth_token_phase2
                              (m_client_data (backend opened))) = 20%nat)
    by (right; reflexivity).
  assert (HL : 8 < declared_scramble_len greeting21 <= 20)
    by (vm_compute; split; [reflexivity | discriminate]).
  destruct (proj1 (greeting_answered SHA1Ref.sha1 sha1_length mask0 env0
                     [x4a; x00; x00; x00] greeting21 opened
                     eq_refl eq_refl eq_refl Hest eq_refl eq_refl Hwf Htok)
              eq_refl HL)
    as (packet & c' & Hrun & Hs & Hsc & Hc & Hgen & Hw & _).
  exists packet, c'. split; [exact Hrun|]. split; [exact Hs|].
  split; [exact Hsc|]. split; [exact Hw|].
  rewrite Hsc, Hc in Hgen. vm_compute in Hgen.
  injection Hgen as <-. reflexivity.
Defined.

(** Two queries written while the sample connection authenticates are
    sent as one buffer once the server has answered with an OK packet. *)
Lemma authentication_outcome_witness :
  exists (b1 : Backend) (c' : Connection),
    write_all SHA1Ref.sha1 [query0; query1] connecting = Some b1
    /\ dcb_writeq b1 = []
    /\ ready_for_reading SHA1Ref.sha1 mask0 env0 (Packets [ok_reply0])
         (with_backend b1 answered) = Some c'
    /\ m_auth_state (backend c') = COMPLETE
    /\ dcb_writeq (backend c') = [buf_data query0 ++ buf_data query1]
    /\ dcb_delayq (backend c') = [].
Proof.
  destruct (authentication_outcome SHA1Ref.sha1 mask0 env0 [ok_reply0]
              [query0; query1] answered 3 9 eq_refl)
    as (b1 & Hall & Hq1 & Hok & _); [cbn; lia|reflexivity|].
  assert (Hne : [query0; query1] <> []) by discriminate.
  assert (Hnc : 3 <> MXS_COM_CHANGE_USER) by discriminate.
  assert (Hnq : 3 <> MXS_COM_QUIT
                \/ persistent_conns_enabled (backend answered) = false)
    by (left; discriminate).
  destruct (Hok eq_refl eq_refl eq_refl Hne eq_refl eq_refl eq_refl eq_refl
              eq_refl eq_refl eq_refl Hnc Hnq)
    as (c' & Hrun & Hs & Hw & Hd & _).
  exists b1, c'. split; [exact Hall|]. split; [exact Hq1|].
  split; [exact Hrun|]. split; [exact Hs|]. split; [|exact Hd].
  rewrite Hw. reflexivity.
Defined.

End Connections.
